(** * World Sea water park: a discrete-event simulation, embedded in Rocq

    The Python sources ([Queue.py], [facilities.py], [entities.py],
    [Event.py], [Simulation.py], [sampling_algorithms.py]) are translated
    function by function.  Conventions of the embedding:

    - a [datetime] is an integer number of microseconds (the resolution of
      Python's [datetime]); [hour], [minute], [second] read the time of day;
    - Python floats that only go through [+], [-], [*], [/] and comparisons
      are exact rationals kept in lowest terms ([Q] with [Qred]): the
      rounding of a float operation is not modelled, so that a statement
      about such a value is made where rounding cannot change it (an order,
      a bound that includes its end, a count), and a test that falls on the
      very boundary of a float comparison is kept out by a hypothesis;
    - an exception ([ValueError] of [math.log] and [math.sqrt]) is a result
      of the function that raises it; nothing catches it, and the callers
      are modelled for the runs in which it is not raised;
    - an object is split in two: the attributes assigned once in [__init__]
      travel with the reference (record [Visitor]); the attributes that the
      handlers write later live in a store indexed by the object identity;
    - [==] and [in] on visitors are object identity, i.e. equality of [vid]. *)

From Stdlib Require Import ZArith QArith Qreduction Qround Reals Lia Lra Bool List.
From Stdlib Require Lqa.
From stdpp Require Import base option list strings gmap.

Open Scope Z_scope.

(** ** Time *)

Definition datetime := Z.

Definition usec_per_second : Z := 1000000.
Definition usec_per_minute : Z := 60 * usec_per_second.
Definition usec_per_hour : Z := 60 * usec_per_minute.
Definition usec_per_day : Z := 24 * usec_per_hour.

Definition time_of_day (t : datetime) : Z := t mod usec_per_day.
Definition hour (t : datetime) : Z := time_of_day t / usec_per_hour.
Definition minute (t : datetime) : Z := (time_of_day t mod usec_per_hour) / usec_per_minute.
Definition second (t : datetime) : Z := (time_of_day t mod usec_per_minute) / usec_per_second.

(** [datetime(day, h, m, s)] counted from the epoch of the model. *)
Definition mk_datetime (day h m s : Z) : datetime :=
  day * usec_per_day + h * usec_per_hour + m * usec_per_minute + s * usec_per_second.

(** [dt.replace(hour=h, minute=m, second=0, microsecond=0)] *)
Definition replace_hm (t : datetime) (h m : Z) : datetime :=
  (t / usec_per_day) * usec_per_day + h * usec_per_hour + m * usec_per_minute.

(** [dt.replace(hour=h, minute=m, second=0)]: the microseconds are kept. *)
Definition replace_hms (t : datetime) (h m : Z) : datetime :=
  replace_hm t h m + t mod usec_per_second.

(** ** Floats as rationals in lowest terms *)

Definition fadd (a b : Q) : Q := Qred (a + b).
Definition fsub (a b : Q) : Q := Qred (a - b).
Definition fmul (a b : Q) : Q := Qred (a * b).
Definition fdiv (a b : Q) : Q := Qred (a / b).
Definition fmax (a b : Q) : Q := if Qle_bool a b then b else a.
Definition of_int (z : Z) : Q := inject_Z z.

Definition Qlt_bool (a b : Q) : bool := negb (Qle_bool b a).

(** [(a - b).total_seconds() / 60] and [... / 3600] *)
Definition minutes_between (a b : datetime) : Q := fdiv (of_int (a - b)) (of_int usec_per_minute).
Definition hours_between (a b : datetime) : Q := fdiv (of_int (a - b)) (of_int usec_per_hour).

(** [timedelta(minutes=d)]: rounded to the nearest microsecond, a tie to the
    even one. *)
Definition timedelta_minutes (d : Q) : Z :=
  let x := (d * of_int usec_per_minute)%Q in
  let below := Qfloor x in
  match (x - of_int below ?= 1 # 2)%Q with
  | Lt => below
  | Gt => below + 1
  | Eq => if Z.even below then below else below + 1
  end.

Definition fsum (l : list Q) : Q := fold_left fadd l 0%Q.

(** [np.mean] *)
Definition mean (l : list Q) : Q := fdiv (fsum l) (of_int (Z.of_nat (length l))).

(** ** Visitors ([entities.py]) *)

Inductive VisitorKind := Family | SubGroup | TeenGroup | SingleVisitor.

(** The attributes fixed by the constructors. *)
#[warnings="-register-all"]
Inductive Visitor := mkVisitor {
  vid : positive;
  kind : VisitorKind;
  arrival_time : datetime;
  group_size : nat;
  num_kids : nat;
  kids_ages : list Q;
  min_age : Q;
  departure_time : Q;
  parent_family : option Visitor }.

(** [v == w] on objects without [__eq__] *)
Definition same (v w : Visitor) : bool := Pos.eqb (vid v) (vid w).

Definition is_in (v : Visitor) (l : list Visitor) : bool := existsb (same v) l.

(** [list.remove(v)]: drops the first occurrence. *)
Fixpoint list_remove (v : Visitor) (l : list Visitor) : list Visitor :=
  match l with
  | [] => []
  | w :: l' => if same w v then l' else w :: list_remove v l'
  end.

(** ** [Queue.py]: class [QueueServer] *)

Record QueueServer := mkQueueServer {
  server_queue : list (Visitor * datetime);
  active_hours : Q;
  waiting_times : list Q;
  total_queue_length_time : Q;
  queue_lengths : list Z;
  queue_change_times : list datetime;
  daily_avg_queue_lengths : list Q;
  daily_avg_waiting_times : list Q }.

Module QueueServer.

Definition __init__ : QueueServer :=
  {| server_queue := []; active_hours := 10;
     waiting_times := []; total_queue_length_time := 0;
     queue_lengths := [0]; queue_change_times := [];
     daily_avg_queue_lengths := []; daily_avg_waiting_times := [] |}.

Definition size (q : QueueServer) : Z := Z.of_nat (length (server_queue q)).

(** [__bool__] *)
Definition nonempty (q : QueueServer) : bool := 0 <? size q.

(** [__iter__], [list(queue)] *)
Definition visitors (q : QueueServer) : list Visitor := map fst (server_queue q).

(** [queue[0]] *)
Definition head (q : QueueServer) : option Visitor := List.hd_error (visitors q).

Definition set_server_queue (l : list (Visitor * datetime)) (q : QueueServer) : QueueServer :=
  {| server_queue := l; active_hours := active_hours q;
     waiting_times := waiting_times q;
     total_queue_length_time := total_queue_length_time q;
     queue_lengths := queue_lengths q;
     queue_change_times := queue_change_times q;
     daily_avg_queue_lengths := daily_avg_queue_lengths q;
     daily_avg_waiting_times := daily_avg_waiting_times q |}.

Definition record_queue_length (current_time : datetime) (q : QueueServer) : QueueServer :=
  let total :=
    match last (queue_lengths q), last (queue_change_times q) with
    | Some len, Some last_time =>
        let duration_hours := hours_between current_time last_time in
        fadd (total_queue_length_time q) (fmul (of_int len) duration_hours)
    | _, _ => total_queue_length_time q
    end in
  {| server_queue := server_queue q; active_hours := active_hours q;
     waiting_times := waiting_times q;
     total_queue_length_time := total;
     queue_lengths := queue_lengths q ++ [size q];
     queue_change_times := queue_change_times q ++ [current_time];
     daily_avg_queue_lengths := daily_avg_queue_lengths q;
     daily_avg_waiting_times := daily_avg_waiting_times q |}.

Definition add (visitor : Visitor) (arrival : datetime) (q : QueueServer) : QueueServer :=
  record_queue_length arrival
    (set_server_queue (server_queue q ++ [(visitor, arrival)]) q).

(** [list.insert(index, x)]: past the end it appends. *)
Definition list_insert {A} (index : nat) (x : A) (l : list A) : list A :=
  take index l ++ x :: drop index l.

(** Every caller passes a datetime, so the test [time is not None]
    succeeds and the queue length is recorded at [time]. *)
Definition insert (index : nat) (visitor : Visitor) (time : datetime)
    (q : QueueServer) : QueueServer :=
  record_queue_length time
    (set_server_queue (list_insert index (visitor, time) (server_queue q)) q).

Fixpoint remove_first (visitor : Visitor) (l : list (Visitor * datetime))
    : list (Visitor * datetime) :=
  match l with
  | [] => []
  | (v, t) :: l' => if same v visitor then l' else (v, t) :: remove_first visitor l'
  end.

Definition remove (visitor : Visitor) (current_time : datetime) (q : QueueServer) : QueueServer :=
  let q1 := record_queue_length current_time q in
  set_server_queue (remove_first visitor (server_queue q1)) q1.

Definition add_waiting_time (w : Q) (q : QueueServer) : QueueServer :=
  {| server_queue := server_queue q; active_hours := active_hours q;
     waiting_times := waiting_times q ++ [w];
     total_queue_length_time := total_queue_length_time q;
     queue_lengths := queue_lengths q;
     queue_change_times := queue_change_times q;
     daily_avg_queue_lengths := daily_avg_queue_lengths q;
     daily_avg_waiting_times := daily_avg_waiting_times q |}.

(** Returns the entry taken from the front, if any, and the queue left. *)
Definition pop (removing_time : option datetime) (q : QueueServer)
    : option (Visitor * datetime) * QueueServer :=
  match server_queue q with
  | extracted :: rest =>
      let q1 := set_server_queue rest q in
      let q2 :=
        match removing_time with
        | Some now =>
            let q' := record_queue_length now q1 in
            let wait_duration := minutes_between now (snd extracted) in
            add_waiting_time wait_duration q'
        | None => q1
        end in
      (Some extracted, q2)
  | [] => (None, q)
  end.

(** [set_active_hours("HH:MM", "HH:MM")], the strings already parsed. *)
Definition set_active_hours (opening closing : Z * Z) (q : QueueServer) : QueueServer :=
  let tdelta := mk_datetime 0 (fst closing) (snd closing) 0
                - mk_datetime 0 (fst opening) (snd opening) 0 in
  {| server_queue := server_queue q;
     active_hours := fdiv (of_int tdelta) (of_int usec_per_hour);
     waiting_times := waiting_times q;
     total_queue_length_time := total_queue_length_time q;
     queue_lengths := queue_lengths q;
     queue_change_times := queue_change_times q;
     daily_avg_queue_lengths := daily_avg_queue_lengths q;
     daily_avg_waiting_times := daily_avg_waiting_times q |}.

Definition calc_daily_statistics (q : QueueServer) : QueueServer :=
  let daily_avg_length :=
    if Qlt_bool 0 (active_hours q)
    then fdiv (total_queue_length_time q) (active_hours q) else 0%Q in
  let daily_avg_wait :=
    match waiting_times q with
    | [] => 0%Q
    | _ => mean (waiting_times q)
    end in
  {| server_queue := server_queue q; active_hours := active_hours q;
     waiting_times := [];
     total_queue_length_time := 0;
     queue_lengths := [0];
     queue_change_times := [];
     daily_avg_queue_lengths := daily_avg_queue_lengths q ++ [daily_avg_length];
     daily_avg_waiting_times := daily_avg_waiting_times q ++ [daily_avg_wait] |}.

End QueueServer.

(** ** The mutable part of a visitor object, kept in a store *)

Inductive FacilityClass :=
  | Pipes_River | Single_Slide | Big_Pipes_Slide | Small_Pipes_Slide
  | Waves_Pool | Kids_Pool | Snorkel_Tour.

Definition FacilityClass_eqb (a b : FacilityClass) : bool :=
  match a, b with
  | Pipes_River, Pipes_River | Single_Slide, Single_Slide
  | Big_Pipes_Slide, Big_Pipes_Slide | Small_Pipes_Slide, Small_Pipes_Slide
  | Waves_Pool, Waves_Pool | Kids_Pool, Kids_Pool | Snorkel_Tour, Snorkel_Tour => true
  | _, _ => false
  end.

Record VState := mkVState {
  rating : Q;
  has_express_pass : bool;
  time_entered_queue : option datetime;
  visited_facilities : list FacilityClass;
  is_shared_tube : bool;
  tube_partner : option Visitor;
  is_split : bool;
  subgroups : list Visitor;
  active_subgroups_count : Z;
  abandoned_facilities : list FacilityClass;
  abandon_count : Z }.

(** What [Visitor.__init__] and the subclasses' [__init__] assign before
    any sampling: rating 10, no express pass, one active subgroup. *)
Definition VState_init : VState :=
  {| rating := 10; has_express_pass := false; time_entered_queue := None;
     visited_facilities := []; is_shared_tube := false; tube_partner := None;
     is_split := false; subgroups := []; active_subgroups_count := 1;
     abandoned_facilities := []; abandon_count := 0 |}.

Abbreviation Store := (gmap positive VState).

Definition get (σ : Store) (v : Visitor) : VState := default VState_init (σ !! vid v).

Definition upd (v : Visitor) (f : VState → VState) (σ : Store) : Store :=
  <[vid v := f (get σ v)]> σ.

Definition set_rating (r : Q) (s : VState) : VState :=
  {| rating := r; has_express_pass := has_express_pass s;
     time_entered_queue := time_entered_queue s;
     visited_facilities := visited_facilities s;
     is_shared_tube := is_shared_tube s; tube_partner := tube_partner s;
     is_split := is_split s; subgroups := subgroups s;
     active_subgroups_count := active_subgroups_count s;
     abandoned_facilities := abandoned_facilities s; abandon_count := abandon_count s |}.

Definition set_has_express_pass (b : bool) (s : VState) : VState :=
  {| rating := rating s; has_express_pass := b;
     time_entered_queue := time_entered_queue s;
     visited_facilities := visited_facilities s;
     is_shared_tube := is_shared_tube s; tube_partner := tube_partner s;
     is_split := is_split s; subgroups := subgroups s;
     active_subgroups_count := active_subgroups_count s;
     abandoned_facilities := abandoned_facilities s; abandon_count := abandon_count s |}.

Definition set_time_entered_queue (t : option datetime) (s : VState) : VState :=
  {| rating := rating s; has_express_pass := has_express_pass s;
     time_entered_queue := t;
     visited_facilities := visited_facilities s;
     is_shared_tube := is_shared_tube s; tube_partner := tube_partner s;
     is_split := is_split s; subgroups := subgroups s;
     active_subgroups_count := active_subgroups_count s;
     abandoned_facilities := abandoned_facilities s; abandon_count := abandon_count s |}.

Definition set_visited_facilities (l : list FacilityClass) (s : VState) : VState :=
  {| rating := rating s; has_express_pass := has_express_pass s;
     time_entered_queue := time_entered_queue s;
     visited_facilities := l;
     is_shared_tube := is_shared_tube s; tube_partner := tube_partner s;
     is_split := is_split s; subgroups := subgroups s;
     active_subgroups_count := active_subgroups_count s;
     abandoned_facilities := abandoned_facilities s; abandon_count := abandon_count s |}.

Definition set_tube_partner (p : Visitor) (s : VState) : VState :=
  {| rating := rating s; has_express_pass := has_express_pass s;
     time_entered_queue := time_entered_queue s;
     visited_facilities := visited_facilities s;
     is_shared_tube := true; tube_partner := Some p;
     is_split := is_split s; subgroups := subgroups s;
     active_subgroups_count := active_subgroups_count s;
     abandoned_facilities := abandoned_facilities s; abandon_count := abandon_count s |}.

Definition set_split (b : bool) (subs : list Visitor) (n : Z) (s : VState) : VState :=
  {| rating := rating s; has_express_pass := has_express_pass s;
     time_entered_queue := time_entered_queue s;
     visited_facilities := visited_facilities s;
     is_shared_tube := is_shared_tube s; tube_partner := tube_partner s;
     is_split := b; subgroups := subs;
     active_subgroups_count := n;
     abandoned_facilities := abandoned_facilities s; abandon_count := abandon_count s |}.

Definition set_active_subgroups_count (n : Z) (s : VState) : VState :=
  set_split (is_split s) (subgroups s) n s.

Definition set_abandoned (l : list FacilityClass) (n : Z) (s : VState) : VState :=
  {| rating := rating s; has_express_pass := has_express_pass s;
     time_entered_queue := time_entered_queue s;
     visited_facilities := visited_facilities s;
     is_shared_tube := is_shared_tube s; tube_partner := tube_partner s;
     is_split := is_split s; subgroups := subgroups s;
     active_subgroups_count := active_subgroups_count s;
     abandoned_facilities := l; abandon_count := n |}.

(** [sum(v.group_size for v in l)] *)
Definition headcount (l : list Visitor) : nat := sum_list_with group_size l.

(** ** [facilities.py] *)

Record InstructorState := mkInstructorState {
  available : bool;
  on_tour : bool;
  on_break : bool;
  on_lunch : bool;
  finish_time : Q }.

(** One record for the class hierarchy: the base attributes of [Facility],
    then the state of each subclass (unused by the others). *)
Record Facility := mkFacility {
  cls : FacilityClass;
  name : string;
  capacity : nat;
  age_limit : Z;
  adrenalin_level : Z;
  queue_regular : QueueServer;
  queue_express : QueueServer;
  users_in_service : list Visitor;
  occupied_tubes : Z;                       (* Pipes_River *)
  last_entry_times : list Q;                (* Single_Slide *)
  tube_size : nat;                          (* Big_/Small_Pipes_Slide *)
  instructor_states : list InstructorState  (* Snorkel_Tour *) }.

Definition set_queue_regular (q : QueueServer) (f : Facility) : Facility :=
  {| cls := cls f; name := name f; capacity := capacity f; age_limit := age_limit f;
     adrenalin_level := adrenalin_level f;
     queue_regular := q; queue_express := queue_express f;
     users_in_service := users_in_service f; occupied_tubes := occupied_tubes f;
     last_entry_times := last_entry_times f; tube_size := tube_size f;
     instructor_states := instructor_states f |}.

Definition set_queue_express (q : QueueServer) (f : Facility) : Facility :=
  {| cls := cls f; name := name f; capacity := capacity f; age_limit := age_limit f;
     adrenalin_level := adrenalin_level f;
     queue_regular := queue_regular f; queue_express := q;
     users_in_service := users_in_service f; occupied_tubes := occupied_tubes f;
     last_entry_times := last_entry_times f; tube_size := tube_size f;
     instructor_states := instructor_states f |}.

Definition set_users_in_service (l : list Visitor) (f : Facility) : Facility :=
  {| cls := cls f; name := name f; capacity := capacity f; age_limit := age_limit f;
     adrenalin_level := adrenalin_level f;
     queue_regular := queue_regular f; queue_express := queue_express f;
     users_in_service := l; occupied_tubes := occupied_tubes f;
     last_entry_times := last_entry_times f; tube_size := tube_size f;
     instructor_states := instructor_states f |}.

Definition set_occupied_tubes (n : Z) (f : Facility) : Facility :=
  {| cls := cls f; name := name f; capacity := capacity f; age_limit := age_limit f;
     adrenalin_level := adrenalin_level f;
     queue_regular := queue_regular f; queue_express := queue_express f;
     users_in_service := users_in_service f; occupied_tubes := n;
     last_entry_times := last_entry_times f; tube_size := tube_size f;
     instructor_states := instructor_states f |}.

Definition set_last_entry_times (l : list Q) (f : Facility) : Facility :=
  {| cls := cls f; name := name f; capacity := capacity f; age_limit := age_limit f;
     adrenalin_level := adrenalin_level f;
     queue_regular := queue_regular f; queue_express := queue_express f;
     users_in_service := users_in_service f; occupied_tubes := occupied_tubes f;
     last_entry_times := l; tube_size := tube_size f;
     instructor_states := instructor_states f |}.

Definition set_instructor_states (l : list InstructorState) (f : Facility) : Facility :=
  {| cls := cls f; name := name f; capacity := capacity f; age_limit := age_limit f;
     adrenalin_level := adrenalin_level f;
     queue_regular := queue_regular f; queue_express := queue_express f;
     users_in_service := users_in_service f; occupied_tubes := occupied_tubes f;
     last_entry_times := last_entry_times f; tube_size := tube_size f;
     instructor_states := l |}.

Module Facility.

Definition __init__ (c : FacilityClass) (name : string) (capacity : nat)
    (age_limit adrenalin_level : Z) : Facility :=
  {| cls := c; name := name; capacity := capacity; age_limit := age_limit;
     adrenalin_level := adrenalin_level;
     queue_regular := QueueServer.__init__; queue_express := QueueServer.__init__;
     users_in_service := []; occupied_tubes := 0; last_entry_times := [];
     tube_size := 0; instructor_states := [] |}.

Definition get_total_waiting (f : Facility) : Z :=
  QueueServer.size (queue_regular f) + QueueServer.size (queue_express f).

(** The queue chosen by the pass flag, as [ArriveAtFacilityEvent] and
    [enter_queue] do. *)
Definition enter_queue (express : bool) (visitor : Visitor) (current_time : datetime)
    (f : Facility) : Facility :=
  if express
  then set_queue_express (QueueServer.add visitor current_time (queue_express f)) f
  else set_queue_regular (QueueServer.add visitor current_time (queue_regular f)) f.

(** [visitor, _ = queue.pop(current_time)] on the express or the regular
    queue of the facility. *)
Definition pop (express : bool) (current_time : datetime) (f : Facility)
    : option Visitor * Facility :=
  let '(r, q') := QueueServer.pop (Some current_time)
                    (if express then queue_express f else queue_regular f) in
  (fst <$> r, if express then set_queue_express q' f else set_queue_regular q' f).

(** [queue.remove(visitor, current_time)] *)
Definition remove (express : bool) (visitor : Visitor) (current_time : datetime)
    (f : Facility) : Facility :=
  if express
  then set_queue_express (QueueServer.remove visitor current_time (queue_express f)) f
  else set_queue_regular (QueueServer.remove visitor current_time (queue_regular f)) f.

(** [self.users_in_service.append(visitor)] *)
Definition append_in_service (visitor : Visitor) (f : Facility) : Facility :=
  set_users_in_service (users_in_service f ++ [visitor]) f.

(** [if visitor in self.users_in_service: self.users_in_service.remove(visitor)] *)
Definition leave_service (visitor : Visitor) (f : Facility) : Facility :=
  if is_in visitor (users_in_service f)
  then set_users_in_service (list_remove visitor (users_in_service f)) f else f.

(** Entries waiting in the two queues. *)
Definition queued (f : Facility) : nat :=
  (length (server_queue (queue_express f)) + length (server_queue (queue_regular f)))%nat.

End Facility.

(** Exit of a [while] body: [continue] with a new state, or [break]. *)
Inductive loop (A : Type) := Continue (a : A) | Break (a : A).
Arguments Continue {A} a.
Arguments Break {A} a.

(** [for i, x in enumerate(l): if p(x): return i] *)
Fixpoint find_index {A} (p : A → bool) (l : list A) : option nat :=
  match l with
  | [] => None
  | x :: l' => if p x then Some 0%nat else S <$> find_index p l'
  end.

(** [math.ceil(n / d)] on non-negative integers *)
Definition ceil_div (n d : nat) : nat := ((n + d - 1) / d)%nat.

Module Pipes_River.

Definition people_per_tube : nat := 2.
Definition total_tubes : Z := 60.

Definition __init__ : Facility := Facility.__init__ Pipes_River "Pipes River" 120 0 1.

Definition can_enter (f : Facility) : bool := occupied_tubes f <? total_tubes.

Definition is_odd (g : Visitor) : bool := (group_size g mod 2 =? 1)%nat.
Definition is_even (g : Visitor) : bool := (group_size g mod 2 =? 0)%nat.

Definition find_odd_group_in_queue (queue_list : list Visitor) : option nat :=
  find_index is_odd queue_list.

Definition state : Type := Store * Facility * list Visitor.

(** The tubes two odd groups need together. *)
Definition pair_tubes (group1 group2 : Visitor) : Z :=
  Z.of_nat (ceil_div (group_size group1 + group_size group2) people_per_tube).

(** The two groups enter on shared tubes and are linked to each other. *)
Definition enter_pair (group1 group2 : Visitor) (st : state) : state :=
  let '(σ, f, entering_groups) := st in
  (upd group2 (set_tube_partner group1) (upd group1 (set_tube_partner group2) σ),
   set_occupied_tubes (occupied_tubes f + pair_tubes group1 group2) f,
   entering_groups ++ [group1; group2]).

(** One pass through the body of the [while] loop of [process_entry]. *)
Definition process_entry_step (current_time : datetime) (st : state) : loop state :=
  let '(σ, f, entering_groups) := st in
  if QueueServer.nonempty (queue_express f) then
    match QueueServer.head (queue_express f) with
    | None => Break st
    | Some group =>
        if is_even group then
          let tubes_used := Z.of_nat (group_size group / people_per_tube) in
          if occupied_tubes f + tubes_used <=? total_tubes then
            let qe := snd (QueueServer.pop (Some current_time) (queue_express f)) in
            Continue (σ,
                      set_occupied_tubes (occupied_tubes f + tubes_used) (set_queue_express qe f),
                      entering_groups ++ [group])
          else Break st
        else
          let express_list := tail (QueueServer.visitors (queue_express f)) in
          match find_odd_group_in_queue express_list with
          | Some idx =>
              let odd_idx_express := S idx in
              match QueueServer.pop (Some current_time) (queue_express f) with
              | (Some (group1, _), qe1) =>
                  match QueueServer.visitors qe1 !! (odd_idx_express - 1)%nat with
                  | Some group2 =>
                      let qe2 := QueueServer.remove group2 current_time qe1 in
                      if occupied_tubes f + pair_tubes group1 group2 <=? total_tubes then
                        Continue (enter_pair group1 group2
                                    (σ, set_queue_express qe2 f, entering_groups))
                      else
                        let qe3 := QueueServer.insert 0 group1 current_time qe2 in
                        let qe4 := QueueServer.insert odd_idx_express group2 current_time qe3 in
                        Break (σ, set_queue_express qe4 f, entering_groups)
                  | None => Break st
                  end
              | (None, _) => Break st
              end
          | None =>
              let regular_list := QueueServer.visitors (queue_regular f) in
              match find_odd_group_in_queue regular_list with
              | Some odd_idx_regular =>
                  match QueueServer.pop (Some current_time) (queue_express f) with
                  | (Some (group1, _), qe1) =>
                      match QueueServer.visitors (queue_regular f) !! odd_idx_regular with
                      | Some group2 =>
                          let qr1 := QueueServer.remove group2 current_time (queue_regular f) in
                          if occupied_tubes f + pair_tubes group1 group2 <=? total_tubes then
                            Continue (enter_pair group1 group2
                                        (σ, set_queue_regular qr1 (set_queue_express qe1 f),
                                         entering_groups))
                          else
                            let qe2 := QueueServer.insert 0 group1 current_time qe1 in
                            let qr2 := QueueServer.insert odd_idx_regular group2 current_time qr1 in
                            Break (σ, set_queue_regular qr2 (set_queue_express qe2 f),
                                   entering_groups)
                      | None => Break st
                      end
                  | (None, _) => Break st
                  end
              | None => Break st
              end
          end
    end
  else if QueueServer.nonempty (queue_regular f) then
    match QueueServer.head (queue_regular f) with
    | None => Break st
    | Some group =>
        if is_even group then
          let tubes_used := Z.of_nat (group_size group / people_per_tube) in
          if occupied_tubes f + tubes_used <=? total_tubes then
            let qr := snd (QueueServer.pop (Some current_time) (queue_regular f)) in
            Continue (σ,
                      set_occupied_tubes (occupied_tubes f + tubes_used) (set_queue_regular qr f),
                      entering_groups ++ [group])
          else Break st
        else
          let regular_list := tail (QueueServer.visitors (queue_regular f)) in
          match find_odd_group_in_queue regular_list with
          | Some idx =>
              let odd_idx := S idx in
              match QueueServer.pop (Some current_time) (queue_regular f) with
              | (Some (group1, _), qr1) =>
                  match QueueServer.visitors qr1 !! (odd_idx - 1)%nat with
                  | Some group2 =>
                      let qr2 := QueueServer.remove group2 current_time qr1 in
                      if occupied_tubes f + pair_tubes group1 group2 <=? total_tubes then
                        Continue (enter_pair group1 group2
                                    (σ, set_queue_regular qr2 f, entering_groups))
                      else
                        let qr3 := QueueServer.insert 0 group1 current_time qr2 in
                        let qr4 := QueueServer.insert odd_idx group2 current_time qr3 in
                        Break (σ, set_queue_regular qr4 f, entering_groups)
                  | None => Break st
                  end
              | (None, _) => Break st
              end
          | None => Break st
          end
    end
  else Break st.

(** [while self.occupied_tubes < self.total_tubes and made_progress]: every
    pass either sets [made_progress] and continues, or breaks. *)
Fixpoint process_entry_loop (fuel : nat) (current_time : datetime) (st : state) : state :=
  match fuel with
  | O => st
  | S fuel' =>
      if occupied_tubes (snd (fst st)) <? total_tubes then
        match process_entry_step current_time st with
        | Continue st' => process_entry_loop fuel' current_time st'
        | Break st' => st'
        end
      else st
  end.

(** Every continuing pass takes at least one entry out of the queues. *)
Definition process_entry (current_time : datetime) (σ : Store) (f : Facility) : state :=
  process_entry_loop (S (Facility.queued f)) current_time (σ, f, []).

Definition release_tubes (σ : Store) (visitor : Visitor) (f : Facility) : Facility :=
  let occupied :=
    if is_shared_tube (get σ visitor) then
      match tube_partner (get σ visitor) with
      | Some partner =>
          if negb (is_in partner (users_in_service f)) then
            let total_size := (group_size visitor + group_size partner)%nat in
            let tubes_to_release := Z.of_nat (ceil_div total_size people_per_tube) in
            occupied_tubes f - tubes_to_release
          else occupied_tubes f
      | None => occupied_tubes f
      end
    else
      let tubes_to_release := Z.of_nat (ceil_div (group_size visitor) people_per_tube) in
      occupied_tubes f - tubes_to_release in
  set_occupied_tubes (Z.max 0 occupied) f.

End Pipes_River.

Module Single_Slide.

Definition num_slides : nat := 2.
Definition activity_duration : Q := 3.
Definition safety_interval : Q := 1 # 2.

Definition __init__ : Facility :=
  set_last_entry_times [(-1000)%Q; (-1000)%Q]
    (Facility.__init__ Single_Slide "Single Slide" 6 14 5).

Definition get_service_duration : Q := activity_duration.

(** [hour * 60 + minute + second / 60] *)
Definition current_minutes (t : datetime) : Q :=
  fadd (of_int (hour t * 60 + minute t)) (fdiv (of_int (second t)) 60).

Definition cooled_down (t : datetime) (last_time : Q) : bool :=
  Qle_bool safety_interval (fsub (current_minutes t) last_time).

Definition can_enter (current_time : datetime) (f : Facility) : bool :=
  if (capacity f <=? length (users_in_service f))%nat then false
  else existsb (cooled_down current_time) (last_entry_times f).

Definition get_available_slide (current_time : datetime) (f : Facility) : option nat :=
  find_index (cooled_down current_time) (take num_slides (last_entry_times f)).

Definition record_entry (slide_index : nat) (current_time : datetime) (f : Facility) : Facility :=
  set_last_entry_times (<[slide_index := current_minutes current_time]> (last_entry_times f)) f.

End Single_Slide.

(** [Big_Pipes_Slide] and [Small_Pipes_Slide] have the same methods; they
    differ in [tube_size] (8 and 3), which [get_next_batch] reads from the
    object. *)
Module Pipes_Slide.

Definition can_enter (f : Facility) : bool := (length (users_in_service f) =? 0)%nat.

(** State of the two filling loops: the queue being emptied, the entries
    popped from it, the batch and its headcount. *)
Record filling := mkFilling {
  fq : QueueServer;
  ftemp : list (Visitor * datetime);
  fbatch : list Visitor;
  fbatch_size : nat }.

(** Result of a filling loop: [return batch] from inside the loop, or the
    loop is left (condition false or [break]). *)
Inductive filled := Returned (batch : list Visitor) (q : QueueServer) | Left (s : filling).

(** [while queue and batch_size < self.tube_size: ...] *)
Fixpoint fill (fuel : nat) (tube_size : nat) (current_time : datetime) (s : filling) : filled :=
  match fuel with
  | O => Left s
  | S fuel' =>
      if QueueServer.nonempty (fq s) && (fbatch_size s <? tube_size)%nat then
        match QueueServer.head (fq s) with
        | Some visitor =>
            if (fbatch_size s + group_size visitor <=? tube_size)%nat then
              match QueueServer.pop (Some current_time) (fq s) with
              | (Some (v, t), q') =>
                  let batch := fbatch s ++ [v] in
                  let batch_size := (fbatch_size s + group_size v)%nat in
                  if (batch_size =? tube_size)%nat then Returned batch q'
                  else fill fuel' tube_size current_time
                         {| fq := q'; ftemp := ftemp s ++ [(v, t)];
                            fbatch := batch; fbatch_size := batch_size |}
              | (None, _) => Left s
              end
            else Left s
        | None => Left s
        end
      else Left s
  end.

(** [for v, t in reversed(temp): queue.insert(0, v, t)] *)
Definition rollback (temp : list (Visitor * datetime)) (q : QueueServer) : QueueServer :=
  fold_left (fun q vt => QueueServer.insert 0 (fst vt) (snd vt) q) (rev temp) q.

Definition total_in_queue (f : Facility) : nat :=
  (headcount (QueueServer.visitors (queue_express f))
   + headcount (QueueServer.visitors (queue_regular f)))%nat.

Definition get_next_batch (current_time : datetime) (f : Facility) : list Visitor * Facility :=
  if (total_in_queue f <? tube_size f)%nat then ([], f)
  else
    match fill (length (server_queue (queue_express f))) (tube_size f) current_time
            {| fq := queue_express f; ftemp := []; fbatch := []; fbatch_size := 0 |} with
    | Returned batch qe => (batch, set_queue_express qe f)
    | Left s1 =>
        let temp_express := ftemp s1 in
        match fill (length (server_queue (queue_regular f))) (tube_size f) current_time
                {| fq := queue_regular f; ftemp := [];
                   fbatch := fbatch s1; fbatch_size := fbatch_size s1 |} with
        | Returned batch qr => (batch, set_queue_regular qr (set_queue_express (fq s1) f))
        | Left s2 =>
            let temp_regular := ftemp s2 in
            ([], set_queue_regular (rollback temp_regular (fq s2))
                   (set_queue_express (rollback temp_express (fq s1)) f))
        end
    end.

(** The facility side of the Big/Small Pipes branch of
    [try_start_facility]: when nobody is sliding, the next batch, if any,
    goes into service. *)
Definition start_batch (current_time : datetime) (f : Facility) : list Visitor * Facility :=
  if can_enter f then
    let '(batch, f') := get_next_batch current_time f in
    (batch, set_users_in_service (users_in_service f' ++ batch) f')
  else ([], f).

End Pipes_Slide.

Module Big_Pipes_Slide.

Definition __init__ : Facility :=
  let f := Facility.__init__ Big_Pipes_Slide "Big Pipes Slide" 8 0 2 in
  {| cls := cls f; name := name f; capacity := capacity f; age_limit := age_limit f;
     adrenalin_level := adrenalin_level f;
     queue_regular := queue_regular f; queue_express := queue_express f;
     users_in_service := users_in_service f; occupied_tubes := occupied_tubes f;
     last_entry_times := last_entry_times f; tube_size := 8;
     instructor_states := instructor_states f |}.

Definition can_enter := Pipes_Slide.can_enter.
Definition get_next_batch := Pipes_Slide.get_next_batch.

End Big_Pipes_Slide.

Module Small_Pipes_Slide.

Definition __init__ : Facility :=
  let f := Facility.__init__ Small_Pipes_Slide "Small Pipes Slide" 3 12 4 in
  {| cls := cls f; name := name f; capacity := capacity f; age_limit := age_limit f;
     adrenalin_level := adrenalin_level f;
     queue_regular := queue_regular f; queue_express := queue_express f;
     users_in_service := users_in_service f; occupied_tubes := occupied_tubes f;
     last_entry_times := last_entry_times f; tube_size := 3;
     instructor_states := instructor_states f |}.

Definition can_enter := Pipes_Slide.can_enter.
Definition get_next_batch := Pipes_Slide.get_next_batch.

End Small_Pipes_Slide.

(** [Waves_Pool.can_enter] and [Kids_Pool.can_enter] are the same test. *)
Module Pool.

Definition can_enter (group_size : nat) (f : Facility) : bool :=
  let current_occupancy := headcount (users_in_service f) in
  (current_occupancy + group_size <=? capacity f)%nat.

(** The facility side of the scan [for i in range(len(temp_queue))] of one
    queue: the first group that fits leaves the queue ([pop] at the head,
    [remove] further down) and goes into service. *)
Definition scan (express : bool) (current_time : datetime) (f : Facility)
    : option Visitor * Facility :=
  let temp_queue := QueueServer.visitors (if express then queue_express f else queue_regular f) in
  match find_index (fun next_visitor => can_enter (group_size next_visitor) f) temp_queue with
  | Some i =>
      match temp_queue !! i with
      | Some next_visitor =>
          let '(visitor, f1) :=
            match i with
            | O => Facility.pop express current_time f
            | S _ => (Some next_visitor, Facility.remove express next_visitor current_time f)
            end in
          match visitor with
          | Some visitor => (Some visitor, Facility.append_in_service visitor f1)
          | None => (None, f1)
          end
      | None => (None, f)
      end
  | None => (None, f)
  end.

End Pool.

Module Waves_Pool.
Definition __init__ (capacity : nat) : Facility :=
  Facility.__init__ Waves_Pool "Wave Pool" capacity 12 3.
Definition can_enter := Pool.can_enter.
End Waves_Pool.

Module Kids_Pool.
Definition max_age : Z := 4.
Definition __init__ : Facility := Facility.__init__ Kids_Pool "Kids Pool" 30 4 1.
Definition can_enter := Pool.can_enter.
End Kids_Pool.

Module Snorkel_Tour.

Definition tour_capacity : nat := 30.

Definition instructor_init : InstructorState :=
  {| available := true; on_tour := false; on_break := false; on_lunch := false;
     finish_time := 0 |}.

Definition __init__ (num_instructors : nat) : Facility :=
  set_instructor_states (replicate num_instructors instructor_init)
    (Facility.__init__ Snorkel_Tour "Snorkel Tour" 30 6 3).

(** [current_time.hour * 60 + current_time.minute] *)
Definition current_minutes (t : datetime) : Z := hour t * 60 + minute t.

Definition restricted (t : datetime) : bool :=
  (12 * 60 + 20 <=? current_minutes t) && (current_minutes t <? 14 * 60).

Definition get_available_instructor (current_time : datetime) (f : Facility) : option nat :=
  if restricted current_time then None
  else find_index
         (fun state => available state
                       && Qle_bool (finish_time state) (of_int (current_minutes current_time)))
         (instructor_states f).

Definition start_tour (instructor_idx : nat) (current_time : datetime) (tour_duration : Q)
    (f : Facility) : Facility :=
  set_instructor_states
    (alter (fun st => {| available := false; on_tour := true;
                         on_break := on_break st; on_lunch := on_lunch st;
                         finish_time := fadd (of_int (current_minutes current_time)) tour_duration |})
           instructor_idx (instructor_states f)) f.

Definition finish_tour (instructor_idx : nat) (current_time : datetime) (f : Facility) : Facility :=
  set_instructor_states
    (alter (fun st => {| available := available st; on_tour := false;
                         on_break := true; on_lunch := on_lunch st;
                         finish_time := of_int (current_minutes current_time + 30) |})
           instructor_idx (instructor_states f)) f.

(** Returns whether the instructor goes to lunch. *)
Definition finish_break (instructor_idx : nat) (current_time : datetime) (f : Facility)
    : bool * Facility :=
  if (13 <=? hour current_time) && (hour current_time <? 14) then
    let lunch_end := 14 * 60 in
    let remaining_lunch_time := lunch_end - current_minutes current_time in
    (true,
     set_instructor_states
       (alter (fun st => {| available := available st; on_tour := on_tour st;
                            on_break := false; on_lunch := true;
                            finish_time := of_int (current_minutes current_time
                                                   + remaining_lunch_time) |})
              instructor_idx (instructor_states f)) f)
  else
    (false,
     set_instructor_states
       (alter (fun st => {| available := true; on_tour := on_tour st;
                            on_break := false; on_lunch := on_lunch st;
                            finish_time := finish_time st |})
              instructor_idx (instructor_states f)) f).

(** The loop that fills [tour_group] from the queues, express first; it
    stops at the first head that would overflow the tour. *)
Fixpoint fill_tour (fuel : nat) (current_time : datetime) (f : Facility)
    (tour_group : list Visitor) (tour_size : nat) : list Visitor * Facility :=
  match fuel with
  | O => (tour_group, f)
  | S fuel' =>
      if (tour_size <? tour_capacity)%nat
         && (QueueServer.nonempty (queue_express f) || QueueServer.nonempty (queue_regular f))
      then
        let express := QueueServer.nonempty (queue_express f) in
        match QueueServer.head (if express then queue_express f else queue_regular f) with
        | Some next_visitor =>
            if (tour_size + group_size next_visitor <=? tour_capacity)%nat then
              match Facility.pop express current_time f with
              | (Some visitor, f') =>
                  fill_tour fuel' current_time f' (tour_group ++ [visitor])
                    (tour_size + group_size visitor)
              | (None, f') => (tour_group, f')
              end
            else (tour_group, f)
        | None => (tour_group, f)
        end
      else (tour_group, f)
  end.

Definition finish_lunch (instructor_idx : nat) (f : Facility) : Facility :=
  set_instructor_states
    (alter (fun st => {| available := true; on_tour := on_tour st;
                         on_break := on_break st; on_lunch := false;
                         finish_time := finish_time st |})
           instructor_idx (instructor_states f)) f.

End Snorkel_Tour.

(** ** Reception and restaurants ([facilities.py]) *)

Record Reception := mkReception {
  num_clerks : nat;
  clerks_busy : list bool }.

Module Reception.

Definition __init__ (num_clerks : nat) : Reception :=
  {| num_clerks := num_clerks; clerks_busy := replicate num_clerks false |}.

Definition get_available_clerk (r : Reception) : option nat :=
  find_index negb (take (num_clerks r) (clerks_busy r)).

Definition set_clerk (i : nat) (b : bool) (r : Reception) : Reception :=
  {| num_clerks := num_clerks r; clerks_busy := <[i := b]> (clerks_busy r) |}.

End Reception.

Inductive RestaurantClass := Pizza_Restaurant | Burger_Restaurant | Salad_Restaurant.

Record Restaurant := mkRestaurant {
  rcls : RestaurantClass;
  rname : string;
  queue : QueueServer;
  service_stations : nat;
  stations_busy : list bool }.

Module Restaurant.

Definition __init__ (c : RestaurantClass) (name : string) (service_stations : nat) : Restaurant :=
  {| rcls := c; rname := name; queue := QueueServer.__init__;
     service_stations := service_stations;
     stations_busy := replicate service_stations false |}.

Definition set_queue (q : QueueServer) (r : Restaurant) : Restaurant :=
  {| rcls := rcls r; rname := rname r; queue := q;
     service_stations := service_stations r; stations_busy := stations_busy r |}.

Definition set_station (i : nat) (b : bool) (r : Restaurant) : Restaurant :=
  {| rcls := rcls r; rname := rname r; queue := queue r;
     service_stations := service_stations r;
     stations_busy := <[i := b]> (stations_busy r) |}.

Definition enter_queue (visitor : Visitor) (current_time : datetime) (r : Restaurant) : Restaurant :=
  set_queue (QueueServer.add visitor current_time (queue r)) r.

(** [next_visitor, arrival_time = self.restaurant.queue.pop(time)] *)
Definition pop (current_time : datetime) (r : Restaurant) : option Visitor * Restaurant :=
  let '(x, q') := QueueServer.pop (Some current_time) (queue r) in
  (fst <$> x, set_queue q' r).

Definition get_available_station (r : Restaurant) : option nat :=
  find_index negb (take (service_stations r) (stations_busy r)).

Definition get_price (visitor : Visitor) (r : Restaurant) : Z :=
  match rcls r with
  | Pizza_Restaurant => if (group_size visitor =? 1)%nat then 40 else 100
  | Burger_Restaurant => 100 * Z.of_nat (group_size visitor)
  | Salad_Restaurant => 65 * Z.of_nat (group_size visitor)
  end.

End Restaurant.

(** ** Events ([Event.py]) *)

Inductive EventClass :=
  | FamilyArrivalEvent
  | TeensGroupArrivalEvent
  | SingleGroupArrivalEvent
  | EndReceptionEvent (visitor : Visitor) (clerk_index : nat)
  | ArriveAtFacilityEvent (visitor : Visitor) (facility : FacilityClass)
  | EndFacilityEvent (visitor : Visitor) (facility : FacilityClass) (instructor_idx : option nat)
  | AbandonmentEvent (visitor : Visitor) (facility : FacilityClass)
  | ArriveAtRestaurantEvent (visitor : Visitor) (restaurant : RestaurantClass)
  | EndRestaurantServiceEvent (visitor : Visitor) (restaurant : RestaurantClass) (station : nat)
  | EndMealEvent (visitor : Visitor)
  | InstructorBreakEndEvent (instructor_idx : nat) (facility : FacilityClass)
  | InstructorLunchEndEvent (instructor_idx : nat) (facility : FacilityClass)
  | VisitorDepartureEvent (visitor : Visitor)
  | EndOfDayEvent (park_close_hour park_close_minute : Z).

(** An event object: its [time], what [id(self)] returns for it (the
    address the interpreter gave the object), and the subclass with its
    attributes. *)
Record Event := mkEvent {
  time : datetime;
  id : Z;
  event_class : EventClass }.

Module Event.

(** [Event.__lt__] *)
Definition __lt__ (self other : Event) : bool :=
  if time self =? time other then id self <? id other
  else time self <? time other.

End Event.

(** Python's [heapq] on a list, comparing with [__lt__]. *)
Module heapq.

(** [_siftdown(heap, startpos, pos)] with [newitem = heap[pos]] *)
Fixpoint _siftdown (fuel : nat) (heap : list Event) (startpos pos : nat) (newitem : Event)
    : list Event :=
  match fuel with
  | O => <[pos := newitem]> heap
  | S fuel' =>
      if (startpos <? pos)%nat then
        let parentpos := ((pos - 1) / 2)%nat in
        match heap !! parentpos with
        | Some parent =>
            if Event.__lt__ newitem parent
            then _siftdown fuel' (<[pos := parent]> heap) startpos parentpos newitem
            else <[pos := newitem]> heap
        | None => <[pos := newitem]> heap
        end
      else <[pos := newitem]> heap
  end.

Definition heappush (heap : list Event) (item : Event) : list Event :=
  let heap' := heap ++ [item] in
  _siftdown (length heap') heap' 0 (length heap' - 1) item.

(** The first loop of [_siftup]: the smaller child moves up until a leaf
    is reached; returns the heap and the final position. *)
Fixpoint _siftup_loop (fuel : nat) (heap : list Event) (pos : nat) : list Event * nat :=
  match fuel with
  | O => (heap, pos)
  | S fuel' =>
      let endpos := length heap in
      let childpos := (2 * pos + 1)%nat in
      if (childpos <? endpos)%nat then
        let rightpos := (childpos + 1)%nat in
        let childpos :=
          match heap !! childpos, heap !! rightpos with
          | Some l, Some r => if negb (Event.__lt__ l r) then rightpos else childpos
          | _, _ => childpos
          end in
        match heap !! childpos with
        | Some c => _siftup_loop fuel' (<[pos := c]> heap) childpos
        | None => (heap, pos)
        end
      else (heap, pos)
  end.

Definition _siftup (heap : list Event) (pos : nat) : list Event :=
  match heap !! pos with
  | Some newitem =>
      let '(heap', pos') := _siftup_loop (length heap) heap pos in
      _siftdown (length heap) (<[pos' := newitem]> heap') pos pos' newitem
  | None => heap
  end.

Definition heappop (heap : list Event) : option Event * list Event :=
  match last heap with
  | None => (None, heap)
  | Some lastelt =>
      let heap' := removelast heap in
      match heap' with
      | returnitem :: _ => (Some returnitem, _siftup (<[0%nat := lastelt]> heap') 0)
      | [] => (Some lastelt, [])
      end
  end.

End heapq.

(** ** The simulation state ([Simulation.py])

    What the run depends on besides the program: the stream of values
    returned by [random.random()], the floating-point library functions that
    are not rational ([math.log], [math.sqrt], [math.cos], [math.pi]), the
    addresses the interpreter hands out for new event objects ([id(self)]),
    and a bound on the rejection loop of the wave-pool sampler. *)

Record Env := mkEnv {
  random_stream : nat → Q;
  math_log : Q → Q;
  math_sqrt : Q → Q;
  math_cos : Q → Q;
  math_pi : Q;
  address : nat → Z;
  rejection_fuel : nat }.

Record Simulation := mkSimulation {
  env : Env;
  n_random : nat;
  n_events : nat;
  next_vid : positive;
  store : Store;
  reception : Reception;
  facilities : FacilityClass → Facility;
  restaurants : RestaurantClass → Restaurant;
  event_queue : list Event;
  clock : datetime;
  end_time : datetime;
  queue_reception : QueueServer;
  total_people_arrived : Z;
  total_entities_arrived : Z;
  total_people_completed : Z;
  total_entities_completed : Z;
  total_people_entered : Z;
  total_entities_entered : Z;
  total_revenue : Z;
  ratings : list Q;
  visitors_completed : list Visitor }.

Definition set_n_random (x : nat) (s : Simulation) : Simulation :=
  {| env := env s; n_random := x; n_events := n_events s; next_vid := next_vid s; store
     := store s; reception := reception s; facilities := facilities s; restaurants :=
     restaurants s; event_queue := event_queue s; clock := clock s; end_time := end_time
     s; queue_reception := queue_reception s; total_people_arrived :=
     total_people_arrived s; total_entities_arrived := total_entities_arrived s;
     total_people_completed := total_people_completed s; total_entities_completed :=
     total_entities_completed s; total_people_entered := total_people_entered s;
     total_entities_entered := total_entities_entered s; total_revenue := total_revenue
     s; ratings := ratings s; visitors_completed := visitors_completed s |}.

Definition set_n_events (x : nat) (s : Simulation) : Simulation :=
  {| env := env s; n_random := n_random s; n_events := x; next_vid := next_vid s; store
     := store s; reception := reception s; facilities := facilities s; restaurants :=
     restaurants s; event_queue := event_queue s; clock := clock s; end_time := end_time
     s; queue_reception := queue_reception s; total_people_arrived :=
     total_people_arrived s; total_entities_arrived := total_entities_arrived s;
     total_people_completed := total_people_completed s; total_entities_completed :=
     total_entities_completed s; total_people_entered := total_people_entered s;
     total_entities_entered := total_entities_entered s; total_revenue := total_revenue
     s; ratings := ratings s; visitors_completed := visitors_completed s |}.

Definition set_next_vid (x : positive) (s : Simulation) : Simulation :=
  {| env := env s; n_random := n_random s; n_events := n_events s; next_vid := x; store
     := store s; reception := reception s; facilities := facilities s; restaurants :=
     restaurants s; event_queue := event_queue s; clock := clock s; end_time := end_time
     s; queue_reception := queue_reception s; total_people_arrived :=
     total_people_arrived s; total_entities_arrived := total_entities_arrived s;
     total_people_completed := total_people_completed s; total_entities_completed :=
     total_entities_completed s; total_people_entered := total_people_entered s;
     total_entities_entered := total_entities_entered s; total_revenue := total_revenue
     s; ratings := ratings s; visitors_completed := visitors_completed s |}.

Definition set_store (x : Store) (s : Simulation) : Simulation :=
  {| env := env s; n_random := n_random s; n_events := n_events s; next_vid := next_vid
     s; store := x; reception := reception s; facilities := facilities s; restaurants :=
     restaurants s; event_queue := event_queue s; clock := clock s; end_time := end_time
     s; queue_reception := queue_reception s; total_people_arrived :=
     total_people_arrived s; total_entities_arrived := total_entities_arrived s;
     total_people_completed := total_people_completed s; total_entities_completed :=
     total_entities_completed s; total_people_entered := total_people_entered s;
     total_entities_entered := total_entities_entered s; total_revenue := total_revenue
     s; ratings := ratings s; visitors_completed := visitors_completed s |}.

Definition set_reception (x : Reception) (s : Simulation) : Simulation :=
  {| env := env s; n_random := n_random s; n_events := n_events s; next_vid := next_vid
     s; store := store s; reception := x; facilities := facilities s; restaurants :=
     restaurants s; event_queue := event_queue s; clock := clock s; end_time := end_time
     s; queue_reception := queue_reception s; total_people_arrived :=
     total_people_arrived s; total_entities_arrived := total_entities_arrived s;
     total_people_completed := total_people_completed s; total_entities_completed :=
     total_entities_completed s; total_people_entered := total_people_entered s;
     total_entities_entered := total_entities_entered s; total_revenue := total_revenue
     s; ratings := ratings s; visitors_completed := visitors_completed s |}.

Definition set_facilities (x : FacilityClass → Facility) (s : Simulation) : Simulation :=
  {| env := env s; n_random := n_random s; n_events := n_events s; next_vid := next_vid
     s; store := store s; reception := reception s; facilities := x; restaurants :=
     restaurants s; event_queue := event_queue s; clock := clock s; end_time := end_time
     s; queue_reception := queue_reception s; total_people_arrived :=
     total_people_arrived s; total_entities_arrived := total_entities_arrived s;
     total_people_completed := total_people_completed s; total_entities_completed :=
     total_entities_completed s; total_people_entered := total_people_entered s;
     total_entities_entered := total_entities_entered s; total_revenue := total_revenue
     s; ratings := ratings s; visitors_completed := visitors_completed s |}.

Definition set_restaurants (x : RestaurantClass → Restaurant) (s : Simulation) : Simulation :=
  {| env := env s; n_random := n_random s; n_events := n_events s; next_vid := next_vid
     s; store := store s; reception := reception s; facilities := facilities s;
     restaurants := x; event_queue := event_queue s; clock := clock s; end_time :=
     end_time s; queue_reception := queue_reception s; total_people_arrived :=
     total_people_arrived s; total_entities_arrived := total_entities_arrived s;
     total_people_completed := total_people_completed s; total_entities_completed :=
     total_entities_completed s; total_people_entered := total_people_entered s;
     total_entities_entered := total_entities_entered s; total_revenue := total_revenue
     s; ratings := ratings s; visitors_completed := visitors_completed s |}.

Definition set_event_queue (x : list Event) (s : Simulation) : Simulation :=
  {| env := env s; n_random := n_random s; n_events := n_events s; next_vid := next_vid
     s; store := store s; reception := reception s; facilities := facilities s;
     restaurants := restaurants s; event_queue := x; clock := clock s; end_time :=
     end_time s; queue_reception := queue_reception s; total_people_arrived :=
     total_people_arrived s; total_entities_arrived := total_entities_arrived s;
     total_people_completed := total_people_completed s; total_entities_completed :=
     total_entities_completed s; total_people_entered := total_people_entered s;
     total_entities_entered := total_entities_entered s; total_revenue := total_revenue
     s; ratings := ratings s; visitors_completed := visitors_completed s |}.

Definition set_clock (x : datetime) (s : Simulation) : Simulation :=
  {| env := env s; n_random := n_random s; n_events := n_events s; next_vid := next_vid
     s; store := store s; reception := reception s; facilities := facilities s;
     restaurants := restaurants s; event_queue := event_queue s; clock := x; end_time :=
     end_time s; queue_reception := queue_reception s; total_people_arrived :=
     total_people_arrived s; total_entities_arrived := total_entities_arrived s;
     total_people_completed := total_people_completed s; total_entities_completed :=
     total_entities_completed s; total_people_entered := total_people_entered s;
     total_entities_entered := total_entities_entered s; total_revenue := total_revenue
     s; ratings := ratings s; visitors_completed := visitors_completed s |}.

Definition set_queue_reception (x : QueueServer) (s : Simulation) : Simulation :=
  {| env := env s; n_random := n_random s; n_events := n_events s; next_vid := next_vid
     s; store := store s; reception := reception s; facilities := facilities s;
     restaurants := restaurants s; event_queue := event_queue s; clock := clock s;
     end_time := end_time s; queue_reception := x; total_people_arrived :=
     total_people_arrived s; total_entities_arrived := total_entities_arrived s;
     total_people_completed := total_people_completed s; total_entities_completed :=
     total_entities_completed s; total_people_entered := total_people_entered s;
     total_entities_entered := total_entities_entered s; total_revenue := total_revenue
     s; ratings := ratings s; visitors_completed := visitors_completed s |}.

Definition set_total_people_arrived (x : Z) (s : Simulation) : Simulation :=
  {| env := env s; n_random := n_random s; n_events := n_events s; next_vid := next_vid
     s; store := store s; reception := reception s; facilities := facilities s;
     restaurants := restaurants s; event_queue := event_queue s; clock := clock s;
     end_time := end_time s; queue_reception := queue_reception s; total_people_arrived
     := x; total_entities_arrived := total_entities_arrived s; total_people_completed :=
     total_people_completed s; total_entities_completed := total_entities_completed s;
     total_people_entered := total_people_entered s; total_entities_entered :=
     total_entities_entered s; total_revenue := total_revenue s; ratings := ratings s;
     visitors_completed := visitors_completed s |}.

Definition set_total_entities_arrived (x : Z) (s : Simulation) : Simulation :=
  {| env := env s; n_random := n_random s; n_events := n_events s; next_vid := next_vid
     s; store := store s; reception := reception s; facilities := facilities s;
     restaurants := restaurants s; event_queue := event_queue s; clock := clock s;
     end_time := end_time s; queue_reception := queue_reception s; total_people_arrived
     := total_people_arrived s; total_entities_arrived := x; total_people_completed :=
     total_people_completed s; total_entities_completed := total_entities_completed s;
     total_people_entered := total_people_entered s; total_entities_entered :=
     total_entities_entered s; total_revenue := total_revenue s; ratings := ratings s;
     visitors_completed := visitors_completed s |}.

Definition set_total_people_completed (x : Z) (s : Simulation) : Simulation :=
  {| env := env s; n_random := n_random s; n_events := n_events s; next_vid := next_vid
     s; store := store s; reception := reception s; facilities := facilities s;
     restaurants := restaurants s; event_queue := event_queue s; clock := clock s;
     end_time := end_time s; queue_reception := queue_reception s; total_people_arrived
     := total_people_arrived s; total_entities_arrived := total_entities_arrived s;
     total_people_completed := x; total_entities_completed := total_entities_completed
     s; total_people_entered := total_people_entered s; total_entities_entered :=
     total_entities_entered s; total_revenue := total_revenue s; ratings := ratings s;
     visitors_completed := visitors_completed s |}.

Definition set_total_entities_completed (x : Z) (s : Simulation) : Simulation :=
  {| env := env s; n_random := n_random s; n_events := n_events s; next_vid := next_vid
     s; store := store s; reception := reception s; facilities := facilities s;
     restaurants := restaurants s; event_queue := event_queue s; clock := clock s;
     end_time := end_time s; queue_reception := queue_reception s; total_people_arrived
     := total_people_arrived s; total_entities_arrived := total_entities_arrived s;
     total_people_completed := total_people_completed s; total_entities_completed := x;
     total_people_entered := total_people_entered s; total_entities_entered :=
     total_entities_entered s; total_revenue := total_revenue s; ratings := ratings s;
     visitors_completed := visitors_completed s |}.

Definition set_total_people_entered (x : Z) (s : Simulation) : Simulation :=
  {| env := env s; n_random := n_random s; n_events := n_events s; next_vid := next_vid
     s; store := store s; reception := reception s; facilities := facilities s;
     restaurants := restaurants s; event_queue := event_queue s; clock := clock s;
     end_time := end_time s; queue_reception := queue_reception s; total_people_arrived
     := total_people_arrived s; total_entities_arrived := total_entities_arrived s;
     total_people_completed := total_people_completed s; total_entities_completed :=
     total_entities_completed s; total_people_entered := x; total_entities_entered :=
     total_entities_entered s; total_revenue := total_revenue s; ratings := ratings s;
     visitors_completed := visitors_completed s |}.

Definition set_total_entities_entered (x : Z) (s : Simulation) : Simulation :=
  {| env := env s; n_random := n_random s; n_events := n_events s; next_vid := next_vid
     s; store := store s; reception := reception s; facilities := facilities s;
     restaurants := restaurants s; event_queue := event_queue s; clock := clock s;
     end_time := end_time s; queue_reception := queue_reception s; total_people_arrived
     := total_people_arrived s; total_entities_arrived := total_entities_arrived s;
     total_people_completed := total_people_completed s; total_entities_completed :=
     total_entities_completed s; total_people_entered := total_people_entered s;
     total_entities_entered := x; total_revenue := total_revenue s; ratings := ratings
     s; visitors_completed := visitors_completed s |}.

Definition set_total_revenue (x : Z) (s : Simulation) : Simulation :=
  {| env := env s; n_random := n_random s; n_events := n_events s; next_vid := next_vid
     s; store := store s; reception := reception s; facilities := facilities s;
     restaurants := restaurants s; event_queue := event_queue s; clock := clock s;
     end_time := end_time s; queue_reception := queue_reception s; total_people_arrived
     := total_people_arrived s; total_entities_arrived := total_entities_arrived s;
     total_people_completed := total_people_completed s; total_entities_completed :=
     total_entities_completed s; total_people_entered := total_people_entered s;
     total_entities_entered := total_entities_entered s; total_revenue := x; ratings :=
     ratings s; visitors_completed := visitors_completed s |}.

Definition set_ratings (x : list Q) (s : Simulation) : Simulation :=
  {| env := env s; n_random := n_random s; n_events := n_events s; next_vid := next_vid
     s; store := store s; reception := reception s; facilities := facilities s;
     restaurants := restaurants s; event_queue := event_queue s; clock := clock s;
     end_time := end_time s; queue_reception := queue_reception s; total_people_arrived
     := total_people_arrived s; total_entities_arrived := total_entities_arrived s;
     total_people_completed := total_people_completed s; total_entities_completed :=
     total_entities_completed s; total_people_entered := total_people_entered s;
     total_entities_entered := total_entities_entered s; total_revenue := total_revenue
     s; ratings := x; visitors_completed := visitors_completed s |}.

Definition set_visitors_completed (x : list Visitor) (s : Simulation) : Simulation :=
  {| env := env s; n_random := n_random s; n_events := n_events s; next_vid := next_vid
     s; store := store s; reception := reception s; facilities := facilities s;
     restaurants := restaurants s; event_queue := event_queue s; clock := clock s;
     end_time := end_time s; queue_reception := queue_reception s; total_people_arrived
     := total_people_arrived s; total_entities_arrived := total_entities_arrived s;
     total_people_completed := total_people_completed s; total_entities_completed :=
     total_entities_completed s; total_people_entered := total_people_entered s;
     total_entities_entered := total_entities_entered s; total_revenue := total_revenue
     s; ratings := ratings s; visitors_completed := x |}.

(** ** A state monad for the handlers

    Every handler runs to completion on the one [Simulation] object; a
    computation takes the state and returns its result with the new state. *)

Definition St (A : Type) : Type := Simulation → A * Simulation.

Definition ret {A} (a : A) : St A := fun s => (a, s).
Definition bind {A B} (m : St A) (k : A → St B) : St B :=
  fun s => let '(a, s') := m s in k a s'.
Definition gets {A} (f : Simulation → A) : St A := fun s => (f s, s).
Definition modify (f : Simulation → Simulation) : St unit := fun s => (tt, f s).
Definition exec {A} (m : St A) (s : Simulation) : Simulation := snd (m s).

Notation "'let*' x := m 'in' k" := (bind m (fun x => k))
  (at level 10, x name, m at level 100, k at level 200, only parsing).
Notation "'do' m 'then' k" := (bind m (fun _ => k))
  (at level 10, m at level 100, k at level 200, only parsing).

Definition when (b : bool) (m : St unit) : St unit := if b then m else ret tt.

(** [math.log] raises [ValueError] for an argument that is not positive, and
    [math.sqrt] for a negative one.  Nothing in the program catches the
    exception: it ends the run.  A function that can raise returns an
    [outcome]. *)
Inductive outcome (A : Type) : Type :=
  | Value (a : A)
  | ValueError.
Arguments Value {A} a.
Arguments ValueError {A}.

(** The callers of a sampler that can raise are modelled for the runs in
    which it returns: [returned m] is the value [m] returns.  Where [m]
    raises, the program has no next state; the model goes on with 0. *)
Definition returned (m : St (outcome Q)) : St Q :=
  let* r := m in
  ret (match r with Value x => x | ValueError => 0%Q end).

(** [for x in l: body(x)] *)
Fixpoint for_each {A} (l : list A) (body : A → St unit) : St unit :=
  match l with
  | [] => ret tt
  | x :: l' => do body x then for_each l' body
  end.

(** [while]: the body answers whether to go on. *)
Fixpoint while (fuel : nat) (body : St bool) : St unit :=
  match fuel with
  | O => ret tt
  | S fuel' => let* go_on := body in if go_on then while fuel' body else ret tt
  end.

Definition modify_facility (c : FacilityClass) (g : Facility → Facility) : St unit :=
  modify (fun s => set_facilities
                     (fun c' => if FacilityClass_eqb c c' then g (facilities s c') else facilities s c') s).

(** A method of a facility that returns a value: it runs on the facility
    object, which is changed in place. *)
Definition update_facility {A} (c : FacilityClass) (g : Facility → A * Facility) : St A :=
  fun s => let '(a, f') := g (facilities s c) in
           (a, exec (modify_facility c (fun _ => f')) s).

Definition modify_restaurant (c : RestaurantClass) (g : Restaurant → Restaurant) : St unit :=
  modify (fun s => set_restaurants
                     (fun c' => match c, c' with
                                | Pizza_Restaurant, Pizza_Restaurant
                                | Burger_Restaurant, Burger_Restaurant
                                | Salad_Restaurant, Salad_Restaurant => g (restaurants s c')
                                | _, _ => restaurants s c'
                                end) s).

Definition update_restaurant {A} (c : RestaurantClass) (g : Restaurant → A * Restaurant) : St A :=
  fun s => let '(a, r') := g (restaurants s c) in
           (a, exec (modify_restaurant c (fun _ => r')) s).

(** [next_visitor, arrival_time = simulation.queue_reception.pop(time)] *)
Definition pop_reception (current_time : datetime) : St (option Visitor) :=
  fun s => let '(r, q') := QueueServer.pop (Some current_time) (queue_reception s) in
           (fst <$> r, set_queue_reception q' s).

Definition modify_visitor (v : Visitor) (g : VState → VState) : St unit :=
  modify (fun s => set_store (upd v g (store s)) s).

Definition visitor_state (v : Visitor) : St VState := gets (fun s => get (store s) v).

(** ** [sampling_algorithms.py] *)

Module Sampling_Algorithms.

(** [random.random()] *)
Definition random : St Q :=
  fun s => (random_stream (env s) (n_random s), set_n_random (S (n_random s)) s).

Definition sample_uniform (a b : Q) : St Q :=
  let* u := random in ret (fadd a (fmul (fsub b a) u)).

Definition sample_exponential (lambda_param : Q) : St Q :=
  let* u := sample_uniform 0 1 in
  let* log := gets (fun s => math_log (env s)) in
  ret (fdiv (Qred (- log (fsub 1 u))) lambda_param).

(** [math.log(u1)] raises at the draw [u1 = 0.0], which [random.random()]
    can return. *)
Definition sample_normal (mu sigma : Q) : St (outcome Q) :=
  let* u1 := sample_uniform 0 1 in
  let* u2 := sample_uniform 0 1 in
  let* e := gets env in
  if Qlt_bool 0 u1 then
    let x := fmul (-2) (math_log e u1) in
    if Qle_bool 0 x then
      let z := fmul (math_sqrt e x) (math_cos e (fmul (fmul 2 (math_pi e)) u2)) in
      ret (Value (fadd mu (fmul sigma z)))
    else ret ValueError
  else ret ValueError.

Definition get_number_kids : St nat :=
  let* u := random in
  ret (if Qlt_bool u (2 # 10) then 1
       else if Qlt_bool u (4 # 10) then 2
       else if Qlt_bool u (6 # 10) then 3
       else if Qlt_bool u (8 # 10) then 4
       else 5)%nat.

Definition get_kid_age : St Q := sample_uniform 2 18.

Definition sample_family_interarrival_time : St Q := sample_exponential (40 # 60).

Definition get_family_departure_time : St Q :=
  let* u := sample_uniform 0 1 in
  let* sqrt := gets (fun s => math_sqrt (env s)) in
  ret (fadd (fmul 3 (sqrt u)) 16).

Definition get_teen_group_size : St nat :=
  let* u := sample_uniform 0 1 in
  ret (if Qle_bool u (2 # 10) then 2
       else if Qle_bool u (4 # 10) then 3
       else if Qle_bool u (65 # 100) then 4
       else if Qle_bool u (9 # 10) then 5
       else 6)%nat.

Definition sample_teens_group_interarrival_time : St Q := sample_exponential (500 # 360).
Definition sample_single_visitor_interarrival_time : St Q := sample_exponential (40 # 60).

Definition should_buy_express_on_entry : St bool :=
  let* u := sample_uniform 0 1 in ret (Qle_bool u (25 # 100)).

Definition pipes_river_duration : St Q := sample_uniform 20 30.

Definition sample_big_pipes_slide_duration : St (outcome Q) :=
  let mu := 48 # 10 in
  let sigma := 18322 # 10000 in
  sample_normal mu sigma.

Definition sample_small_pipes_slide_duration : St Q :=
  let lambda_param := 210706 # 100000 in
  sample_exponential lambda_param.

(** The density of the wave-pool duration at [x]. *)
Definition wave_pool_pdf (x : Q) : Q :=
  if Qle_bool 0 x && Qle_bool x 10 then fdiv x 2700
  else if Qlt_bool 10 x && Qlt_bool x 30 then 0
  else if Qle_bool 30 x && Qle_bool x 50 then fadd (fdiv (fsub 60 x) 2700) (fdiv 1 30)
  else if Qlt_bool 50 x && Qle_bool x 60 then fdiv (fsub 60 x) 2700
  else 0.

(** [while True]: a candidate is drawn until one is accepted. *)
Fixpoint wave_pool_loop (fuel : nat) (last : Q) : St Q :=
  match fuel with
  | O => ret last
  | S fuel' =>
      let M := fdiv 2 45 in
      let* x := sample_uniform 0 60 in
      let f_x := wave_pool_pdf x in
      let* u := sample_uniform 0 1 in
      if Qle_bool u (fdiv f_x M) then ret x else wave_pool_loop fuel' x
  end.

Definition get_wave_pool_duration : St Q :=
  let* fuel := gets (fun s => rejection_fuel (env s)) in
  wave_pool_loop (S fuel) 0.

(** Whether one of the next [fuel] candidates is accepted. *)
Fixpoint accepted_within (fuel : nat) : St bool :=
  match fuel with
  | O => ret false
  | S fuel' =>
      let M := fdiv 2 45 in
      let* x := sample_uniform 0 60 in
      let f_x := wave_pool_pdf x in
      let* u := sample_uniform 0 1 in
      if Qle_bool u (fdiv f_x M) then ret true else accepted_within fuel'
  end.

Definition sample_kids_pool_duration : St Q :=
  let* u := sample_uniform 0 1 in
  let* sqrt := gets (fun s => math_sqrt (env s)) in
  let duration_hours :=
    if Qle_bool 0 u && Qlt_bool u (1 # 6) then fadd 1 (sqrt (fdiv (fmul 3 u) 8))
    else if Qle_bool (1 # 6) u && Qlt_bool u (5 # 6) then fadd (fmul (75 # 100) u) (1125 # 1000)
    else fsub 2 (sqrt (fdiv (fmul 3 (fsub 1 u)) 8)) in
  ret (fmul duration_hours 60).

Definition sample_ticket_purchase_time : St Q := sample_uniform (1 # 2) 2.
Definition sample_wristband_time : St Q := sample_exponential (1 # 2).
Definition sample_restaurant_service_time : St (outcome Q) := sample_normal 5 (15 # 10).
Definition sample_meal_duration : St Q := sample_uniform 15 35.
Definition sample_snorkel_tour_duration : St (outcome Q) := sample_normal 30 10.

Definition should_teens_buy_express_after_abandon : St bool :=
  let* u := sample_uniform 0 1 in ret (Qle_bool u (6 # 10)).

Definition had_good_experience : St bool :=
  let* u := sample_uniform 0 1 in ret (Qle_bool u (5 # 10)).

Definition calculate_positive_rating (group_size : nat) (adrenaline_level : Z) : Q :=
  fadd (fmul (fdiv (of_int (Z.of_nat group_size - 1)) 5) (3 # 10))
       (fmul (fdiv (of_int (adrenaline_level - 1)) 4) (7 # 10)).

Definition should_eat_lunch : St bool :=
  let* u := sample_uniform 0 1 in ret (Qle_bool u (7 # 10)).

Definition choose_restaurant : St RestaurantClass :=
  let* u := sample_uniform 0 1 in
  ret (if Qlt_bool u (3 # 8) then Burger_Restaurant
       else if Qlt_bool u (fadd (3 # 8) (1 # 4)) then Pizza_Restaurant
       else Salad_Restaurant).

Definition is_meal_unsatisfactory : St bool :=
  let* u := sample_uniform 0 1 in ret (Qle_bool u (1 # 10)).

(** The package bought, if any, and its price. *)
Definition get_photo_purchase_decision (final_rating : Q) : option string * Z :=
  if Qlt_bool final_rating 6 then (None, 0)
  else if Qlt_bool final_rating (75 # 10) then (Some "1_photo", 20)
  else if Qlt_bool final_rating (85 # 10) then (Some "10_photos", 100)
  else (Some "10_photos_video", 120).

Definition should_family_split : St bool :=
  let* u := sample_uniform 0 1 in ret (Qle_bool u (6 # 10)).

Definition get_num_split_groups : St nat :=
  let* u := sample_uniform 0 1 in ret (if Qle_bool u (5 # 10) then 2 else 3)%nat.

End Sampling_Algorithms.

(** The three basic samplers once more, over the real numbers: the draws of
    [random.random()] are arguments, and [math.log], [math.sqrt], [math.cos]
    and [math.pi] are the functions whose values the floating-point library
    rounds. *)
Module Real_Sampling.

Definition sample_uniform (a b u : R) : R := (a + (b - a) * u)%R.

(** [z] of [sample_normal], from the two uniform draws, for a first draw
    that is positive ([ln] of the library is 0 elsewhere). *)
Definition box_muller (r1 r2 : R) : R :=
  let u1 := sample_uniform 0 1 r1 in
  let u2 := sample_uniform 0 1 r2 in
  (sqrt (-2 * ln u1) * cos (2 * PI * u2))%R.

Definition sample_normal (mu sigma r1 r2 : R) : R :=
  let z := box_muller r1 r2 in
  (mu + sigma * z)%R.

Definition sample_big_pipes_slide_duration (r1 r2 : R) : R :=
  let mu := (48 / 10)%R in
  let sigma := (18322 / 10000)%R in
  sample_normal mu sigma r1 r2.

End Real_Sampling.

(** ** [entities.py] *)

Definition fmin_list (l : list Q) (d : Q) : Q :=
  match l with
  | [] => d
  | x :: l' => fold_left (fun m y => if Qlt_bool y m then y else m) l' x
  end.

Module Visitor.

Definition update_rating_positive (v : Visitor) (group_size : nat) (adrenaline_level : Z) : St unit :=
  let increase := Sampling_Algorithms.calculate_positive_rating group_size adrenaline_level in
  modify_visitor v (fun st => set_rating (fadd (rating st) increase) st).

Definition update_rating_negative (v : Visitor) (amount : Q) : St unit :=
  modify_visitor v (fun st => set_rating (fmax 0 (fsub (rating st) amount)) st).

Definition get_abandonment_threshold (v : Visitor) : Z :=
  match kind v with
  | Family | SubGroup => 15
  | TeenGroup => 20
  | SingleVisitor => 30
  end.

Definition get_min_age (v : Visitor) : Q :=
  match kind v with
  | Family => fmin_list (kids_ages v) 14
  | _ => min_age v
  end.

(** A new object: the next identity, and its mutable part in the store. *)
Definition allocate (mk : positive → Visitor) (init : VState) : St Visitor :=
  fun s =>
    let v := mk (next_vid s) in
    (v, set_store (<[next_vid s := init]> (store s)) (set_next_vid (Pos.succ (next_vid s)) s)).

End Visitor.

(** [for _ in range(n): l.append(sample())] *)
Fixpoint sample_list {A} (n : nat) (sample : St A) : St (list A) :=
  match n with
  | O => ret []
  | S n' => let* x := sample in let* l := sample_list n' sample in ret (x :: l)
  end.

Definition create_family (arrival_time : datetime) : St Visitor :=
  let* num_kids := Sampling_Algorithms.get_number_kids in
  let* kids_ages := sample_list num_kids Sampling_Algorithms.get_kid_age in
  let* departure_time := Sampling_Algorithms.get_family_departure_time in
  let* express := Sampling_Algorithms.should_buy_express_on_entry in
  Visitor.allocate
    (fun i => {| vid := i; kind := Family; arrival_time := arrival_time;
                 group_size := num_kids + 2; num_kids := num_kids; kids_ages := kids_ages;
                 min_age := 0; departure_time := departure_time; parent_family := None |})
    (set_has_express_pass express VState_init).

Definition create_teen_group (arrival_time : datetime) : St Visitor :=
  let* group_size := Sampling_Algorithms.get_teen_group_size in
  let* express := Sampling_Algorithms.should_buy_express_on_entry in
  Visitor.allocate
    (fun i => {| vid := i; kind := TeenGroup; arrival_time := arrival_time;
                 group_size := group_size; num_kids := 0; kids_ages := [];
                 min_age := 14; departure_time := 19; parent_family := None |})
    (set_has_express_pass express VState_init).

Definition create_single_visitor (arrival_time : datetime) : St Visitor :=
  let* min_age := Sampling_Algorithms.sample_uniform 18 70 in
  let* express := Sampling_Algorithms.should_buy_express_on_entry in
  Visitor.allocate
    (fun i => {| vid := i; kind := SingleVisitor; arrival_time := arrival_time;
                 group_size := 1; num_kids := 0; kids_ages := [];
                 min_age := min_age; departure_time := 19; parent_family := None |})
    (set_has_express_pass express VState_init).

(** [SubGroup(parent_family, size, min_age, has_express_pass)]: the rating
    is the parent's rating at this moment. *)
Definition create_subgroup (parent : Visitor) (size : nat) (min_age : Q) (express : bool)
    : St Visitor :=
  let* p := visitor_state parent in
  Visitor.allocate
    (fun i => {| vid := i; kind := SubGroup; arrival_time := arrival_time parent;
                 group_size := size; num_kids := 0; kids_ages := [];
                 min_age := min_age; departure_time := departure_time parent;
                 parent_family := Some parent |})
    (set_rating (rating p) (set_has_express_pass express VState_init)).

Module Family.

(** Returns [[self]] or the list of subgroups. *)
Definition check_and_split (self : Visitor) : St (list Visitor) :=
  let* split := Sampling_Algorithms.should_family_split in
  if negb split then ret [self]
  else
    do modify_visitor self (fun st => set_split true (subgroups st) (active_subgroups_count st) st) then
    let* num_groups := Sampling_Algorithms.get_num_split_groups in
    let kids_under_8 := filter (fun age => Qlt_bool age 8 = true) (kids_ages self) in
    let kids_8_to_12 :=
      filter (fun age => Qle_bool 8 age && Qlt_bool age 12 = true) (kids_ages self) in
    let kids_over_12 := filter (fun age => Qle_bool 12 age = true) (kids_ages self) in
    let* me := visitor_state self in
    let express := has_express_pass me in
    let* subgroups1 :=
      match kids_under_8 with
      | _ :: _ =>
          let* group := create_subgroup self (1 + length kids_under_8)
                          (fmin_list kids_under_8 0) express in
          ret [group]
      | [] => ret []
      end in
    let* subgroups2 :=
      match kids_over_12 with
      | _ :: _ =>
          if (length subgroups1 <? num_groups)%nat then
            let* group := create_subgroup self (length kids_over_12)
                            (fmin_list kids_over_12 0) express in
            ret (subgroups1 ++ [group])
          else ret subgroups1
      | [] => ret subgroups1
      end in
    let* subgroups3 :=
      if (length subgroups2 <? num_groups)%nat then
        let remaining_size := Z.of_nat (group_size self) - Z.of_nat (headcount subgroups2) in
        if 0 <? remaining_size then
          let remaining_ages := match kids_8_to_12 with [] => [14%Q] | _ => kids_8_to_12 end in
          let* group := create_subgroup self (Z.to_nat remaining_size)
                          (fmin_list remaining_ages 14) express in
          ret (subgroups2 ++ [group])
        else ret subgroups2
      else ret subgroups2 in
    if (length subgroups3 <? 2)%nat then
      do modify_visitor self (fun st => set_split false (subgroups st) (active_subgroups_count st) st) then
      ret [self]
    else
      do modify_visitor self (fun st => set_split (is_split st) subgroups3
                                          (Z.of_nat (length subgroups3)) st) then
      ret subgroups3.

End Family.

Module TeenGroup.

(** Returns [true] for ["buy_express_and_return"], [false] for
    ["move_to_next"]. *)
Definition handle_abandonment (self : Visitor) (facility : FacilityClass) : St bool :=
  do modify_visitor self (fun st => set_abandoned (abandoned_facilities st ++ [facility])
                                     (abandon_count st + 1) st) then
  let* me := visitor_state self in
  if negb (has_express_pass me) then
    let* buy := Sampling_Algorithms.should_teens_buy_express_after_abandon in
    if buy then
      do modify_visitor self (set_has_express_pass true) then ret true
    else ret false
  else ret false.

End TeenGroup.

(** ** [Simulation.py] *)

(** [self.facilities], in the order of the list. *)
Definition all_facilities : list FacilityClass :=
  [Pipes_River; Single_Slide; Big_Pipes_Slide; Small_Pipes_Slide;
   Waves_Pool; Kids_Pool; Snorkel_Tour].

(** [self.restaurants] *)
Definition all_restaurants : list RestaurantClass :=
  [Pizza_Restaurant; Burger_Restaurant; Salad_Restaurant].

(** [timedelta(minutes=n)] for an integer [n] *)
Definition minutes (n : Z) : Z := n * usec_per_minute.

(** [min(eligible, key=...)]: the first element with the least key. *)
Definition min_by {A} (key : A → Z) (l : list A) : option A :=
  match l with
  | [] => None
  | x :: l' => Some (fold_left (fun m y => if key y <? key m then y else m) l' x)
  end.

Module Simulation.

(** A new event object: [id(self)] is the next address handed out. *)
Definition new (time : datetime) (c : EventClass) : St Event :=
  fun s => ({| time := time; id := address (env s) (n_events s); event_class := c |},
            set_n_events (S (n_events s)) s).

Definition add_event (event : Event) : St unit :=
  modify (fun s => set_event_queue (heapq.heappush (event_queue s) event) s).

Definition schedule (time : datetime) (c : EventClass) : St unit :=
  let* event := new time c in add_event event.

Definition _schedule_initial_arrivals : St unit :=
  let* now := gets clock in
  do schedule now FamilyArrivalEvent then
  do schedule (now + minutes 60) TeensGroupArrivalEvent then
  schedule now SingleGroupArrivalEvent.

Definition initial_facility (c : FacilityClass) : Facility :=
  let f :=
    match c with
    | Pipes_River => Pipes_River.__init__
    | Single_Slide => Single_Slide.__init__
    | Big_Pipes_Slide => Big_Pipes_Slide.__init__
    | Small_Pipes_Slide => Small_Pipes_Slide.__init__
    | Waves_Pool => Waves_Pool.__init__ 80
    | Kids_Pool => Kids_Pool.__init__
    | Snorkel_Tour => Snorkel_Tour.__init__ 2
    end in
  set_queue_express (QueueServer.set_active_hours (9, 0) (19, 0) (queue_express f))
    (set_queue_regular (QueueServer.set_active_hours (9, 0) (19, 0) (queue_regular f)) f).

Definition initial_restaurant (c : RestaurantClass) : Restaurant :=
  match c with
  | Pizza_Restaurant => Restaurant.__init__ Pizza_Restaurant "Pizza" 1
  | Burger_Restaurant => Restaurant.__init__ Burger_Restaurant "Burger" 1
  | Salad_Restaurant => Restaurant.__init__ Salad_Restaurant "Salad" 1
  end.

Definition __init__ (e : Env) (start_date : datetime) : Simulation :=
  exec _schedule_initial_arrivals
    {| env := e; n_random := 0; n_events := 0; next_vid := 1%positive;
       store := ∅;
       reception := Reception.__init__ 3;
       facilities := initial_facility;
       restaurants := initial_restaurant;
       event_queue := [];
       clock := start_date;
       end_time := start_date + minutes 600;
       queue_reception := QueueServer.set_active_hours (9, 0) (19, 0) QueueServer.__init__;
       total_people_arrived := 0; total_entities_arrived := 0;
       total_people_completed := 0; total_entities_completed := 0;
       total_people_entered := 0; total_entities_entered := 0;
       total_revenue := 0; ratings := []; visitors_completed := [] |}.

(** The bookkeeping of a completed visitor, with the photo purchase: the
    rating and the group size of [visitor] itself are booked. *)
Definition _complete_visitor (visitor : Visitor) : St unit :=
  let* st := visitor_state visitor in
  let '(package, price) := Sampling_Algorithms.get_photo_purchase_decision (rating st) in
  do when (bool_decide (is_Some package))
       (modify (fun s => set_total_revenue (total_revenue s + price) s)) then
  do modify (fun s => set_ratings (ratings s ++ [rating st]) s) then
  do modify (fun s => set_visitors_completed (visitors_completed s ++ [visitor]) s) then
  do modify (fun s => set_total_entities_completed (total_entities_completed s + 1) s) then
  modify (fun s => set_total_people_completed
                     (total_people_completed s + Z.of_nat (group_size visitor)) s).

(** [for visitor in l: if visitor not in completed_entities: ...] *)
Fixpoint force_close_list (l : list Visitor) (completed_entities : list Visitor)
    : St (list Visitor) :=
  match l with
  | [] => ret completed_entities
  | visitor :: l' =>
      if negb (is_in visitor completed_entities) then
        do _complete_visitor visitor then
        force_close_list l' (visitor :: completed_entities)
      else force_close_list l' completed_entities
  end.

Fixpoint force_close_facilities (l : list FacilityClass) (completed_entities : list Visitor)
    : St unit :=
  match l with
  | [] => ret tt
  | c :: l' =>
      let* f := gets (fun s => facilities s c) in
      let* completed1 := force_close_list (users_in_service f) completed_entities in
      let* completed2 := force_close_list (QueueServer.visitors (queue_regular f)) completed1 in
      let* completed3 := force_close_list (QueueServer.visitors (queue_express f)) completed2 in
      force_close_facilities l' completed3
  end.

Definition force_close_park : St unit :=
  let* completed_entities := gets visitors_completed in
  force_close_facilities all_facilities completed_entities.

Definition choose_facility (visitor : Visitor) (is_first_visit : bool) : St (option FacilityClass) :=
  gets (fun s =>
    let visited := visited_facilities (get (store s) visitor) in
    let unvisited c := negb (existsb (FacilityClass_eqb c) visited) in
    let age_ok c := Qle_bool (of_int (age_limit (facilities s c))) (Visitor.get_min_age visitor) in
    let waiting c := Facility.get_total_waiting (facilities s c) in
    let remaining_facilities := List.filter (fun c => unvisited c && age_ok c) all_facilities in
    match remaining_facilities with
    | [] => None
    | _ :: _ =>
        let family_first :=
          if is_first_visit && match kind visitor with Family | SubGroup => true | _ => false end
          then List.filter (fun c => (age_limit (facilities s c) =? 0) && unvisited c) all_facilities
          else [] in
        let teens :=
          match kind visitor with
          | TeenGroup =>
              List.filter (fun c => (3 <=? adrenalin_level (facilities s c))
                                    && age_ok c && unvisited c) all_facilities
          | _ => []
          end in
        let single :=
          match kind visitor with
          | SingleVisitor =>
              if is_first_visit
              then List.filter (fun c => (12 <=? age_limit (facilities s c)) && unvisited c)
                     all_facilities
              else List.filter (fun c => negb (String.eqb (name (facilities s c)) "Kids Pool")
                                         && unvisited c) all_facilities
          | _ => []
          end in
        let default := List.filter (fun c => age_ok c && unvisited c) all_facilities in
        match family_first, teens, single with
        | _ :: _, _, _ => min_by waiting family_first
        | [], _ :: _, _ => min_by waiting teens
        | [], [], _ :: _ => min_by waiting single
        | [], [], [] => min_by waiting default
        end
    end).

Definition get_service_duration (c : FacilityClass) : St Q :=
  match c with
  | Pipes_River => Sampling_Algorithms.pipes_river_duration
  | Single_Slide => ret Single_Slide.get_service_duration
  | Big_Pipes_Slide => returned Sampling_Algorithms.sample_big_pipes_slide_duration
  | Small_Pipes_Slide => Sampling_Algorithms.sample_small_pipes_slide_duration
  | Waves_Pool => Sampling_Algorithms.get_wave_pool_duration
  | Kids_Pool => Sampling_Algorithms.sample_kids_pool_duration
  | Snorkel_Tour => returned Sampling_Algorithms.sample_snorkel_tour_duration
  end.

Definition append_in_service (c : FacilityClass) (visitor : Visitor) : St unit :=
  modify_facility c (Facility.append_in_service visitor).

Definition schedule_end (c : FacilityClass) (current_time : datetime) (duration : Q)
    (visitor : Visitor) (instructor_idx : option nat) : St unit :=
  schedule (current_time + timedelta_minutes duration) (EndFacilityEvent visitor c instructor_idx).

End Simulation.

Module TryStart.
Import Simulation.

(** *** Pipes River *)

(** [facility.process_entry(current_time)]: the facility and the visitor
    objects it links are changed. *)
Definition process_entry (c : FacilityClass) (current_time : datetime) : St (list Visitor) :=
  fun s =>
    let '(σ, f, entering) := Pipes_River.process_entry current_time (store s) (facilities s c) in
    (entering, exec (modify_facility c (fun _ => f)) (set_store σ s)).

Definition pipes_river (c : FacilityClass) (current_time : datetime) : St unit :=
  let* entering := process_entry c current_time in
  for_each entering (fun group =>
    let* duration := get_service_duration c in
    do append_in_service c group then
    schedule_end c current_time duration group None).

(** *** Single Slide *)
Definition single_slide_pass (c : FacilityClass) (current_time : datetime) : St bool :=
  let* f := gets (fun s => facilities s c) in
  if QueueServer.nonempty (queue_express f) || QueueServer.nonempty (queue_regular f) then
    match Single_Slide.get_available_slide current_time f with
    | None => ret false
    | Some slide_idx =>
        let* visitor :=
          if QueueServer.nonempty (queue_express f)
          then update_facility c (Facility.pop true current_time)
          else if QueueServer.nonempty (queue_regular f)
          then update_facility c (Facility.pop false current_time)
          else ret None in
        do match visitor with
           | Some visitor =>
               do modify_facility c (Single_Slide.record_entry slide_idx current_time) then
               do append_in_service c visitor then
               let* duration := get_service_duration c in
               schedule_end c current_time duration visitor None
           | None => ret tt
           end then
        ret true
    end
  else ret false.

Definition single_slide (c : FacilityClass) (current_time : datetime) : St unit :=
  let* f := gets (fun s => facilities s c) in
  while (S (Facility.queued f)) (single_slide_pass c current_time).

(** *** Big and Small Pipes Slide *)
Definition pipes_slide (c : FacilityClass) (current_time : datetime) : St unit :=
  let* batch := update_facility c (Pipes_Slide.start_batch current_time) in
  match batch with
  | [] => ret tt
  | _ :: _ =>
      let* duration := get_service_duration c in
      for_each batch (fun visitor => schedule_end c current_time duration visitor None)
  end.

(** *** Wave Pool and Kids Pool *)

(** One scan of a queue; returns [entered_anyone]. *)
Definition pool_scan (c : FacilityClass) (express : bool) (current_time : datetime) : St bool :=
  let* visitor := update_facility c (Pool.scan express current_time) in
  match visitor with
  | Some visitor =>
      let* duration := get_service_duration c in
      do schedule_end c current_time duration visitor None then
      ret true
  | None => ret false
  end.

Definition pool_pass (c : FacilityClass) (current_time : datetime) : St bool :=
  let* f := gets (fun s => facilities s c) in
  if QueueServer.nonempty (queue_express f) || QueueServer.nonempty (queue_regular f) then
    let* entered_anyone :=
      if QueueServer.nonempty (queue_express f) then pool_scan c true current_time
      else ret false in
    if negb entered_anyone && QueueServer.nonempty (queue_regular f)
    then pool_scan c false current_time
    else ret entered_anyone
  else ret false.

Definition pool (c : FacilityClass) (current_time : datetime) : St unit :=
  let* f := gets (fun s => facilities s c) in
  while (S (Facility.queued f)) (pool_pass c current_time).

(** *** Snorkel Tour *)
Definition snorkel_tour (c : FacilityClass) (current_time : datetime) : St unit :=
  let* f := gets (fun s => facilities s c) in
  match Snorkel_Tour.get_available_instructor current_time f with
  | Some instructor_idx =>
      if QueueServer.nonempty (queue_express f) || QueueServer.nonempty (queue_regular f) then
        let* tour_group :=
          update_facility c (fun f =>
            Snorkel_Tour.fill_tour (S (Facility.queued f)) current_time f [] 0) in
        match tour_group with
        | [] => ret tt
        | _ :: _ =>
            let* duration := get_service_duration c in
            do modify_facility c (Snorkel_Tour.start_tour instructor_idx current_time duration) then
            for_each tour_group (fun visitor =>
              do append_in_service c visitor then
              schedule_end c current_time duration visitor (Some instructor_idx))
        end
      else ret tt
  | None => ret tt
  end.

End TryStart.

Definition try_start_facility (facility : FacilityClass) (current_time : datetime) : St unit :=
  match facility with
  | Pipes_River => TryStart.pipes_river facility current_time
  | Single_Slide => TryStart.single_slide facility current_time
  | Big_Pipes_Slide | Small_Pipes_Slide => TryStart.pipes_slide facility current_time
  | Waves_Pool | Kids_Pool => TryStart.pool facility current_time
  | Snorkel_Tour => TryStart.snorkel_tour facility current_time
  end.

(** ** Event handlers ([Event.py]) *)

Module Handlers.
Import Simulation.

Definition set_clock_to (t : datetime) : St unit := modify (set_clock t).

(** The part the three arrival handlers share: the new visitor goes to a
    free clerk when the reception queue is empty, else to the queue. *)
Definition arrive_at_reception (self_time : datetime) (visitor : Visitor) : St unit :=
  let* clerk := gets (fun s => Reception.get_available_clerk (reception s)) in
  let* waiting := gets (fun s => QueueServer.size (queue_reception s)) in
  match clerk with
  | Some clerk =>
      if waiting =? 0 then
        do modify (fun s => set_reception (Reception.set_clerk clerk true (reception s)) s) then
        let* ticket := Sampling_Algorithms.sample_ticket_purchase_time in
        let* wristband := Sampling_Algorithms.sample_wristband_time in
        let service_minutes := fadd ticket wristband in
        let end_time := self_time + timedelta_minutes service_minutes in
        schedule end_time (EndReceptionEvent visitor clerk)
      else modify (fun s => set_queue_reception
                              (QueueServer.add visitor self_time (queue_reception s)) s)
  | None => modify (fun s => set_queue_reception
                               (QueueServer.add visitor self_time (queue_reception s)) s)
  end.

Definition count_arrival (people : Z) : St unit :=
  do modify (fun s => set_total_entities_arrived (total_entities_arrived s + 1) s) then
  modify (fun s => set_total_people_arrived (total_people_arrived s + people) s).

Definition FamilyArrivalEvent_handle (self_time : datetime) : St unit :=
  do set_clock_to self_time then
  let* visitor := create_family self_time in
  do count_arrival (Z.of_nat (group_size visitor)) then
  do arrive_at_reception self_time visitor then
  let* dt_min := Sampling_Algorithms.sample_family_interarrival_time in
  let next_time := self_time + timedelta_minutes dt_min in
  when (hour next_time <? 12) (schedule next_time FamilyArrivalEvent).

Definition TeensGroupArrivalEvent_handle (self_time : datetime) : St unit :=
  do set_clock_to self_time then
  let* visitor := create_teen_group self_time in
  do count_arrival (Z.of_nat (group_size visitor)) then
  do arrive_at_reception self_time visitor then
  let* dt_min := Sampling_Algorithms.sample_teens_group_interarrival_time in
  let next_time := self_time + timedelta_minutes dt_min in
  when (hour next_time <? 16) (schedule next_time TeensGroupArrivalEvent).

Definition SingleGroupArrivalEvent_handle (self_time : datetime) : St unit :=
  do set_clock_to self_time then
  let* visitor := create_single_visitor self_time in
  do count_arrival 1 then
  do arrive_at_reception self_time visitor then
  let* dt_min := Sampling_Algorithms.sample_single_visitor_interarrival_time in
  let next_time := self_time + timedelta_minutes dt_min in
  when ((hour next_time <? 18) || ((hour next_time =? 18) && (minute next_time <=? 30)))
    (schedule next_time SingleGroupArrivalEvent).

Definition EndReceptionEvent_handle (self_time : datetime) (visitor : Visitor) (clerk_index : nat)
    : St unit :=
  do set_clock_to self_time then
  do modify (fun s => set_reception (Reception.set_clerk clerk_index false (reception s)) s) then
  do modify (fun s => set_total_entities_entered (total_entities_entered s + 1) s) then
  do modify (fun s => set_total_people_entered
                        (total_people_entered s + Z.of_nat (group_size visitor)) s) then
  let* st := visitor_state visitor in
  let revenue :=
    match kind visitor with
    | Family =>
        let adults := 2 in
        let kids := Z.of_nat (num_kids visitor) in
        adults * 150 + kids * 75 + (if has_express_pass st then (adults + kids) * 50 else 0)
    | _ =>
        Z.of_nat (group_size visitor) * 150
        + (if has_express_pass st then Z.of_nat (group_size visitor) * 50 else 0)
    end in
  do modify (fun s => set_total_revenue (total_revenue s + revenue) s) then
  let* first_facility := choose_facility visitor true in
  do match first_facility with
     | Some first_facility => schedule self_time (ArriveAtFacilityEvent visitor first_facility)
     | None =>
         do Visitor.update_rating_negative visitor (5 # 10) then
         let* st := visitor_state visitor in
         do modify (fun s => set_visitors_completed (visitors_completed s ++ [visitor]) s) then
         do modify (fun s => set_ratings (ratings s ++ [rating st]) s) then
         do modify (fun s => set_total_entities_completed (total_entities_completed s + 1) s) then
         modify (fun s => set_total_people_completed
                            (total_people_completed s + Z.of_nat (group_size visitor)) s)
     end then
  let* waiting := gets (fun s => QueueServer.size (queue_reception s)) in
  if 0 <? waiting then
    let* next_visitor := pop_reception self_time in
    match next_visitor with
    | Some next_visitor =>
        do modify (fun s => set_reception (Reception.set_clerk clerk_index true (reception s)) s) then
        let* ticket := Sampling_Algorithms.sample_ticket_purchase_time in
        let* wristband := Sampling_Algorithms.sample_wristband_time in
        let service_minutes := fadd ticket wristband in
        let end_time := self_time + timedelta_minutes service_minutes in
        schedule end_time (EndReceptionEvent next_visitor clerk_index)
    | None => ret tt
    end
  else ret tt.

Definition ArriveAtFacilityEvent_handle (self_time : datetime) (visitor : Visitor)
    (facility : FacilityClass) : St unit :=
  do set_clock_to self_time then
  let* st := visitor_state visitor in
  do modify_facility facility (Facility.enter_queue (has_express_pass st) visitor self_time) then
  do modify_visitor visitor (set_time_entered_queue (Some self_time)) then
  do when (negb (has_express_pass st))
       (let threshold := Visitor.get_abandonment_threshold visitor in
        schedule (self_time + minutes threshold) (AbandonmentEvent visitor facility)) then
  try_start_facility facility self_time.

(** The family, for a family or one of its subgroups. *)
Definition original_of (entity : Visitor) : Visitor :=
  match kind entity, parent_family entity with
  | SubGroup, Some parent => parent
  | _, _ => entity
  end.

(** The departure hour as a datetime on the day of [now]:
    [clock.replace(hour=int(d), minute=int((d % 1) * 60), second=0)]. *)
Definition departure_datetime (now : datetime) (d : Q) : datetime :=
  let dep_hour := Qfloor d in
  let dep_min := Qfloor (fmul (fsub d (of_int (Qfloor d))) 60) in
  replace_hms now dep_hour dep_min.

Definition is_family_or_subgroup (v : Visitor) : bool :=
  match kind v with Family | SubGroup => true | _ => false end.

(** The exit of [entity] in [EndFacilityEvent.handle]. *)
Definition exit_after_facility (entity : Visitor) : St unit :=
  if is_family_or_subgroup entity then
    let original := original_of entity in
    do match kind entity with
       | SubGroup =>
           modify_visitor original
             (fun st => set_active_subgroups_count (active_subgroups_count st - 1) st)
       | _ => modify_visitor original (set_active_subgroups_count 0)
       end then
    let* st := visitor_state original in
    if active_subgroups_count st =? 0 then _complete_visitor original else ret tt
  else _complete_visitor entity.

(** One round of the loop over [entities_to_process]. *)
Definition process_entity (self_time : datetime) (entity : Visitor) : St unit :=
  let current_departure_time := departure_time (original_of entity) in
  let* now := gets clock in
  let should_leave :=
    if negb (Qeq_bool current_departure_time 0)
    then departure_datetime now current_departure_time <=? now
    else false in
  let* next_facility :=
    if negb should_leave then choose_facility entity false else ret None in
  match next_facility with
  | None => exit_after_facility entity
  | Some next_facility =>
      let current_hour := fadd (of_int (hour self_time)) (fdiv (of_int (minute self_time)) 60) in
      let* lunch :=
        if Qle_bool 13 current_hour && Qlt_bool current_hour 15
        then Sampling_Algorithms.should_eat_lunch else ret false in
      if lunch then
        let* restaurant := Sampling_Algorithms.choose_restaurant in
        schedule self_time (ArriveAtRestaurantEvent entity restaurant)
      else schedule self_time (ArriveAtFacilityEvent entity next_facility)
  end.

Definition EndFacilityEvent_handle (self_time : datetime) (visitor : Visitor)
    (facility : FacilityClass) (instructor_idx : option nat) : St unit :=
  do set_clock_to self_time then
  do modify_facility facility (Facility.leave_service visitor) then
  do modify_visitor visitor (fun st =>
       if negb (existsb (FacilityClass_eqb facility) (visited_facilities st))
       then set_visited_facilities (visited_facilities st ++ [facility]) st else st) then
  do match facility, instructor_idx with
     | Pipes_River, _ =>
         let* σ := gets store in
         modify_facility facility (Pipes_River.release_tubes σ visitor)
     | Snorkel_Tour, Some instructor_idx =>
         do modify_facility facility (Snorkel_Tour.finish_tour instructor_idx self_time) then
         schedule (self_time + minutes 30) (InstructorBreakEndEvent instructor_idx facility)
     | _, _ => ret tt
     end then
  let* good := Sampling_Algorithms.had_good_experience in
  let* f := gets (fun s => facilities s facility) in
  do (if good
      then Visitor.update_rating_positive visitor (group_size visitor) (adrenalin_level f)
      else Visitor.update_rating_negative visitor (1 # 10)) then
  let* entities_to_process :=
    match kind visitor with
    | Family =>
        let* split_result := Family.check_and_split visitor in
        if (1 <? length split_result)%nat then ret split_result else ret [visitor]
    | _ => ret [visitor]
    end in
  for_each entities_to_process (process_entity self_time).

(** The exit branch of [AbandonmentEvent.handle]: the visitor itself is
    booked. *)
Definition leave_after_abandonment (visitor : Visitor) : St unit :=
  _complete_visitor visitor.

Definition move_on_after_abandonment (self_time : datetime) (visitor : Visitor) : St unit :=
  let* next_facility := choose_facility visitor false in
  match next_facility with
  | Some next_facility => schedule self_time (ArriveAtFacilityEvent visitor next_facility)
  | None => leave_after_abandonment visitor
  end.

Definition AbandonmentEvent_handle (self_time : datetime) (visitor : Visitor)
    (facility : FacilityClass) : St unit :=
  do set_clock_to self_time then
  let* f := gets (fun s => facilities s facility) in
  let visitor_in_regular := is_in visitor (QueueServer.visitors (queue_regular f)) in
  let visitor_in_express := is_in visitor (QueueServer.visitors (queue_express f)) in
  if negb visitor_in_regular && negb visitor_in_express then ret tt
  else
    do modify_facility facility (Facility.remove (negb visitor_in_regular) visitor self_time) then
    do Visitor.update_rating_negative visitor (8 # 10) then
    match kind visitor with
    | TeenGroup =>
        let* buy_express_and_return := TeenGroup.handle_abandonment visitor facility in
        if buy_express_and_return then
          do modify (fun s => set_total_revenue
                                (total_revenue s + 50 * Z.of_nat (group_size visitor)) s) then
          schedule self_time (ArriveAtFacilityEvent visitor facility)
        else move_on_after_abandonment self_time visitor
    | _ => move_on_after_abandonment self_time visitor
    end.

Definition get_preparation_time (c : RestaurantClass) : St Q :=
  match c with
  | Pizza_Restaurant => Sampling_Algorithms.sample_uniform 4 6
  | Burger_Restaurant => Sampling_Algorithms.sample_uniform 3 4
  | Salad_Restaurant => Sampling_Algorithms.sample_uniform 3 7
  end.

Definition get_total_time (c : RestaurantClass) : St Q :=
  let* preparation := get_preparation_time c in
  let* service := returned Sampling_Algorithms.sample_restaurant_service_time in
  ret (fadd preparation service).

Definition ArriveAtRestaurantEvent_handle (self_time : datetime) (visitor : Visitor)
    (restaurant : RestaurantClass) : St unit :=
  do set_clock_to self_time then
  do modify_restaurant restaurant (Restaurant.enter_queue visitor self_time) then
  let* station := gets (fun s => Restaurant.get_available_station (restaurants s restaurant)) in
  match station with
  | Some station =>
      do modify_restaurant restaurant (Restaurant.set_station station true) then
      let* total_time := get_total_time restaurant in
      let end_time := self_time + timedelta_minutes total_time in
      schedule end_time (EndRestaurantServiceEvent visitor restaurant station)
  | None => ret tt
  end.

Definition EndRestaurantServiceEvent_handle (self_time : datetime) (visitor : Visitor)
    (restaurant : RestaurantClass) (station : nat) : St unit :=
  do set_clock_to self_time then
  do modify_restaurant restaurant (Restaurant.set_station station false) then
  let* price := gets (fun s => Restaurant.get_price visitor (restaurants s restaurant)) in
  do modify (fun s => set_total_revenue (total_revenue s + price) s) then
  let* bad := Sampling_Algorithms.is_meal_unsatisfactory in
  do when bad (Visitor.update_rating_negative visitor (8 # 10)) then
  let* meal_duration := Sampling_Algorithms.sample_meal_duration in
  do schedule (self_time + timedelta_minutes meal_duration) (EndMealEvent visitor) then
  let* waiting := gets (fun s => QueueServer.size (queue (restaurants s restaurant))) in
  if 0 <? waiting then
    let* next_visitor := update_restaurant restaurant (Restaurant.pop self_time) in
    match next_visitor with
    | Some next_visitor =>
        do modify_restaurant restaurant (Restaurant.set_station station true) then
        let* total_time := get_total_time restaurant in
        let end_time := self_time + timedelta_minutes total_time in
        schedule end_time (EndRestaurantServiceEvent next_visitor restaurant station)
    | None => ret tt
    end
  else ret tt.

(** The exit of the visitor in [EndMealEvent.handle]: the count of the
    family goes down by one, for a family as for a subgroup. *)
Definition exit_after_meal (visitor : Visitor) : St unit :=
  if is_family_or_subgroup visitor then
    let original_family := original_of visitor in
    do modify_visitor original_family
         (fun st => set_active_subgroups_count (active_subgroups_count st - 1) st) then
    let* st := visitor_state original_family in
    if active_subgroups_count st =? 0 then _complete_visitor original_family else ret tt
  else _complete_visitor visitor.

Definition EndMealEvent_handle (self_time : datetime) (visitor : Visitor) : St unit :=
  do set_clock_to self_time then
  let departure_time_val := departure_time (original_of visitor) in
  let* now := gets clock in
  if negb (Qeq_bool departure_time_val 0)
     && (departure_datetime now departure_time_val <=? now)
  then exit_after_meal visitor
  else
    let* next_facility := choose_facility visitor false in
    match next_facility with
    | None => exit_after_meal visitor
    | Some next_facility => schedule self_time (ArriveAtFacilityEvent visitor next_facility)
    end.

Definition InstructorBreakEndEvent_handle (self_time : datetime) (instructor_idx : nat)
    (facility : FacilityClass) : St unit :=
  do set_clock_to self_time then
  let* goes_to_lunch :=
    update_facility facility (Snorkel_Tour.finish_break instructor_idx self_time) in
  if goes_to_lunch then
    let current_minutes := hour self_time * 60 + minute self_time in
    let lunch_end := 14 * 60 in
    let remaining_lunch_time := lunch_end - current_minutes in
    when (0 <? remaining_lunch_time)
      (schedule (self_time + minutes remaining_lunch_time)
         (InstructorLunchEndEvent instructor_idx facility))
  else try_start_facility facility self_time.

Definition InstructorLunchEndEvent_handle (self_time : datetime) (instructor_idx : nat)
    (facility : FacilityClass) : St unit :=
  do set_clock_to self_time then
  do modify_facility facility (Snorkel_Tour.finish_lunch instructor_idx) then
  try_start_facility facility self_time.

Definition VisitorDepartureEvent_handle (self_time : datetime) (visitor : Visitor) : St unit :=
  do set_clock_to self_time then
  let* st := visitor_state visitor in
  let '(package, price) := Sampling_Algorithms.get_photo_purchase_decision (rating st) in
  do when (bool_decide (is_Some package))
       (modify (fun s => set_total_revenue (total_revenue s + price) s)) then
  do modify (fun s => set_ratings (ratings s ++ [rating st]) s) then
  modify (fun s => set_visitors_completed (visitors_completed s ++ [visitor]) s).

(** What [EndOfDayEvent.handle] does to each queue. *)
Definition close_day (day_start self_time : datetime) (q : QueueServer) : QueueServer :=
  let q1 :=
    match queue_change_times q with
    | [] =>
        {| server_queue := server_queue q; active_hours := active_hours q;
           waiting_times := waiting_times q;
           total_queue_length_time := total_queue_length_time q;
           queue_lengths := [QueueServer.size q];
           queue_change_times := [day_start];
           daily_avg_queue_lengths := daily_avg_queue_lengths q;
           daily_avg_waiting_times := daily_avg_waiting_times q |}
    | _ :: _ => q
    end in
  QueueServer.calc_daily_statistics (QueueServer.record_queue_length self_time q1).

Definition EndOfDayEvent_handle (self_time : datetime) (park_close_hour park_close_minute : Z)
    : St unit :=
  do set_clock_to self_time then
  let day_start := replace_hm self_time 9 0 in
  do modify (fun s => set_queue_reception (close_day day_start self_time (queue_reception s)) s) then
  do for_each all_facilities (fun c =>
       do modify_facility c (fun f =>
            set_queue_regular (close_day day_start self_time (queue_regular f)) f) then
       modify_facility c (fun f =>
         set_queue_express (close_day day_start self_time (queue_express f)) f)) then
  do for_each all_restaurants (fun c =>
       modify_restaurant c (fun r =>
         Restaurant.set_queue (close_day day_start self_time (queue r)) r)) then
  let next_day_start := replace_hm (self_time + usec_per_day) 9 0 in
  do schedule next_day_start FamilyArrivalEvent then
  do schedule next_day_start SingleGroupArrivalEvent then
  do schedule (next_day_start + minutes 60) TeensGroupArrivalEvent then
  let next_day_end := replace_hm (self_time + usec_per_day) park_close_hour park_close_minute in
  schedule next_day_end (EndOfDayEvent park_close_hour park_close_minute).

End Handlers.

(** [event.handle(simulation)] *)
Definition handle (event : Event) : St unit :=
  match event_class event with
  | FamilyArrivalEvent => Handlers.FamilyArrivalEvent_handle (time event)
  | TeensGroupArrivalEvent => Handlers.TeensGroupArrivalEvent_handle (time event)
  | SingleGroupArrivalEvent => Handlers.SingleGroupArrivalEvent_handle (time event)
  | EndReceptionEvent v clerk => Handlers.EndReceptionEvent_handle (time event) v clerk
  | ArriveAtFacilityEvent v f => Handlers.ArriveAtFacilityEvent_handle (time event) v f
  | EndFacilityEvent v f i => Handlers.EndFacilityEvent_handle (time event) v f i
  | AbandonmentEvent v f => Handlers.AbandonmentEvent_handle (time event) v f
  | ArriveAtRestaurantEvent v r => Handlers.ArriveAtRestaurantEvent_handle (time event) v r
  | EndRestaurantServiceEvent v r st =>
      Handlers.EndRestaurantServiceEvent_handle (time event) v r st
  | EndMealEvent v => Handlers.EndMealEvent_handle (time event) v
  | InstructorBreakEndEvent i f => Handlers.InstructorBreakEndEvent_handle (time event) i f
  | InstructorLunchEndEvent i f => Handlers.InstructorLunchEndEvent_handle (time event) i f
  | VisitorDepartureEvent v => Handlers.VisitorDepartureEvent_handle (time event) v
  | EndOfDayEvent h m => Handlers.EndOfDayEvent_handle (time event) h m
  end.

(** The loop of [Simulation.run]: one event is taken and handled while the
    queue is not empty and the clock is before [end_time]. *)
Fixpoint run_loop (fuel : nat) (s : Simulation) : Simulation :=
  match fuel with
  | O => s
  | S fuel' =>
      if negb (bool_decide (event_queue s = [])) && (clock s <? end_time s) then
        match heapq.heappop (event_queue s) with
        | (Some event, heap') =>
            let s1 := set_event_queue heap' s in
            if end_time s1 <? time event then s1
            else run_loop fuel' (exec (handle event) (set_clock (time event) s1))
        | (None, _) => s
        end
      else s
  end.

Definition run (fuel : nat) (s : Simulation) : Simulation :=
  let first_day_end := replace_hm (clock s) 19 0 in
  let first_day_end :=
    if first_day_end <=? clock s then first_day_end + usec_per_day else first_day_end in
  let s1 := exec (Simulation.schedule first_day_end (EndOfDayEvent 19 0)) s in
  exec Simulation.force_close_park (run_loop fuel s1).

(** ** Vocabulary of the properties *)

(** The waiting time [pop] records for an entry taken out at [t]. *)
Definition wait_of (t : datetime) (e : Visitor * datetime) : Q := minutes_between t (snd e).

(** What a filling loop of [get_next_batch] has done when it is left
    without a batch: the entries [popped] were taken from the front of the
    queue, in order, each with one waiting time and one queue-length
    sample recorded. *)
Record left_spec (t : datetime) (s s' : Pipes_Slide.filling)
    (popped : list (Visitor * datetime)) : Prop := {
  left_queue : server_queue (Pipes_Slide.fq s) = popped ++ server_queue (Pipes_Slide.fq s');
  left_temp : Pipes_Slide.ftemp s' = Pipes_Slide.ftemp s ++ popped;
  left_batch : Pipes_Slide.fbatch s' = Pipes_Slide.fbatch s ++ map fst popped;
  left_size : Pipes_Slide.fbatch_size s'
              = (Pipes_Slide.fbatch_size s + headcount (map fst popped))%nat;
  left_waits : waiting_times (Pipes_Slide.fq s')
               = waiting_times (Pipes_Slide.fq s) ++ map (wait_of t) popped;
  left_lengths : length (queue_lengths (Pipes_Slide.fq s'))
                 = (length (queue_lengths (Pipes_Slide.fq s)) + length popped)%nat }.

(** Why a filling loop was left at [s]: the queue is empty, the batch is
    full, or the group at the head of the queue would overshoot. *)
Definition stopped (tube : nat) (s : Pipes_Slide.filling) : Prop :=
  server_queue (Pipes_Slide.fq s) = []
  ∨ (tube ≤ Pipes_Slide.fbatch_size s)%nat
  ∨ ∃ v, QueueServer.head (Pipes_Slide.fq s) = Some v
         ∧ (tube < Pipes_Slide.fbatch_size s + group_size v)%nat.

(** The contract of [get_next_batch]: nobody enters and both queues
    hold the entries they held, or the batch is made of the groups at the
    front of the express queue followed by the groups at the front of the
    regular queue, its headcount is exactly the tube size, and the regular
    queue is used only when the express queue is empty, or the groups taken
    from it fill the tube already, or its next group would overshoot. *)
Definition exact_or_rollback
    (get_next_batch : datetime → Facility → list Visitor * Facility) : Prop :=
  ∀ t f,
    let batch := fst (get_next_batch t f) in
    let f' := snd (get_next_batch t f) in
    (batch = []
     ∧ server_queue (queue_express f') = server_queue (queue_express f)
     ∧ server_queue (queue_regular f') = server_queue (queue_regular f))
    ∨ (batch ≠ []
       ∧ headcount batch = tube_size f
       ∧ ∃ pe pr,
           batch = pe ++ pr
           ∧ QueueServer.visitors (queue_express f) = pe ++ QueueServer.visitors (queue_express f')
           ∧ QueueServer.visitors (queue_regular f) = pr ++ QueueServer.visitors (queue_regular f')
           ∧ (pr ≠ [] →
              server_queue (queue_express f') = []
              ∨ (tube_size f ≤ headcount pe)%nat
              ∨ ∃ v, QueueServer.head (queue_express f') = Some v
                     ∧ (tube_size f < headcount pe + group_size v)%nat)).

(** When [get_next_batch] has to return a batch: the groups [pe] at the
    front of the express queue and the groups [pr] at the front of the
    regular queue count together exactly the tube size, and the regular
    queue has to be used only because the express queue is used up or its
    next group would overshoot.  The batch is then [pe] followed by [pr],
    and the two queues keep what was behind these groups.  Every group is
    of one person at least. *)
Definition batch_when_reachable
    (get_next_batch : datetime → Facility → list Visitor * Facility) : Prop :=
  ∀ t f pe pr qe qr,
    Forall (fun v => (1 ≤ group_size v)%nat) (pe ++ pr) →
    QueueServer.visitors (queue_express f) = pe ++ qe →
    QueueServer.visitors (queue_regular f) = pr ++ qr →
    headcount (pe ++ pr) = tube_size f →
    (pr ≠ [] →
     qe = [] ∨ ∃ v, head qe = Some v ∧ (tube_size f < headcount pe + group_size v)%nat) →
    let batch := fst (get_next_batch t f) in
    let f' := snd (get_next_batch t f) in
    batch = pe ++ pr
    ∧ QueueServer.visitors (queue_express f') = qe
    ∧ QueueServer.visitors (queue_regular f') = qr.

(** Big Pipes holds groups of sizes 5, 2 and 4, in this order, in its
    regular queue; they arrived at 09:00, 09:01 and 09:02. *)
Definition group_of (i : positive) (size : nat) : Visitor :=
  {| vid := i; kind := TeenGroup; arrival_time := mk_datetime 0 9 0 0;
     group_size := size; num_kids := 0; kids_ages := []; min_age := 14;
     departure_time := 19; parent_family := None |}.

Definition big_pipes_5_2_4 : Facility :=
  Facility.enter_queue false (group_of 3 4) (mk_datetime 0 9 2 0)
    (Facility.enter_queue false (group_of 2 2) (mk_datetime 0 9 1 0)
       (Facility.enter_queue false (group_of 1 5) (mk_datetime 0 9 0 0)
          Big_Pipes_Slide.__init__)).

(** Big Pipes holds groups of sizes 3 and 6 in its express queue and groups
    of sizes 4, 1 and 2 in its regular queue. *)
Definition big_pipes_3_6_and_4_1_2 : Facility :=
  Facility.enter_queue false (group_of 5 2) (mk_datetime 0 9 4 0)
    (Facility.enter_queue false (group_of 4 1) (mk_datetime 0 9 3 0)
       (Facility.enter_queue false (group_of 3 4) (mk_datetime 0 9 2 0)
          (Facility.enter_queue true (group_of 2 6) (mk_datetime 0 9 1 0)
             (Facility.enter_queue true (group_of 1 3) (mk_datetime 0 9 0 0)
                Big_Pipes_Slide.__init__)))).

(** A computation keeps the property [P] of the simulation state. *)
Definition preserves (P : Simulation → Prop) {A} (m : St A) : Prop :=
  ∀ s, P s → P (snd (m s)).

(** A computation leaves the observation [proj] of the state as it is. *)
Definition keeps {X} (proj : Simulation → X) {A} (m : St A) : Prop :=
  ∀ s, proj (snd (m s)) = proj s.

(** A computation leaves every facility object as it is. *)
Definition frame {A} (m : St A) : Prop := keeps facilities m.

(** An observation that looks only at the visitor store and the facilities:
    it ignores the random position, the event heap, the clock, the
    reception, the restaurants and the counters. *)
Record ignores_bookkeeping {X} (proj : Simulation → X) : Prop := {
  ign_n_random : ∀ x s, proj (set_n_random x s) = proj s;
  ign_n_events : ∀ x s, proj (set_n_events x s) = proj s;
  ign_next_vid : ∀ x s, proj (set_next_vid x s) = proj s;
  ign_reception : ∀ x s, proj (set_reception x s) = proj s;
  ign_restaurants : ∀ x s, proj (set_restaurants x s) = proj s;
  ign_event_queue : ∀ x s, proj (set_event_queue x s) = proj s;
  ign_clock : ∀ x s, proj (set_clock x s) = proj s;
  ign_queue_reception : ∀ x s, proj (set_queue_reception x s) = proj s;
  ign_total_people_arrived : ∀ x s, proj (set_total_people_arrived x s) = proj s;
  ign_total_entities_arrived : ∀ x s, proj (set_total_entities_arrived x s) = proj s;
  ign_total_people_completed : ∀ x s, proj (set_total_people_completed x s) = proj s;
  ign_total_entities_completed : ∀ x s, proj (set_total_entities_completed x s) = proj s;
  ign_total_people_entered : ∀ x s, proj (set_total_people_entered x s) = proj s;
  ign_total_entities_entered : ∀ x s, proj (set_total_entities_entered x s) = proj s;
  ign_total_revenue : ∀ x s, proj (set_total_revenue x s) = proj s;
  ign_ratings : ∀ x s, proj (set_ratings x s) = proj s;
  ign_visitors_completed : ∀ x s, proj (set_visitors_completed x s) = proj s }.

(** ** What handling an event does to a facility

    The steps of a facility [c] while an event is handled at time [t]: the
    facility methods and queue operations the handlers and
    [try_start_facility] call, each with the condition under which the code
    calls it. *)
Inductive fac_step (t : datetime) (c : FacilityClass) : Facility → Facility → Prop :=
  | step_enter_queue express v f :
      fac_step t c f (Facility.enter_queue express v t f)
  | step_remove express v f :
      fac_step t c f (Facility.remove express v t f)
  | step_close_regular day_start f :
      fac_step t c f (set_queue_regular (Handlers.close_day day_start t (queue_regular f)) f)
  | step_close_express day_start f :
      fac_step t c f (set_queue_express (Handlers.close_day day_start t (queue_express f)) f)
  | step_leave_service v f :
      fac_step t c f (Facility.leave_service v f)
  | step_finish_tour i f :
      c = Snorkel_Tour → fac_step t c f (Snorkel_Tour.finish_tour i t f)
  | step_finish_break i f :
      fac_step t c f (snd (Snorkel_Tour.finish_break i t f))
  | step_finish_lunch i f :
      fac_step t c f (Snorkel_Tour.finish_lunch i f)
  | step_release_tubes σ v f :
      c = Pipes_River → fac_step t c f (Pipes_River.release_tubes σ v f)
  | step_process_entry σ f :
      c = Pipes_River → fac_step t c f (snd (fst (Pipes_River.process_entry t σ f)))
  | step_river_append v f :
      c = Pipes_River → fac_step t c f (Facility.append_in_service v f)
  | step_slide_pop express f :
      c = Single_Slide → fac_step t c f (snd (Facility.pop express t f))
  | step_slide_record i f :
      c = Single_Slide → fac_step t c f (Single_Slide.record_entry i t f)
  | step_slide_append v f :
      c = Single_Slide → fac_step t c f (Facility.append_in_service v f)
  | step_start_batch f :
      c = Big_Pipes_Slide ∨ c = Small_Pipes_Slide →
      fac_step t c f (snd (Pipes_Slide.start_batch t f))
  | step_scan express f :
      c = Waves_Pool ∨ c = Kids_Pool →
      fac_step t c f (snd (Pool.scan express t f))
  | step_fill_tour fuel f :
      c = Snorkel_Tour → Snorkel_Tour.restricted t = false →
      fac_step t c f (snd (Snorkel_Tour.fill_tour fuel t f [] 0))
  | step_start_tour i d f :
      c = Snorkel_Tour → Snorkel_Tour.restricted t = false →
      fac_step t c f (Snorkel_Tour.start_tour i t d f)
  | step_tour_append v f :
      c = Snorkel_Tour → Snorkel_Tour.restricted t = false →
      fac_step t c f (Facility.append_in_service v f).

(** Every facility has moved from [F0] by such steps. *)
Definition stepped (t : datetime) (F0 : FacilityClass → Facility) (s : Simulation) : Prop :=
  ∀ c, rtc (fac_step t c) (F0 c) (facilities s c).

(** ** Reachable states *)

(** A park before the first event: nobody in service, no tube occupied
    (whatever the capacities, so that the alternatives that change
    [capacity] or [tube_size] before [run] are covered). *)
Definition nobody_in_service (s : Simulation) : Prop :=
  ∀ c, users_in_service (facilities s c) = [] ∧ occupied_tubes (facilities s c) = 0.

(** The states [run] goes through, and more: events are pushed, the heap and
    the clock change, any event is handled, the park is force-closed. *)
Inductive reachable : Simulation → Prop :=
  | reachable_start s : nobody_in_service s → reachable s
  | reachable_schedule t c s : reachable s → reachable (exec (Simulation.schedule t c) s)
  | reachable_pop t heap s : reachable s → reachable (set_clock t (set_event_queue heap s))
  | reachable_handle event s : reachable s → reachable (exec (handle event) s)
  | reachable_force_close s : reachable s → reachable (exec Simulation.force_close_park s).

(** The capacity invariant of a facility of class [c]. *)
Definition within_capacity (c : FacilityClass) (f : Facility) : Prop :=
  match c with
  | Waves_Pool | Kids_Pool => (headcount (users_in_service f) ≤ capacity f)%nat
  | Big_Pipes_Slide | Small_Pipes_Slide => (headcount (users_in_service f) ≤ tube_size f)%nat
  | Pipes_River => 0 <= occupied_tubes f <= Pipes_River.total_tubes
  | Single_Slide | Snorkel_Tour => True
  end.

(** No tour has started between [f] and [f']: nobody new is in service and
    no instructor has gone on tour. *)
Definition no_tour_started (f f' : Facility) : Prop :=
  sublist (users_in_service f') (users_in_service f)
  ∧ ∀ i st', instructor_states f' !! i = Some st' → on_tour st' = true →
             ∃ st, instructor_states f !! i = Some st ∧ on_tour st = true.

(** The time of day is in the window 12:20 - 14:00 where no tour may start. *)
Definition in_lunch_window (t : datetime) : Prop :=
  mk_datetime 0 12 20 0 <= time_of_day t < mk_datetime 0 14 0 0.

(** The tube count of Pipes River is within bounds in a state of
    [process_entry]. *)
Definition tubes_ok (st : Pipes_River.state) : Prop :=
  0 <= occupied_tubes (snd (fst st)) <= Pipes_River.total_tubes.

(** The people in service at the facility [c]. *)
Definition in_service (c : FacilityClass) (s : Simulation) : list Visitor :=
  users_in_service (facilities s c).

(** ** Example runs

    An environment for the examples: every [random.random()] returns 1/2;
    the examples use no sampler that calls [math]. *)
Definition example_env : Env :=
  {| random_stream := fun _ => 1 # 2;
     math_log := fun _ => 0%Q; math_sqrt := fun _ => 0%Q; math_cos := fun _ => 0%Q;
     math_pi := 3;
     address := Z.of_nat; rejection_fuel := 10 |}.

Definition example_park : Simulation := Simulation.__init__ example_env (mk_datetime 0 9 0 0).

(** Two odd groups, of 3 and of 5, reach Pipes River at 10:00 and ride
    together on 4 tubes; both rides end at 10:25, and the end of the ride of
    the group of 3 is handled first. *)
Definition river_paired : Simulation :=
  exec (Handlers.ArriveAtFacilityEvent_handle (mk_datetime 0 10 0 0) (group_of 2 5) Pipes_River)
    (exec (Handlers.ArriveAtFacilityEvent_handle (mk_datetime 0 10 0 0) (group_of 1 3) Pipes_River)
       example_park).

Definition river_first_out : Simulation :=
  exec (Handlers.EndFacilityEvent_handle (mk_datetime 0 10 25 0) (group_of 1 3) Pipes_River None)
    river_paired.

Definition river_second_out : Simulation :=
  exec (Handlers.EndFacilityEvent_handle (mk_datetime 0 10 25 0) (group_of 2 5) Pipes_River None)
    river_first_out.

(** A visitor reaches a facility at [t]. *)
Definition arrive (t : datetime) (v : Visitor) (c : FacilityClass) (s : Simulation) : Simulation :=
  exec (handle {| time := t; id := 0; event_class := ArriveAtFacilityEvent v c |}) s.

(** Five groups of six reach the Snorkel Tour at 13:45, inside the lunch
    window, and wait; a sixth group comes at 14:00 and a tour of 30 leaves
    with the first instructor; a seventh comes at 14:01 and a tour of 12
    leaves with the second instructor.  (A teen group gives up waiting after
    20 minutes: none does before 14:05.) *)
Definition snorkel_queue_at_lunch : Simulation :=
  arrive (mk_datetime 0 13 45 0) (group_of 5 6) Snorkel_Tour
    (arrive (mk_datetime 0 13 45 0) (group_of 4 6) Snorkel_Tour
       (arrive (mk_datetime 0 13 45 0) (group_of 3 6) Snorkel_Tour
          (arrive (mk_datetime 0 13 45 0) (group_of 2 6) Snorkel_Tour
             (arrive (mk_datetime 0 13 45 0) (group_of 1 6) Snorkel_Tour example_park)))).

Definition snorkel_first_tour : Simulation :=
  arrive (mk_datetime 0 14 0 0) (group_of 6 6) Snorkel_Tour snorkel_queue_at_lunch.

Definition snorkel_two_tours : Simulation :=
  arrive (mk_datetime 0 14 1 0) (group_of 7 6) Snorkel_Tour snorkel_first_tour.

(** Single visitors reach the Single Slide two by two, every 30 seconds
    from 10:00:00 to 10:01:30. *)
Definition single (i : positive) : Visitor :=
  {| vid := i; kind := SingleVisitor; arrival_time := mk_datetime 0 9 0 0;
     group_size := 1; num_kids := 0; kids_ages := []; min_age := 30;
     departure_time := 19; parent_family := None |}.

Definition slide_eight_riders : Simulation :=
  arrive (mk_datetime 0 10 1 30) (single 8) Single_Slide
    (arrive (mk_datetime 0 10 1 30) (single 7) Single_Slide
       (arrive (mk_datetime 0 10 1 0) (single 6) Single_Slide
          (arrive (mk_datetime 0 10 1 0) (single 5) Single_Slide
             (arrive (mk_datetime 0 10 0 30) (single 4) Single_Slide
                (arrive (mk_datetime 0 10 0 30) (single 3) Single_Slide
                   (arrive (mk_datetime 0 10 0 0) (single 2) Single_Slide
                      (arrive (mk_datetime 0 10 0 0) (single 1) Single_Slide
                         example_park))))))).

(** The first event a run takes from the heap. *)
Definition first_event (s : Simulation) : option EventClass :=
  event_class <$> fst (heapq.heappop (event_queue s)).

(** *** Complete runs

    The library functions by table: their values, to seven decimals, at the
    points the samplers ask for when every draw is 1/16 or 15/16, that is
    [log u] and [log (1 - u)], [sqrt u], [sqrt (-2 log u)], [sqrt (3u/8)]
    and [sqrt (3(1-u)/8)], and [cos (2 pi u)]. *)
Definition tabulated (table : list (Q * Q)) (x : Q) : Q :=
  match List.find (fun entry => Qeq_bool (fst entry) x) table with
  | Some entry => snd entry
  | None => 0%Q
  end.

Definition float_pi : Q := 3141592653589793 # 1000000000000000.

Definition log_table : list (Q * Q) :=
  [(1 # 16, (-27725887) # 10000000); (15 # 16, (-645385) # 10000000)].

Definition sqrt_table : list (Q * Q) :=
  [(1 # 16, 1 # 4); (15 # 16, 9682458 # 10000000);
   (55451774 # 10000000, 23548200 # 10000000); (1290770 # 10000000, 3592729 # 10000000);
   (3 # 128, 1530931 # 10000000); (45 # 128, 5929271 # 10000000)].

Definition cos_table : list (Q * Q) :=
  [(fmul (fmul 2 float_pi) (1 # 16), 9238795 # 10000000);
   (fmul (fmul 2 float_pi) (15 # 16), 9238795 # 10000000)].

Definition env_tabulated (draws : nat → Q) (addresses : nat → Z) : Env :=
  {| random_stream := draws;
     math_log := tabulated log_table; math_sqrt := tabulated sqrt_table;
     math_cos := tabulated cos_table; math_pi := float_pi;
     address := addresses; rejection_fuel := 10 |}.

(** The draws 1/16, 15/16, 1/16, ... and the draws that are all 1/16. *)
Definition alternating (n : nat) : Q := if Nat.even n then 1 # 16 else 15 # 16.
Definition all_low (n : nat) : Q := 1 # 16.

(** The interpreter hands out increasing addresses, or decreasing ones: a
    later object gets a smaller [id]. *)
Definition ascending (n : nat) : Z := Z.of_nat n.
Definition descending (n : nat) : Z := - Z.of_nat n.

(** [Simulation(start).run()] for a park that opens at 18:40.  Such a day
    has three arrivals: a family and a single visitor at 18:40 and a teen
    group at 19:40 are each the last of their kind (families come until
    12:00, teen groups until 16:00, single visitors until 18:30).  The run
    ends at 04:40. *)
Definition evening_run (e : Env) (fuel : nat) : Simulation :=
  run fuel (Simulation.__init__ e (mk_datetime 0 18 40 0)).

(** A park that opens at 03:01, so that its run ends at 13:01, in which the
    only visitor is a single visitor who is with the clerk until 12:57. *)
Definition lunch_time_park : Simulation :=
  exec (Simulation.schedule (mk_datetime 0 12 57 0) (EndReceptionEvent (single 1) 0))
    (set_event_queue [] (Simulation.__init__ example_env (mk_datetime 0 3 1 0))).

(** A family of four (kids of 5 and 13) has split in two subgroups.  The
    subgroup of the parent with the younger kid stands in the regular queue
    of Pipes River with every facility its age allows in its visited list
    (Pipes River included), so that the router has nothing left for it: the
    state in which the exit branch of [AbandonmentEvent.handle] runs. *)
Definition family_of_four : Visitor :=
  {| vid := 1; kind := Family; arrival_time := mk_datetime 0 9 0 0;
     group_size := 4; num_kids := 2; kids_ages := [5%Q; 13%Q]; min_age := 0;
     departure_time := 18; parent_family := None |}.

Definition subgroup_young : Visitor :=
  {| vid := 2; kind := SubGroup; arrival_time := mk_datetime 0 9 0 0;
     group_size := 2; num_kids := 0; kids_ages := []; min_age := 5;
     departure_time := 18; parent_family := Some family_of_four |}.

Definition subgroup_waiting : Simulation :=
  let σ :=
    <[vid subgroup_young :=
        set_visited_facilities [Pipes_River; Big_Pipes_Slide; Kids_Pool] VState_init]>
      (<[vid family_of_four := set_split true [subgroup_young] 2 VState_init]> ∅) in
  exec (modify_facility Pipes_River
          (Facility.enter_queue false subgroup_young (mk_datetime 0 11 0 0)))
    (set_store σ example_park).

(** The number of active subgroups recorded on the visitor object [w]. *)
Definition active_count (w : Visitor) (s : Simulation) : Z :=
  active_subgroups_count (get (store s) w).

(** Nobody rides or waits at any facility. *)
Definition facilities_empty (s : Simulation) : Prop :=
  ∀ c, users_in_service (facilities s c) = []
       ∧ server_queue (queue_regular (facilities s c)) = []
       ∧ server_queue (queue_express (facilities s c)) = [].

(** An environment for a low first draw: the run draws 1/4096 and then 1/2,
    and the library functions have, at the points that [sample_normal] then
    asks for, the values they return as floats:
    [math.pi = 884279719003555 / 2^48 = 3.141592653589793],
    [math.log(1/4096) = -4682486076124019 / 2^49 = -8.317766166719343],
    [math.sqrt(16.635532333438686) = 4592171876966243 / 2^50
    = 4.078667960675236] and [math.cos(math.pi) = -1.0]. *)
Definition env_low_draw : Env :=
  {| random_stream := fun n => match n with O => 1 # 4096 | S _ => 1 # 2 end;
     math_log := fun x =>
       if Qeq_bool x (1 # 4096) then (-4682486076124019) # 562949953421312 else 0%Q;
     math_sqrt := fun x =>
       if Qeq_bool x (4682486076124019 # 281474976710656)
       then 4592171876966243 # 1125899906842624 else 0%Q;
     math_cos := fun x =>
       if Qeq_bool x (884279719003555 # 281474976710656) then (-1)%Q else 0%Q;
     math_pi := 884279719003555 # 281474976710656;
     address := Z.of_nat; rejection_fuel := 10 |}.

(** Groups of 5 and of 3 reach the Big Pipes Slide at 10:00 and slide
    together. *)
Definition big_pipes_batch : Simulation :=
  arrive (mk_datetime 0 10 0 0) (group_of 2 3) Big_Pipes_Slide
    (arrive (mk_datetime 0 10 0 0) (group_of 1 5) Big_Pipes_Slide
       (Simulation.__init__ env_low_draw (mk_datetime 0 9 0 0))).

(** The events on the heap that end a service at the facility [c]. *)
Definition end_of_service_events (c : FacilityClass) (s : Simulation) : list Event :=
  List.filter (fun e => match event_class e with
                        | EndFacilityEvent _ c' _ => FacilityClass_eqb c' c
                        | _ => false
                        end) (event_queue s).

(** A queue that is open from 09:00 to 19:00 and that nobody has joined. *)
Definition idle_queue : QueueServer :=
  QueueServer.set_active_hours (9, 0) (19, 0) QueueServer.__init__.

(** The number of entries waiting at the facility of class [c]. *)
Definition waiting (c : FacilityClass) (s : Simulation) : nat :=
  Facility.queued (facilities s c).

(** ** Further vocabulary

    Sequences of queue operations. *)

(** [for visitor, arrival in l: queue.add(visitor, arrival)] *)
Definition add_all (l : list (Visitor * datetime)) (q : QueueServer) : QueueServer :=
  fold_left (fun q e => QueueServer.add (fst e) (snd e) q) l q.

(** Up to [n] calls of [queue.pop(t)], until the queue is empty: the
    entries returned, in the order of the calls, and the queue left. *)
Fixpoint pop_many (n : nat) (t : option datetime) (q : QueueServer)
    : list (Visitor * datetime) * QueueServer :=
  match n with
  | O => ([], q)
  | S n' =>
      match QueueServer.pop t q with
      | (Some e, q') => let '(l, q'') := pop_many n' t q' in (e :: l, q'')
      | (None, q') => ([], q')
      end
  end.

(** The visitor has an entry in the list. *)
Definition queued_in (v : Visitor) (l : list (Visitor * datetime)) : bool :=
  existsb (fun e => same (fst e) v) l.

(** The area under the recorded queue-length curve, summed as
    [record_queue_length] sums it: starting from [acc], for each recorded
    change after the first, in their order, the sample taken at the change
    before times the hours between the two changes is added to the total. *)
Fixpoint area_under (acc : Q) (lens : list Z) (times : list datetime) : Q :=
  match lens, times with
  | len :: lens', t1 :: times' =>
      match times' with
      | t2 :: _ =>
          area_under (fadd acc (fmul (of_int len) (hours_between t2 t1))) lens' times'
      | [] => acc
      end
  | _, _ => acc
  end.

(** Every change time has its sample after the initial one, and the running
    total is the area under the samples recorded so far, summed from 0 in
    the order of the changes. *)
Definition area_accounted (q : QueueServer) : Prop :=
  length (queue_lengths q) = S (length (queue_change_times q))
  ∧ total_queue_length_time q = area_under 0 (tl (queue_lengths q)) (queue_change_times q).

(** A queue that single visitors joined at 09:00, at 09:15 and at 09:45,
    and whose first visitor was served at 10:30. *)
Definition busy_queue : QueueServer :=
  snd (QueueServer.pop (Some (mk_datetime 0 10 30 0))
         (QueueServer.add (single 3) (mk_datetime 0 9 45 0)
            (QueueServer.add (single 2) (mk_datetime 0 9 15 0)
               (QueueServer.add (single 1) (mk_datetime 0 9 0 0) QueueServer.__init__)))).

(** The identities of the visitors waiting at a facility, express queue
    first. *)
Definition waiting_ids (f : Facility) : list positive :=
  map vid (QueueServer.visitors (queue_express f))
  ++ map vid (QueueServer.visitors (queue_regular f)).

(** What one pass of the loop of [process_entry] does: a group of even
    size enters alone, two groups of odd size enter together, or the loop
    is left with nobody entering and nobody lost. *)
Inductive river_pass (σ : Store) (f : Facility) (l : list Visitor)
    : loop Pipes_River.state → Prop :=
  | pass_even g σ' f' :
      Pipes_River.is_even g = true →
      occupied_tubes f' = occupied_tubes f + Z.of_nat (group_size g / Pipes_River.people_per_tube) →
      waiting_ids f ≡ₚ vid g :: waiting_ids f' →
      river_pass σ f l (Continue (σ', f', l ++ [g]))
  | pass_pair g1 g2 σ' f' :
      Pipes_River.is_odd g1 = true → Pipes_River.is_odd g2 = true →
      occupied_tubes f' = occupied_tubes f + Pipes_River.pair_tubes g1 g2 →
      waiting_ids f ≡ₚ vid g1 :: vid g2 :: waiting_ids f' →
      river_pass σ f l (Continue (σ', f', l ++ [g1; g2]))
  | pass_break f' :
      occupied_tubes f' = occupied_tubes f →
      waiting_ids f ≡ₚ waiting_ids f' →
      river_pass σ f l (Break (σ, f', l)).

(** The slides of the Single Slide whose safety interval is over at [t]. *)
Definition free_slides (t : datetime) (f : Facility) : nat :=
  length (List.filter (Single_Slide.cooled_down t)
            (take Single_Slide.num_slides (last_entry_times f))).

(** At [t] every slide is at least a second away from the end of its safety
    interval.  The entry times are whole seconds, so that a slide is not in
    this state only at the very end of the interval, 30 seconds after an
    entry, where the test of the code depends on the rounding of its float
    subtraction. *)
Definition off_the_interval_end (t : datetime) (f : Facility) : Prop :=
  Forall (fun last_time =>
            let waited := fsub (Single_Slide.current_minutes t) last_time in
            (waited <= 29 # 60)%Q ∨ (31 # 60 <= waited)%Q)
         (take Single_Slide.num_slides (last_entry_times f)).

(** Single visitors reach the Single Slide at 10:00:00, 10:00:10, 10:00:20
    and 10:00:25: the first two ride, the others wait for a slide. *)
Definition slide_two_waiting : Simulation :=
  arrive (mk_datetime 0 10 0 25) (single 4) Single_Slide
    (arrive (mk_datetime 0 10 0 20) (single 3) Single_Slide
       (arrive (mk_datetime 0 10 0 10) (single 2) Single_Slide
          (arrive (mk_datetime 0 10 0 0) (single 1) Single_Slide example_park))).

(** ** Vocabulary for [force_close_park] *)

(** The price of the photo package a visitor buys on the way out. *)
Definition photo_price (σ : Store) (v : Visitor) : Z :=
  snd (Sampling_Algorithms.get_photo_purchase_decision (rating (get σ v))).

Definition photo_revenue (σ : Store) (l : list Visitor) : Z :=
  foldr (fun v total => photo_price σ v + total) 0 l.

(** The visitors at a facility, in the order in which [force_close_park]
    goes through them: in service, regular queue, express queue. *)
Definition at_facility (f : Facility) : list Visitor :=
  users_in_service f ++ QueueServer.visitors (queue_regular f)
  ++ QueueServer.visitors (queue_express f).

Definition in_facilities (s : Simulation) : list Visitor :=
  flat_map (fun c => at_facility (facilities s c)) all_facilities.

(** Between [s] and [s'] the visitors [added] have been booked as
    completed, in this order, and nothing else has happened to the
    counters, the facilities and the visitor objects. *)
Definition booked (added : list Visitor) (s s' : Simulation) : Prop :=
  visitors_completed s' = visitors_completed s ++ added
  ∧ ratings s' = ratings s ++ map (fun v => rating (get (store s) v)) added
  ∧ total_entities_completed s' = total_entities_completed s + Z.of_nat (length added)
  ∧ total_people_completed s' = total_people_completed s + Z.of_nat (headcount added)
  ∧ total_revenue s' = total_revenue s + photo_revenue (store s) added
  ∧ facilities s' = facilities s
  ∧ store s' = store s.

(** [added] are the visitors of [pool] who were not completed in [s], each
    once; they have been booked between [s] and [s'], after which everybody
    in [pool] is completed. *)
Definition closes (pool added : list Visitor) (s s' : Simulation) : Prop :=
  booked added s s'
  ∧ NoDup (map vid added)
  ∧ (∀ v, v ∈ added → is_in v (visitors_completed s) = false ∧ v ∈ pool)
  ∧ (∀ v, v ∈ pool → is_in v (visitors_completed s') = true).

(** A family of five: two parents and kids of 5, 13 and 9 years. *)
Definition family_of_five : Visitor :=
  {| vid := 50; kind := Family; arrival_time := mk_datetime 0 9 0 0;
     group_size := 5; num_kids := 3; kids_ages := [5%Q; 13%Q; 9%Q]; min_age := 0;
     departure_time := 18; parent_family := None |}.

(** The facilities have the age limits, adrenalin levels and names that
    [Simulation.__init__] gives them. *)
Definition standard_parameters (s : Simulation) : Prop :=
  ∀ c, age_limit (facilities s c) = age_limit (Simulation.initial_facility c)
       ∧ adrenalin_level (facilities s c) = adrenalin_level (Simulation.initial_facility c)
       ∧ name (facilities s c) = name (Simulation.initial_facility c).

(** A group of four teenagers who have been everywhere but in the Kids
    Pool. *)
Definition teens_after_six_rides : Simulation :=
  set_store
    (<[vid (group_of 1 4) :=
         set_visited_facilities
           [Pipes_River; Single_Slide; Big_Pipes_Slide; Small_Pipes_Slide; Waves_Pool;
            Snorkel_Tour] VState_init]> ∅)
    example_park.

(** Between [s] and [s'] events of the classes [cs] have been pushed on
    the event queue, and no other. *)
Definition adds_events (cs : list EventClass) (s s' : Simulation) : Prop :=
  ∃ es, event_queue s' ≡ₚ es ++ event_queue s ∧ map event_class es = cs.

(** The event is the end of somebody's stay at a facility. *)
Definition is_end_of_service (e : Event) : Prop :=
  match event_class e with
  | EndFacilityEvent _ _ _ => True
  | _ => False
  end.

(** Since [s0] only ends of service have been put on the event queue. *)
Definition services_added (s0 s : Simulation) : Prop :=
  ∃ es, event_queue s ≡ₚ es ++ event_queue s0 ∧ Forall is_end_of_service es.

(** * Part II: properties *)

(** ** Queue statistics *)

Lemma Qred_zero_div (a b : Q) : (a == 0)%Q → Qred (a / b) = 0%Q.
Proof.
  intros Ha. rewrite (Qred_complete (a / b) 0); [reflexivity|].
  rewrite Ha. unfold Qdiv. ring.
Qed.

(** C9. A queue without traffic during the day (no waiting time recorded,
    no area under the queue-length curve) gets 0 appended as the day's
    average length and 0 as the day's average wait, and its daily counters
    are back to the values [__init__] gives them; the entries waiting in the
    queue and the active hours are untouched. *)
Theorem calc_daily_statistics_no_traffic (q : QueueServer) :
  waiting_times q = [] →
  (total_queue_length_time q == 0)%Q →
  let q' := QueueServer.calc_daily_statistics q in
  daily_avg_queue_lengths q' = daily_avg_queue_lengths q ++ [0%Q]
  ∧ daily_avg_waiting_times q' = daily_avg_waiting_times q ++ [0%Q]
  ∧ total_queue_length_time q' = total_queue_length_time QueueServer.__init__
  ∧ queue_change_times q' = queue_change_times QueueServer.__init__
  ∧ queue_lengths q' = queue_lengths QueueServer.__init__
  ∧ waiting_times q' = waiting_times QueueServer.__init__
  ∧ server_queue q' = server_queue q
  ∧ active_hours q' = active_hours q.
Proof.
  intros Hw Ha q'. subst q'. unfold QueueServer.calc_daily_statistics; simpl.
  rewrite Hw. repeat split.
  f_equal. destruct (Qlt_bool 0 (active_hours q)); [|reflexivity].
  unfold fdiv. by rewrite Qred_zero_div.
Qed.

Lemma calc_daily_statistics_no_traffic_witness :
  waiting_times idle_queue = []
  ∧ (total_queue_length_time idle_queue == 0)%Q
  ∧ daily_avg_queue_lengths (QueueServer.calc_daily_statistics idle_queue) = [0%Q]
  ∧ daily_avg_waiting_times (QueueServer.calc_daily_statistics idle_queue) = [0%Q]
  ∧ waiting_times (QueueServer.calc_daily_statistics idle_queue) = [].
Proof.
  assert (H1 : waiting_times idle_queue = []) by reflexivity.
  assert (H2 : (total_queue_length_time idle_queue == 0)%Q) by reflexivity.
  split; [exact H1|]. split; [exact H2|].
  destruct (calc_daily_statistics_no_traffic idle_queue H1 H2) as (H3 & H4 & _ & _ & _ & H5 & _).
  split; [exact H3|]. split; [exact H4|exact H5].
Defined.

(** ** Batches of the Big and Small Pipes Slides *)

Section fill.
Context (tube : nat) (t : datetime).

Lemma rollback_server_queue temp q :
  server_queue (Pipes_Slide.rollback temp q) = temp ++ server_queue q.
Proof.
  unfold Pipes_Slide.rollback. rewrite <- (rev_involutive temp) at 2.
  generalize (rev temp) as l. clear temp. intros l. revert q.
  induction l as [|[v t0] l IH]; intros q; simpl; [reflexivity|].
  rewrite IH. simpl. unfold QueueServer.list_insert. simpl.
  by rewrite <- app_assoc.
Qed.

Lemma rollback_waiting_times temp q :
  waiting_times (Pipes_Slide.rollback temp q) = waiting_times q.
Proof.
  unfold Pipes_Slide.rollback. generalize (rev temp) as l. intros l. revert q.
  induction l as [|[v t0] l IH]; intros q; simpl; [reflexivity|].
  by rewrite IH.
Qed.

Lemma rollback_queue_lengths temp q :
  length (queue_lengths (Pipes_Slide.rollback temp q))
  = (length (queue_lengths q) + length temp)%nat.
Proof.
  unfold Pipes_Slide.rollback. rewrite <- (length_rev temp).
  generalize (rev temp) as l. intros l. revert q.
  induction l as [|[v t0] l IH]; intros q; simpl; [lia|].
  rewrite IH. simpl. rewrite length_app. simpl. lia.
Qed.

Lemma headcount_app l1 l2 : headcount (l1 ++ l2) = (headcount l1 + headcount l2)%nat.
Proof. unfold headcount. apply sum_list_with_app. Qed.

Lemma headcount_cons v l : headcount (v :: l) = (group_size v + headcount l)%nat.
Proof. reflexivity. Qed.

Lemma fill_left fuel s s' :
  Pipes_Slide.fill fuel tube t s = Pipes_Slide.Left s' →
  ∃ popped, left_spec t s s' popped.
Proof.
  revert s. induction fuel as [|fuel IH]; intros s; simpl.
  - intros [= <-]. exists []. split; simpl; rewrite ?app_nil_r; auto with lia.
  - destruct (QueueServer.nonempty _ && _) eqn:Hc;
      [|intros [= <-]; exists []; split; simpl; rewrite ?app_nil_r; auto with lia].
    unfold QueueServer.head, QueueServer.visitors, QueueServer.pop.
    destruct (server_queue (Pipes_Slide.fq s)) as [|[v t0] rest] eqn:Hq; simpl;
      [intros [= <-]; exists []; split; simpl; rewrite ?app_nil_r, ?Hq; auto with lia|].
    destruct (_ <=? tube)%nat;
      [|intros [= <-]; exists []; split; simpl; rewrite ?app_nil_r, ?Hq; auto with lia].
    destruct (_ =? tube)%nat; [discriminate|].
    intros H. apply IH in H as [popped [H1 H2 H3 H4 H5 H6]]. simpl in *.
    exists ((v, t0) :: popped). split; simpl.
    + by rewrite Hq, H1.
    + by rewrite H2, <- app_assoc.
    + by rewrite H3, <- app_assoc.
    + rewrite H4. unfold headcount; simpl. lia.
    + by rewrite H5, <- app_assoc.
    + rewrite H6, length_app. simpl. lia.
Qed.

Lemma fill_returned fuel s batch q' :
  Pipes_Slide.fill fuel tube t s = Pipes_Slide.Returned batch q' →
  ∃ popped, popped ≠ []
    ∧ server_queue (Pipes_Slide.fq s) = popped ++ server_queue q'
    ∧ batch = Pipes_Slide.fbatch s ++ map fst popped
    ∧ (Pipes_Slide.fbatch_size s + headcount (map fst popped))%nat = tube.
Proof.
  revert s. induction fuel as [|fuel IH]; intros s; simpl; [discriminate|].
  destruct (QueueServer.nonempty _ && _); [|discriminate].
  unfold QueueServer.head, QueueServer.visitors, QueueServer.pop.
  destruct (server_queue (Pipes_Slide.fq s)) as [|[v t0] rest] eqn:Hq; simpl; [discriminate|].
  destruct (_ <=? tube)%nat; [|discriminate].
  destruct (_ =? tube)%nat eqn:He.
  - intros [= <- <-]. exists [(v, t0)]. simpl. apply Nat.eqb_eq in He.
    repeat split; try done. unfold headcount; simpl. lia.
  - intros H. apply IH in H as (popped & _ & H1 & H2 & H3). simpl in *.
    exists ((v, t0) :: popped). repeat split; try done.
    + by rewrite H1.
    + by rewrite H2, <- app_assoc.
    + unfold headcount in *; simpl. lia.
Qed.

End fill.

Lemma fill_left_stopped tube t fuel s s' :
  (length (server_queue (Pipes_Slide.fq s)) ≤ fuel)%nat →
  Pipes_Slide.fill fuel tube t s = Pipes_Slide.Left s' →
  stopped tube s'.
Proof.
  revert s. induction fuel as [|fuel IH]; intros s Hf; simpl.
  - intros [= <-]. left. destruct (server_queue _); [done|simpl in Hf; lia].
  - unfold QueueServer.nonempty, QueueServer.size.
    destruct (server_queue (Pipes_Slide.fq s)) as [|[v t0] rest] eqn:Hq.
    { simpl. intros [= <-]. by left. }
    replace (0 <? Z.of_nat (length ((v, t0) :: rest))) with true
      by (symmetry; apply Z.ltb_lt; simpl; lia).
    simpl. destruct (_ <? tube)%nat eqn:Hlt.
    2:{ intros [= <-]. right; left. apply Nat.ltb_ge in Hlt. lia. }
    unfold QueueServer.head, QueueServer.visitors, QueueServer.pop. rewrite Hq. simpl.
    destruct (_ <=? tube)%nat eqn:Hle.
    2:{ intros [= <-]. right; right. exists v. split.
        - unfold QueueServer.head, QueueServer.visitors. by rewrite Hq.
        - apply Nat.leb_gt in Hle. lia. }
    destruct (_ =? tube)%nat; [discriminate|].
    apply IH. simpl in *. lia.
Qed.

Lemma visitors_app (l1 l2 : list (Visitor * datetime)) :
  map fst (l1 ++ l2) = map fst l1 ++ map fst l2.
Proof. apply map_app. Qed.

Lemma get_next_batch_contract : exact_or_rollback Pipes_Slide.get_next_batch.
Proof.
  intros t f. unfold Pipes_Slide.get_next_batch.
  destruct (_ <? tube_size f)%nat; [left; by simpl|].
  destruct (Pipes_Slide.fill _ _ _ _) as [batch qe|s1] eqn:H1.
  { apply fill_returned in H1 as (pe & Hne & Hq & Hb & Hs). simpl in *.
    right. repeat split.
    - subst batch. destruct pe; [done|discriminate].
    - subst batch. exact Hs.
    - exists batch, []. rewrite app_nil_r. repeat split; try done.
      unfold QueueServer.visitors. rewrite Hq, visitors_app. by subst batch. }
  destruct (Pipes_Slide.fill _ _ _ {| Pipes_Slide.fq := queue_regular f |})
    as [batch qr|s2] eqn:H2.
  { pose proof (fill_left_stopped _ _ _ _ _ (Nat.le_refl _) H1) as Hstop.
    apply fill_left in H1 as [pe [E1 E2 E3 E4 _ _]].
    apply fill_returned in H2 as (pr & Hne & Hq & Hb & Hs). simpl in *.
    right. repeat split.
    - subst batch. destruct pr; [done|]. by destruct (Pipes_Slide.fbatch s1).
    - subst batch. rewrite E3, !headcount_app. rewrite E4 in Hs. exact Hs.
    - exists (map fst pe), (map fst pr). repeat split.
      + by rewrite Hb, E3.
      + unfold QueueServer.visitors. by rewrite E1, visitors_app.
      + unfold QueueServer.visitors. by rewrite Hq, visitors_app.
      + intros _. destruct Hstop as [Hs0|[Hs0|(v & Hv & Hs0)]].
        * by left.
        * right; left. rewrite E4 in Hs0. exact Hs0.
        * right; right. exists v. split; [exact Hv|]. rewrite E4 in Hs0. exact Hs0. }
  apply fill_left in H1 as [pe [E1 E2 E3 E4 _ _]].
  apply fill_left in H2 as [pr [F1 F2 F3 F4 _ _]]. simpl in *.
  left. repeat split; rewrite rollback_server_queue.
  - by rewrite E2, E1.
  - by rewrite F2, F1.
Qed.

(** A filling loop that finds, at the front of its queue, groups that
    fill the tube exactly returns the batch made of them. *)
Lemma fill_prefix_returned tube t popped : ∀ fuel s rest,
  popped ≠ [] →
  server_queue (Pipes_Slide.fq s) = popped ++ rest →
  Forall (fun e => (1 ≤ group_size (fst e))%nat) popped →
  (Pipes_Slide.fbatch_size s + headcount (map fst popped))%nat = tube →
  (length popped ≤ fuel)%nat →
  ∃ q', Pipes_Slide.fill fuel tube t s
        = Pipes_Slide.Returned (Pipes_Slide.fbatch s ++ map fst popped) q'
        ∧ server_queue q' = rest.
Proof.
  induction popped as [|[v t0] popped IH]; intros fuel s rest Hne Hq Hpos Hsum Hfuel; [done|].
  destruct fuel as [|fuel]; [simpl in Hfuel; lia|].
  apply Forall_cons in Hpos as [Hv Hpos]. simpl in Hv.
  rewrite map_cons, headcount_cons in Hsum. simpl in Hsum, Hfuel.
  cbn [Pipes_Slide.fill].
  unfold QueueServer.nonempty, QueueServer.size, QueueServer.head, QueueServer.visitors,
    QueueServer.pop.
  rewrite Hq. cbn [app length map head fst snd].
  replace (0 <? Z.of_nat (S (length (popped ++ rest)))) with true
    by (symmetry; apply Z.ltb_lt; lia).
  replace (Pipes_Slide.fbatch_size s <? tube)%nat with true
    by (symmetry; apply Nat.ltb_lt; lia).
  replace (Pipes_Slide.fbatch_size s + group_size v <=? tube)%nat with true
    by (symmetry; apply Nat.leb_le; lia).
  cbn [andb].
  destruct popped as [|e popped].
  - unfold headcount in Hsum. simpl in Hsum.
    replace (Pipes_Slide.fbatch_size s + group_size v =? tube)%nat with true
      by (symmetry; apply Nat.eqb_eq; lia).
    eexists. split; [reflexivity|]. reflexivity.
  - assert (He : (1 ≤ group_size (fst e))%nat) by (by apply Forall_cons in Hpos as [? _]).
    rewrite map_cons, headcount_cons in Hsum.
    replace (Pipes_Slide.fbatch_size s + group_size v =? tube)%nat with false
      by (symmetry; apply Nat.eqb_neq; lia).
    match goal with
    | |- context [Pipes_Slide.fill fuel tube t ?s1] =>
        destruct (IH fuel s1 rest) as (q' & Hfill & Hq');
        [done|reflexivity|exact Hpos
        |cbn [Pipes_Slide.fbatch_size]; rewrite map_cons, headcount_cons; lia
        |simpl in *; lia|]
    end.
    rewrite Hfill. exists q'. split; [|exact Hq'].
    cbn [Pipes_Slide.fbatch]. by rewrite <- app_assoc.
Qed.

(** A filling loop that finds, at the front of its queue, groups that do
    not fill the tube, followed by nothing or by a group that would
    overshoot, takes these groups and is left without a batch. *)
Lemma fill_prefix_left tube t popped : ∀ fuel s rest,
  server_queue (Pipes_Slide.fq s) = popped ++ rest →
  Forall (fun e => (1 ≤ group_size (fst e))%nat) popped →
  (Pipes_Slide.fbatch_size s + headcount (map fst popped) < tube)%nat →
  (rest = []
   ∨ ∃ v, head (map fst rest) = Some v
          ∧ (tube < Pipes_Slide.fbatch_size s + headcount (map fst popped) + group_size v)%nat) →
  (length (popped ++ rest) ≤ fuel)%nat →
  ∃ s', Pipes_Slide.fill fuel tube t s = Pipes_Slide.Left s'
        ∧ server_queue (Pipes_Slide.fq s') = rest
        ∧ Pipes_Slide.ftemp s' = Pipes_Slide.ftemp s ++ popped
        ∧ Pipes_Slide.fbatch s' = Pipes_Slide.fbatch s ++ map fst popped
        ∧ Pipes_Slide.fbatch_size s'
          = (Pipes_Slide.fbatch_size s + headcount (map fst popped))%nat.
Proof.
  induction popped as [|[v t0] popped IH]; intros fuel s rest Hq Hpos Hsum Hstop Hfuel.
  - exists s. rewrite !app_nil_r. unfold headcount at 1. simpl.
    rewrite Nat.add_0_r. repeat split; try done.
    destruct fuel as [|fuel]; [done|]. cbn [Pipes_Slide.fill].
    unfold QueueServer.nonempty, QueueServer.size, QueueServer.head, QueueServer.visitors.
    simpl in Hq. rewrite Hq.
    destruct Hstop as [->|(w & Hw & Hover)]; [done|].
    destruct rest as [|[w' t1] rest]; [done|]. simpl in Hw. injection Hw as ->.
    unfold headcount in Hover, Hsum. simpl in Hover, Hsum.
    cbn [length map head fst].
    replace (Pipes_Slide.fbatch_size s + group_size w <=? tube)%nat with false
      by (symmetry; apply Nat.leb_gt; lia).
    by destruct (_ && _).
  - destruct fuel as [|fuel]; [simpl in Hfuel; lia|].
    apply Forall_cons in Hpos as [Hv Hpos]. simpl in Hv.
    rewrite map_cons, headcount_cons in Hsum, Hstop. cbn [fst] in Hsum, Hstop. simpl in Hfuel.
    cbn [Pipes_Slide.fill].
    unfold QueueServer.nonempty, QueueServer.size, QueueServer.head, QueueServer.visitors,
      QueueServer.pop.
    rewrite Hq. cbn [app length map head fst snd].
    replace (0 <? Z.of_nat (S (length (popped ++ rest)))) with true
      by (symmetry; apply Z.ltb_lt; lia).
    replace (Pipes_Slide.fbatch_size s <? tube)%nat with true
      by (symmetry; apply Nat.ltb_lt; lia).
    replace (Pipes_Slide.fbatch_size s + group_size v <=? tube)%nat with true
      by (symmetry; apply Nat.leb_le; lia).
    replace (Pipes_Slide.fbatch_size s + group_size v =? tube)%nat with false
      by (symmetry; apply Nat.eqb_neq; lia).
    cbn [andb].
    match goal with
    | |- context [Pipes_Slide.fill fuel tube t ?s1] =>
        destruct (IH fuel s1 rest) as (s' & Hfill & H1 & H2 & H3 & H4);
        [reflexivity|exact Hpos|cbn [Pipes_Slide.fbatch_size]; lia| |lia|]
    end.
    { cbn [Pipes_Slide.fbatch_size].
      destruct Hstop as [->|(w & Hw & Hover)]; [by left|].
      right. exists w. split; [exact Hw|lia]. }
    rewrite Hfill. exists s'. cbn in H2, H3, H4.
    cbn [map fst]. rewrite headcount_cons.
    repeat split; [exact H1| | |lia].
    + by rewrite H2, <- app_assoc.
    + by rewrite H3, <- app_assoc.
Qed.

Lemma Forall_positive_fst (l : list (Visitor * datetime)) :
  Forall (fun v => (1 ≤ group_size v)%nat) (map fst l) →
  Forall (fun e => (1 ≤ group_size (fst e))%nat) l.
Proof.
  induction l as [|e l IH]; intros H; [constructor|].
  simpl in H. apply Forall_cons in H as [He H]. constructor; [exact He|by apply IH].
Qed.

Lemma headcount_positive (l : list Visitor) :
  Forall (fun v => (1 ≤ group_size v)%nat) l → l ≠ [] → (1 ≤ headcount l)%nat.
Proof.
  intros H Hne. destruct l as [|v l]; [done|]. apply Forall_cons in H as [Hv _].
  rewrite headcount_cons. lia.
Qed.

Lemma headcount_zero (l : list Visitor) :
  Forall (fun v => (1 ≤ group_size v)%nat) l → headcount l = 0%nat → l = [].
Proof.
  intros H H0. destruct l as [|v l]; [done|].
  pose proof (headcount_positive _ H ltac:(done)). lia.
Qed.

Lemma get_next_batch_reaches : batch_when_reachable Pipes_Slide.get_next_batch.
Proof.
  intros t f pe pr qe qr Hpos Hqe Hqr Hsum Hstop. cbv zeta.
  apply Forall_app in Hpos as [Hpe Hpr]. rewrite headcount_app in Hsum.
  unfold QueueServer.visitors in Hqe, Hqr.
  apply map_eq_app in Hqe as (se & re & Hse & <- & <-).
  apply map_eq_app in Hqr as (sr & rr & Hsr & <- & <-).
  apply Forall_positive_fst in Hpe, Hpr.
  unfold Pipes_Slide.get_next_batch.
  replace (Pipes_Slide.total_in_queue f <? tube_size f)%nat with false.
  2:{ symmetry. apply Nat.ltb_ge. unfold Pipes_Slide.total_in_queue, QueueServer.visitors.
      rewrite Hse, Hsr, !map_app, !headcount_app. lia. }
  destruct (decide (sr = [])) as [->|Hne].
  - (* the express queue alone fills the tube *)
    unfold headcount at 2 in Hsum. simpl in Hsum. rewrite Nat.add_0_r in Hsum.
    rewrite app_nil_r. simpl in Hsr.
    destruct (decide (se = [])) as [->|Hne].
    + (* a tube of size 0: nobody is taken *)
      unfold headcount in Hsum. simpl in Hsum. simpl in Hse.
      assert (Hf : ∀ n s, Pipes_Slide.fill n (tube_size f) t s = Pipes_Slide.Left s
                          ∨ Pipes_Slide.fbatch_size s ≠ 0%nat).
      { intros [|n] s; [by left|]. destruct (Pipes_Slide.fbatch_size s) eqn:E; [|by right].
        left. cbn [Pipes_Slide.fill]. rewrite E, <- Hsum. simpl. by rewrite andb_false_r. }
      destruct (Hf (length (server_queue (queue_express f)))
                  {| Pipes_Slide.fq := queue_express f; Pipes_Slide.ftemp := [];
                     Pipes_Slide.fbatch := []; Pipes_Slide.fbatch_size := 0 |}) as [->|?];
        [|done].
      cbn [Pipes_Slide.fbatch Pipes_Slide.fbatch_size Pipes_Slide.ftemp Pipes_Slide.fq].
      destruct (Hf (length (server_queue (queue_regular f)))
                  {| Pipes_Slide.fq := queue_regular f; Pipes_Slide.ftemp := [];
                     Pipes_Slide.fbatch := []; Pipes_Slide.fbatch_size := 0 |}) as [->|?];
        [|done].
      cbn. unfold QueueServer.visitors. by rewrite Hse, Hsr.
    + edestruct (fill_prefix_returned (tube_size f) t se
                   (length (server_queue (queue_express f)))
                   {| Pipes_Slide.fq := queue_express f; Pipes_Slide.ftemp := [];
                      Pipes_Slide.fbatch := []; Pipes_Slide.fbatch_size := 0 |} re)
        as (q' & -> & Hq'); [done|exact Hse|done|simpl; lia|rewrite Hse, length_app; lia|].
      cbn. unfold QueueServer.visitors. by rewrite Hq', Hsr.
  - (* the express queue is left, the regular queue fills the tube *)
    assert (Hh : (1 ≤ headcount (map fst sr))%nat).
    { destruct sr as [|e sr]; [done|]. apply Forall_cons in Hpr as [He _].
      rewrite map_cons, headcount_cons. lia. }
    edestruct (fill_prefix_left (tube_size f) t se
                 (length (server_queue (queue_express f)))
                 {| Pipes_Slide.fq := queue_express f; Pipes_Slide.ftemp := [];
                    Pipes_Slide.fbatch := []; Pipes_Slide.fbatch_size := 0 |} re)
      as (s1 & -> & H1 & H2 & H3 & H4);
      [exact Hse|done|simpl; lia| |by rewrite Hse|].
    { destruct Hstop as [Hre|(v & Hv & Hover)].
      - by destruct sr.
      - apply map_eq_nil in Hre. by left.
      - right. exists v. split; [exact Hv|]. simpl. lia. }
    cbn in H2, H3, H4.
    edestruct (fill_prefix_returned (tube_size f) t sr
                 (length (server_queue (queue_regular f)))
                 {| Pipes_Slide.fq := queue_regular f; Pipes_Slide.ftemp := [];
                    Pipes_Slide.fbatch := Pipes_Slide.fbatch s1;
                    Pipes_Slide.fbatch_size := Pipes_Slide.fbatch_size s1 |} rr)
      as (q' & -> & Hq'); [done|exact Hsr|done|simpl; lia|rewrite Hsr, length_app; lia|].
    cbn. unfold QueueServer.visitors. by rewrite H3, H1, Hq'.
Qed.

(** C5. [get_next_batch] of the Big and of the Small Pipes Slide returns the
    empty list with both queues holding their entries in the original
    order, or a batch whose headcount is exactly the tube size (8 and 3 as
    the facilities are built), made of the groups at the front of the
    express queue and then of the groups at the front of the regular queue.
    It does return such a batch whenever there is one: when groups at the
    front of the express queue, followed, where the express queue is used up
    or its next group would overshoot, by groups at the front of the regular
    queue, count exactly the tube size, the batch is made of these groups and
    the queues keep the groups behind them. *)
Theorem get_next_batch_exact_or_rollback :
  exact_or_rollback Big_Pipes_Slide.get_next_batch
  ∧ exact_or_rollback Small_Pipes_Slide.get_next_batch
  ∧ batch_when_reachable Big_Pipes_Slide.get_next_batch
  ∧ batch_when_reachable Small_Pipes_Slide.get_next_batch
  ∧ tube_size Big_Pipes_Slide.__init__ = 8%nat
  ∧ tube_size Small_Pipes_Slide.__init__ = 3%nat.
Proof.
  split; [exact get_next_batch_contract|].
  split; [exact get_next_batch_contract|].
  split; [exact get_next_batch_reaches|].
  split; [exact get_next_batch_reaches|].
  split; reflexivity.
Qed.

(** With groups of 3 and 6 in the express queue and groups of 4, 1 and 2 in
    the regular queue, the batch is made of the groups of 3, 4 and 1; the
    group of 6 and the group of 2 stay. *)
Lemma get_next_batch_exact_or_rollback_witness :
  let t := mk_datetime 0 9 5 0 in
  let r := Big_Pipes_Slide.get_next_batch t big_pipes_3_6_and_4_1_2 in
  fst r = [group_of 1 3; group_of 3 4; group_of 4 1]
  ∧ QueueServer.visitors (queue_express (snd r)) = [group_of 2 6]
  ∧ QueueServer.visitors (queue_regular (snd r)) = [group_of 5 2].
Proof.
  destruct get_next_batch_exact_or_rollback as (_ & _ & H & _).
  apply (H (mk_datetime 0 9 5 0) big_pipes_3_6_and_4_1_2
           [group_of 1 3] [group_of 3 4; group_of 4 1] [group_of 2 6] [group_of 5 2]).
  - repeat (constructor; [simpl; lia|]). constructor.
  - reflexivity.
  - reflexivity.
  - reflexivity.
  - intros _. right. exists (group_of 2 6). split; [reflexivity|]. vm_compute. lia.
Defined.

(** C10. When [get_next_batch] gives up after popping (it returns the empty
    list although the queues hold at least a tube's worth of people), the
    entries [pe] and [pr] it took from the fronts of the express and the
    regular queue are back in place, but the statistics of the queues have
    changed: one waiting time per popped entry has been appended to
    [waiting_times], and two queue-length samples per popped entry (one at
    the pop, one at the re-insertion) to [queue_lengths]. *)
Theorem rollback_mutates_statistics (t : datetime) (f : Facility) :
  fst (Pipes_Slide.get_next_batch t f) = [] →
  (tube_size f ≤ Pipes_Slide.total_in_queue f)%nat →
  let f' := snd (Pipes_Slide.get_next_batch t f) in
  ∃ pe pr re rr,
    server_queue (queue_express f) = pe ++ re
    ∧ server_queue (queue_regular f) = pr ++ rr
    ∧ (re = [] ∨ (tube_size f ≤ headcount (map fst pe))%nat
       ∨ ∃ e, hd_error re = Some e
              ∧ (tube_size f < headcount (map fst pe) + group_size (fst e))%nat)
    ∧ (rr = [] ∨ (tube_size f ≤ headcount (map fst pe) + headcount (map fst pr))%nat
       ∨ ∃ e, hd_error rr = Some e
              ∧ (tube_size f < headcount (map fst pe) + headcount (map fst pr)
                               + group_size (fst e))%nat)
    ∧ server_queue (queue_express f') = server_queue (queue_express f)
    ∧ server_queue (queue_regular f') = server_queue (queue_regular f)
    ∧ waiting_times (queue_express f') = waiting_times (queue_express f) ++ map (wait_of t) pe
    ∧ waiting_times (queue_regular f') = waiting_times (queue_regular f) ++ map (wait_of t) pr
    ∧ length (queue_lengths (queue_express f'))
      = (length (queue_lengths (queue_express f)) + 2 * length pe)%nat
    ∧ length (queue_lengths (queue_regular f'))
      = (length (queue_lengths (queue_regular f)) + 2 * length pr)%nat.
Proof.
  unfold Pipes_Slide.get_next_batch. intros Hret Htot.
  destruct (_ <? tube_size f)%nat eqn:Hlt; [apply Nat.ltb_lt in Hlt; lia|].
  destruct (Pipes_Slide.fill _ _ _ _) as [batch qe|s1] eqn:H1.
  { apply fill_returned in H1 as (pe & Hne & _ & Hb & _). simpl in *. subst batch.
    destruct pe; [done|discriminate]. }
  destruct (Pipes_Slide.fill _ _ _ {| Pipes_Slide.fq := queue_regular f |})
    as [batch qr|s2] eqn:H2.
  { apply fill_returned in H2 as (pr & Hne & _ & Hb & _). simpl in *. subst batch.
    destruct pr; [done|]. by destruct (Pipes_Slide.fbatch s1). }
  pose proof (fill_left_stopped _ _ _ _ _ (Nat.le_refl _) H1) as St1.
  pose proof (fill_left_stopped _ _ _ _ _ (Nat.le_refl _) H2) as St2.
  apply fill_left in H1 as [pe [E1 E2 E3 E4 E5 E6]].
  apply fill_left in H2 as [pr [F1 F2 F3 F4 F5 F6]]. simpl in *.
  exists pe, pr, (server_queue (Pipes_Slide.fq s1)), (server_queue (Pipes_Slide.fq s2)).
  rewrite !rollback_server_queue, !rollback_waiting_times, !rollback_queue_lengths.
  rewrite E2, F2, E5, F5, E6, F6. simpl.
  repeat split; try done; try lia.
  - destruct St1 as [?|[?|(v & Hv & ?)]]; [by left|right; left; lia|].
    right; right. unfold QueueServer.head, QueueServer.visitors in Hv.
    destruct (server_queue (Pipes_Slide.fq s1)) as [|e ?]; [done|].
    simpl in Hv. injection Hv as <-. exists e. split; [done|lia].
  - destruct St2 as [?|[?|(v & Hv & ?)]]; [by left|right; left; lia|].
    right; right. unfold QueueServer.head, QueueServer.visitors in Hv.
    destruct (server_queue (Pipes_Slide.fq s2)) as [|e ?]; [done|].
    simpl in Hv. injection Hv as <-. exists e. split; [done|lia].
Qed.

(** With groups of 5, 2 and 4 waiting, a try at 09:05 pops the groups of 5
    and 2, cannot add the group of 4, and puts them back: the queue is as
    before, and two waiting times (5 and 4 minutes) have been recorded,
    which the day's average then counts. *)
Lemma rollback_5_2_4 :
  let t := mk_datetime 0 9 5 0 in
  let r := Pipes_Slide.get_next_batch t big_pipes_5_2_4 in
  fst r = []
  ∧ server_queue (queue_regular (snd r)) = server_queue (queue_regular big_pipes_5_2_4)
  ∧ waiting_times (queue_regular big_pipes_5_2_4) = []
  ∧ waiting_times (queue_regular (snd r)) = [5%Q; 4%Q]
  ∧ daily_avg_waiting_times (QueueServer.calc_daily_statistics (queue_regular (snd r)))
    = [(9 # 2)%Q].
Proof. vm_compute. repeat split. Qed.

Lemma rollback_mutates_statistics_witness :
  fst (Pipes_Slide.get_next_batch (mk_datetime 0 9 5 0) big_pipes_5_2_4) = []
  ∧ (tube_size big_pipes_5_2_4 ≤ Pipes_Slide.total_in_queue big_pipes_5_2_4)%nat
  ∧ ∃ pe pr re rr,
      server_queue (queue_express big_pipes_5_2_4) = pe ++ re
      ∧ server_queue (queue_regular big_pipes_5_2_4) = pr ++ rr
      ∧ (re = [] ∨ (tube_size big_pipes_5_2_4 ≤ headcount (map fst pe))%nat
         ∨ ∃ e, hd_error re = Some e
                ∧ (tube_size big_pipes_5_2_4 < headcount (map fst pe) + group_size (fst e))%nat)
      ∧ (rr = [] ∨ (tube_size big_pipes_5_2_4 ≤ headcount (map fst pe) + headcount (map fst pr))%nat
         ∨ ∃ e, hd_error rr = Some e
                ∧ (tube_size big_pipes_5_2_4 < headcount (map fst pe) + headcount (map fst pr)
                                 + group_size (fst e))%nat)
      ∧ server_queue (queue_express (snd (Pipes_Slide.get_next_batch (mk_datetime 0 9 5 0) big_pipes_5_2_4)))
        = server_queue (queue_express big_pipes_5_2_4)
      ∧ server_queue (queue_regular (snd (Pipes_Slide.get_next_batch (mk_datetime 0 9 5 0) big_pipes_5_2_4)))
        = server_queue (queue_regular big_pipes_5_2_4)
      ∧ waiting_times (queue_express (snd (Pipes_Slide.get_next_batch (mk_datetime 0 9 5 0) big_pipes_5_2_4)))
        = waiting_times (queue_express big_pipes_5_2_4) ++ map (wait_of (mk_datetime 0 9 5 0)) pe
      ∧ waiting_times (queue_regular (snd (Pipes_Slide.get_next_batch (mk_datetime 0 9 5 0) big_pipes_5_2_4)))
        = waiting_times (queue_regular big_pipes_5_2_4) ++ map (wait_of (mk_datetime 0 9 5 0)) pr
      ∧ length (queue_lengths (queue_express (snd (Pipes_Slide.get_next_batch (mk_datetime 0 9 5 0) big_pipes_5_2_4))))
        = (length (queue_lengths (queue_express big_pipes_5_2_4)) + 2 * length pe)%nat
      ∧ length (queue_lengths (queue_regular (snd (Pipes_Slide.get_next_batch (mk_datetime 0 9 5 0) big_pipes_5_2_4))))
        = (length (queue_lengths (queue_regular big_pipes_5_2_4)) + 2 * length pr)%nat.
Proof.
  assert (H1 : fst (Pipes_Slide.get_next_batch (mk_datetime 0 9 5 0) big_pipes_5_2_4) = [])
    by (vm_compute; reflexivity).
  assert (H2 : (tube_size big_pipes_5_2_4 ≤ Pipes_Slide.total_in_queue big_pipes_5_2_4)%nat)
    by (vm_compute; lia).
  split; [exact H1|]. split; [exact H2|].
  exact (rollback_mutates_statistics _ _ H1 H2).
Defined.

(** ** Snorkel tours and the lunch window *)

Lemma current_minutes_spec (t : datetime) :
  Snorkel_Tour.current_minutes t = time_of_day t / usec_per_minute.
Proof.
  unfold Snorkel_Tour.current_minutes, hour, minute, time_of_day.
  unfold usec_per_day, usec_per_hour, usec_per_minute, usec_per_second.
  Z.div_mod_to_equations. lia.
Qed.

Lemma restricted_iff (t : datetime) :
  Snorkel_Tour.restricted t = true
  ↔ mk_datetime 0 12 20 0 <= time_of_day t < mk_datetime 0 14 0 0.
Proof.
  unfold Snorkel_Tour.restricted. rewrite andb_true_iff, Z.leb_le, Z.ltb_lt.
  rewrite current_minutes_spec.
  unfold mk_datetime, time_of_day, usec_per_day, usec_per_hour, usec_per_minute, usec_per_second.
  Z.div_mod_to_equations. lia.
Qed.

(** ** Computations that leave an observation of the state unchanged *)

Lemma exec_bind {A B} (m : St A) (k : A → St B) (s : Simulation) :
  exec (bind m k) s = exec (k (fst (m s))) (snd (m s)).
Proof. unfold exec, bind. by destruct (m s). Qed.

Section keeps.
Context {X : Type} (proj : Simulation → X).

Lemma keeps_ret {A} (a : A) : keeps proj (ret a).
Proof. by intros s. Qed.

Lemma keeps_gets {A} (f : Simulation → A) : keeps proj (gets f).
Proof. by intros s. Qed.

Lemma keeps_bind {A B} (m : St A) (k : A → St B) :
  keeps proj m → (∀ a, keeps proj (k a)) → keeps proj (bind m k).
Proof.
  intros Hm Hk s. unfold bind. specialize (Hm s).
  destruct (m s) as [a s1]; simpl in *. by rewrite Hk.
Qed.

Lemma keeps_modify (f : Simulation → Simulation) :
  (∀ s, proj (f s) = proj s) → keeps proj (modify f).
Proof. intros H s. apply H. Qed.

Lemma keeps_when b m : keeps proj m → keeps proj (when b m).
Proof. destruct b; [done|intros _; apply keeps_ret]. Qed.

Lemma keeps_for_each {A} (l : list A) (body : A → St unit) :
  (∀ x, keeps proj (body x)) → keeps proj (for_each l body).
Proof.
  intros H. induction l as [|x l IH]; simpl; [apply keeps_ret|].
  apply keeps_bind; [apply H|intros _; exact IH].
Qed.

Lemma keeps_while fuel (body : St bool) : keeps proj body → keeps proj (while fuel body).
Proof.
  intros H. induction fuel as [|fuel IH]; simpl; [apply keeps_ret|].
  apply keeps_bind; [exact H|]. intros []; [exact IH|apply keeps_ret].
Qed.

Lemma keeps_sample_list {A} n (m : St A) : keeps proj m → keeps proj (sample_list n m).
Proof.
  intros H. induction n as [|n IH]; simpl; [apply keeps_ret|].
  apply keeps_bind; [exact H|intros x].
  apply keeps_bind; [exact IH|intros l; apply keeps_ret].
Qed.

Lemma keeps_exec {A} (m : St A) s : keeps proj m → proj (exec m s) = proj s.
Proof. intros H. apply H. Qed.

Lemma keeps_visitor_state v : keeps proj (visitor_state v).
Proof. by intros s. Qed.

Lemma keeps_choose_facility v b : keeps proj (Simulation.choose_facility v b).
Proof. apply keeps_gets. Qed.

Lemma keeps_modify_visitor v g :
  (∀ s, proj (set_store (upd v g (store s)) s) = proj s) → keeps proj (modify_visitor v g).
Proof. intros H s. apply H. Qed.

Lemma keeps_modify_facility c g :
  (∀ s, proj (exec (modify_facility c g) s) = proj s) → keeps proj (modify_facility c g).
Proof. intros H s. apply H. Qed.

Lemma keeps_allocate mk init :
  (∀ s, proj (set_store (<[next_vid s := init]> (store s))
                (set_next_vid (Pos.succ (next_vid s)) s)) = proj s) →
  keeps proj (Visitor.allocate mk init).
Proof. intros H s. apply H. Qed.

Context (Hign : ignores_bookkeeping proj).

Lemma keeps_modify_restaurant c g : keeps proj (modify_restaurant c g).
Proof. intros s. apply Hign. Qed.

Lemma keeps_update_restaurant {A} c (g : Restaurant → A * Restaurant) :
  keeps proj (update_restaurant c g).
Proof. intros s. unfold update_restaurant. destruct (g _). apply Hign. Qed.

Lemma keeps_pop_reception t : keeps proj (pop_reception t).
Proof. intros s. unfold pop_reception. destruct (QueueServer.pop _ _). apply Hign. Qed.

Lemma keeps_random : keeps proj Sampling_Algorithms.random.
Proof. intros s. apply Hign. Qed.

Lemma keeps_new t c : keeps proj (Simulation.new t c).
Proof. intros s. apply Hign. Qed.

Lemma keeps_add_event e : keeps proj (Simulation.add_event e).
Proof. intros s. apply Hign. Qed.

Lemma keeps_schedule t c : keeps proj (Simulation.schedule t c).
Proof.
  apply keeps_bind; [apply keeps_new|intros; apply keeps_add_event].
Qed.

Lemma keeps_schedule_end c t d v i : keeps proj (Simulation.schedule_end c t d v i).
Proof. apply keeps_schedule. Qed.

Lemma keeps_set_clock_to t : keeps proj (Handlers.set_clock_to t).
Proof. intros s. apply Hign. Qed.

Lemma keeps_sample_uniform a b : keeps proj (Sampling_Algorithms.sample_uniform a b).
Proof. apply keeps_bind; [apply keeps_random|intros; apply keeps_ret]. Qed.

(** A decision or a value computed from one uniform draw. *)
Lemma keeps_draw {A} a b (f : Q → A) :
  keeps proj (bind (Sampling_Algorithms.sample_uniform a b) (fun u => ret (f u))).
Proof. apply keeps_bind; [apply keeps_sample_uniform|intros; apply keeps_ret]. Qed.

Lemma keeps_sample_exponential l : keeps proj (Sampling_Algorithms.sample_exponential l).
Proof.
  apply keeps_bind; [apply keeps_sample_uniform|intros u].
  apply keeps_bind; [apply keeps_gets|intros; apply keeps_ret].
Qed.

Lemma keeps_sample_normal mu sigma : keeps proj (Sampling_Algorithms.sample_normal mu sigma).
Proof.
  apply keeps_bind; [apply keeps_sample_uniform|intros u1].
  apply keeps_bind; [apply keeps_sample_uniform|intros u2].
  apply keeps_bind; [apply keeps_gets|intros e].
  destruct (Qlt_bool _ _); [|apply keeps_ret].
  cbv zeta. destruct (Qle_bool _ _); apply keeps_ret.
Qed.

Lemma keeps_returned m : keeps proj m → keeps proj (returned m).
Proof. intros H. apply keeps_bind; [exact H|intros; apply keeps_ret]. Qed.

Lemma keeps_wave_pool_loop fuel last :
  keeps proj (Sampling_Algorithms.wave_pool_loop fuel last).
Proof.
  revert last. induction fuel as [|fuel IH]; intros last; [apply keeps_ret|].
  cbn [Sampling_Algorithms.wave_pool_loop].
  apply keeps_bind; [apply keeps_sample_uniform|intros x].
  apply keeps_bind; [apply keeps_sample_uniform|intros u].
  destruct (Qle_bool _ _); [apply keeps_ret|apply IH].
Qed.

Lemma keeps_get_service_duration c : keeps proj (Simulation.get_service_duration c).
Proof.
  destruct c; unfold Simulation.get_service_duration.
  - apply keeps_sample_uniform.
  - apply keeps_ret.
  - apply keeps_returned, keeps_sample_normal.
  - apply keeps_sample_exponential.
  - apply keeps_bind; [apply keeps_gets|intros; apply keeps_wave_pool_loop].
  - apply keeps_bind; [apply keeps_sample_uniform|intros u].
    apply keeps_bind; [apply keeps_gets|intros; apply keeps_ret].
  - apply keeps_returned, keeps_sample_normal.
Qed.

Lemma keeps_complete_visitor v : keeps proj (Simulation._complete_visitor v).
Proof.
  unfold Simulation._complete_visitor.
  apply keeps_bind; [apply keeps_visitor_state|intros st].
  destruct (Sampling_Algorithms.get_photo_purchase_decision _) as [package price].
  apply keeps_bind; [apply keeps_when, keeps_modify; intros; apply Hign|intros _].
  repeat (apply keeps_bind; [apply keeps_modify; intros; apply Hign|intros _]).
  apply keeps_modify; intros; apply Hign.
Qed.

Lemma keeps_get_total_time c : keeps proj (Handlers.get_total_time c).
Proof.
  apply keeps_bind; [destruct c; apply keeps_sample_uniform|intros p].
  apply keeps_bind; [apply keeps_returned, keeps_sample_normal|intros; apply keeps_ret].
Qed.

End keeps.

Lemma facilities_ignores_bookkeeping : ignores_bookkeeping facilities.
Proof. by split. Qed.

(** Goals [keeps proj m]: the structure of [m] is followed; [Hign] proves
    [ignores_bookkeeping proj], [side] closes what is left for the writes
    to the store and to the facilities. *)
Ltac keeps_step Hign side :=
  lazymatch goal with
  | |- keeps _ (ret _) => apply keeps_ret
  | |- keeps _ (gets _) => apply keeps_gets
  | |- keeps _ (bind _ _) => apply keeps_bind; [|intros ?]
  | |- keeps _ (modify _) => apply keeps_modify; intros ?; apply Hign
  | |- keeps _ (when _ _) => apply keeps_when
  | |- keeps _ (for_each _ _) => apply keeps_for_each; intros ?
  | |- keeps _ (while _ _) => apply keeps_while
  | |- keeps _ (sample_list _ _) => apply keeps_sample_list
  | |- keeps _ (visitor_state _) => apply keeps_visitor_state
  | |- keeps _ (Simulation.choose_facility _ _) => apply keeps_choose_facility
  | |- keeps _ (modify_visitor _ _) => apply keeps_modify_visitor; side
  | |- keeps _ (Visitor.update_rating_positive _ _ _) => apply keeps_modify_visitor; side
  | |- keeps _ (Visitor.update_rating_negative _ _) => apply keeps_modify_visitor; side
  | |- keeps _ (modify_facility _ _) => apply keeps_modify_facility; side
  | |- keeps _ (Visitor.allocate _ _) => apply keeps_allocate; side
  | |- keeps _ (modify_restaurant _ _) => apply (keeps_modify_restaurant _ Hign)
  | |- keeps _ (update_restaurant _ _) => apply (keeps_update_restaurant _ Hign)
  | |- keeps _ (pop_reception _) => apply (keeps_pop_reception _ Hign)
  | |- keeps _ Sampling_Algorithms.random => apply (keeps_random _ Hign)
  | |- keeps _ (Simulation.new _ _) => apply (keeps_new _ Hign)
  | |- keeps _ (Simulation.add_event _) => apply (keeps_add_event _ Hign)
  | |- keeps _ (Simulation.schedule _ _) => apply (keeps_schedule _ Hign)
  | |- keeps _ (Simulation.schedule_end _ _ _ _ _) => apply (keeps_schedule_end _ Hign)
  | |- keeps _ (Handlers.set_clock_to _) => apply (keeps_set_clock_to _ Hign)
  | |- keeps _ (Sampling_Algorithms.sample_uniform _ _) => apply (keeps_sample_uniform _ Hign)
  | |- keeps _ (Sampling_Algorithms.sample_exponential _) =>
      apply (keeps_sample_exponential _ Hign)
  | |- keeps _ (Sampling_Algorithms.sample_normal _ _) => apply (keeps_sample_normal _ Hign)
  | |- keeps _ (returned _) => apply keeps_returned
  | |- keeps _ (Simulation.get_service_duration _) => apply (keeps_get_service_duration _ Hign)
  | |- keeps _ (Simulation._complete_visitor _) => apply (keeps_complete_visitor _ Hign)
  | |- keeps _ (Handlers.get_total_time _) => apply (keeps_get_total_time _ Hign)
  | |- keeps _ (match ?x with _ => _ end) => destruct x
  end.

Ltac frame_side := intros ?; reflexivity.
Ltac frame := repeat keeps_step facilities_ignores_bookkeeping frame_side.

(** Unfolds the samplers that are one uniform draw and a test. *)
Ltac unfold_draws :=
  unfold Sampling_Algorithms.get_number_kids, Sampling_Algorithms.get_kid_age,
    Sampling_Algorithms.sample_family_interarrival_time,
    Sampling_Algorithms.get_family_departure_time,
    Sampling_Algorithms.get_teen_group_size,
    Sampling_Algorithms.sample_teens_group_interarrival_time,
    Sampling_Algorithms.sample_single_visitor_interarrival_time,
    Sampling_Algorithms.should_buy_express_on_entry,
    Sampling_Algorithms.sample_ticket_purchase_time,
    Sampling_Algorithms.sample_wristband_time,
    Sampling_Algorithms.sample_meal_duration,
    Sampling_Algorithms.should_teens_buy_express_after_abandon,
    Sampling_Algorithms.had_good_experience,
    Sampling_Algorithms.should_eat_lunch,
    Sampling_Algorithms.choose_restaurant,
    Sampling_Algorithms.is_meal_unsatisfactory,
    Sampling_Algorithms.should_family_split,
    Sampling_Algorithms.get_num_split_groups.

Section frame.

Lemma frame_create_subgroup p n a e : keeps facilities (create_subgroup p n a e).
Proof. unfold create_subgroup. frame. Qed.

Lemma frame_check_and_split v : keeps facilities (Family.check_and_split v).
Proof.
  unfold Family.check_and_split. unfold_draws.
  repeat first [apply frame_create_subgroup
               | keeps_step facilities_ignores_bookkeeping frame_side].
Qed.

Lemma frame_handle_abandonment v c : keeps facilities (TeenGroup.handle_abandonment v c).
Proof. unfold TeenGroup.handle_abandonment. unfold_draws. frame. Qed.

Lemma frame_exit_after_facility v : keeps facilities (Handlers.exit_after_facility v).
Proof. unfold Handlers.exit_after_facility. frame. Qed.

Lemma frame_exit_after_meal v : keeps facilities (Handlers.exit_after_meal v).
Proof. unfold Handlers.exit_after_meal. frame. Qed.

Lemma frame_process_entity t v : keeps facilities (Handlers.process_entity t v).
Proof.
  unfold Handlers.process_entity. unfold_draws.
  repeat first [apply frame_exit_after_facility
               | keeps_step facilities_ignores_bookkeeping frame_side].
Qed.

(** What [EndFacilityEvent.handle] does after the clean-up of the
    facility: rating, split and routing. *)
Lemma frame_after_service t v c :
  keeps facilities
    (bind Sampling_Algorithms.had_good_experience (fun good =>
     bind (gets (fun s => facilities s c)) (fun f =>
     bind (if good
           then Visitor.update_rating_positive v (group_size v) (adrenalin_level f)
           else Visitor.update_rating_negative v (1 # 10)) (fun _ =>
     bind (match kind v with
           | Family =>
               bind (Family.check_and_split v) (fun split_result =>
                 if (1 <? length split_result)%nat then ret split_result else ret [v])
           | _ => ret [v]
           end) (fun entities_to_process =>
     for_each entities_to_process (Handlers.process_entity t)))))).
Proof.
  unfold_draws.
  repeat first [apply frame_check_and_split | apply frame_process_entity
               | keeps_step facilities_ignores_bookkeeping frame_side].
Qed.

Lemma frame_create_family t : keeps facilities (create_family t).
Proof. unfold create_family. unfold_draws. frame. Qed.

Lemma frame_create_teen_group t : keeps facilities (create_teen_group t).
Proof. unfold create_teen_group. unfold_draws. frame. Qed.

Lemma frame_create_single_visitor t : keeps facilities (create_single_visitor t).
Proof. unfold create_single_visitor. unfold_draws. frame. Qed.

Lemma frame_arrive_at_reception t v : keeps facilities (Handlers.arrive_at_reception t v).
Proof. unfold Handlers.arrive_at_reception. unfold_draws. frame. Qed.

Lemma frame_FamilyArrivalEvent t : keeps facilities (Handlers.FamilyArrivalEvent_handle t).
Proof.
  unfold Handlers.FamilyArrivalEvent_handle, Handlers.count_arrival. unfold_draws.
  repeat first [apply frame_create_family | apply frame_arrive_at_reception
               | keeps_step facilities_ignores_bookkeeping frame_side].
Qed.

Lemma frame_TeensGroupArrivalEvent t :
  keeps facilities (Handlers.TeensGroupArrivalEvent_handle t).
Proof.
  unfold Handlers.TeensGroupArrivalEvent_handle, Handlers.count_arrival. unfold_draws.
  repeat first [apply frame_create_teen_group | apply frame_arrive_at_reception
               | keeps_step facilities_ignores_bookkeeping frame_side].
Qed.

Lemma frame_SingleGroupArrivalEvent t :
  keeps facilities (Handlers.SingleGroupArrivalEvent_handle t).
Proof.
  unfold Handlers.SingleGroupArrivalEvent_handle, Handlers.count_arrival. unfold_draws.
  repeat first [apply frame_create_single_visitor | apply frame_arrive_at_reception
               | keeps_step facilities_ignores_bookkeeping frame_side].
Qed.

Lemma frame_EndReceptionEvent t v k : keeps facilities (Handlers.EndReceptionEvent_handle t v k).
Proof. unfold Handlers.EndReceptionEvent_handle. unfold_draws. frame. Qed.

Lemma frame_ArriveAtRestaurantEvent t v r :
  keeps facilities (Handlers.ArriveAtRestaurantEvent_handle t v r).
Proof. unfold Handlers.ArriveAtRestaurantEvent_handle. frame. Qed.

Lemma frame_EndRestaurantServiceEvent t v r k :
  keeps facilities (Handlers.EndRestaurantServiceEvent_handle t v r k).
Proof. unfold Handlers.EndRestaurantServiceEvent_handle. unfold_draws. frame. Qed.

Lemma frame_EndMealEvent t v : keeps facilities (Handlers.EndMealEvent_handle t v).
Proof.
  unfold Handlers.EndMealEvent_handle.
  repeat first [apply frame_exit_after_meal
               | keeps_step facilities_ignores_bookkeeping frame_side].
Qed.

Lemma frame_VisitorDepartureEvent t v :
  keeps facilities (Handlers.VisitorDepartureEvent_handle t v).
Proof. unfold Handlers.VisitorDepartureEvent_handle. frame. Qed.

Lemma frame_move_on_after_abandonment t v :
  keeps facilities (Handlers.move_on_after_abandonment t v).
Proof.
  unfold Handlers.move_on_after_abandonment, Handlers.leave_after_abandonment. frame.
Qed.

Lemma frame_force_close_list l completed :
  keeps facilities (Simulation.force_close_list l completed).
Proof.
  revert completed. induction l as [|v l IH]; intros completed; simpl; [apply keeps_ret|].
  destruct (negb _); [|apply IH].
  apply keeps_bind; [apply keeps_complete_visitor, facilities_ignores_bookkeeping|].
  intros _. apply IH.
Qed.

Lemma frame_force_close_park : keeps facilities Simulation.force_close_park.
Proof.
  unfold Simulation.force_close_park.
  apply keeps_bind; [apply keeps_gets|intros completed].
  revert completed. induction all_facilities as [|c l IH]; intros completed; simpl; [apply keeps_ret|].
  apply keeps_bind; [apply keeps_gets|intros f].
  repeat (apply keeps_bind; [apply frame_force_close_list|intros ?]).
  apply IH.
Qed.

End frame.

(** ** Pipes River: tubes given back at the end of the ride *)

Lemma get_upd_same σ v g : get (upd v g σ) v = g (get σ v).
Proof. unfold get, upd. by rewrite lookup_insert_eq. Qed.

Lemma EndFacility_pipes_river (t : datetime) (v : Visitor) (i : option nat) (s : Simulation) :
  ∃ σ, is_shared_tube (get σ v) = is_shared_tube (get (store s) v)
       ∧ tube_partner (get σ v) = tube_partner (get (store s) v)
       ∧ facilities (exec (Handlers.EndFacilityEvent_handle t v Pipes_River i) s) Pipes_River
         = Pipes_River.release_tubes σ v (Facility.leave_service v (facilities s Pipes_River)).
Proof.
  unfold Handlers.EndFacilityEvent_handle.
  do 4 rewrite exec_bind. rewrite (keeps_exec facilities) by apply frame_after_service.
  eexists. split; [|split]; [| |unfold exec, bind, gets, modify_facility, modify_visitor, modify,
                                  Handlers.set_clock_to; simpl; reflexivity].
  - rewrite get_upd_same. simpl. by destruct (negb _).
  - rewrite get_upd_same. simpl. by destruct (negb _).
Qed.

Lemma release_tubes_in_service σ v f :
  users_in_service (Pipes_River.release_tubes σ v f) = users_in_service f.
Proof. reflexivity. Qed.

(** C7. At the end of a ride on Pipes River the visitor is first taken out
    of the in-service list, then the tubes are released: a visitor that does
    not share gives back ceil(group_size / 2) tubes; a visitor linked to a
    tube partner gives back nothing while the partner is still in service,
    and the whole shared allocation ceil((s1 + s2) / 2) when the partner is
    no longer in service.  (The tubes given back are tubes that are occupied:
    the count is floored at 0 by the code.) *)
Theorem release_on_end_of_service (t : datetime) (v : Visitor) (i : option nat) (s : Simulation) :
  let f := facilities s Pipes_River in
  let f' := facilities (exec (Handlers.EndFacilityEvent_handle t v Pipes_River i) s) Pipes_River in
  let st := get (store s) v in
  0 <= occupied_tubes f →
  users_in_service f' = users_in_service (Facility.leave_service v f)
  ∧ (is_shared_tube st = false →
     Z.of_nat (ceil_div (group_size v) 2) <= occupied_tubes f →
     occupied_tubes f' = occupied_tubes f - Z.of_nat (ceil_div (group_size v) 2))
  ∧ (∀ partner, is_shared_tube st = true → tube_partner st = Some partner →
       (is_in partner (users_in_service f') = true →
        occupied_tubes f' = occupied_tubes f)
       ∧ (is_in partner (users_in_service f') = false →
          Pipes_River.pair_tubes v partner <= occupied_tubes f →
          occupied_tubes f' = occupied_tubes f - Pipes_River.pair_tubes v partner)).
Proof.
  intros f f' st Hocc.
  destruct (EndFacility_pipes_river t v i s) as (σ & Hsh & Hp & Hf).
  subst f'. rewrite Hf. clear Hf. fold f. fold st in Hsh, Hp.
  assert (Ho : occupied_tubes (Facility.leave_service v f) = occupied_tubes f).
  { unfold Facility.leave_service. by destruct (is_in _ _). }
  split; [reflexivity|]. split.
  - intros Hns Hk. unfold Pipes_River.release_tubes, Pipes_River.people_per_tube.
    rewrite Hsh, Hns. cbn [occupied_tubes set_occupied_tubes]. rewrite Ho. lia.
  - intros partner Hs Hpartner. rewrite release_tubes_in_service.
    unfold Pipes_River.release_tubes. rewrite Hsh, Hp, Hs, Hpartner. split.
    + intros Hin. rewrite Hin. cbn [negb occupied_tubes set_occupied_tubes]. rewrite Ho. lia.
    + intros Hin Hk. rewrite Hin. cbn [negb occupied_tubes set_occupied_tubes]. rewrite Ho.
      unfold Pipes_River.pair_tubes in *. lia.
Qed.

(** Groups of 3 and 5 ride together on 4 tubes; the tubes stay occupied
    when the first group leaves and are free when the second has left. *)
Lemma river_pair_scenario :
  occupied_tubes (facilities example_park Pipes_River) = 0
  ∧ occupied_tubes (facilities river_paired Pipes_River) = 4
  ∧ map vid (users_in_service (facilities river_paired Pipes_River)) = [1%positive; 2%positive]
  ∧ (vid <$> tube_partner (get (store river_paired) (group_of 1 3))) = Some 2%positive
  ∧ (vid <$> tube_partner (get (store river_paired) (group_of 2 5))) = Some 1%positive
  ∧ occupied_tubes (facilities river_first_out Pipes_River) = 4
  ∧ occupied_tubes (facilities river_second_out Pipes_River) = 0.
Proof. vm_compute. repeat split. Qed.

Lemma release_on_end_of_service_witness :
  0 <= occupied_tubes (facilities river_first_out Pipes_River)
  ∧ occupied_tubes
      (facilities
         (exec (Handlers.EndFacilityEvent_handle (mk_datetime 0 10 25 0) (group_of 2 5)
                  Pipes_River None) river_first_out)
         Pipes_River)
    = occupied_tubes (facilities river_first_out Pipes_River)
      - Pipes_River.pair_tubes (group_of 2 5) (group_of 1 3).
Proof.
  assert (H0 : 0 <= occupied_tubes (facilities river_first_out Pipes_River))
    by (vm_compute; discriminate).
  split; [exact H0|].
  destruct (release_on_end_of_service (mk_datetime 0 10 25 0) (group_of 2 5) None
              river_first_out H0) as (_ & _ & H).
  destruct (H (group_of 1 3)) as [_ H2]; [vm_compute; reflexivity..|].
  apply H2; [vm_compute; reflexivity|vm_compute; discriminate].
Defined.

(** ** Every handler moves the facilities by facility steps *)

Section preserves.
Context (P : Simulation → Prop).

Lemma preserves_ret {A} (a : A) : preserves P (ret a).
Proof. by intros s. Qed.

Lemma preserves_gets {A} (f : Simulation → A) : preserves P (gets f).
Proof. by intros s. Qed.

Lemma preserves_bind {A B} (m : St A) (k : A → St B) :
  preserves P m → (∀ a, preserves P (k a)) → preserves P (bind m k).
Proof.
  intros Hm Hk s Hs. unfold bind. specialize (Hm s Hs).
  destruct (m s) as [a s1]; simpl in *. by apply Hk.
Qed.

Lemma preserves_when b m : preserves P m → preserves P (when b m).
Proof. destruct b; [done|intros _; apply preserves_ret]. Qed.

Lemma preserves_for_each {A} (l : list A) (body : A → St unit) :
  (∀ x, preserves P (body x)) → preserves P (for_each l body).
Proof.
  intros H. induction l as [|x l IH]; simpl; [apply preserves_ret|].
  apply preserves_bind; [apply H|intros _; exact IH].
Qed.

Lemma preserves_while fuel (body : St bool) : preserves P body → preserves P (while fuel body).
Proof.
  intros H. induction fuel as [|fuel IH]; simpl; [apply preserves_ret|].
  apply preserves_bind; [exact H|]. intros []; [exact IH|apply preserves_ret].
Qed.

End preserves.

Lemma FacilityClass_eqb_eq a b : FacilityClass_eqb a b = true ↔ a = b.
Proof. destruct a, b; simpl; split; (done || discriminate). Qed.

Lemma facilities_modify_facility c g s c' :
  facilities (exec (modify_facility c g) s) c'
  = if FacilityClass_eqb c c' then g (facilities s c') else facilities s c'.
Proof. reflexivity. Qed.

Lemma get_available_instructor_Some t f i :
  Snorkel_Tour.get_available_instructor t f = Some i → Snorkel_Tour.restricted t = false.
Proof. unfold Snorkel_Tour.get_available_instructor. by destruct (Snorkel_Tour.restricted t). Qed.

Section stepped.
Context (t : datetime) (F0 : FacilityClass → Facility).

Lemma stepped_keeps {A} (m : St A) : keeps facilities m → preserves (stepped t F0) m.
Proof. intros H s Hs c. rewrite H. apply Hs. Qed.

Lemma stepped_modify_facility c g :
  (∀ f, fac_step t c f (g f)) → preserves (stepped t F0) (modify_facility c g).
Proof.
  intros H s Hs c'. change (snd (modify_facility c g s)) with (exec (modify_facility c g) s).
  rewrite facilities_modify_facility.
  destruct (FacilityClass_eqb c c') eqn:E; [|apply Hs].
  apply FacilityClass_eqb_eq in E as <-.
  eapply rtc_r; [apply Hs|apply H].
Qed.

Lemma stepped_update_facility {A} c (g : Facility → A * Facility) :
  (∀ f, fac_step t c f (snd (g f))) → preserves (stepped t F0) (update_facility c g).
Proof.
  intros H s Hs c'. unfold update_facility. specialize (H (facilities s c)).
  destruct (g (facilities s c)) as [a f']. cbn [snd] in *.
  rewrite facilities_modify_facility.
  destruct (FacilityClass_eqb c c') eqn:E; [|apply Hs].
  apply FacilityClass_eqb_eq in E as <-.
  eapply rtc_r; [apply Hs|apply H].
Qed.

Lemma stepped_process_entry :
  preserves (stepped t F0) (TryStart.process_entry Pipes_River t).
Proof.
  intros s Hs c'. unfold TryStart.process_entry.
  pose proof (step_process_entry t Pipes_River (store s) (facilities s Pipes_River) eq_refl) as H.
  destruct (Pipes_River.process_entry t (store s) (facilities s Pipes_River)) as [[σ f] l].
  cbn [snd fst] in *. rewrite facilities_modify_facility.
  destruct (FacilityClass_eqb Pipes_River c') eqn:E; [|apply Hs].
  apply FacilityClass_eqb_eq in E as <-.
  eapply rtc_r; [apply Hs|apply H].
Qed.

(** Structure of a computation; the leaves are closed by [leaf]. *)
Ltac pres_step leaf :=
  lazymatch goal with
  | |- preserves _ (ret _) => apply preserves_ret
  | |- preserves _ (gets _) => apply preserves_gets
  | |- preserves _ (bind _ _) => apply preserves_bind; [|intros ?]
  | |- preserves _ (when _ _) => apply preserves_when
  | |- preserves _ (for_each _ _) => apply preserves_for_each; intros ?
  | |- preserves _ (while _ _) => apply preserves_while
  | |- preserves _ (match ?x with _ => _ end) => destruct x eqn:?
  | |- preserves _ _ => leaf
  end.

Ltac frame_leaf := apply stepped_keeps; frame; fail.

Lemma stepped_pipes_river : preserves (stepped t F0) (TryStart.pipes_river Pipes_River t).
Proof.
  unfold TryStart.pipes_river.
  apply preserves_bind; [apply stepped_process_entry|intros entering].
  apply preserves_for_each; intros group.
  apply preserves_bind; [frame_leaf|intros d].
  apply preserves_bind; [|intros _; frame_leaf].
  apply stepped_modify_facility. intros f. by apply step_river_append.
Qed.

Lemma stepped_single_slide : preserves (stepped t F0) (TryStart.single_slide Single_Slide t).
Proof.
  unfold TryStart.single_slide, TryStart.single_slide_pass, Simulation.append_in_service.
  repeat pres_step ltac:(first
    [ frame_leaf
    | apply stepped_update_facility; intros ?; by apply step_slide_pop
    | apply stepped_modify_facility; intros ?; by apply step_slide_record
    | apply stepped_modify_facility; intros ?; by apply step_slide_append ]).
Qed.

Lemma stepped_pipes_slide c :
  c = Big_Pipes_Slide ∨ c = Small_Pipes_Slide →
  preserves (stepped t F0) (TryStart.pipes_slide c t).
Proof.
  intros Hc. unfold TryStart.pipes_slide.
  repeat pres_step ltac:(first
    [ frame_leaf
    | apply stepped_update_facility; intros ?; by apply step_start_batch ]).
Qed.

Lemma stepped_pool c :
  c = Waves_Pool ∨ c = Kids_Pool → preserves (stepped t F0) (TryStart.pool c t).
Proof.
  intros Hc. unfold TryStart.pool, TryStart.pool_pass, TryStart.pool_scan.
  repeat pres_step ltac:(first
    [ frame_leaf
    | apply stepped_update_facility; intros ?; by apply step_scan ]).
Qed.

Lemma stepped_snorkel_tour : preserves (stepped t F0) (TryStart.snorkel_tour Snorkel_Tour t).
Proof.
  unfold TryStart.snorkel_tour.
  apply preserves_bind; [apply preserves_gets|intros f].
  destruct (Snorkel_Tour.get_available_instructor t f) as [i|] eqn:Hi; [|apply preserves_ret].
  apply get_available_instructor_Some in Hi.
  unfold Simulation.append_in_service.
  repeat pres_step ltac:(first
    [ frame_leaf
    | apply stepped_update_facility; intros ?; by apply step_fill_tour
    | apply stepped_modify_facility; intros ?; by apply step_start_tour
    | apply stepped_modify_facility; intros ?; by apply step_tour_append ]).
Qed.

Lemma stepped_try_start_facility c : preserves (stepped t F0) (try_start_facility c t).
Proof.
  destruct c; unfold try_start_facility.
  - apply stepped_pipes_river.
  - apply stepped_single_slide.
  - apply stepped_pipes_slide; auto.
  - apply stepped_pipes_slide; auto.
  - apply stepped_pool; auto.
  - apply stepped_pool; auto.
  - apply stepped_snorkel_tour.
Qed.

Lemma stepped_ArriveAtFacilityEvent v c :
  preserves (stepped t F0) (Handlers.ArriveAtFacilityEvent_handle t v c).
Proof.
  unfold Handlers.ArriveAtFacilityEvent_handle.
  repeat pres_step ltac:(first
    [ apply stepped_try_start_facility
    | frame_leaf
    | apply stepped_modify_facility; intros ?; by apply step_enter_queue ]).
Qed.

Lemma stepped_EndFacilityEvent v c i :
  preserves (stepped t F0) (Handlers.EndFacilityEvent_handle t v c i).
Proof.
  unfold Handlers.EndFacilityEvent_handle.
  apply preserves_bind; [frame_leaf|intros _].
  apply preserves_bind;
    [apply stepped_modify_facility; intros ?; by apply step_leave_service|intros _].
  apply preserves_bind; [frame_leaf|intros _].
  apply preserves_bind; [|intros _; apply stepped_keeps, frame_after_service].
  destruct c; try destruct i; first
    [ apply preserves_ret
    | apply preserves_bind; [apply preserves_gets|intros σ];
      apply stepped_modify_facility; intros ?; by apply step_release_tubes
    | apply preserves_bind; [|intros _; frame_leaf];
      apply stepped_modify_facility; intros ?; by apply step_finish_tour ].
Qed.

Lemma stepped_AbandonmentEvent v c :
  preserves (stepped t F0) (Handlers.AbandonmentEvent_handle t v c).
Proof.
  unfold Handlers.AbandonmentEvent_handle.
  repeat pres_step ltac:(first
    [ apply stepped_keeps, frame_move_on_after_abandonment
    | apply stepped_keeps, frame_handle_abandonment
    | frame_leaf
    | apply stepped_modify_facility; intros ?; by apply step_remove ]).
Qed.

Lemma stepped_InstructorBreakEndEvent i c :
  preserves (stepped t F0) (Handlers.InstructorBreakEndEvent_handle t i c).
Proof.
  unfold Handlers.InstructorBreakEndEvent_handle.
  repeat pres_step ltac:(first
    [ apply stepped_try_start_facility
    | frame_leaf
    | apply stepped_update_facility; intros ?; by apply step_finish_break ]).
Qed.

Lemma stepped_InstructorLunchEndEvent i c :
  preserves (stepped t F0) (Handlers.InstructorLunchEndEvent_handle t i c).
Proof.
  unfold Handlers.InstructorLunchEndEvent_handle.
  repeat pres_step ltac:(first
    [ apply stepped_try_start_facility
    | frame_leaf
    | apply stepped_modify_facility; intros ?; by apply step_finish_lunch ]).
Qed.

Lemma stepped_EndOfDayEvent h m :
  preserves (stepped t F0) (Handlers.EndOfDayEvent_handle t h m).
Proof.
  unfold Handlers.EndOfDayEvent_handle.
  repeat pres_step ltac:(first
    [ frame_leaf
    | apply stepped_modify_facility; intros ?; by apply step_close_regular
    | apply stepped_modify_facility; intros ?; by apply step_close_express ]).
Qed.

End stepped.

Lemma stepped_handle (event : Event) F0 : preserves (stepped (time event) F0) (handle event).
Proof.
  unfold handle. destruct (event_class event).
  - apply stepped_keeps, frame_FamilyArrivalEvent.
  - apply stepped_keeps, frame_TeensGroupArrivalEvent.
  - apply stepped_keeps, frame_SingleGroupArrivalEvent.
  - apply stepped_keeps, frame_EndReceptionEvent.
  - apply stepped_ArriveAtFacilityEvent.
  - apply stepped_EndFacilityEvent.
  - apply stepped_AbandonmentEvent.
  - apply stepped_keeps, frame_ArriveAtRestaurantEvent.
  - apply stepped_keeps, frame_EndRestaurantServiceEvent.
  - apply stepped_keeps, frame_EndMealEvent.
  - apply stepped_InstructorBreakEndEvent.
  - apply stepped_InstructorLunchEndEvent.
  - apply stepped_keeps, frame_VisitorDepartureEvent.
  - apply stepped_EndOfDayEvent.
Qed.

(** Handling an event moves each facility by facility steps only. *)
Lemma handle_steps (event : Event) (s : Simulation) (c : FacilityClass) :
  rtc (fac_step (time event) c) (facilities s c) (facilities (exec (handle event) s) c).
Proof. apply (stepped_handle event (facilities s) s). by intros c'. Qed.

(** ** The capacity invariant *)

Lemma headcount_list_remove v l : (headcount (list_remove v l) ≤ headcount l)%nat.
Proof.
  induction l as [|w l IH]; simpl; [done|].
  destruct (same w v); unfold headcount in *; simpl; lia.
Qed.

Lemma pop_head (t : option datetime) q e q' :
  QueueServer.pop t q = (Some e, q') → QueueServer.head q = Some (fst e).
Proof.
  unfold QueueServer.pop, QueueServer.head, QueueServer.visitors.
  destruct (server_queue q) as [|x rest]; [discriminate|]. by intros [= <- _].
Qed.

Lemma find_index_Some {A} (p : A → bool) l i :
  find_index p l = Some i → ∃ x, l !! i = Some x ∧ p x = true.
Proof.
  revert i. induction l as [|y l IH]; intros i; simpl; [discriminate|].
  destruct (p y) eqn:Hp.
  - intros [= <-]. by exists y.
  - destruct (find_index p l) as [j|]; [|discriminate].
    intros [= <-]. destruct (IH j eq_refl) as (x & ? & ?). by exists x.
Qed.

(** The two steps of the pool scan leave the people in service alone. *)
Lemma pop_service express t f :
  users_in_service (snd (Facility.pop express t f)) = users_in_service f
  ∧ capacity (snd (Facility.pop express t f)) = capacity f.
Proof.
  unfold Facility.pop. destruct (QueueServer.pop _ _), express; by simpl.
Qed.

Lemma pop_is_head express t f v :
  fst (Facility.pop express t f) = Some v →
  QueueServer.head (if express then queue_express f else queue_regular f) = Some v.
Proof.
  unfold Facility.pop. destruct (QueueServer.pop _ _) as [[e|] q'] eqn:E; [|discriminate].
  apply pop_head in E. simpl. by intros [= <-].
Qed.

Lemma scan_within_capacity express t f :
  (headcount (users_in_service f) ≤ capacity f)%nat →
  (headcount (users_in_service (snd (Pool.scan express t f)))
   ≤ capacity (snd (Pool.scan express t f)))%nat.
Proof.
  intros Hf. unfold Pool.scan.
  destruct (find_index _ _) as [i|] eqn:Hi; [|done].
  apply find_index_Some in Hi as (x & Hx & Hp). rewrite Hx.
  unfold Pool.can_enter in Hp. apply Nat.leb_le in Hp.
  destruct i as [|i].
  - destruct (Facility.pop express t f) as [[v|] f1] eqn:Hpop; cbn [snd].
    + pose proof (pop_service express t f) as [H1 H2]. rewrite Hpop in H1, H2. simpl in H1, H2.
      pose proof (pop_is_head express t f v) as Hh. rewrite Hpop in Hh.
      specialize (Hh eq_refl). unfold QueueServer.head in Hh.
      destruct (QueueServer.visitors _) as [|y ?]; [done|]. simpl in Hx, Hh.
      assert (x = v) as -> by congruence.
      unfold Facility.append_in_service. simpl. rewrite H1, H2, headcount_app.
      unfold headcount at 2. simpl. lia.
    + pose proof (pop_service express t f) as [H1 H2]. rewrite Hpop in H1, H2. simpl in H1, H2.
      by rewrite H1, H2.
  - cbn [snd]. unfold Facility.append_in_service, Facility.remove.
    destruct express; simpl; rewrite headcount_app; unfold headcount at 2; simpl; lia.
Qed.

Lemma rollback_fields temp q f g :
  (∀ q f, users_in_service (g q f) = users_in_service f ∧ tube_size (g q f) = tube_size f) →
  users_in_service (g (Pipes_Slide.rollback temp q) f) = users_in_service f.
Proof. intros H. apply H. Qed.

Lemma get_next_batch_service t f :
  users_in_service (snd (Pipes_Slide.get_next_batch t f)) = users_in_service f
  ∧ tube_size (snd (Pipes_Slide.get_next_batch t f)) = tube_size f.
Proof.
  unfold Pipes_Slide.get_next_batch.
  destruct (_ <? _)%nat; [done|].
  destruct (Pipes_Slide.fill _ _ _ _); [done|].
  by destruct (Pipes_Slide.fill _ _ _ _).
Qed.

Lemma start_batch_within_capacity t f :
  (headcount (users_in_service f) ≤ tube_size f)%nat →
  (headcount (users_in_service (snd (Pipes_Slide.start_batch t f)))
   ≤ tube_size (snd (Pipes_Slide.start_batch t f)))%nat.
Proof.
  intros Hf. unfold Pipes_Slide.start_batch, Pipes_Slide.can_enter.
  destruct (length (users_in_service f) =? 0)%nat eqn:He; [|done].
  apply Nat.eqb_eq in He. apply length_zero_iff_nil in He.
  pose proof (get_next_batch_contract t f) as Hc.
  pose proof (get_next_batch_service t f) as [H1 H2].
  destruct (Pipes_Slide.get_next_batch t f) as [batch f']. simpl in *.
  rewrite H1, H2, He. simpl.
  destruct Hc as [(-> & _)|(_ & -> & _)]; [unfold headcount; simpl; lia|done].
Qed.

Lemma pair_tubes_nonneg g1 g2 : 0 <= Pipes_River.pair_tubes g1 g2.
Proof. unfold Pipes_River.pair_tubes. lia. Qed.

Lemma process_entry_step_tubes t st :
  tubes_ok st →
  match Pipes_River.process_entry_step t st with
  | Continue st' | Break st' => tubes_ok st'
  end.
Proof.
  destruct st as [[σ f] l]. unfold tubes_ok, Pipes_River.process_entry_step. cbn [fst snd].
  intros Hf.
  repeat (case_match; simplify_eq; try done); unfold Pipes_River.enter_pair; cbn [fst snd];
    repeat match goal with
           | H : (_ <=? _) = true |- _ => apply Z.leb_le in H
           end;
    cbn [occupied_tubes set_occupied_tubes set_queue_express set_queue_regular] in *;
    repeat match goal with
           | H : context [Pipes_River.pair_tubes ?a ?b] |- _ =>
               lazymatch goal with
               | _ : 0 <= Pipes_River.pair_tubes a b |- _ => fail
               | _ => pose proof (pair_tubes_nonneg a b)
               end
           end;
    try lia.
  all: unfold Pipes_River.people_per_tube in *;
    match goal with H : _ + Z.of_nat (_ `div` _) <= _ |- _ => simpl in H end; lia.
Qed.

Lemma process_entry_loop_tubes fuel t st :
  tubes_ok st → tubes_ok (Pipes_River.process_entry_loop fuel t st).
Proof.
  revert st. induction fuel as [|fuel IH]; intros st Hst; simpl; [done|].
  destruct (_ <? _); [|done].
  pose proof (process_entry_step_tubes t st Hst) as H.
  destruct (Pipes_River.process_entry_step t st); [by apply IH|done].
Qed.

Lemma release_tubes_within σ v f :
  0 <= occupied_tubes f <= Pipes_River.total_tubes →
  0 <= occupied_tubes (Pipes_River.release_tubes σ v f) <= Pipes_River.total_tubes.
Proof.
  intros Hf. unfold Pipes_River.release_tubes. cbn [occupied_tubes set_occupied_tubes].
  repeat case_match; lia.
Qed.

(** A facility step keeps the capacity invariant of the facility. *)
Lemma fac_step_within_capacity t c f f' :
  fac_step t c f f' → within_capacity c f → within_capacity c f'.
Proof.
  intros Hstep. destruct Hstep; subst; try done.
  - unfold Facility.enter_queue. destruct express, c; done.
  - unfold Facility.remove. destruct express, c; done.
  - unfold Facility.leave_service. destruct (is_in _ _); [|done].
    pose proof (headcount_list_remove v (users_in_service f)).
    destruct c; simpl in *; try done; lia.
  - unfold Snorkel_Tour.finish_break. destruct (_ && _), c; done.
  - apply release_tubes_within.
  - unfold Pipes_River.process_entry. intros Hf.
    apply (process_entry_loop_tubes _ t (σ, f, [])), Hf.
  - destruct H as [-> | ->]; apply start_batch_within_capacity.
  - destruct H as [-> | ->]; apply scan_within_capacity.
Qed.

Lemma rtc_within_capacity t c f f' :
  rtc (fac_step t c) f f' → within_capacity c f → within_capacity c f'.
Proof. induction 1; eauto using fac_step_within_capacity. Qed.

Lemma nobody_within_capacity s c : nobody_in_service s → within_capacity c (facilities s c).
Proof.
  intros H. destruct (H c) as [H1 H2].
  destruct c; simpl; rewrite ?H1, ?H2; unfold headcount, Pipes_River.total_tubes; simpl; lia.
Qed.

Lemma reachable_within_capacity s :
  reachable s → ∀ c, within_capacity c (facilities s c).
Proof.
  induction 1 as [s H|t c s _ IH|t heap s _ IH|event s _ IH|s _ IH]; intros c'.
  - by apply nobody_within_capacity.
  - rewrite (keeps_exec facilities) by apply keeps_schedule, facilities_ignores_bookkeeping.
    apply IH.
  - apply IH.
  - eapply rtc_within_capacity; [apply handle_steps|apply IH].
  - rewrite (keeps_exec facilities) by apply frame_force_close_park. apply IH.
Qed.

(** ** Snorkel tours: at most 30 people per tour *)

Lemma fill_tour_spec fuel t f g n :
  n = headcount g → (n ≤ Snorkel_Tour.tour_capacity)%nat →
  (headcount (fst (Snorkel_Tour.fill_tour fuel t f g n)) ≤ Snorkel_Tour.tour_capacity)%nat
  ∧ users_in_service (snd (Snorkel_Tour.fill_tour fuel t f g n)) = users_in_service f.
Proof.
  revert f g n. induction fuel as [|fuel IH]; intros f g n Hn Hle; simpl; [by subst|].
  destruct (_ && _); [|by subst].
  destruct (QueueServer.head _) as [next|] eqn:Hh; [|by subst].
  destruct (_ <=? _)%nat eqn:Hfit; [|by subst].
  apply Nat.leb_le in Hfit.
  pose proof (pop_service (QueueServer.nonempty (queue_express f)) t f) as [Hs _].
  pose proof (pop_is_head (QueueServer.nonempty (queue_express f)) t f) as Hp.
  destruct (Facility.pop _ t f) as [[v|] f1]; simpl in *; [|by subst].
  specialize (Hp v eq_refl). rewrite Hh in Hp. injection Hp as <-.
  destruct (IH f1 (g ++ [next]) (n + group_size next)%nat) as [H1 H2].
  - subst n. rewrite headcount_app. unfold headcount at 3. simpl. lia.
  - exact Hfit.
  - split; [exact H1|by rewrite H2].
Qed.

Lemma in_service_append_schedule c t d i v s :
  in_service c (exec (bind (Simulation.append_in_service c v) (fun _ =>
                            Simulation.schedule_end c t d v i)) s)
  = in_service c s ++ [v].
Proof.
  rewrite exec_bind. unfold in_service.
  rewrite (keeps_exec facilities) by apply keeps_schedule_end, facilities_ignores_bookkeeping.
  change (snd (Simulation.append_in_service c v s))
    with (exec (modify_facility c (Facility.append_in_service v)) s).
  rewrite facilities_modify_facility.
  by replace (FacilityClass_eqb c c) with true by (by destruct c).
Qed.

Lemma in_service_for_each_append c t d i l s :
  in_service c (exec (for_each l (fun visitor =>
                        bind (Simulation.append_in_service c visitor) (fun _ =>
                              Simulation.schedule_end c t d visitor i))) s)
  = in_service c s ++ l.
Proof.
  revert s. induction l as [|v l IH]; intros s; simpl; [by rewrite app_nil_r|].
  rewrite exec_bind, IH.
  pose proof (in_service_append_schedule c t d i v s) as H. unfold exec in H.
  rewrite H. by rewrite <- app_assoc.
Qed.

Lemma exec_bind_gets {A B} (f : Simulation → A) (k : A → St B) s :
  exec (bind (gets f) k) s = exec (k (f s)) s.
Proof. reflexivity. Qed.

Lemma exec_bind_update_facility {A B} c (g : Facility → A * Facility) (k : A → St B) s :
  exec (bind (update_facility c g) k) s
  = exec (k (fst (g (facilities s c))))
      (exec (modify_facility c (fun _ => snd (g (facilities s c)))) s).
Proof. unfold exec, bind, update_facility. by destruct (g _). Qed.

(** What [try_start_facility] adds to the people in service at the Snorkel
    Tour is one tour group of at most 30 people. *)
Lemma snorkel_tour_group (s : Simulation) (t : datetime) :
  ∃ tour_group,
    (headcount tour_group ≤ Snorkel_Tour.tour_capacity)%nat
    ∧ in_service Snorkel_Tour (exec (try_start_facility Snorkel_Tour t) s)
      = in_service Snorkel_Tour s ++ tour_group.
Proof.
  unfold try_start_facility, TryStart.snorkel_tour.
  rewrite exec_bind_gets.
  assert (Hnil : ∃ tour_group,
             (headcount tour_group ≤ Snorkel_Tour.tour_capacity)%nat
             ∧ in_service Snorkel_Tour (exec (ret tt) s) = in_service Snorkel_Tour s ++ tour_group).
  { exists []. split; [unfold headcount; simpl; lia|]. by rewrite app_nil_r. }
  destruct (Snorkel_Tour.get_available_instructor _ _) as [i|]; [|exact Hnil].
  destruct (_ || _); [|exact Hnil].
  rewrite exec_bind_update_facility.
  destruct (fill_tour_spec (S (Facility.queued (facilities s Snorkel_Tour))) t
              (facilities s Snorkel_Tour) [] 0 eq_refl) as [Hb Hsame];
    [unfold Snorkel_Tour.tour_capacity; lia|].
  destruct (Snorkel_Tour.fill_tour _ _ _ _ _) as [group f1]. cbn [fst snd] in *.
  destruct group as [|v group].
  { exists []. split; [unfold headcount; simpl; lia|]. rewrite app_nil_r.
    unfold in_service. change (exec (ret tt) ?x) with x.
    rewrite facilities_modify_facility. simpl. exact Hsame. }
  exists (v :: group). split; [exact Hb|].
  rewrite exec_bind, exec_bind, in_service_for_each_append. f_equal.
  unfold in_service.
  change (snd (modify_facility ?c ?g ?s)) with (exec (modify_facility c g) s).
  rewrite facilities_modify_facility. simpl FacilityClass_eqb. cbv iota.
  change (snd (Simulation.get_service_duration ?c ?s))
    with (exec (Simulation.get_service_duration c) s).
  rewrite (keeps_exec facilities) by apply keeps_get_service_duration, facilities_ignores_bookkeeping.
  rewrite facilities_modify_facility. simpl. exact Hsame.
Qed.

(** ** Runs stay within the reachable states *)

Lemma init_nobody_in_service e start : nobody_in_service (Simulation.__init__ e start).
Proof.
  intros c. unfold Simulation.__init__.
  rewrite (keeps_exec facilities).
  - by destruct c.
  - unfold Simulation._schedule_initial_arrivals. frame.
Qed.

Lemma set_clock_same s : set_clock (clock s) s = s.
Proof. by destruct s. Qed.

Lemma run_loop_reachable fuel s : reachable s → reachable (run_loop fuel s).
Proof.
  revert s. induction fuel as [|fuel IH]; intros s Hs; simpl; [done|].
  destruct (_ && _); [|done].
  destruct (heapq.heappop (event_queue s)) as [[event|] heap']; [|done].
  destruct (_ <? _).
  - rewrite <- (set_clock_same (set_event_queue heap' s)). by apply reachable_pop.
  - apply IH, reachable_handle. by apply reachable_pop.
Qed.

(** Every state a run of the simulation ends in is reachable. *)
Lemma run_reachable fuel e start : reachable (run fuel (Simulation.__init__ e start)).
Proof.
  unfold run. apply reachable_force_close, run_loop_reachable, reachable_schedule.
  apply reachable_start, init_nobody_in_service.
Qed.

(** ** Capacity in the reachable states *)

(** C4, as the code has it.  In every reachable state the headcount in
    service of the Wave Pool and of the Kids Pool is at most the capacity of
    the pool, the headcount in service of the Big and of the Small Pipes
    Slide is at most the tube size, and the occupied tubes of Pipes River
    are between 0 and 60.  For the Snorkel Tour the bound of 30 holds for
    each tour: what a try to start adds to the people in service is one tour
    group of at most 30 people.  (Nothing is stated about the Single
    Slide.) *)
Theorem capacity_invariant (s : Simulation) :
  reachable s →
  (∀ c, within_capacity c (facilities s c))
  ∧ ∀ t, ∃ tour_group,
      (headcount tour_group ≤ Snorkel_Tour.tour_capacity)%nat
      ∧ in_service Snorkel_Tour (exec (try_start_facility Snorkel_Tour t) s)
        = in_service Snorkel_Tour s ++ tour_group.
Proof.
  intros Hs. split; [by apply reachable_within_capacity|].
  intros t. apply snorkel_tour_group.
Qed.

Lemma example_park_nobody : nobody_in_service example_park.
Proof. apply init_nobody_in_service. Qed.

Lemma snorkel_two_tours_reachable : reachable snorkel_two_tours.
Proof.
  unfold snorkel_two_tours, snorkel_first_tour, snorkel_queue_at_lunch, arrive.
  repeat apply reachable_handle. apply reachable_start, example_park_nobody.
Qed.

(** Two tours are in service together at 14:01: 42 people, with a capacity
    of 30. *)
Lemma snorkel_two_tours_over_capacity :
  reachable snorkel_two_tours
  ∧ capacity (facilities snorkel_two_tours Snorkel_Tour) = 30%nat
  ∧ headcount (users_in_service (facilities snorkel_first_tour Snorkel_Tour)) = 30%nat
  ∧ headcount (users_in_service (facilities snorkel_two_tours Snorkel_Tour)) = 42%nat
  ∧ ¬ (headcount (users_in_service (facilities snorkel_two_tours Snorkel_Tour))
       ≤ capacity (facilities snorkel_two_tours Snorkel_Tour))%nat.
Proof.
  split; [apply snorkel_two_tours_reachable|].
  vm_compute. repeat split. lia.
Qed.

(** Eight riders are on the Single Slide at 10:01:30, with a capacity of 6:
    the Single Slide branch of [try_start_facility] asks for a free lane,
    not for [can_enter]. *)
Lemma slide_eight_riders_over_capacity :
  capacity (facilities slide_eight_riders Single_Slide) = 6%nat
  ∧ length (users_in_service (facilities slide_eight_riders Single_Slide)) = 8%nat
  ∧ Single_Slide.can_enter (mk_datetime 0 10 1 30)
      (facilities slide_eight_riders Single_Slide) = false.
Proof. vm_compute. repeat split. Qed.

Lemma capacity_invariant_witness :
  reachable snorkel_two_tours
  ∧ within_capacity Waves_Pool (facilities snorkel_two_tours Waves_Pool)
  ∧ within_capacity Pipes_River (facilities snorkel_two_tours Pipes_River).
Proof.
  split; [apply snorkel_two_tours_reachable|].
  destruct (capacity_invariant snorkel_two_tours snorkel_two_tours_reachable) as [H _].
  split; apply H.
Defined.

Lemma no_tour_started_refl f : no_tour_started f f.
Proof. split; [done|]. intros i st H1 H2. by exists st. Qed.

Lemma no_tour_started_trans f1 f2 f3 :
  no_tour_started f1 f2 → no_tour_started f2 f3 → no_tour_started f1 f3.
Proof.
  intros [H1 H2] [H3 H4]. split; [by etrans|].
  intros i st3 Hi Ht. destruct (H4 i st3 Hi Ht) as (st2 & Hi2 & Ht2). eauto.
Qed.

Lemma no_tour_started_same f f' :
  users_in_service f' = users_in_service f →
  instructor_states f' = instructor_states f →
  no_tour_started f f'.
Proof.
  intros H1 H2. split; [by rewrite H1|]. rewrite H2. intros i st Hi Ht. by exists st.
Qed.

Lemma sublist_list_remove v l : sublist (list_remove v l) l.
Proof.
  induction l as [|w l IH]; simpl; [done|].
  destruct (same w v); [by apply sublist_cons|by apply sublist_skip].
Qed.

(** Changing the instructor [i] without putting anybody on tour. *)
Lemma alter_keeps_off_tour (g : InstructorState → InstructorState) i f l :
  (∀ st, on_tour (g st) = true → on_tour st = true) →
  users_in_service (set_instructor_states (alter g i l) f) = users_in_service f →
  instructor_states f = l →
  no_tour_started f (set_instructor_states (alter g i l) f).
Proof.
  intros Hg Hu <-. split; [by rewrite Hu|].
  intros j st'. simpl. destruct (decide (i = j)) as [<-|Hne].
  - rewrite list_lookup_alter_eq.
    destruct (instructor_states f !! i) as [st|] eqn:E; [|discriminate].
    simpl. intros [= <-] Ht. exists st. split; [done|by apply Hg].
  - rewrite list_lookup_alter_ne by done. intros Hj Ht. by exists st'.
Qed.

(** Inside the lunch window no facility step of the Snorkel Tour starts a
    tour. *)
Lemma fac_step_no_tour t f f' :
  Snorkel_Tour.restricted t = true →
  fac_step t Snorkel_Tour f f' → no_tour_started f f'.
Proof.
  intros Hr Hstep. inversion Hstep; subst; try discriminate; try congruence;
    try match goal with H : _ ∨ _ |- _ => by destruct H end.
  - unfold Facility.enter_queue. destruct express; by apply no_tour_started_same.
  - unfold Facility.remove. destruct express; by apply no_tour_started_same.
  - by apply no_tour_started_same.
  - by apply no_tour_started_same.
  - unfold Facility.leave_service. destruct (is_in _ _); [|apply no_tour_started_refl].
    split; [apply sublist_list_remove|]. intros i st H1 H2. by exists st.
  - unfold Snorkel_Tour.finish_tour. by apply alter_keeps_off_tour.
  - unfold Snorkel_Tour.finish_break. destruct (_ && _); by apply alter_keeps_off_tour.
  - unfold Snorkel_Tour.finish_lunch. by apply alter_keeps_off_tour.
Qed.

Lemma rtc_no_tour t f f' :
  Snorkel_Tour.restricted t = true →
  rtc (fac_step t Snorkel_Tour) f f' → no_tour_started f f'.
Proof.
  intros Hr. induction 1 as [|f1 f2 f3 H12 _ IH]; [apply no_tour_started_refl|].
  eapply no_tour_started_trans; [by eapply fac_step_no_tour|exact IH].
Qed.

(** C6. At a time of day from 12:20 (included) to 14:00 (excluded) the
    availability check returns no instructor, whatever the state of the
    instructors; [try_start_facility] on the Snorkel Tour then leaves the
    whole state as it is; and handling any event at such a time starts no
    tour: nobody is added to the people in service at the Snorkel Tour and
    no instructor goes on tour. *)
Theorem no_tour_starts_in_lunch_window (t : datetime) :
  in_lunch_window t →
  (∀ f, Snorkel_Tour.get_available_instructor t f = None)
  ∧ (∀ s, try_start_facility Snorkel_Tour t s = (tt, s))
  ∧ (∀ event s, time event = t →
       no_tour_started (facilities s Snorkel_Tour)
         (facilities (exec (handle event) s) Snorkel_Tour)).
Proof.
  intros Hw. apply restricted_iff in Hw.
  assert (Hnone : ∀ f, Snorkel_Tour.get_available_instructor t f = None).
  { intros f. unfold Snorkel_Tour.get_available_instructor. by rewrite Hw. }
  split; [exact Hnone|]. split.
  - intros s. unfold try_start_facility, TryStart.snorkel_tour, bind, gets.
    by rewrite Hnone.
  - intros event s <-. eapply rtc_no_tour; [exact Hw|apply handle_steps].
Qed.

(** At 12:20:00 sharp, with a group waiting and both instructors free, no
    tour starts; one minute earlier the same group would have left on tour. *)
Lemma tour_at_12_19_not_at_12_20 :
  in_service Snorkel_Tour (arrive (mk_datetime 0 12 20 0) (group_of 1 6) Snorkel_Tour example_park)
  = []
  ∧ map vid (in_service Snorkel_Tour
               (arrive (mk_datetime 0 12 19 0) (group_of 1 6) Snorkel_Tour example_park))
    = [1%positive]
  ∧ in_service Snorkel_Tour
      (arrive (mk_datetime 0 13 59 59) (group_of 1 6) Snorkel_Tour example_park) = [].
Proof. vm_compute. repeat split. Qed.

Lemma no_tour_starts_in_lunch_window_witness :
  in_lunch_window (mk_datetime 0 12 20 0)
  ∧ try_start_facility Snorkel_Tour (mk_datetime 0 12 20 0) example_park = (tt, example_park).
Proof.
  assert (H : in_lunch_window (mk_datetime 0 12 20 0)) by (vm_compute; split; [discriminate|reflexivity]).
  split; [exact H|].
  destruct (no_tour_starts_in_lunch_window _ H) as (_ & H2 & _). apply H2.
Defined.

(** ** The order of events with equal times *)

(** C1 (what the code does).  Two events with the same time, pushed in the
    order [e1], [e2], leave the heap in the order of their [id]s: the second
    one comes out first when its address is smaller.  So a run depends on
    the addresses of the event objects.  With the same draws and the same
    start (18:40), increasing addresses make the family arrival of 18:40
    the first event handled, decreasing addresses the single arrival; the
    complete runs end with different counters and ratings: 6 people arrived
    and completed against 14, a revenue of 1235 against 2615. *)
Theorem tie_break_is_by_address :
  (∀ (t : datetime) (a b : Z) (c1 c2 : EventClass),
     let e1 := {| time := t; id := a; event_class := c1 |} in
     let e2 := {| time := t; id := b; event_class := c2 |} in
     fst (heapq.heappop (heapq.heappush (heapq.heappush [] e1) e2))
     = Some (if b <? a then e2 else e1))
  ∧ random_stream (env_tabulated alternating ascending)
    = random_stream (env_tabulated alternating descending)
  ∧ first_event (Simulation.__init__ (env_tabulated alternating ascending) (mk_datetime 0 18 40 0))
    = Some FamilyArrivalEvent
  ∧ first_event (Simulation.__init__ (env_tabulated alternating descending) (mk_datetime 0 18 40 0))
    = Some SingleGroupArrivalEvent
  ∧ (∀ more : nat,
       let s := evening_run (env_tabulated alternating ascending) (60 + more) in
       total_entities_arrived s = 3 ∧ total_people_arrived s = 6
       ∧ total_entities_completed s = 3 ∧ total_people_completed s = 6
       ∧ total_revenue s = 1235
       ∧ ratings s = [9.1%Q; 9.9%Q; 10.7%Q])
  ∧ (∀ more : nat,
       let s := evening_run (env_tabulated alternating descending) (60 + more) in
       total_entities_arrived s = 3 ∧ total_people_arrived s = 14
       ∧ total_entities_completed s = 3 ∧ total_people_completed s = 14
       ∧ total_revenue s = 2615
       ∧ ratings s = [11%Q; 10%Q; 0%Q]).
Proof.
  split.
  { intros t a b c1 c2 e1 e2.
    unfold heapq.heappush, heapq.heappop. simpl.
    unfold Event.__lt__. simpl. rewrite Z.eqb_refl.
    destruct (b <? a) eqn:E; simpl; [reflexivity|].
    unfold Event.__lt__. simpl. reflexivity. }
  split; [reflexivity|].
  split; [by vm_compute|].
  split; [by vm_compute|].
  split; intros more; vm_compute; repeat split.
Qed.

(** ** The count of active subgroups of a family *)

Lemma get_upd σ v g w :
  get (upd v g σ) w = if decide (vid v = vid w) then g (get σ w) else get σ w.
Proof.
  unfold get, upd. case_decide as E.
  - rewrite <- E. by rewrite lookup_insert_eq.
  - by rewrite lookup_insert_ne.
Qed.

Lemma active_count_ignores_bookkeeping w : ignores_bookkeeping (active_count w).
Proof. by split. Qed.

(** A write to a visitor object that keeps its count. *)
Lemma active_count_upd w v g s :
  (∀ st, active_subgroups_count (g st) = active_subgroups_count st) →
  active_count w (set_store (upd v g (store s)) s) = active_count w s.
Proof.
  intros Hg. unfold active_count. cbn [store set_store]. rewrite get_upd.
  case_decide; [apply Hg|done].
Qed.

Ltac count_side :=
  first [ intros ?; apply active_count_upd; intros ?; reflexivity
        | intros ?; reflexivity ].

Lemma keeps_count_handle_abandonment w v c :
  keeps (active_count w) (TeenGroup.handle_abandonment v c).
Proof.
  unfold TeenGroup.handle_abandonment. unfold_draws.
  repeat keeps_step (active_count_ignores_bookkeeping w) count_side.
Qed.

(** [AbandonmentEvent.handle] never writes the count of any family. *)
Lemma abandonment_keeps_count w t v c :
  keeps (active_count w) (Handlers.AbandonmentEvent_handle t v c).
Proof.
  unfold Handlers.AbandonmentEvent_handle, Handlers.move_on_after_abandonment,
    Handlers.leave_after_abandonment.
  repeat first [ apply keeps_count_handle_abandonment
               | keeps_step (active_count_ignores_bookkeeping w) count_side ].
Qed.

(** [force_close_park] does not write to the visitor objects at all. *)
Lemma force_close_keeps_store : keeps store Simulation.force_close_park.
Proof.
  assert (Hign : ignores_bookkeeping store) by (by split).
  assert (Hl : ∀ l completed, keeps store (Simulation.force_close_list l completed)).
  { induction l as [|v l IH]; intros completed; simpl; [apply keeps_ret|].
    destruct (negb _); [|apply IH].
    apply keeps_bind; [by apply keeps_complete_visitor|intros _; apply IH]. }
  unfold Simulation.force_close_park.
  apply keeps_bind; [apply keeps_gets|intros completed].
  revert completed. induction all_facilities as [|c l IH]; intros completed; simpl; [apply keeps_ret|].
  apply keeps_bind; [apply keeps_gets|intros f].
  repeat (apply keeps_bind; [apply Hl|intros ?]). apply IH.
Qed.

(** The exit of a subgroup after a ride does decrement the count of its
    family, and books the family when the count reaches 0. *)
Lemma exit_after_facility_decrements :
  let s := exec (Handlers.exit_after_facility subgroup_young) subgroup_waiting in
  active_count family_of_four subgroup_waiting = 2
  ∧ active_count family_of_four s = 1
  ∧ total_entities_completed s = 0
  ∧ active_count family_of_four (exec (Handlers.exit_after_facility subgroup_young) s) = 0
  ∧ total_people_completed (exec (Handlers.exit_after_facility subgroup_young) s) = 4.
Proof. vm_compute. repeat split. Qed.

(** C2 (what the code does).  The count of active subgroups is 1 on a new
    family; [AbandonmentEvent.handle] never writes the count of any family
    and [force_close_park] writes to no visitor object.  So in the complete
    run of a park that opens at 18:40, where every draw is 1/16, the family
    of three buys an express pass, waits at Pipes River for another odd
    group until the run ends, and is booked by the force-close (three
    entities, six people completed) while its count is still 1.  And a
    subgroup that leaves the park through the exit branch of the
    abandonment handler is booked itself, with its own size 2, while the
    count of its family stays at 2. *)
Theorem completion_without_count_reaching_zero :
  active_subgroups_count VState_init = 1
  ∧ (∀ w t v c s,
       active_count w (exec (Handlers.AbandonmentEvent_handle t v c) s) = active_count w s)
  ∧ (∀ w s, active_count w (exec Simulation.force_close_park s) = active_count w s)
  ∧ (∀ more : nat,
       let s := evening_run (env_tabulated all_low ascending) (20 + more) in
       map (fun v => (kind v, group_size v, active_count v s)) (visitors_completed s)
       = [(TeenGroup, 2%nat, 1); (Family, 3%nat, 1); (SingleVisitor, 1%nat, 1)]
       ∧ map kind (QueueServer.visitors (queue_express (facilities s Pipes_River))) = [Family]
       ∧ total_entities_entered s = 3
       ∧ total_entities_completed s = 3
       ∧ total_people_completed s = 6)
  ∧ (let s := exec (Handlers.AbandonmentEvent_handle (mk_datetime 0 11 15 0)
                      subgroup_young Pipes_River) subgroup_waiting in
     active_count family_of_four subgroup_waiting = 2
     ∧ active_count family_of_four s = 2
     ∧ map vid (visitors_completed s) = [vid subgroup_young]
     ∧ total_entities_completed s = 1
     ∧ total_people_completed s = 2).
Proof.
  split; [reflexivity|]. split; [|split; [|split]].
  - intros w t v c s. apply (keeps_exec (active_count w)), abandonment_keeps_count.
  - intros w s. unfold active_count.
    by rewrite (keeps_exec store) by apply force_close_keeps_store.
  - intros more. vm_compute. repeat split.
  - vm_compute. repeat split.
Qed.

(** ** Force-close at the end of the run *)

Lemma force_close_facilities_empty l completed s :
  facilities_empty s → Simulation.force_close_facilities l completed s = (tt, s).
Proof.
  intros H. revert completed. induction l as [|c l IH]; intros completed; simpl; [done|].
  destruct (H c) as (H1 & H2 & H3).
  unfold bind, gets, QueueServer.visitors. rewrite H1, H2, H3. simpl. apply IH.
Qed.

(** C3 (what the code does).  [force_close_park] goes through the people in
    service and the two queues of the seven facilities, and nothing else:
    when nobody rides or waits at a facility it changes nothing, whoever
    stands in a restaurant.  In the run of a park whose closing time, 13:01,
    is in the lunch hours, a single visitor leaves the clerk at 12:57,
    rides the Single Slide until 13:00 and goes to the pizza restaurant,
    where the order is ready at 13:10; the run ends before, and the
    force-close does not complete the visitor: one entity (one person) has
    entered and none is completed. *)
Theorem force_close_misses_restaurants :
  (∀ s, facilities_empty s → exec Simulation.force_close_park s = s)
  ∧ end_time lunch_time_park = mk_datetime 0 13 1 0
  ∧ (∀ more : nat,
       let s := run (5 + more) lunch_time_park in
       map vid (QueueServer.visitors (queue (restaurants s Pizza_Restaurant)))
       = [vid (single 1)]
       ∧ total_entities_entered s = 1
       ∧ total_people_entered s = 1
       ∧ total_entities_completed s = 0
       ∧ total_people_completed s = 0
       ∧ total_entities_completed s ≠ total_entities_entered s
       ∧ total_people_completed s ≠ total_people_entered s).
Proof.
  split; [|split; [by vm_compute|]].
  - intros s H. unfold Simulation.force_close_park, exec, bind, gets.
    by rewrite force_close_facilities_empty.
  - intros more. vm_compute. repeat split; discriminate.
Qed.

(** ** Durations of the Big Pipes Slide *)

Section real.
Local Open Scope R_scope.

Lemma exp_5_lt : exp 5 < 4096.
Proof.
  replace 5 with (1 + 1 + 1 + 1 + 1) by lra.
  rewrite !exp_plus.
  pose proof exp_le_3 as H3. pose proof (exp_pos 1) as H0.
  assert (exp 1 * exp 1 <= 9) by nra.
  assert (exp 1 * exp 1 * exp 1 <= 27) by nra.
  assert (exp 1 * exp 1 * exp 1 * exp 1 <= 81) by nra.
  nra.
Qed.

Lemma ln_4096 : 5 < ln 4096.
Proof.
  rewrite <- (ln_exp 5) at 1. apply ln_increasing; [apply exp_pos|apply exp_5_lt].
Qed.

(** The draws 1/4096 and 1/2 give a Box-Muller value below -3. *)
Lemma box_muller_low : Real_Sampling.box_muller (/ 4096) (/ 2) <= -3.
Proof.
  unfold Real_Sampling.box_muller, Real_Sampling.sample_uniform.
  replace (0 + (1 - 0) * / 4096) with (/ 4096) by lra.
  replace (2 * PI * (0 + (1 - 0) * / 2)) with PI by lra.
  rewrite cos_PI, ln_Rinv by lra.
  assert (H : 3 <= sqrt (-2 * - ln 4096)); [|lra].
  replace 3 with (sqrt 9).
  - apply sqrt_le_1; [lra| |]; pose proof ln_4096; lra.
  - replace 9 with (3 * 3) by lra. apply sqrt_square. lra.
Qed.

Lemma big_pipes_duration_eq r1 r2 :
  Real_Sampling.sample_big_pipes_slide_duration r1 r2
  = 48 / 10 + 18322 / 10000 * Real_Sampling.box_muller r1 r2.
Proof. reflexivity. Qed.
End real.

Lemma big_pipes_batch_reachable : reachable big_pipes_batch.
Proof.
  unfold big_pipes_batch, arrive.
  repeat apply reachable_handle. apply reachable_start, init_nobody_in_service.
Qed.

(** C8, refuted.  With the draws 1/4096 and 1/2 the Big Pipes duration is
    negative: below 4.8 - 3 * 1.8322 over the reals, and the sampler returns
    about -2.67 minutes with the values the library functions have as
    floats; in the run where groups of 5 and of 3 reach the Big Pipes Slide
    at 10:00, the two end-of-service events are scheduled at
    09:57:19.623874, before the clock. *)
Theorem big_pipes_negative_duration :
  (Real_Sampling.sample_big_pipes_slide_duration (/ 4096) (/ 2) < 0)%R
  ∧ (∃ duration,
       fst (Sampling_Algorithms.sample_big_pipes_slide_duration
              (Simulation.__init__ env_low_draw (mk_datetime 0 9 0 0)))
       = Value duration
       ∧ (duration < - (267 # 100))%Q)
  ∧ reachable big_pipes_batch
  ∧ clock big_pipes_batch = mk_datetime 0 10 0 0
  ∧ map (fun e => (event_class e, time e))
      (end_of_service_events Big_Pipes_Slide big_pipes_batch)
    = [(EndFacilityEvent (group_of 1 5) Big_Pipes_Slide None, mk_datetime 0 9 57 19 + 623874);
       (EndFacilityEvent (group_of 2 3) Big_Pipes_Slide None, mk_datetime 0 9 57 19 + 623874)]
  ∧ forallb (fun e => time e <? clock big_pipes_batch)
      (end_of_service_events Big_Pipes_Slide big_pipes_batch) = true.
Proof.
  split.
  { rewrite big_pipes_duration_eq. pose proof box_muller_low. lra. }
  split.
  { eexists. split; [by vm_compute|]. by vm_compute. }
  split; [apply big_pipes_batch_reachable|].
  split; [by vm_compute|].
  split; [by vm_compute|].
  by vm_compute.
Qed.

Lemma uniform_0_1_eq (u : Q) : (fadd 0 (fmul (fsub 1 0) u) == u)%Q.
Proof.
  unfold fadd, fmul, fsub. rewrite !Qred_correct. ring.
Qed.

(** C8, as the code has it.  [sample_big_pipes_slide_duration] makes two
    draws and, when the first draw is positive, returns 4.8 + 1.8322 z,
    where z is the Box-Muller value of the two draws; nothing is drawn
    again.  At the first draw 0.0 it returns nothing: [math.log] raises
    [ValueError].  Over the reals the value is negative exactly when
    z < -48000/18322.  The end of the service is scheduled at the current
    time plus the duration, whatever its sign. *)
Theorem sample_big_pipes_slide_duration_spec :
  (∀ s : Simulation,
     let e := env s in
     let u n := fadd 0 (fmul (fsub 1 0) (random_stream e n)) in
     let x := fmul (-2) (math_log e (u (n_random s))) in
     let z := fmul (math_sqrt e x) (math_cos e (fmul (fmul 2 (math_pi e)) (u (S (n_random s))))) in
     Sampling_Algorithms.sample_big_pipes_slide_duration s
     = (if Qlt_bool 0 (u (n_random s)) && Qle_bool 0 x
        then Value (fadd (48 # 10) (fmul (18322 # 10000) z))
        else ValueError,
        set_n_random (S (S (n_random s))) s))
  ∧ (∀ s : Simulation,
       (random_stream (env s) (n_random s) == 0)%Q →
       fst (Sampling_Algorithms.sample_big_pipes_slide_duration s) = ValueError)
  ∧ (∀ r1 r2 : R,
       (0 < r1 < 1)%R →
       Real_Sampling.sample_big_pipes_slide_duration r1 r2
       = (48 / 10 + 18322 / 10000 * Real_Sampling.box_muller r1 r2)%R)
  ∧ (∀ r1 r2 : R,
       (0 < r1 < 1)%R →
       (Real_Sampling.sample_big_pipes_slide_duration r1 r2 < 0)%R
       ↔ (Real_Sampling.box_muller r1 r2 < - (48000 / 18322))%R)
  ∧ (∀ (t : datetime) (duration : Q) (visitor : Visitor),
       Simulation.schedule_end Big_Pipes_Slide t duration visitor None
       = Simulation.schedule (t + timedelta_minutes duration)
           (EndFacilityEvent visitor Big_Pipes_Slide None)).
Proof.
  assert (Hspec : ∀ s : Simulation,
     let e := env s in
     let u n := fadd 0 (fmul (fsub 1 0) (random_stream e n)) in
     let x := fmul (-2) (math_log e (u (n_random s))) in
     let z := fmul (math_sqrt e x) (math_cos e (fmul (fmul 2 (math_pi e)) (u (S (n_random s))))) in
     Sampling_Algorithms.sample_big_pipes_slide_duration s
     = (if Qlt_bool 0 (u (n_random s)) && Qle_bool 0 x
        then Value (fadd (48 # 10) (fmul (18322 # 10000) z))
        else ValueError,
        set_n_random (S (S (n_random s))) s)).
  { intros s. cbv zeta.
    unfold Sampling_Algorithms.sample_big_pipes_slide_duration,
      Sampling_Algorithms.sample_normal, Sampling_Algorithms.sample_uniform,
      Sampling_Algorithms.random, bind, ret, gets.
    cbn [env n_random set_n_random fst snd].
    destruct (Qlt_bool 0 _); [|by destruct s].
    cbn [andb]. destruct (Qle_bool 0 _); by destruct s. }
  split; [exact Hspec|].
  split; [|split; [|split]].
  - intros s H0. rewrite Hspec. cbn [fst].
    replace (Qlt_bool 0 _) with false; [done|].
    symmetry. unfold Qlt_bool. apply negb_false_iff, Qle_bool_iff.
    rewrite uniform_0_1_eq, H0. apply Qle_refl.
  - intros. apply big_pipes_duration_eq.
  - intros r1 r2 _. rewrite big_pipes_duration_eq. split; intros; lra.
  - reflexivity.
Qed.

(** ** The loops stop by themselves

    The loops of [try_start_facility] are written with a bound on the
    number of passes: one more than the number of entries waiting.  Every
    pass that goes on takes an entry out of a queue, so the bound is never
    what stops a loop: with more passes allowed the result is the same. *)

Lemma fst_bind {A B} (m : St A) (k : A → St B) (s : Simulation) :
  fst (bind m k s) = fst (k (fst (m s)) (snd (m s))).
Proof. unfold bind. by destruct (m s). Qed.

Lemma snd_bind {A B} (m : St A) (k : A → St B) (s : Simulation) :
  snd (bind m k s) = snd (k (fst (m s)) (snd (m s))).
Proof. unfold bind. by destruct (m s). Qed.

Lemma while_fuel (μ : Simulation → nat) (body : St bool) :
  (∀ s, fst (body s) = true → (μ (snd (body s)) < μ s)%nat) →
  ∀ fuel more s, (μ s < fuel)%nat → while (fuel + more) body s = while fuel body s.
Proof.
  intros Hbody. induction fuel as [|fuel IH]; intros more s Hs; [lia|].
  simpl. unfold bind. specialize (Hbody s).
  destruct (body s) as [[|] s']; [|done].
  apply IH. simpl in Hbody. specialize (Hbody eq_refl). lia.
Qed.

Lemma waiting_ignores_bookkeeping c : ignores_bookkeeping (waiting c).
Proof. by split. Qed.

Lemma waiting_modify_facility c g s :
  waiting c (exec (modify_facility c g) s) = Facility.queued (g (facilities s c)).
Proof.
  unfold waiting. rewrite facilities_modify_facility.
  by assert (FacilityClass_eqb c c = true) as -> by (by destruct c).
Qed.

Lemma waiting_update_facility {A} c (g : Facility → A * Facility) s :
  waiting c (snd (update_facility c g s)) = Facility.queued (snd (g (facilities s c))).
Proof.
  unfold update_facility. destruct (g (facilities s c)) as [a f'] eqn:E. cbn [snd].
  by rewrite waiting_modify_facility.
Qed.

Lemma fst_update_facility {A} c (g : Facility → A * Facility) s :
  fst (update_facility c g s) = fst (g (facilities s c)).
Proof. unfold update_facility. by destruct (g (facilities s c)). Qed.

(** A pop from a queue that is not empty takes one entry. *)
Lemma pop_queued (express : bool) t f :
  QueueServer.nonempty (if express then queue_express f else queue_regular f) = true →
  S (Facility.queued (snd (Facility.pop express t f))) = Facility.queued f
  ∧ ∃ v, fst (Facility.pop express t f) = Some v.
Proof.
  unfold QueueServer.nonempty, QueueServer.size, Facility.pop, QueueServer.pop, Facility.queued.
  destruct express.
  - destruct (server_queue (queue_express f)) as [|e rest] eqn:E; [done|]. intros _.
    cbn. rewrite ?E. cbn. split; [lia|by eexists].
  - destruct (server_queue (queue_regular f)) as [|e rest] eqn:E; [done|]. intros _.
    cbn. rewrite ?E. cbn. split; [lia|by eexists].
Qed.

Lemma pop_queued_le (express : bool) t f :
  (Facility.queued (snd (Facility.pop express t f)) ≤ Facility.queued f)%nat.
Proof.
  unfold Facility.pop, QueueServer.pop, Facility.queued.
  destruct express.
  - destruct (server_queue (queue_express f)) as [|e rest] eqn:E; cbn; rewrite ?E; cbn; lia.
  - destruct (server_queue (queue_regular f)) as [|e rest] eqn:E; cbn; rewrite ?E; cbn; lia.
Qed.

Ltac waiting_side :=
  intros ?; rewrite waiting_modify_facility; reflexivity.

Ltac keeps_waiting c :=
  unfold Simulation.append_in_service;
  repeat keeps_step (waiting_ignores_bookkeeping c) waiting_side.

(** *** Single Slide *)

Lemma single_slide_pass_progress c t s :
  fst (TryStart.single_slide_pass c t s) = true →
  (waiting c (snd (TryStart.single_slide_pass c t s)) < waiting c s)%nat.
Proof.
  unfold TryStart.single_slide_pass. rewrite fst_bind, snd_bind. cbn [gets fst snd].
  destruct (_ || _) eqn:Hq; [|discriminate].
  destruct (Single_Slide.get_available_slide _ _); [|discriminate]. intros _.
  rewrite snd_bind, snd_bind. cbn [ret snd].
  match goal with
  | |- (waiting c (snd (?m ?s1)) < _)%nat =>
      assert (Hk : keeps (waiting c) m); [|rewrite (Hk s1)]
  end.
  { keeps_waiting c. }
  destruct (QueueServer.nonempty (queue_express (facilities s c))) eqn:He.
  - rewrite waiting_update_facility.
    destruct (pop_queued true t (facilities s c) He) as [H _]. unfold waiting. lia.
  - simpl in Hq. rewrite Hq. rewrite waiting_update_facility.
    destruct (pop_queued false t (facilities s c) Hq) as [H _]. unfold waiting. lia.
Qed.

Lemma single_slide_fuel c t more s :
  while (S (waiting c s) + more) (TryStart.single_slide_pass c t) s = TryStart.single_slide c t s.
Proof.
  unfold TryStart.single_slide, bind, gets.
  apply (while_fuel (waiting c)); [apply single_slide_pass_progress|]. unfold waiting. lia.
Qed.

(** *** Wave Pool and Kids Pool *)

Lemma remove_first_length v (l : list (Visitor * datetime)) i :
  map fst l !! i = Some v → S (length (QueueServer.remove_first v l)) = length l.
Proof.
  revert i. induction l as [|[w t] l IH]; intros i Hi; [done|]. simpl.
  destruct (same w v) eqn:E; [done|].
  destruct i as [|i]; simpl in Hi.
  - injection Hi as ->. unfold same in E. by rewrite Pos.eqb_refl in E.
  - simpl. by rewrite (IH i).
Qed.

Lemma remove_queued (express : bool) v t f i :
  QueueServer.visitors (if express then queue_express f else queue_regular f) !! i = Some v →
  S (Facility.queued (Facility.remove express v t f)) = Facility.queued f.
Proof.
  unfold QueueServer.visitors, Facility.remove, QueueServer.remove, Facility.queued.
  destruct express; intros Hi; cbn; apply remove_first_length in Hi; lia.
Qed.

Lemma scan_queued (express : bool) t f :
  match fst (Pool.scan express t f) with
  | Some _ => S (Facility.queued (snd (Pool.scan express t f))) = Facility.queued f
  | None => (Facility.queued (snd (Pool.scan express t f)) ≤ Facility.queued f)%nat
  end.
Proof.
  unfold Pool.scan.
  destruct (find_index _ _) as [i|] eqn:Hi; [|cbn; lia].
  destruct (_ !! i) as [x|] eqn:Hx; [|cbn; lia].
  destruct i as [|i].
  - pose proof (pop_queued_le express t f) as Hle.
    destruct (Facility.pop express t f) as [[v|] f1] eqn:Hpop; cbn [fst snd] in *; [|done].
    assert (Hne : QueueServer.nonempty (if express then queue_express f else queue_regular f) = true).
    { unfold QueueServer.nonempty, QueueServer.size, QueueServer.visitors in *.
      destruct (server_queue _); [done|]. reflexivity. }
    destruct (pop_queued express t f Hne) as [H _]. rewrite Hpop in H. exact H.
  - cbn [fst snd]. by apply remove_queued with (i := S i).
Qed.

Lemma pool_scan_progress c (express : bool) t s :
  if fst (TryStart.pool_scan c express t s)
  then S (waiting c (snd (TryStart.pool_scan c express t s))) = waiting c s
  else (waiting c (snd (TryStart.pool_scan c express t s)) ≤ waiting c s)%nat.
Proof.
  unfold TryStart.pool_scan. rewrite fst_bind, snd_bind.
  pose proof (scan_queued express t (facilities s c)) as Hscan.
  rewrite <- (waiting_update_facility c (Pool.scan express t) s) in Hscan.
  rewrite fst_update_facility.
  destruct (fst (Pool.scan express t (facilities s c))) as [v|].
  - rewrite fst_bind, fst_bind, !snd_bind. cbn [ret fst snd].
    match goal with
    | |- S (waiting c (snd (?m ?s1))) = _ =>
        assert (Hk : keeps (waiting c) m); [|rewrite (Hk s1)]
    end.
    { keeps_waiting c. }
    match goal with
    | |- S (waiting c (snd (?m ?s1))) = _ =>
        assert (Hk' : keeps (waiting c) m); [|rewrite (Hk' s1)]
    end.
    { keeps_waiting c. }
    exact Hscan.
  - cbn [ret fst snd]. exact Hscan.
Qed.

Lemma pool_pass_progress c t s :
  fst (TryStart.pool_pass c t s) = true →
  (waiting c (snd (TryStart.pool_pass c t s)) < waiting c s)%nat.
Proof.
  unfold TryStart.pool_pass. rewrite fst_bind, snd_bind. cbn [gets fst snd].
  destruct (_ || _); [|discriminate].
  rewrite fst_bind, snd_bind.
  destruct (QueueServer.nonempty (queue_express (facilities s c))).
  - pose proof (pool_scan_progress c true t s) as H1.
    destruct (fst (TryStart.pool_scan c true t s)); cbn [negb andb ret fst snd].
    + intros _. lia.
    + destruct (QueueServer.nonempty (queue_regular (facilities s c))); [|discriminate].
      pose proof (pool_scan_progress c false t (snd (TryStart.pool_scan c true t s))) as H2.
      destruct (fst (TryStart.pool_scan c false t _)); [|discriminate]. intros _. lia.
  - cbn [negb andb ret fst snd].
    destruct (QueueServer.nonempty (queue_regular (facilities s c))); [|discriminate].
    pose proof (pool_scan_progress c false t s) as H2.
    destruct (fst (TryStart.pool_scan c false t s)); [|discriminate]. intros _. lia.
Qed.

Lemma pool_fuel c t more s :
  while (S (waiting c s) + more) (TryStart.pool_pass c t) s = TryStart.pool c t s.
Proof.
  unfold TryStart.pool, bind, gets.
  apply (while_fuel (waiting c)); [apply pool_pass_progress|]. unfold waiting. lia.
Qed.

(** *** Snorkel Tour *)

Lemma fill_tour_fuel fuel more t f tour_group tour_size :
  (Facility.queued f < fuel)%nat →
  Snorkel_Tour.fill_tour (fuel + more) t f tour_group tour_size
  = Snorkel_Tour.fill_tour fuel t f tour_group tour_size.
Proof.
  revert f tour_group tour_size.
  induction fuel as [|fuel IH]; intros f tour_group tour_size Hf; [lia|]. simpl.
  destruct (_ && _) eqn:Hc; [|done].
  destruct (QueueServer.head _) as [next_visitor|]; [|done].
  destruct (_ <=? _)%nat; [|done].
  apply andb_prop in Hc as [_ Hq].
  set (express := QueueServer.nonempty (queue_express f)) in *.
  assert (Hne : QueueServer.nonempty (if express then queue_express f else queue_regular f) = true).
  { subst express. destruct (QueueServer.nonempty (queue_express f)) eqn:He; [done|]. by simpl in Hq. }
  destruct (pop_queued express t f Hne) as [Hlen _].
  destruct (Facility.pop express t f) as [[visitor|] f']; [|done].
  apply IH. simpl in Hlen. lia.
Qed.

Lemma snorkel_tour_fuel more t f :
  Snorkel_Tour.fill_tour (S (Facility.queued f) + more) t f [] 0
  = Snorkel_Tour.fill_tour (S (Facility.queued f)) t f [] 0.
Proof. apply fill_tour_fuel. lia. Qed.

(** *** Pipes River *)

Lemma pop_length t q e q' :
  QueueServer.pop t q = (Some e, q') → S (length (server_queue q')) = length (server_queue q).
Proof.
  unfold QueueServer.pop. destruct (server_queue q) as [|x rest]; [discriminate|].
  intros [= _ <-]. by destruct t.
Qed.

Lemma head_pop_length t q g :
  QueueServer.head q = Some g →
  S (length (server_queue (snd (QueueServer.pop t q)))) = length (server_queue q).
Proof.
  unfold QueueServer.head, QueueServer.visitors, QueueServer.pop.
  destruct (server_queue q) as [|x rest]; [discriminate|]. intros _. by destruct t.
Qed.

Lemma remove_first_length_le v (l : list (Visitor * datetime)) :
  (length (QueueServer.remove_first v l) ≤ length l)%nat.
Proof.
  induction l as [|[w t] l IH]; simpl; [done|]. destruct (same w v); simpl; lia.
Qed.

Lemma remove_length_le v t q :
  (length (server_queue (QueueServer.remove v t q)) ≤ length (server_queue q))%nat.
Proof. unfold QueueServer.remove. cbn. apply remove_first_length_le. Qed.

(** A pass that goes on has taken one or two entries out of the queues. *)
Lemma process_entry_step_progress t st :
  match Pipes_River.process_entry_step t st with
  | Continue st' => (Facility.queued (snd (fst st')) < Facility.queued (snd (fst st)))%nat
  | Break _ => True
  end.
Proof.
  destruct st as [[σ f] l]. unfold Pipes_River.process_entry_step. cbn [fst snd].
  repeat (case_match; simplify_eq; try done);
    unfold Pipes_River.enter_pair, Facility.queued;
    cbn [fst snd queue_express queue_regular set_occupied_tubes set_queue_express
         set_queue_regular];
    repeat match goal with
           | H : QueueServer.pop _ _ = (Some _, _) |- _ => apply pop_length in H
           | H : QueueServer.head ?q = Some _ |- context [QueueServer.pop ?t ?q] =>
               pose proof (head_pop_length t q _ H); clear H
           | |- context [QueueServer.remove ?v ?t ?q] =>
               lazymatch goal with
               | _ : (length (server_queue (QueueServer.remove v t q)) ≤ _)%nat |- _ => fail
               | _ => pose proof (remove_length_le v t q)
               end
           end;
    try lia.
Qed.

Lemma process_entry_loop_fuel fuel more t st :
  (Facility.queued (snd (fst st)) < fuel)%nat →
  Pipes_River.process_entry_loop (fuel + more) t st = Pipes_River.process_entry_loop fuel t st.
Proof.
  revert st. induction fuel as [|fuel IH]; intros st Hst; [lia|]. simpl.
  destruct (_ <? _); [|done].
  pose proof (process_entry_step_progress t st) as H.
  destruct (Pipes_River.process_entry_step t st) as [st'|st']; [|done].
  apply IH. lia.
Qed.

Lemma process_entry_fuel more t σ f :
  Pipes_River.process_entry_loop (S (Facility.queued f) + more) t (σ, f, [])
  = Pipes_River.process_entry t σ f.
Proof. unfold Pipes_River.process_entry. apply process_entry_loop_fuel. simpl. lia. Qed.

(** *** The event heap *)

Lemma siftdown_fuel fuel more heap startpos pos newitem :
  (pos < fuel)%nat →
  heapq._siftdown (fuel + more) heap startpos pos newitem
  = heapq._siftdown fuel heap startpos pos newitem.
Proof.
  revert heap pos. induction fuel as [|fuel IH]; intros heap pos Hpos; [lia|].
  cbn [heapq._siftdown Nat.add].
  destruct (startpos <? pos)%nat eqn:Hlt; [|done].
  destruct (heap !! _); [|done].
  destruct (Event.__lt__ _ _); [|done].
  apply IH. apply Nat.ltb_lt in Hlt.
  assert ((pos - 1) `div` 2 ≤ pos - 1)%nat by (apply Nat.Div0.div_le_upper_bound; lia).
  lia.
Qed.

Lemma siftup_loop_fuel fuel more heap pos :
  (length heap - pos ≤ fuel)%nat →
  heapq._siftup_loop (fuel + more) heap pos = heapq._siftup_loop fuel heap pos.
Proof.
  revert heap pos. induction fuel as [|fuel IH]; intros heap pos Hpos.
  - destruct more as [|more]; [done|]. cbn [heapq._siftup_loop Nat.add].
    destruct (_ <? _)%nat eqn:Hlt; [|done]. apply Nat.ltb_lt in Hlt. lia.
  - cbn [heapq._siftup_loop Nat.add].
    destruct (_ <? _)%nat eqn:Hlt; [|done]. apply Nat.ltb_lt in Hlt.
    match goal with |- context [heap !! ?i] =>
      destruct (heap !! i) as [c|] eqn:Hc; [|done]; apply lookup_lt_Some in Hc end.
    apply IH. rewrite length_insert.
    repeat case_match; lia.
Qed.

Lemma heappush_fuel more heap item :
  heapq._siftdown (length (heap ++ [item]) + more) (heap ++ [item]) 0
    (length (heap ++ [item]) - 1) item
  = heapq.heappush heap item.
Proof. unfold heapq.heappush. apply siftdown_fuel. rewrite length_app. simpl. lia. Qed.

Lemma siftup_loop_bounds fuel heap pos :
  (pos < length heap)%nat →
  length (heapq._siftup_loop fuel heap pos).1 = length heap
  ∧ ((heapq._siftup_loop fuel heap pos).2 < length heap)%nat.
Proof.
  revert heap pos. induction fuel as [|fuel IH]; intros heap pos Hpos; [done|].
  cbn [heapq._siftup_loop].
  destruct (_ <? _)%nat; [|done].
  match goal with |- context [heap !! ?i] =>
    destruct (heap !! i) as [c|] eqn:Hc; [|done]; apply lookup_lt_Some in Hc end.
  match goal with |- context [heapq._siftup_loop fuel ?h ?p] =>
    destruct (IH h p) as [H1 H2]; [by rewrite length_insert|] end.
  rewrite length_insert in H1, H2. by rewrite H1.
Qed.

Lemma siftup_fuel more more' heap pos newitem :
  heap !! pos = Some newitem →
  (let '(heap', pos') := heapq._siftup_loop (length heap + more) heap pos in
   heapq._siftdown (length heap + more') (<[pos' := newitem]> heap') pos pos' newitem)
  = heapq._siftup heap pos.
Proof.
  intros Hpos. unfold heapq._siftup. rewrite Hpos.
  rewrite siftup_loop_fuel by lia.
  pose proof (siftup_loop_bounds (length heap) heap pos (lookup_lt_Some _ _ _ Hpos)) as [H1 H2].
  destruct (heapq._siftup_loop (length heap) heap pos) as [heap' pos']. simpl in H1, H2.
  apply siftdown_fuel. lia.
Qed.

(** *** Batches of the Big and Small Pipes Slides *)

Lemma fill_fuel fuel more tube t s :
  (length (server_queue (Pipes_Slide.fq s)) ≤ fuel)%nat →
  Pipes_Slide.fill (fuel + more) tube t s = Pipes_Slide.fill fuel tube t s.
Proof.
  revert s. induction fuel as [|fuel IH]; intros s Hs.
  - destruct more as [|more]; [done|]. cbn [Pipes_Slide.fill Nat.add].
    unfold QueueServer.nonempty, QueueServer.size.
    destruct (server_queue (Pipes_Slide.fq s)); [done|simpl in Hs; lia].
  - cbn [Pipes_Slide.fill Nat.add].
    destruct (_ && _); [|done].
    destruct (QueueServer.head _); [|done].
    destruct (_ <=? _)%nat; [|done].
    destruct (QueueServer.pop _ _) as [[[w t']|] q'] eqn:Hpop; [|done].
    destruct (_ =? _)%nat; [done|].
    apply IH. apply pop_length in Hpop. simpl. lia.
Qed.

(** [get_next_batch] allows as many passes as the queue has entries. *)
Lemma get_next_batch_fuel more more' t f :
  (if (Pipes_Slide.total_in_queue f <? tube_size f)%nat then ([], f)
   else
     match Pipes_Slide.fill (length (server_queue (queue_express f)) + more) (tube_size f) t
             {| Pipes_Slide.fq := queue_express f; Pipes_Slide.ftemp := [];
                Pipes_Slide.fbatch := []; Pipes_Slide.fbatch_size := 0 |} with
     | Pipes_Slide.Returned batch qe => (batch, set_queue_express qe f)
     | Pipes_Slide.Left s1 =>
         match Pipes_Slide.fill (length (server_queue (queue_regular f)) + more') (tube_size f) t
                 {| Pipes_Slide.fq := queue_regular f; Pipes_Slide.ftemp := [];
                    Pipes_Slide.fbatch := Pipes_Slide.fbatch s1;
                    Pipes_Slide.fbatch_size := Pipes_Slide.fbatch_size s1 |} with
         | Pipes_Slide.Returned batch qr =>
             (batch, set_queue_regular qr (set_queue_express (Pipes_Slide.fq s1) f))
         | Pipes_Slide.Left s2 =>
             ([], set_queue_regular (Pipes_Slide.rollback (Pipes_Slide.ftemp s2) (Pipes_Slide.fq s2))
                    (set_queue_express
                       (Pipes_Slide.rollback (Pipes_Slide.ftemp s1) (Pipes_Slide.fq s1)) f))
         end
     end)
  = Pipes_Slide.get_next_batch t f.
Proof.
  unfold Pipes_Slide.get_next_batch.
  destruct (_ <? _)%nat; [done|].
  rewrite fill_fuel by (simpl; lia).
  destruct (Pipes_Slide.fill _ _ _ _) as [batch qe|s1]; [done|].
  by rewrite fill_fuel by (simpl; lia).
Qed.

(** *** The rejection sampler of the wave-pool duration

    [get_wave_pool_duration] draws candidates until one is accepted; the
    model stops after [rejection_fuel] candidates.  When a candidate is
    accepted within the bound, the bound plays no part in the result. *)
Lemma wave_pool_loop_fuel fuel more last last' s :
  fst (Sampling_Algorithms.accepted_within fuel s) = true →
  Sampling_Algorithms.wave_pool_loop (fuel + more) last s
  = Sampling_Algorithms.wave_pool_loop fuel last' s.
Proof.
  revert last last' s. induction fuel as [|fuel IH]; intros last last' s; [discriminate|].
  cbn [Sampling_Algorithms.wave_pool_loop Sampling_Algorithms.accepted_within Nat.add].
  unfold bind.
  destruct (Sampling_Algorithms.sample_uniform 0 60 s) as [x s1].
  destruct (Sampling_Algorithms.sample_uniform 0 1 s1) as [u s2].
  destruct (Qle_bool _ _); [done|]. apply IH.
Qed.

(** * Part III: more properties of the code *)

(** ** [Queue.py]: the queue is first in, first out *)

Lemma add_all_server_queue l q : server_queue (add_all l q) = server_queue q ++ l.
Proof.
  revert q. induction l as [|[v a] l IH]; intros q; simpl; [by rewrite app_nil_r|].
  rewrite IH. simpl. by rewrite <- app_assoc.
Qed.

Lemma pop_many_all t q n :
  (length (server_queue q) ≤ n)%nat →
  (pop_many n t q).1 = server_queue q ∧ server_queue (pop_many n t q).2 = [].
Proof.
  revert q. induction n as [|n IH]; intros q Hn.
  - destruct (server_queue q) eqn:E; [done|simpl in Hn; lia].
  - simpl. unfold QueueServer.pop.
    destruct (server_queue q) as [|e rest] eqn:E; [simpl; by rewrite ?E|].
    match goal with |- context [pop_many n t ?q1] =>
      destruct (IH q1) as [H1 H2]; [destruct t; simpl in *; lia|];
      destruct (pop_many n t q1) as [l q2] end.
    simpl in *. split; [|done]. rewrite H1. by destruct t.
Qed.

(** X1. The queue is first in, first out, and keeps the arrival times: when
    entries are added to a queue and the queue is then popped until it is
    empty, the pops return the entries the queue held, oldest first, and
    then the added entries in the order of their addition, each with the
    arrival time it was added with; the next pop finds the queue empty,
    returns nothing and leaves the queue as it is. *)
Theorem queue_is_fifo (q : QueueServer) (l : list (Visitor * datetime)) (t : option datetime) :
  let r := pop_many (length (server_queue q) + length l) t (add_all l q) in
  r.1 = server_queue q ++ l
  ∧ server_queue r.2 = []
  ∧ QueueServer.pop t r.2 = (None, r.2).
Proof.
  intros r.
  destruct (pop_many_all t (add_all l q) (length (server_queue q) + length l)) as [H1 H2].
  { rewrite add_all_server_queue, length_app. lia. }
  fold r in H1, H2. rewrite add_all_server_queue in H1.
  split; [done|]. split; [done|]. unfold QueueServer.pop. by rewrite H2.
Qed.

(** ** [Queue.py]: what the statistics record *)

Lemma pop_many_waiting_times now q n :
  waiting_times (pop_many n (Some now) q).2
  = waiting_times q ++ map (wait_of now) (take n (server_queue q)).
Proof.
  revert q. induction n as [|n IH]; intros q; simpl; [by rewrite app_nil_r|].
  unfold QueueServer.pop. destruct (server_queue q) as [|e rest] eqn:E.
  - by rewrite app_nil_r.
  - match goal with |- context [pop_many n (Some now) ?q1] =>
      specialize (IH q1); destruct (pop_many n (Some now) q1) as [l q2] end.
    simpl in *. rewrite IH. by rewrite <- app_assoc.
Qed.

(** X2. Waiting times are recorded by [pop] with a removal time and by
    nothing else: [add], [insert], [remove] (the way out of a visitor who
    gives up waiting) and [pop(None)] leave [waiting_times] as it is, and
    [n] pops at the time [now] append one waiting time for each entry taken
    out, oldest first: the minutes from its arrival time to [now]. *)
Theorem waiting_times_recorded_by_pop :
  (∀ v a q, waiting_times (QueueServer.add v a q) = waiting_times q)
  ∧ (∀ i v t q, waiting_times (QueueServer.insert i v t q) = waiting_times q)
  ∧ (∀ v t q, waiting_times (QueueServer.remove v t q) = waiting_times q)
  ∧ (∀ q, waiting_times (QueueServer.pop None q).2 = waiting_times q)
  ∧ (∀ n now q,
       waiting_times (pop_many n (Some now) q).2
       = waiting_times q
         ++ map (fun e => minutes_between now (snd e)) (take n (server_queue q))).
Proof.
  repeat split; try done.
  - intros q. unfold QueueServer.pop. by destruct (server_queue q).
  - intros n now q. apply pop_many_waiting_times.
Qed.

Lemma remove_first_absent v l : queued_in v l = false → QueueServer.remove_first v l = l.
Proof.
  induction l as [|[w t] l IH]; simpl; [done|].
  destruct (same w v); [done|]. intros H. by rewrite IH.
Qed.

Lemma remove_first_present v l :
  queued_in v l = true →
  ∃ l1 e l2, l = l1 ++ e :: l2 ∧ same (fst e) v = true ∧ queued_in v l1 = false
             ∧ QueueServer.remove_first v l = l1 ++ l2.
Proof.
  induction l as [|[w t] l IH]; simpl; [done|].
  destruct (same w v) eqn:E.
  - intros _. by exists [], (w, t), l.
  - intros H. destruct (IH H) as (l1 & e & l2 & -> & He & Hl1 & Hr).
    exists ((w, t) :: l1), e, l2. simpl. rewrite E, Hr. done.
Qed.

(** X3. [remove] takes out the first entry of the visitor and keeps the
    others in their order; for a visitor who is not in the queue it takes
    out nothing.  In both cases it records a queue-length sample, and it
    records the length before the removal: after the removal of a visitor
    who was in the queue the last sample is one more than the size, while
    after [add], [insert] and [pop] the last sample is the size. *)
Theorem remove_first_entry_and_stale_sample (v : Visitor) (t : datetime) (q : QueueServer) :
  (queued_in v (server_queue q) = false →
     server_queue (QueueServer.remove v t q) = server_queue q
     ∧ last (queue_lengths (QueueServer.remove v t q))
       = Some (QueueServer.size (QueueServer.remove v t q)))
  ∧ (queued_in v (server_queue q) = true →
     (∃ l1 e l2, server_queue q = l1 ++ e :: l2 ∧ same (fst e) v = true
                 ∧ queued_in v l1 = false
                 ∧ server_queue (QueueServer.remove v t q) = l1 ++ l2)
     ∧ last (queue_lengths (QueueServer.remove v t q))
       = Some (QueueServer.size (QueueServer.remove v t q) + 1))
  ∧ (∀ a, last (queue_lengths (QueueServer.add v a q))
          = Some (QueueServer.size (QueueServer.add v a q)))
  ∧ (∀ i, last (queue_lengths (QueueServer.insert i v t q))
          = Some (QueueServer.size (QueueServer.insert i v t q)))
  ∧ (∀ e q', QueueServer.pop (Some t) q = (Some e, q') →
             last (queue_lengths q') = Some (QueueServer.size q')).
Proof.
  split; [|split; [|split; [|split]]].
  - intros H. unfold QueueServer.remove, QueueServer.size. cbn.
    rewrite remove_first_absent by done. by rewrite last_snoc.
  - intros H. destruct (remove_first_present _ _ H) as (l1 & e & l2 & E & He & Hl1 & Hr).
    split; [by exists l1, e, l2|].
    unfold QueueServer.remove, QueueServer.size. cbn. rewrite last_snoc, Hr.
    unfold QueueServer.size. rewrite E.
    f_equal. rewrite !length_app. simpl. lia.
  - intros a. unfold QueueServer.add, QueueServer.size. cbn. by rewrite last_snoc.
  - intros i. unfold QueueServer.insert, QueueServer.size. cbn. by rewrite last_snoc.
  - intros e q'. unfold QueueServer.pop. destruct (server_queue q) as [|x rest]; [done|].
    intros [= _ <-]. unfold QueueServer.size. cbn. by rewrite last_snoc.
Qed.

(** ** [Queue.py]: the area under the queue-length curve *)

Lemma fadd_eq a b : (fadd a b == a + b)%Q.
Proof. apply Qred_correct. Qed.

Lemma fmul_eq a b : (fmul a b == a * b)%Q.
Proof. apply Qred_correct. Qed.

Lemma area_under_snoc lens : ∀ times acc l' t',
  length lens = length times →
  area_under acc (lens ++ [l']) (times ++ [t'])
  = match last lens, last times with
    | Some len, Some t =>
        fadd (area_under acc lens times) (fmul (of_int len) (hours_between t' t))
    | _, _ => area_under acc lens times
    end.
Proof.
  induction lens as [|l0 lens IH]; intros [|t0 times] acc l' t' Hlen; try done.
  simpl in Hlen. destruct times as [|t1 times].
  - destruct lens; [|done]. reflexivity.
  - destruct lens as [|l1 lens]; [done|].
    change (area_under acc ((l0 :: l1 :: lens) ++ [l']) ((t0 :: t1 :: times) ++ [t']))
      with (area_under (fadd acc (fmul (of_int l0) (hours_between t1 t0)))
              ((l1 :: lens) ++ [l']) ((t1 :: times) ++ [t'])).
    rewrite IH by (simpl in *; lia).
    change (last (l0 :: l1 :: lens)) with (last (l1 :: lens)).
    change (last (t0 :: t1 :: times)) with (last (t1 :: times)).
    reflexivity.
Qed.

Lemma record_queue_length_accounted now q :
  area_accounted q → area_accounted (QueueServer.record_queue_length now q).
Proof.
  intros [Hlen Harea]. split.
  - cbn. rewrite !length_app. simpl. lia.
  - unfold QueueServer.record_queue_length.
    cbn [total_queue_length_time queue_lengths queue_change_times].
    destruct (queue_lengths q) as [|l0 lens] eqn:El; [done|].
    simpl in Hlen. injection Hlen as Hlen.
    change (tl ((l0 :: lens) ++ [QueueServer.size q])) with (lens ++ [QueueServer.size q]).
    rewrite area_under_snoc by exact Hlen. simpl tl in Harea.
    destruct (queue_change_times q) as [|t0 times] eqn:Et.
    + destruct lens; [|done]. by destruct (last [l0]).
    + destruct lens as [|l1 lens]; [done|].
      change (last (l0 :: l1 :: lens)) with (last (l1 :: lens)).
      destruct (last (l1 :: lens)) as [len|] eqn:Hl; [|by apply last_None in Hl].
      destruct (last (t0 :: times)) as [t|] eqn:Ht; [|by apply last_None in Ht].
      by rewrite Harea.
Qed.

Lemma set_server_queue_accounted l q :
  area_accounted q → area_accounted (QueueServer.set_server_queue l q).
Proof. done. Qed.

(** X4. The running total [total_queue_length_time] is the area under the
    queue-length curve: in a queue where every change time has its length
    sample and the total is the sum, taken in the order of the recorded
    changes, of the length at a change times the hours until the next
    change, this is still so after [add], [insert], [remove] and [pop];
    [calc_daily_statistics] brings any queue back to such a state. *)
Theorem total_is_area_under_queue_length (q : QueueServer) (H : area_accounted q) :
  (∀ v t, area_accounted (QueueServer.add v t q))
  ∧ (∀ i v t, area_accounted (QueueServer.insert i v t q))
  ∧ (∀ v t, area_accounted (QueueServer.remove v t q))
  ∧ (∀ o, area_accounted (QueueServer.pop o q).2)
  ∧ (∀ q', area_accounted (QueueServer.calc_daily_statistics q')).
Proof.
  split; [|split; [|split; [|split]]].
  - intros v t. by apply record_queue_length_accounted.
  - intros i v t. by apply record_queue_length_accounted.
  - intros v t. by apply set_server_queue_accounted, record_queue_length_accounted.
  - intros o. unfold QueueServer.pop. destruct (server_queue q) as [|e rest]; [done|].
    destruct o as [now|]; [|done].
    assert (H' := record_queue_length_accounted now (QueueServer.set_server_queue rest q) H).
    exact H'.
  - intros q'. split; reflexivity.
Qed.

(** The queue joined at 09:00, 09:15 and 09:45 and left at 10:30 has the
    area 1 * 0.25 + 2 * 0.5 + 3 * 0.75 = 3.5 person-hours; a visitor who
    gives up at 11:00 leaves it with the area of four changes accounted. *)
Lemma total_is_area_under_queue_length_witness :
  area_accounted busy_queue
  ∧ total_queue_length_time busy_queue = 7 # 2
  ∧ length (queue_change_times busy_queue) = 4%nat
  ∧ area_accounted (QueueServer.remove (single 2) (mk_datetime 0 11 0 0) busy_queue).
Proof.
  assert (H : area_accounted busy_queue) by (split; vm_compute; reflexivity).
  split; [exact H|].
  split; [vm_compute; reflexivity|].
  split; [vm_compute; reflexivity|].
  destruct (total_is_area_under_queue_length busy_queue H) as (_ & _ & H3 & _).
  apply H3.
Defined.

Lemma hours_between_eq a b : (hours_between a b == inject_Z (a - b) / inject_Z usec_per_hour)%Q.
Proof. apply Qred_correct. Qed.

Lemma hours_between_nonneg a b : b ≤ a → (0 <= hours_between a b)%Q.
Proof.
  intros H. rewrite hours_between_eq. apply Qle_shift_div_l; [reflexivity|].
  rewrite Qmult_0_l. change 0%Q with (inject_Z 0). rewrite <- Zle_Qle. lia.
Qed.

Lemma hours_between_neg a b : a < b → (hours_between a b < 0)%Q.
Proof.
  intros H. rewrite hours_between_eq. apply Qlt_shift_div_r; [reflexivity|].
  rewrite Qmult_0_l. change 0%Q with (inject_Z 0). rewrite <- Zlt_Qlt. lia.
Qed.

Lemma record_queue_length_total now q len t0 :
  last (queue_lengths q) = Some len → last (queue_change_times q) = Some t0 →
  (total_queue_length_time (QueueServer.record_queue_length now q)
   == total_queue_length_time q + inject_Z len * hours_between now t0)%Q.
Proof.
  intros Hl Ht. unfold QueueServer.record_queue_length. cbn [total_queue_length_time].
  rewrite Hl, Ht. by rewrite fadd_eq, fmul_eq.
Qed.

Lemma record_queue_length_grows now q len t0 :
  last (queue_lengths q) = Some len → last (queue_change_times q) = Some t0 →
  0 ≤ len → t0 ≤ now →
  (total_queue_length_time q
   <= total_queue_length_time (QueueServer.record_queue_length now q))%Q.
Proof.
  intros Hl Ht H0 Hnow. rewrite (record_queue_length_total now q len t0) by done.
  rewrite <- (Qplus_0_r (total_queue_length_time q)) at 1.
  apply Qplus_le_r. apply Qmult_le_0_compat; [|by apply hours_between_nonneg].
  change 0%Q with (inject_Z 0). rewrite <- Zle_Qle. lia.
Qed.

Lemma record_queue_length_shrinks now q len t0 :
  last (queue_lengths q) = Some len → last (queue_change_times q) = Some t0 →
  0 < len → now < t0 →
  (total_queue_length_time (QueueServer.record_queue_length now q)
   < total_queue_length_time q)%Q.
Proof.
  intros Hl Ht H0 Hnow. rewrite (record_queue_length_total now q len t0) by done.
  rewrite <- (Qplus_0_r (total_queue_length_time q)) at 2.
  apply Qplus_lt_r.
  assert (H1 : (0 < inject_Z len)%Q) by (change 0%Q with (inject_Z 0); rewrite <- Zlt_Qlt; lia).
  assert (H2 := hours_between_neg now t0 Hnow).
  assert (H3 : (hours_between now t0 * inject_Z len < 0 * inject_Z len)%Q)
    by (by apply Qmult_lt_compat_r).
  rewrite Qmult_0_l in H3. by rewrite Qmult_comm.
Qed.

(** X5. While the clock runs forward the recorded area never decreases: if
    the last length sample is not negative and the time of the operation is
    not before the last recorded change, [add], [insert], [remove] and [pop]
    do not lower [total_queue_length_time].  An operation stamped before the
    last recorded change, as when [insert] puts a visitor back with the time
    of their arrival, lowers the total whenever the last sample is
    positive. *)
Theorem area_follows_the_clock (q : QueueServer) (len : Z) (t0 : datetime)
    (Hl : last (queue_lengths q) = Some len)
    (Ht : last (queue_change_times q) = Some t0) :
  (0 ≤ len →
   ∀ now v, t0 ≤ now →
     (total_queue_length_time q <= total_queue_length_time (QueueServer.add v now q))%Q
     ∧ (∀ i, (total_queue_length_time q
              <= total_queue_length_time (QueueServer.insert i v now q))%Q)
     ∧ (total_queue_length_time q <= total_queue_length_time (QueueServer.remove v now q))%Q
     ∧ (total_queue_length_time q
        <= total_queue_length_time (QueueServer.pop (Some now) q).2)%Q)
  ∧ (0 < len →
     ∀ i v t, t < t0 →
       (total_queue_length_time (QueueServer.insert i v t q) < total_queue_length_time q)%Q).
Proof.
  split.
  - intros H0 now v Hnow. split; [|split; [|split]].
    + by apply (record_queue_length_grows now (QueueServer.set_server_queue _ q) len t0).
    + intros i. by apply (record_queue_length_grows now (QueueServer.set_server_queue _ q) len t0).
    + by apply (record_queue_length_grows now q len t0).
    + unfold QueueServer.pop. destruct (server_queue q) as [|e rest]; [apply Qle_refl|].
      by apply (record_queue_length_grows now (QueueServer.set_server_queue rest q) len t0).
  - intros H0 i v t Hlt.
    by apply (record_queue_length_shrinks t (QueueServer.set_server_queue _ q) len t0).
Qed.

Lemma area_follows_the_clock_witness :
  let q := QueueServer.add (group_of 1 2) (mk_datetime 0 9 30 0)
             (QueueServer.add (group_of 1 1) (mk_datetime 0 9 10 0) QueueServer.__init__) in
  (total_queue_length_time (QueueServer.insert 0 (group_of 1 3) (mk_datetime 0 9 0 0) q)
   < total_queue_length_time q)%Q.
Proof.
  cbv zeta.
  match goal with |- (total_queue_length_time (QueueServer.insert _ _ _ ?q) < _)%Q =>
    destruct (area_follows_the_clock q 2 (mk_datetime 0 9 30 0) eq_refl eq_refl) as [_ H] end.
  apply H; reflexivity.
Defined.

(** ** [facilities.py]: entry to the Pipes River *)

Lemma visitors_pop t q e q' :
  QueueServer.pop t q = (Some e, q') →
  QueueServer.visitors q = fst e :: QueueServer.visitors q'.
Proof.
  unfold QueueServer.pop, QueueServer.visitors.
  destruct (server_queue q) as [|x rest]; [discriminate|].
  intros [= <- <-]. by destruct t.
Qed.

Lemma visitors_pop_snd t q g :
  QueueServer.head q = Some g →
  QueueServer.visitors q = g :: QueueServer.visitors (snd (QueueServer.pop t q)).
Proof.
  unfold QueueServer.head, QueueServer.pop, QueueServer.visitors.
  destruct (server_queue q) as [|x rest]; [discriminate|].
  simpl. intros [= <-]. by destruct t.
Qed.

Lemma remove_first_ids v l i :
  map fst l !! i = Some v →
  map (vid ∘ fst) l ≡ₚ vid v :: map (vid ∘ fst) (QueueServer.remove_first v l).
Proof.
  revert i. induction l as [|[w a] l IH]; intros i; [done|]. simpl.
  destruct (same w v) eqn:E.
  - intros _. apply Pos.eqb_eq in E. by rewrite E.
  - destruct i as [|i]; simpl.
    + intros [= ->]. unfold same in E. by rewrite Pos.eqb_refl in E.
    + intros H. rewrite (IH i H). apply Permutation_swap.
Qed.

Lemma ids_remove v t q i :
  QueueServer.visitors q !! i = Some v →
  map vid (QueueServer.visitors q)
  ≡ₚ vid v :: map vid (QueueServer.visitors (QueueServer.remove v t q)).
Proof.
  unfold QueueServer.visitors, QueueServer.remove. cbn. rewrite !map_map.
  apply remove_first_ids.
Qed.

Lemma ids_insert i v t q :
  map vid (QueueServer.visitors (QueueServer.insert i v t q))
  ≡ₚ vid v :: map vid (QueueServer.visitors q).
Proof.
  unfold QueueServer.visitors, QueueServer.insert, QueueServer.list_insert. cbn.
  rewrite !map_app. simpl. rewrite <- Permutation_middle, <- !map_app.
  by rewrite take_drop.
Qed.

Lemma not_even_odd g : Pipes_River.is_even g = false → Pipes_River.is_odd g = true.
Proof.
  unfold Pipes_River.is_even, Pipes_River.is_odd. intros H.
  apply Nat.eqb_neq in H. apply Nat.eqb_eq.
  pose proof (Nat.mod_upper_bound (group_size g) 2). lia.
Qed.

Lemma pair_tubes_odd g1 g2 :
  Pipes_River.is_odd g1 = true → Pipes_River.is_odd g2 = true →
  2 * Pipes_River.pair_tubes g1 g2 = Z.of_nat (group_size g1 + group_size g2).
Proof.
  unfold Pipes_River.is_odd, Pipes_River.pair_tubes, ceil_div, Pipes_River.people_per_tube.
  intros H1%Nat.eqb_eq H2%Nat.eqb_eq.
  pose proof (Nat.div_mod_eq (group_size g1) 2).
  pose proof (Nat.div_mod_eq (group_size g2) 2).
  replace (group_size g1 + group_size g2 + 2 - 1)%nat
    with ((group_size g1 `div` 2 + group_size g2 `div` 2 + 1) * 2 + 1)%nat by lia.
  rewrite Nat.div_add_l by done. simpl (1 `div` 2)%nat. lia.
Qed.

Lemma even_tubes g :
  Pipes_River.is_even g = true →
  2 * Z.of_nat (group_size g / Pipes_River.people_per_tube) = Z.of_nat (group_size g).
Proof.
  unfold Pipes_River.is_even, Pipes_River.people_per_tube. intros H%Nat.eqb_eq.
  pose proof (Nat.div_mod_eq (group_size g) 2). lia.
Qed.

Lemma process_entry_step_pass t σ f l :
  river_pass σ f l (Pipes_River.process_entry_step t (σ, f, l)).
Proof.
  unfold Pipes_River.process_entry_step. cbv zeta.
  destruct (QueueServer.nonempty (queue_express f)).
  - destruct (QueueServer.head (queue_express f)) as [g|] eqn:Hh; [|by constructor].
    destruct (Pipes_River.is_even g) eqn:Heven.
    { destruct (_ <=? _); [|by constructor].
      apply pass_even; [done|done|].
      unfold waiting_ids, Pipes_River.enter_pair.
        cbn [queue_express queue_regular set_queue_express set_queue_regular set_occupied_tubes]. by rewrite (visitors_pop_snd (Some t) _ _ Hh) at 1. }
    apply not_even_odd in Heven.
    destruct (Pipes_River.find_odd_group_in_queue (tail _)) as [idx|] eqn:Hidx.
    + destruct (QueueServer.pop _ _) as [[[g1 a]|] qe1] eqn:Hpop; [|by constructor].
      pose proof (pop_head _ _ _ _ Hpop) as Hg. rewrite Hh in Hg. simpl in Hg. simplify_eq.
      apply visitors_pop in Hpop. simpl in Hpop. rewrite Hpop in Hidx. simpl in Hidx.
      replace (S idx - 1)%nat with idx by lia.
      apply find_index_Some in Hidx as (x & Hx & Hodd). rewrite Hx.
      pose proof (ids_remove _ t _ _ Hx) as Hrem.
      destruct (_ <=? _).
      * apply pass_pair; [done|done|done|].
        unfold waiting_ids, Pipes_River.enter_pair.
        cbn [queue_express queue_regular set_queue_express set_queue_regular set_occupied_tubes]. rewrite Hpop. cbn [map app]. rewrite Hrem. solve_Permutation.
      * apply pass_break; [done|].
        unfold waiting_ids, Pipes_River.enter_pair.
        cbn [queue_express queue_regular set_queue_express set_queue_regular set_occupied_tubes]. rewrite Hpop. cbn [map app]. rewrite !ids_insert, Hrem.
        solve_Permutation.
    + destruct (Pipes_River.find_odd_group_in_queue (QueueServer.visitors (queue_regular f)))
        as [idx|] eqn:Hidx'; [|by constructor].
      destruct (QueueServer.pop _ _) as [[[g1 a]|] qe1] eqn:Hpop; [|by constructor].
      pose proof (pop_head _ _ _ _ Hpop) as Hg. rewrite Hh in Hg. simpl in Hg. simplify_eq.
      apply visitors_pop in Hpop. simpl in Hpop.
      apply find_index_Some in Hidx' as (x & Hx & Hodd). rewrite Hx.
      pose proof (ids_remove _ t _ _ Hx) as Hrem.
      destruct (_ <=? _).
      * apply pass_pair; [done|done|done|].
        unfold waiting_ids, Pipes_River.enter_pair.
        cbn [queue_express queue_regular set_queue_express set_queue_regular set_occupied_tubes]. rewrite Hpop. cbn [map app]. rewrite Hrem. solve_Permutation.
      * apply pass_break; [done|].
        unfold waiting_ids, Pipes_River.enter_pair.
        cbn [queue_express queue_regular set_queue_express set_queue_regular set_occupied_tubes]. rewrite Hpop. cbn [map app]. rewrite !ids_insert, Hrem.
        solve_Permutation.
  - destruct (QueueServer.nonempty (queue_regular f)); [|by constructor].
    destruct (QueueServer.head (queue_regular f)) as [g|] eqn:Hh; [|by constructor].
    destruct (Pipes_River.is_even g) eqn:Heven.
    { destruct (_ <=? _); [|by constructor].
      apply pass_even; [done|done|].
      unfold waiting_ids, Pipes_River.enter_pair.
        cbn [queue_express queue_regular set_queue_express set_queue_regular set_occupied_tubes]. rewrite (visitors_pop_snd (Some t) _ _ Hh) at 1.
      cbn [map app]. solve_Permutation. }
    apply not_even_odd in Heven.
    destruct (Pipes_River.find_odd_group_in_queue (tail _)) as [idx|] eqn:Hidx; [|by constructor].
    destruct (QueueServer.pop _ _) as [[[g1 a]|] qr1] eqn:Hpop; [|by constructor].
    pose proof (pop_head _ _ _ _ Hpop) as Hg. rewrite Hh in Hg. simpl in Hg. simplify_eq.
    apply visitors_pop in Hpop. simpl in Hpop. rewrite Hpop in Hidx. simpl in Hidx.
    replace (S idx - 1)%nat with idx by lia.
    apply find_index_Some in Hidx as (x & Hx & Hodd). rewrite Hx.
    pose proof (ids_remove _ t _ _ Hx) as Hrem.
    destruct (_ <=? _).
    * apply pass_pair; [done|done|done|].
      unfold waiting_ids, Pipes_River.enter_pair.
        cbn [queue_express queue_regular set_queue_express set_queue_regular set_occupied_tubes]. rewrite Hpop. cbn [map app]. rewrite Hrem. solve_Permutation.
    * apply pass_break; [done|].
      unfold waiting_ids, Pipes_River.enter_pair.
        cbn [queue_express queue_regular set_queue_express set_queue_regular set_occupied_tubes]. rewrite Hpop. cbn [map app]. rewrite !ids_insert, Hrem.
      solve_Permutation.
Qed.

Lemma process_entry_loop_account fuel t σ f l :
  let r := Pipes_River.process_entry_loop fuel t (σ, f, l) in
  Z.of_nat (headcount r.2) - 2 * occupied_tubes r.1.2
  = Z.of_nat (headcount l) - 2 * occupied_tubes f
  ∧ map vid r.2 ++ waiting_ids r.1.2 ≡ₚ map vid l ++ waiting_ids f.
Proof.
  revert σ f l. induction fuel as [|fuel IH]; intros σ f l; [done|].
  cbn [Pipes_River.process_entry_loop fst snd].
  destruct (_ <? _); [|done].
  destruct (process_entry_step_pass t σ f l) as [g σ' f' Hg Hocc Hids|g1 g2 σ' f' H1 H2 Hocc Hids|f' Hocc Hids].
  - destruct (IH σ' f' (l ++ [g])) as [IH1 IH2]. cbv zeta. split.
    + rewrite IH1, Hocc, headcount_app. pose proof (even_tubes g Hg).
      change (headcount [g]) with (group_size g + 0)%nat. lia.
    + rewrite IH2, Hids, map_app. simpl. solve_Permutation.
  - destruct (IH σ' f' (l ++ [g1; g2])) as [IH1 IH2]. cbv zeta. split.
    + rewrite IH1, Hocc, headcount_app. pose proof (pair_tubes_odd g1 g2 H1 H2).
      change (headcount [g1; g2]) with (group_size g1 + (group_size g2 + 0))%nat. lia.
    + rewrite IH2, Hids, map_app. simpl. solve_Permutation.
  - cbv zeta. simpl. split; [by rewrite Hocc|by rewrite Hids].
Qed.

(** X6. Nobody rides the Pipes River in a half-used tube: after
    [process_entry] the number of occupied tubes has grown by exactly half
    the number of people in the groups it returns, since a group of even
    size takes its own tubes and a group of odd size enters only together
    with a second group of odd size. *)
Theorem river_tubes_are_full (t : datetime) (σ : Store) (f : Facility) :
  let r := Pipes_River.process_entry t σ f in
  2 * (occupied_tubes r.1.2 - occupied_tubes f) = Z.of_nat (headcount r.2).
Proof.
  cbv zeta. unfold Pipes_River.process_entry.
  destruct (process_entry_loop_account (S (Facility.queued f)) t σ f []) as [H _].
  cbv zeta in H. change (headcount []) with 0%nat in H. lia.
Qed.

(** X7. [process_entry] neither loses nor duplicates a visitor: the
    groups it returns together with the visitors left in the two queues are
    the visitors who were waiting, each as often as before; the people in
    service are not touched (the caller puts the groups into service). *)
Theorem river_entry_conserves_visitors (t : datetime) (σ : Store) (f : Facility) :
  let r := Pipes_River.process_entry t σ f in
  map vid r.2 ++ waiting_ids r.1.2 ≡ₚ waiting_ids f
  ∧ users_in_service r.1.2 = users_in_service f.
Proof.
  cbv zeta. unfold Pipes_River.process_entry. split.
  - by destruct (process_entry_loop_account (S (Facility.queued f)) t σ f []) as [_ H].
  - generalize (S (Facility.queued f)) (@nil Visitor). intros fuel l.
    revert σ f l. induction fuel as [|fuel IH]; intros σ f l; [done|].
    cbn [Pipes_River.process_entry_loop fst snd].
    destruct (_ <? _); [|done].
    unfold Pipes_River.process_entry_step. cbv zeta.
    repeat (case_match; simplify_eq; try done);
      unfold Pipes_River.enter_pair; try (by rewrite IH).
Qed.

(** ** [Simulation.py]: entry to the pools *)

Lemma find_index_first {A} (p : A → bool) l i :
  find_index p l = Some i →
  ∃ x, l !! i = Some x ∧ p x = true ∧ ∀ j y, (j < i)%nat → l !! j = Some y → p y = false.
Proof.
  revert i. induction l as [|z l IH]; intros i; simpl; [discriminate|].
  destruct (p z) eqn:Hp.
  - intros [= <-]. exists z. split; [done|]. split; [done|]. intros j y Hj. lia.
  - destruct (find_index p l) as [k|]; [|discriminate]. intros [= <-].
    destruct (IH k eq_refl) as (x & Hx & Hpx & Hbefore). exists x.
    split; [done|]. split; [done|]. intros [|j] y Hj Hy; simpl in Hy; [by simplify_eq|].
    apply (Hbefore j); [lia|done].
Qed.

Lemma find_index_none_all {A} (p : A → bool) l x :
  find_index p l = None → In x l → p x = false.
Proof.
  induction l as [|z l IH]; simpl; [done|].
  destruct (p z) eqn:Hp; [discriminate|].
  destruct (find_index p l); [discriminate|]. intros _ [<- | Hin]; [done|]. by apply IH.
Qed.

(** X19. One scan of a pool queue is first fit: the first group of the
    queue, in its order, that fits into the free places goes into service,
    passing the groups before it, which are too big and stay.  The queue
    loses this group and no other; if no group fits, nothing changes. *)
Theorem pool_scan_is_first_fit (express : bool) (t : datetime) (f : Facility) :
  let queue_of f := if express then queue_express f else queue_regular f in
  let q := QueueServer.visitors (queue_of f) in
  let f' := (Pool.scan express t f).2 in
  match (Pool.scan express t f).1 with
  | Some v =>
      (∃ i, q !! i = Some v
            ∧ ∀ j w, (j < i)%nat → q !! j = Some w →
                     Pool.can_enter (group_size w) f = false)
      ∧ Pool.can_enter (group_size v) f = true
      ∧ users_in_service f' = users_in_service f ++ [v]
      ∧ map vid q ≡ₚ vid v :: map vid (QueueServer.visitors (queue_of f'))
  | None =>
      (∀ w, In w q → Pool.can_enter (group_size w) f = false) ∧ f' = f
  end.
Proof.
  cbv zeta. unfold Pool.scan.
  destruct (find_index _ _) as [i|] eqn:Hi.
  2:{ cbn [fst snd]. split; [|done]. intros w Hw.
      by apply (find_index_none_all _ _ w Hi). }
  apply find_index_first in Hi as (x & Hx & Hfit & Hbefore). rewrite Hx.
  destruct i as [|i].
  - pose proof (pop_service express t f) as [Hu _].
    pose proof (pop_is_head express t f) as Hhead.
    assert (Hq : QueueServer.visitors (if express then queue_express f else queue_regular f)
                 = x :: QueueServer.visitors
                          (if express then queue_express (Facility.pop express t f).2
                           else queue_regular (Facility.pop express t f).2)).
    { unfold Facility.pop.
      destruct (QueueServer.pop _ _) as [r q'] eqn:Hpop.
      unfold QueueServer.head in Hhead. unfold QueueServer.pop in Hpop.
      unfold QueueServer.visitors in *.
      destruct (server_queue (if express then _ else _)) as [|e rest] eqn:E; [done|].
      simpl in Hx. injection Hx as <-. injection Hpop as <- <-.
      destruct express; cbn; by rewrite ?E. }
    destruct (Facility.pop express t f) as [[v|] f1] eqn:Hpop; cbn [fst snd] in *.
    + specialize (Hhead v eq_refl). unfold QueueServer.head in Hhead.
      rewrite Hq in Hhead. simpl in Hhead. injection Hhead as <-.
      split; [exists 0%nat; split; [done|]; intros j w Hj; lia|].
      split; [done|]. split; [unfold Facility.append_in_service; cbn; by rewrite Hu|].
      rewrite Hq. by destruct express.
    + exfalso. unfold Facility.pop, QueueServer.pop in Hpop.
      unfold QueueServer.visitors in Hx.
      destruct (server_queue (if express then _ else _)); [done|]. by destruct express.
  - cbn [fst snd].
    split; [exists (S i); split; [done|exact Hbefore]|]. split; [done|].
    split; [by destruct express|].
    unfold Facility.append_in_service, Facility.remove.
    destruct express; cbn [queue_express queue_regular set_queue_express set_queue_regular
                           set_users_in_service]; by apply (ids_remove _ t _ (S i)).
Qed.

(** ** [facilities.py]: the instructors of the Snorkel Tour *)




(** ** [Simulation.py]: entry to the Single Slide *)

Lemma not_cooled_down_at_entry t :
  Single_Slide.cooled_down t (Single_Slide.current_minutes t) = false.
Proof.
  unfold Single_Slide.cooled_down, fsub.
  destruct (Qle_bool _ _) eqn:E; [|done].
  apply Qle_bool_iff in E. rewrite Qred_correct in E.
  assert (H : (Single_Slide.current_minutes t - Single_Slide.current_minutes t == 0)%Q) by ring.
  rewrite H in E. by vm_compute in E.
Qed.

Lemma filter_insert_found {A} (p : A → bool) l i y :
  find_index p l = Some i → p y = false →
  S (length (List.filter p (<[i := y]> l))) = length (List.filter p l).
Proof.
  revert i. induction l as [|x l IH]; intros i; simpl; [done|].
  destruct (p x) eqn:Hx.
  - intros [= <-] Hy. simpl. by rewrite Hy.
  - destruct (find_index p l) as [j|]; [|done]. intros [= <-] Hy. simpl.
    rewrite Hx. by apply IH.
Qed.

Lemma find_index_lt {A} (p : A → bool) l i : find_index p l = Some i → (i < length l)%nat.
Proof.
  intros H. apply find_index_Some in H as (x & Hx & _). by apply lookup_lt_Some in Hx.
Qed.

Lemma find_index_None {A} (p : A → bool) l : find_index p l = None → List.filter p l = [].
Proof.
  induction l as [|x l IH]; simpl; [done|]. destruct (p x); [done|].
  destruct (find_index p l); [done|]. intros _. by apply IH.
Qed.

Lemma free_slides_record_entry t f i :
  Single_Slide.get_available_slide t f = Some i →
  S (free_slides t (Single_Slide.record_entry i t f)) = free_slides t f.
Proof.
  unfold Single_Slide.get_available_slide, free_slides, Single_Slide.record_entry.
  cbn [last_entry_times set_last_entry_times]. intros H.
  pose proof (find_index_lt _ _ _ H) as Hi. rewrite length_take in Hi.
  rewrite take_insert_lt by lia.
  apply filter_insert_found; [done|apply not_cooled_down_at_entry].
Qed.

Lemma free_slides_none t f :
  Single_Slide.get_available_slide t f = None → free_slides t f = 0%nat.
Proof. intros H. unfold free_slides. by rewrite (find_index_None _ _ H). Qed.

Lemma pop_last_entry_times express t f :
  last_entry_times (snd (Facility.pop express t f)) = last_entry_times f
  ∧ users_in_service (snd (Facility.pop express t f)) = users_in_service f.
Proof. unfold Facility.pop. by destruct (QueueServer.pop _ _), express. Qed.

(** One pass of the loop: a rider enters on a free slide, or the loop is
    left and nothing has changed. *)
Lemma single_slide_pass_effect c t s :
  let f := facilities s c in
  let r := TryStart.single_slide_pass c t s in
  (r.1 = true
   ∧ S (free_slides t (facilities r.2 c)) = free_slides t f
   ∧ S (Facility.queued (facilities r.2 c)) = Facility.queued f
   ∧ length (users_in_service (facilities r.2 c)) = S (length (users_in_service f)))
  ∨ (r = (false, s) ∧ (free_slides t f = 0 ∨ Facility.queued f = 0)%nat).
Proof.
  cbv zeta.
  assert (Hunfold : TryStart.single_slide_pass c t s
    = (let f := facilities s c in
       if QueueServer.nonempty (queue_express f) || QueueServer.nonempty (queue_regular f) then
         match Single_Slide.get_available_slide t f with
         | None => ret false
         | Some slide_idx =>
             bind (if QueueServer.nonempty (queue_express f)
                   then update_facility c (Facility.pop true t)
                   else if QueueServer.nonempty (queue_regular f)
                   then update_facility c (Facility.pop false t)
                   else ret None) (fun visitor =>
             bind match visitor with
                  | Some visitor =>
                      bind (modify_facility c (Single_Slide.record_entry slide_idx t)) (fun _ =>
                      bind (Simulation.append_in_service c visitor) (fun _ =>
                      bind (Simulation.get_service_duration c) (fun duration =>
                      Simulation.schedule_end c t duration visitor None)))
                  | None => ret tt
                  end (fun _ => ret true))
         end
       else ret false) s) by reflexivity.
  rewrite Hunfold. clear Hunfold. cbv zeta.
  destruct (_ || _) eqn:Hq.
  2:{ right. split; [done|]. right. apply orb_false_iff in Hq as [H1 H2].
      unfold QueueServer.nonempty, QueueServer.size in H1, H2. unfold Facility.queued.
      apply Z.ltb_ge in H1, H2. lia. }
  destruct (Single_Slide.get_available_slide t (facilities s c)) as [i|] eqn:Hi.
  2:{ right. split; [done|]. left. by apply free_slides_none. }
  left. set (express := QueueServer.nonempty (queue_express (facilities s c))).
  assert (Hne : QueueServer.nonempty
                  (if express then queue_express (facilities s c)
                   else queue_regular (facilities s c)) = true).
  { unfold express. destruct (QueueServer.nonempty (queue_express _)) eqn:E; [done|]. exact Hq. }
  destruct (pop_queued express t (facilities s c) Hne) as [Hlen [v Hv]].
  pose proof (pop_last_entry_times express t (facilities s c)) as [Hl Hu].
  assert (Hpass :
    (if express then update_facility c (Facility.pop true t)
     else if QueueServer.nonempty (queue_regular (facilities s c))
          then update_facility c (Facility.pop false t) else ret None)
    = update_facility c (Facility.pop express t)).
  { unfold express in *. destruct (QueueServer.nonempty (queue_express _)); [done|].
    simpl in Hq. by rewrite Hq. }
  fold express. rewrite Hpass.
  set (s1 := snd (update_facility c (Facility.pop express t) s)).
  assert (Hs1 : facilities s1 c = snd (Facility.pop express t (facilities s c))).
  { unfold s1, update_facility. destruct (Facility.pop express t (facilities s c)) as [a f1].
    cbn [snd]. change (snd (modify_facility ?c ?g ?s)) with (exec (modify_facility c g) s).
    rewrite facilities_modify_facility. by destruct c. }
  rewrite !fst_bind, !snd_bind, fst_update_facility, Hv. fold s1.
  cbn [ret fst snd]. rewrite !snd_bind.
  split; [done|].
  change (snd (Simulation.schedule_end ?c ?t ?d ?v ?i ?s))
    with (exec (Simulation.schedule_end c t d v i) s).
  rewrite (keeps_exec facilities) by apply keeps_schedule_end, facilities_ignores_bookkeeping.
  change (snd (Simulation.get_service_duration ?c ?s))
    with (exec (Simulation.get_service_duration c) s).
  rewrite (keeps_exec facilities)
    by apply keeps_get_service_duration, facilities_ignores_bookkeeping.
  change (snd (Simulation.append_in_service ?c ?v ?s))
    with (exec (modify_facility c (Facility.append_in_service v)) s).
  rewrite facilities_modify_facility.
  change (snd (modify_facility ?c ?g ?s)) with (exec (modify_facility c g) s).
  rewrite facilities_modify_facility.
  replace (FacilityClass_eqb c c) with true by (by destruct c).
  rewrite Hs1.
  split; [|split].
  - change (free_slides t (Facility.append_in_service v ?f)) with (free_slides t f).
    rewrite free_slides_record_entry.
    + unfold free_slides. by rewrite Hl.
    + unfold Single_Slide.get_available_slide. rewrite Hl. exact Hi.
  - exact Hlen.
  - unfold Facility.append_in_service, Single_Slide.record_entry. cbn. rewrite Hu.
    rewrite length_app. simpl. lia.
Qed.

Lemma single_slide_loop c t fuel s :
  (Facility.queued (facilities s c) < fuel)%nat →
  let f := facilities s c in
  let f' := facilities (snd (while fuel (TryStart.single_slide_pass c t) s)) c in
  length (users_in_service f')
  = (length (users_in_service f) + free_slides t f `min` Facility.queued f)%nat
  ∧ Facility.queued f' = (Facility.queued f - free_slides t f `min` Facility.queued f)%nat.
Proof.
  revert s. induction fuel as [|fuel IH]; intros s Hfuel; [lia|].
  cbv zeta. cbn [while]. rewrite snd_bind.
  destruct (single_slide_pass_effect c t s) as [(Hr & Hfree & Hq & Hu)|[Hr Hzero]]; cbv zeta in *.
  - rewrite Hr. destruct (IH (snd (TryStart.single_slide_pass c t s))) as [IH1 IH2]; [lia|].
    cbv zeta in IH1, IH2. rewrite IH1, IH2, Hu. lia.
  - rewrite Hr. cbn [fst snd ret]. lia.
Qed.

(** X8. One call of [try_start_facility] on the Single Slide lets in as
    many riders as there are slides whose safety interval is over, or all
    who wait if they are fewer: never more than two.  Neither the number of
    people already in service nor the capacity of the facility is looked
    at.  (No slide is at the very end of its safety interval: there the
    outcome of the code's test is a matter of float rounding.) *)
Theorem single_slide_entries (t : datetime) (s : Simulation)
    (Hclear : off_the_interval_end t (facilities s Single_Slide)) :
  let f := facilities s Single_Slide in
  let f' := facilities (exec (try_start_facility Single_Slide t) s) Single_Slide in
  length (users_in_service f')
  = (length (users_in_service f) + free_slides t f `min` Facility.queued f)%nat
  ∧ Facility.queued f' = (Facility.queued f - free_slides t f `min` Facility.queued f)%nat
  ∧ (free_slides t f ≤ Single_Slide.num_slides)%nat.
Proof.
  cbv zeta. unfold try_start_facility, TryStart.single_slide, exec.
  rewrite snd_bind. cbn [gets fst snd].
  destruct (single_slide_loop Single_Slide t (S (Facility.queued (facilities s Single_Slide))) s)
    as [H1 H2]; [lia|].
  split; [exact H1|]. split; [exact H2|].
  unfold free_slides. etrans; [apply filter_length_le|]. rewrite length_take. lia.
Qed.

(** At 10:00:35 the first slide has been free for five seconds and the
    second one was entered 25 seconds ago: of the two visitors who wait, one
    goes in, as the third rider. *)
Lemma single_slide_entries_witness :
  let t := mk_datetime 0 10 0 35 in
  let f := facilities slide_two_waiting Single_Slide in
  let f' := facilities (exec (try_start_facility Single_Slide t) slide_two_waiting)
              Single_Slide in
  off_the_interval_end t f
  ∧ (length (users_in_service f), Facility.queued f, free_slides t f) = (2, 2, 1)%nat
  ∧ length (users_in_service f') = 3%nat
  ∧ Facility.queued f' = 1%nat.
Proof.
  cbv zeta.
  assert (H : off_the_interval_end (mk_datetime 0 10 0 35)
                (facilities slide_two_waiting Single_Slide)).
  { unfold off_the_interval_end.
    assert (E : take Single_Slide.num_slides
                  (last_entry_times (facilities slide_two_waiting Single_Slide))
                = [600%Q; 3601 # 6]) by (vm_compute; reflexivity).
    rewrite E.
    constructor; [right; by vm_compute|]. constructor; [left; by vm_compute|]. constructor. }
  split; [exact H|].
  split; [vm_compute; reflexivity|].
  destruct (single_slide_entries (mk_datetime 0 10 0 35) slide_two_waiting H) as (H1 & H2 & _).
  split; [rewrite H1|rewrite H2]; vm_compute; reflexivity.
Defined.

(** ** [Simulation.py]: closing the park *)

Lemma is_in_app v l1 l2 : is_in v (l1 ++ l2) = is_in v l1 || is_in v l2.
Proof. apply existsb_app. Qed.

Lemma same_sym v w : same v w = same w v.
Proof. unfold same. apply Pos.eqb_sym. Qed.

Lemma same_refl v : same v v = true.
Proof. apply Pos.eqb_refl. Qed.

Lemma is_in_elem v l : v ∈ l → is_in v l = true.
Proof.
  intros H. unfold is_in. apply existsb_exists. exists v.
  split; [by apply list_elem_of_In|apply same_refl].
Qed.

Lemma is_in_false_vid v l : is_in v l = false → vid v ∉ map vid l.
Proof.
  intros H Hin. apply list_elem_of_fmap in Hin as (w & Hw & Hin).
  assert (is_in v l = true); [|congruence].
  unfold is_in. apply existsb_exists. exists w. split; [by apply list_elem_of_In|].
  unfold same. rewrite Hw. apply Pos.eqb_refl.
Qed.

Lemma complete_visitor_booked v s :
  booked [v] s (snd (Simulation._complete_visitor v s)).
Proof.
  unfold booked, photo_revenue, photo_price.
  assert (H : snd (Simulation._complete_visitor v s)
    = let st := get (store s) v in
      let '(package, price) := Sampling_Algorithms.get_photo_purchase_decision (rating st) in
      let s1 := if bool_decide (is_Some package)
                then set_total_revenue (total_revenue s + price) s else s in
      set_total_people_completed
        (total_people_completed s + Z.of_nat (group_size v))
        (set_total_entities_completed (total_entities_completed s + 1)
           (set_visitors_completed (visitors_completed s ++ [v])
              (set_ratings (ratings s ++ [rating st]) s1)))).
  { unfold Simulation._complete_visitor, visitor_state, bind, gets. cbv zeta.
    destruct (Sampling_Algorithms.get_photo_purchase_decision _) as [[package|] price]; done. }
  rewrite H. clear H. cbv zeta.
  destruct (Sampling_Algorithms.get_photo_purchase_decision _) as [[package|] price] eqn:E.
  - cbn. repeat split; try done; try (rewrite ?E; unfold headcount; simpl; lia).
  - cbn. assert (price = 0) as ->.
    { unfold Sampling_Algorithms.get_photo_purchase_decision in E.
      repeat case_match; by simplify_eq. }
    repeat split; try done; try (rewrite ?E; unfold headcount; simpl; lia).
Qed.

Lemma booked_nil s : booked [] s s.
Proof.
  unfold booked, photo_revenue. simpl. rewrite !app_nil_r.
  repeat split; try done; unfold headcount; simpl; lia.
Qed.

Lemma booked_app a1 a2 s s1 s2 :
  booked a1 s s1 → booked a2 s1 s2 → booked (a1 ++ a2) s s2.
Proof.
  unfold booked. intros (H1 & H2 & H3 & H4 & H5 & H6 & H7) (K1 & K2 & K3 & K4 & K5 & K6 & K7).
  rewrite K1, K2, K3, K4, K5, K6, K7, H1, H2, H3, H4, H5, H6, H7.
  rewrite map_app, !app_assoc, length_app, headcount_app.
  repeat split; try done; try lia.
  unfold photo_revenue. rewrite foldr_app.
  generalize (foldr (λ v total, photo_price (store s) v + total) 0 a2). intros z.
  induction a1 as [|x a1 IH]; simpl; [lia|].
  assert (∀ z, foldr (λ v total, photo_price (store s) v + total) z a1
               = foldr (λ v total, photo_price (store s) v + total) 0 a1 + z) as Hz.
  { clear. intros z. induction a1 as [|x a1 IH]; simpl; [lia|]. rewrite IH. lia. }
  rewrite (Hz z). lia.
Qed.

Lemma closes_nil pool s :
  (∀ v, v ∈ pool → is_in v (visitors_completed s) = true) → closes pool [] s s.
Proof.
  intros H. split; [apply booked_nil|]. split; [constructor|].
  split; [|done]. intros v Hv. by apply elem_of_nil in Hv.
Qed.

Lemma closes_app p1 p2 a1 a2 s s1 s2 :
  closes p1 a1 s s1 → closes p2 a2 s1 s2 → closes (p1 ++ p2) (a1 ++ a2) s s2.
Proof.
  intros (Hb1 & Hn1 & Ha1 & Hp1) (Hb2 & Hn2 & Ha2 & Hp2).
  pose proof Hb1 as (Hvc1 & _). pose proof Hb2 as (Hvc2 & _).
  split; [by eapply booked_app|]. split; [|split].
  - rewrite map_app. apply NoDup_app. split; [done|]. split; [|done].
    intros i Hi1 Hi2. apply list_elem_of_fmap in Hi2 as (w & -> & Hw).
    destruct (Ha2 w Hw) as [Hnot _]. apply is_in_false_vid in Hnot.
    apply Hnot. rewrite Hvc1, map_app. apply elem_of_app. by right.
  - intros v Hv. apply elem_of_app in Hv as [Hv|Hv].
    + destruct (Ha1 v Hv) as [? ?]. split; [done|]. apply elem_of_app. by left.
    + destruct (Ha2 v Hv) as [Hnot ?]. split; [|apply elem_of_app; by right].
      rewrite Hvc1, is_in_app in Hnot. by apply orb_false_iff in Hnot as [? _].
  - intros v Hv. apply elem_of_app in Hv as [Hv|Hv]; [|by apply Hp2].
    rewrite Hvc2, is_in_app. by rewrite (Hp1 v Hv).
Qed.

(** The local set [completed_entities] holds the same visitors as
    [visitors_completed]. *)
Lemma force_close_list_closes l completed s :
  (∀ w, is_in w completed = is_in w (visitors_completed s)) →
  let r := Simulation.force_close_list l completed s in
  (∀ w, is_in w r.1 = is_in w (visitors_completed r.2))
  ∧ ∃ added, closes l added s r.2.
Proof.
  revert completed s. induction l as [|v l IH]; intros completed s Hc; cbv zeta.
  - split; [done|]. exists []. by apply closes_nil; intros v Hv; apply elem_of_nil in Hv.
  - cbn [Simulation.force_close_list]. destruct (is_in v completed) eqn:Hv; cbn [negb].
    + destruct (IH completed s Hc) as (HJ & added & Hcl). cbv zeta in *.
      split; [done|]. exists added.
      assert (H1 : closes [v] [] s s).
      { apply closes_nil. intros w Hw. apply list_elem_of_singleton in Hw as ->.
        by rewrite <- Hc. }
      apply (closes_app [v] l [] added s s _ H1 Hcl).
    + rewrite fst_bind, snd_bind.
      set (s1 := snd (Simulation._complete_visitor v s)).
      pose proof (complete_visitor_booked v s) as Hb. fold s1 in Hb.
      pose proof Hb as (Hvc & _).
      destruct (IH (v :: completed) s1) as (HJ & added & Hcl).
      { intros w. rewrite Hvc, is_in_app. simpl. rewrite Hc, orb_comm. by rewrite orb_false_r. }
      cbv zeta in *. split; [done|]. exists ([v] ++ added).
      assert (H1 : closes [v] [v] s s1).
      { split; [done|]. split; [repeat constructor; by intros ?%elem_of_nil|].
        split.
        - intros w Hw. apply list_elem_of_singleton in Hw as ->.
          split; [by rewrite <- Hc|by apply list_elem_of_singleton].
        - intros w Hw. apply list_elem_of_singleton in Hw as ->.
          rewrite Hvc, is_in_app. simpl. by rewrite same_refl, orb_true_r. }
      apply (closes_app [v] l [v] added s s1 _ H1 Hcl).
Qed.

Lemma closes_facilities pool added s s' : closes pool added s s' → facilities s' = facilities s.
Proof. by intros ((_ & _ & _ & _ & _ & H & _) & _). Qed.

Lemma force_close_facilities_closes cs completed s :
  (∀ w, is_in w completed = is_in w (visitors_completed s)) →
  ∃ added,
    closes (flat_map (fun c => at_facility (facilities s c)) cs) added s
      (snd (Simulation.force_close_facilities cs completed s)).
Proof.
  revert completed s. induction cs as [|c cs IH]; intros completed s Hc.
  - exists []. apply closes_nil. intros v Hv. by apply elem_of_nil in Hv.
  - cbn [Simulation.force_close_facilities flat_map]. unfold bind, gets.
    set (f := facilities s c).
    pose proof (force_close_list_closes (users_in_service f) completed s Hc) as H1.
    destruct (Simulation.force_close_list (users_in_service f) completed s) as [c1 s1].
    destruct H1 as (H1 & a1 & C1). cbn [fst snd] in H1, C1.
    pose proof (force_close_list_closes (QueueServer.visitors (queue_regular f)) c1 s1 H1) as H2.
    destruct (Simulation.force_close_list (QueueServer.visitors (queue_regular f)) c1 s1)
      as [c2 s2].
    destruct H2 as (H2 & a2 & C2). cbn [fst snd] in H2, C2.
    pose proof (force_close_list_closes (QueueServer.visitors (queue_express f)) c2 s2 H2) as H3.
    destruct (Simulation.force_close_list (QueueServer.visitors (queue_express f)) c2 s2)
      as [c3 s3].
    destruct H3 as (H3 & a3 & C3). cbn [fst snd] in H3, C3.
    destruct (IH c3 s3 H3) as (a4 & C4).
    assert (Hf : facilities s3 = facilities s).
    { rewrite (closes_facilities _ _ _ _ C3), (closes_facilities _ _ _ _ C2).
      apply (closes_facilities _ _ _ _ C1). }
    rewrite Hf in C4.
    exists (a1 ++ a2 ++ a3 ++ a4). unfold at_facility. rewrite <- !app_assoc.
    eapply closes_app; [exact C1|]. eapply closes_app; [exact C2|].
    eapply closes_app; [exact C3|exact C4].
Qed.

Lemma force_close_list_done l completed s :
  (∀ v, v ∈ l → is_in v completed = true) →
  Simulation.force_close_list l completed s = (completed, s).
Proof.
  induction l as [|v l IH]; intros H; [done|]. cbn [Simulation.force_close_list].
  rewrite (H v) by apply list_elem_of_here. cbn [negb]. apply IH.
  intros w Hw. apply H. by apply list_elem_of_further.
Qed.

Lemma force_close_facilities_done cs completed s :
  (∀ c v, c ∈ cs → v ∈ at_facility (facilities s c) → is_in v completed = true) →
  Simulation.force_close_facilities cs completed s = (tt, s).
Proof.
  induction cs as [|c cs IH]; intros H; [done|]. cbn [Simulation.force_close_facilities].
  unfold bind at 1. cbn [gets].
  assert (Hc : ∀ v, v ∈ at_facility (facilities s c) → is_in v completed = true).
  { intros v. apply H, list_elem_of_here. }
  unfold at_facility in Hc. setoid_rewrite elem_of_app in Hc. setoid_rewrite elem_of_app in Hc.
  unfold bind. rewrite !force_close_list_done by auto.
  apply IH. intros c' v Hc'. apply H. by apply list_elem_of_further.
Qed.

(** X9. [force_close_park] books as completed every visitor who is in
    service or in a queue at one of the seven facilities and was not completed
    before, each of them once: they are appended to [visitors_completed],
    their ratings to [ratings], the entity counter grows by their number, the
    people counter by their headcount and the revenue by their photo
    packages.  It takes nobody out of a facility and writes to no visitor
    object, and a second call changes nothing. *)
Theorem force_close_books_everyone_once (s : Simulation) :
  let s' := exec Simulation.force_close_park s in
  (∃ added,
     booked added s s'
     ∧ NoDup (map vid added)
     ∧ (∀ v, v ∈ added → is_in v (visitors_completed s) = false ∧ v ∈ in_facilities s)
     ∧ (∀ v, v ∈ in_facilities s → is_in v (visitors_completed s') = true))
  ∧ exec Simulation.force_close_park s' = s'.
Proof.
  cbv zeta. unfold Simulation.force_close_park at 1 3 4, exec.
  rewrite !snd_bind. cbn [gets fst snd].
  destruct (force_close_facilities_closes all_facilities (visitors_completed s) s)
    as (added & Hcl); [done|].
  split; [by exists added|].
  set (s' := snd (Simulation.force_close_facilities all_facilities (visitors_completed s) s)) in *.
  unfold Simulation.force_close_park. rewrite snd_bind. cbn [gets fst snd].
  rewrite force_close_facilities_done; [done|].
  intros c v Hc Hv. destruct Hcl as (Hb & _ & _ & Hall). apply Hall.
  unfold in_facilities. apply list_elem_of_In, in_flat_map. exists c.
  destruct Hb as (_ & _ & _ & _ & _ & Hf & _). rewrite Hf in Hv.
  split; by apply list_elem_of_In.
Qed.

(** ** [entities.py]: a family splits *)

Lemma num_split_groups_range s :
  (Sampling_Algorithms.get_num_split_groups s).1 = 2%nat
  ∨ (Sampling_Algorithms.get_num_split_groups s).1 = 3%nat.
Proof.
  unfold Sampling_Algorithms.get_num_split_groups. rewrite fst_bind. cbn [ret fst].
  destruct (Qle_bool _ _); [by left|by right].
Qed.

Lemma create_subgroup_fst p n a e s :
  let g := (create_subgroup p n a e s).1 in
  group_size g = n ∧ kind g = SubGroup ∧ parent_family g = Some p.
Proof. done. Qed.

Lemma ages_partition (ages : list Q) :
  length ages
  = (length (filter (fun age => Qlt_bool age 8 = true) ages)
     + length (filter (fun age => Qle_bool 8 age && Qlt_bool age 12 = true) ages)
     + length (filter (fun age => Qle_bool 12 age = true) ages))%nat.
Proof.
  induction ages as [|x ages IH]; [done|].
  rewrite !filter_cons. unfold Qlt_bool in *.
  assert (Hx : Qle_bool 12 x = true → Qle_bool 8 x = true).
  { intros H12. apply Qle_bool_iff in H12. apply Qle_bool_iff.
    eapply Qle_trans; [|exact H12]. by vm_compute. }
  destruct (Qle_bool 8 x) eqn:H8; destruct (Qle_bool 12 x) eqn:H12;
    repeat case_decide; simpl in *; try done; try lia.
Qed.

Lemma check_and_split_cases (self : Visitor) (s : Simulation) r s' :
  group_size self = (length (kids_ages self) + 2)%nat →
  Family.check_and_split self s = (r, s') →
  let under_8 := filter (fun age => Qlt_bool age 8 = true) (kids_ages self) in
  let from_8_to_12 :=
    filter (fun age => Qle_bool 8 age && Qlt_bool age 12 = true) (kids_ages self) in
  let over_12 := filter (fun age => Qle_bool 12 age = true) (kids_ages self) in
  r = [self]
  ∨ (Forall (fun g => kind g = SubGroup ∧ parent_family g = Some self
                      ∧ (1 ≤ group_size g)%nat) r
     ∧ subgroups (get (store s') self) = r
     ∧ active_subgroups_count (get (store s') self) = Z.of_nat (length r)
     ∧ ((2 ≤ length r ≤ 3 ∧ headcount r = group_size self)%nat
        ∨ (length r = 2 ∧ under_8 ≠ [] ∧ over_12 ≠ []
           ∧ headcount r + 1 + length from_8_to_12 = group_size self)%nat)).
Proof.
  intros Hsize H. pose proof (ages_partition (kids_ages self)) as Hages. cbv zeta.
  unfold Family.check_and_split, bind in H.
  destruct (Sampling_Algorithms.should_family_split s) as [split s1].
  destruct split; cbn [negb] in H; [|left; by injection H].
  destruct (modify_visitor self _ s1) as [[] s2].
  pose proof (num_split_groups_range s2) as Hng.
  destruct (Sampling_Algorithms.get_num_split_groups s2) as [ng s3]. cbn [fst] in Hng.
  destruct (visitor_state self s3) as [me s4].
  set (under_8 := filter (fun age => Qlt_bool age 8 = true) (kids_ages self)) in *.
  set (from_8_to_12 :=
         filter (fun age => Qle_bool 8 age && Qlt_bool age 12 = true) (kids_ages self)) in *.
  set (over_12 := filter (fun age => Qle_bool 12 age = true) (kids_ages self)) in *.
  assert (Hu : under_8 = [] ∨ (under_8 ≠ [] ∧ 1 ≤ length under_8)%nat)
    by (destruct under_8; [by left|right; split; [done|simpl; lia]]).
  assert (Ho : over_12 = [] ∨ (over_12 ≠ [] ∧ 1 ≤ length over_12)%nat)
    by (destruct over_12; [by left|right; split; [done|simpl; lia]]).
  destruct under_8 as [|x1 under_8'] eqn:Eu; destruct over_12 as [|x2 over_12'] eqn:Eo;
    destruct Hng as [-> | ->];
    repeat (cbn [ret length app Nat.ltb Nat.leb] in H;
            first
              [ match type of H with
                | context [create_subgroup ?p ?n ?a ?e ?s] =>
                    let E := fresh "E" in
                    pose proof (create_subgroup_fst p n a e s) as E;
                    destruct (create_subgroup p n a e s) as [? ?];
                    cbn [fst] in E; destruct E as (? & ? & ?)
                end
              | match type of H with
                | context [0 <? ?z] => destruct (0 <? z) eqn:?
                end ]).
  all: unfold modify_visitor, modify in H;
    cbn [ret length app Nat.ltb Nat.leb fst snd] in H; injection H as <- <-.
  all: unfold headcount in *; cbn [sum_list_with length app] in *;
    repeat match goal with
           | H : (0 <? _) = true |- _ => apply Z.ltb_lt in H
           | H : (0 <? _) = false |- _ => apply Z.ltb_ge in H
           end.
  all: first
    [ left; reflexivity
    | right; split; [repeat constructor; try done; lia|];
      split; [cbn [store set_store]; by rewrite get_upd_same|];
      split; [cbn [store set_store]; by rewrite get_upd_same|];
      first [ left; split; lia
            | right; split; [done|]; split; [done|]; split; [done|]; lia ]
    | exfalso; lia ].
Qed.

(** X10. When a family (two parents and its kids) is asked to split, it
    stays as it is, or it becomes two or three subgroups that are recorded on
    the family object together with their number.  The subgroups hold
    everybody, except in one case: a family with a kid under 8 and a kid of 12
    or more that splits in two becomes a parent with the kids under 8 and the
    kids of 12 or more; the other parent and the kids from 8 to 12 are in no
    subgroup. *)
Theorem split_keeps_or_loses_people (self : Visitor) (s : Simulation)
    (Hsize : group_size self = (length (kids_ages self) + 2)%nat) :
  let r := (Family.check_and_split self s).1 in
  let s' := (Family.check_and_split self s).2 in
  let under_8 := filter (fun age => Qlt_bool age 8 = true) (kids_ages self) in
  let from_8_to_12 :=
    filter (fun age => Qle_bool 8 age && Qlt_bool age 12 = true) (kids_ages self) in
  let over_12 := filter (fun age => Qle_bool 12 age = true) (kids_ages self) in
  r = [self]
  ∨ (Forall (fun g => kind g = SubGroup ∧ parent_family g = Some self
                      ∧ (1 ≤ group_size g)%nat) r
     ∧ subgroups (get (store s') self) = r
     ∧ active_subgroups_count (get (store s') self) = Z.of_nat (length r)
     ∧ ((2 ≤ length r ≤ 3 ∧ headcount r = group_size self)%nat
        ∨ (length r = 2 ∧ under_8 ≠ [] ∧ over_12 ≠ []
           ∧ headcount r + 1 + length from_8_to_12 = group_size self)%nat)).
Proof.
  apply (check_and_split_cases self s); [exact Hsize|].
  by destruct (Family.check_and_split self s).
Qed.

Lemma split_keeps_or_loses_people_witness :
  group_size family_of_five = (length (kids_ages family_of_five) + 2)%nat
  ∧ map group_size (Family.check_and_split family_of_five example_park).1 = [2; 1]%nat
  ∧ ((Family.check_and_split family_of_five example_park).1 = [family_of_five]
     ∨ (Forall (fun g => kind g = SubGroup ∧ parent_family g = Some family_of_five
                         ∧ (1 ≤ group_size g)%nat)
          (Family.check_and_split family_of_five example_park).1
        ∧ subgroups (get (store (Family.check_and_split family_of_five example_park).2)
                       family_of_five)
          = (Family.check_and_split family_of_five example_park).1
        ∧ active_subgroups_count
            (get (store (Family.check_and_split family_of_five example_park).2) family_of_five)
          = Z.of_nat (length (Family.check_and_split family_of_five example_park).1)
        ∧ ((2 ≤ length (Family.check_and_split family_of_five example_park).1 ≤ 3
            ∧ headcount (Family.check_and_split family_of_five example_park).1
              = group_size family_of_five)%nat
           ∨ (length (Family.check_and_split family_of_five example_park).1 = 2
              ∧ filter (fun age => Qlt_bool age 8 = true) (kids_ages family_of_five) ≠ []
              ∧ filter (fun age => Qle_bool 12 age = true) (kids_ages family_of_five) ≠ []
              ∧ headcount (Family.check_and_split family_of_five example_park).1 + 1
                + length (filter (fun age => Qle_bool 8 age && Qlt_bool age 12 = true)
                            (kids_ages family_of_five))
                = group_size family_of_five)%nat))).
Proof.
  split; [reflexivity|]. split; [by vm_compute|].
  exact (split_keeps_or_loses_people family_of_five example_park eq_refl).
Defined.

(** ** [Simulation.py]: the next facility of a visitor *)

Lemma min_by_elem {A} (key : A → Z) l x : min_by key l = Some x → In x l.
Proof.
  destruct l as [|y l]; [done|]. simpl. intros [= <-].
  revert y. induction l as [|z l IH]; intros y; simpl; [by left|].
  destruct (IH (if key z <? key y then z else y)) as [H|H].
  - destruct (key z <? key y); [right; by left|by left].
  - right. by right.
Qed.

Lemma min_by_Some {A} (key : A → Z) l : l ≠ [] → is_Some (min_by key l).
Proof. destruct l; [done|]. by eexists. Qed.

Lemma all_facilities_complete c : In c all_facilities.
Proof. destruct c; simpl; tauto. Qed.

Lemma unvisited_spec c visited :
  negb (existsb (FacilityClass_eqb c) visited) = true ↔ ¬ In c visited.
Proof.
  rewrite negb_true_iff. split.
  - intros H Hin. assert (existsb (FacilityClass_eqb c) visited = true); [|congruence].
    apply existsb_exists. exists c. split; [done|]. by apply FacilityClass_eqb_eq.
  - intros H. destruct (existsb _ _) eqn:E; [|done].
    apply existsb_exists in E as (c' & Hin & Heq). apply FacilityClass_eqb_eq in Heq as <-.
    by destruct H.
Qed.

(** X11. [choose_facility] returns no facility exactly when the visitor
    has visited every facility whose age limit is not above the age of the
    youngest member; a facility it returns has not been visited by the
    visitor.  It changes nothing. *)
Theorem choose_facility_unvisited (visitor : Visitor) (is_first_visit : bool) (s : Simulation) :
  let visited := visited_facilities (get (store s) visitor) in
  let age_ok c :=
    Qle_bool (of_int (age_limit (facilities s c))) (Visitor.get_min_age visitor) in
  let r := (Simulation.choose_facility visitor is_first_visit s).1 in
  (r = None ↔ ∀ c, In c visited ∨ age_ok c = false)
  ∧ (∀ c, r = Some c → ¬ In c visited)
  ∧ (Simulation.choose_facility visitor is_first_visit s).2 = s.
Proof.
  cbv zeta. unfold Simulation.choose_facility, gets. cbn [fst snd].
  set (visited := visited_facilities (get (store s) visitor)).
  set (remaining := List.filter (fun c => negb _ && Qle_bool _ _) all_facilities).
  set (family_first := if is_first_visit && _ then _ else _).
  set (teens := match kind visitor with TeenGroup => _ | _ => [] end).
  set (single := match kind visitor with SingleVisitor => _ | _ => [] end).
  set (default := List.filter (fun c => Qle_bool _ _ && negb _) all_facilities).
  set (unvisited := fun c => negb (existsb (FacilityClass_eqb c) visited)).
  set (age_ok := fun c =>
         Qle_bool (of_int (age_limit (facilities s c))) (Visitor.get_min_age visitor)).
  assert (Hdefault : default = remaining).
  { unfold default, remaining. apply filter_ext. intros c. apply andb_comm. }
  assert (Hunv : ∀ l c, In c l → Forall (fun c => unvisited c = true) l → ¬ In c visited).
  { intros l c Hin Hall. apply unvisited_spec. rewrite Forall_forall in Hall.
    apply Hall. by apply list_elem_of_In. }
  assert (Hff : Forall (fun c => unvisited c = true) family_first).
  { unfold family_first. destruct (_ && _); [|constructor].
    apply Forall_forall. intros c Hc%list_elem_of_In%filter_In. destruct Hc as [_ Hc].
    by apply andb_true_iff in Hc as [_ ?]. }
  assert (Ht : Forall (fun c => unvisited c = true) teens).
  { unfold teens. destruct (kind visitor); try constructor.
    apply Forall_forall. intros c Hc%list_elem_of_In%filter_In. destruct Hc as [_ Hc].
    by apply andb_true_iff in Hc as [_ ?]. }
  assert (Hs : Forall (fun c => unvisited c = true) single).
  { unfold single. destruct (kind visitor); try constructor.
    destruct is_first_visit;
      apply Forall_forall; intros c Hc%list_elem_of_In%filter_In; destruct Hc as [_ Hc];
      by apply andb_true_iff in Hc as [_ ?]. }
  assert (Hd : Forall (fun c => unvisited c = true) default).
  { apply Forall_forall. intros c Hc%list_elem_of_In%filter_In. destruct Hc as [_ Hc].
    by apply andb_true_iff in Hc as [_ ?]. }
  assert (Hrem : remaining = [] ↔ ∀ c, In c visited ∨ age_ok c = false).
  { split.
    - intros Hnil c. destruct (unvisited c && age_ok c) eqn:E.
      + assert (In c remaining) as Hin by (apply filter_In; split; [apply all_facilities_complete|done]).
        rewrite Hnil in Hin. destruct Hin.
      + apply andb_false_iff in E as [E|E]; [|by right]. left.
        unfold unvisited in E. apply negb_false_iff, existsb_exists in E as (c' & ? & Heq).
        by apply FacilityClass_eqb_eq in Heq as <-.
    - intros Hall. destruct remaining as [|c l] eqn:E; [done|].
      assert (In c remaining) as Hin by (rewrite E; by left).
      apply filter_In in Hin as [_ Hc]. apply andb_true_iff in Hc as [Hu Ha].
      destruct (Hall c) as [Hv|Hf]; [|unfold age_ok in Hf; cbv beta in Ha; congruence].
      by apply unvisited_spec in Hu. }
  split; [|split; [|done]].
  - etrans; [|exact Hrem]. destruct remaining as [|c0 l0] eqn:Er; [by split|]. split; [|done].
    destruct family_first as [|c1 l1]; [|done].
    destruct teens as [|c2 l2]; [|done].
    destruct single as [|c3 l3]; [|done].
    rewrite Hdefault. done.
  - intros c. destruct remaining as [|c0 l0]; [done|].
    destruct family_first as [|c1 l1] eqn:E1.
    2:{ intros H%min_by_elem. by eapply Hunv. }
    destruct teens as [|c2 l2] eqn:E2.
    2:{ intros H%min_by_elem. by eapply Hunv. }
    destruct single as [|c3 l3] eqn:E3.
    2:{ intros H%min_by_elem. by eapply Hunv. }
    intros H%min_by_elem. by eapply Hunv.
Qed.

(** X12. The age limit 4 of the Kids Pool is used as a minimum age, like
    the limits of the other facilities: in a park with the facilities as
    [Simulation.__init__] makes them, [choose_facility] sends nobody to the
    Kids Pool whose youngest member is under 4. *)
Theorem kids_pool_from_the_age_of_four (visitor : Visitor) (is_first_visit : bool)
    (s : Simulation) (Hpark : standard_parameters s)
    (Hkids : (Simulation.choose_facility visitor is_first_visit s).1 = Some Kids_Pool) :
  (4 <= Visitor.get_min_age visitor)%Q.
Proof.
  destruct (Hpark Kids_Pool) as (Hage & Hadr & Hname).
  unfold Simulation.choose_facility, gets in Hkids. cbn [fst] in Hkids.
  assert (Hfilter : ∀ p l, min_by (fun c => Facility.get_total_waiting (facilities s c))
                             (List.filter p l) = Some Kids_Pool → p Kids_Pool = true).
  { intros p l H%min_by_elem. by apply filter_In in H as [_ ?]. }
  destruct (List.filter _ all_facilities) as [|c0 l0]; [done|].
  destruct (is_first_visit && _).
  - destruct (List.filter _ all_facilities) as [|c1 l1] eqn:E1.
    2:{ rewrite <- E1 in Hkids. apply Hfilter in Hkids. by rewrite Hage in Hkids. }
    destruct (kind visitor).
    all: repeat match goal with
      | H : context [match List.filter ?p all_facilities with _ => _ end] |- _ =>
          let E := fresh "E" in
          destruct (List.filter p all_facilities) eqn:E;
          [|rewrite <- E in H; apply Hfilter in H;
            rewrite ?Hage, ?Hadr, ?Hname in H; try done]
      | H : context [if ?b then _ else _] |- _ =>
          match type of b with bool => destruct b end
      end.
    all: try (apply Hfilter in Hkids; rewrite ?Hage, ?Hadr, ?Hname in Hkids;
              apply andb_true_iff in Hkids as [Hkids _]; apply Qle_bool_iff in Hkids; exact Hkids).
  - destruct (kind visitor).
    all: repeat match goal with
      | H : context [match List.filter ?p all_facilities with _ => _ end] |- _ =>
          let E := fresh "E" in
          destruct (List.filter p all_facilities) eqn:E;
          [|rewrite <- E in H; apply Hfilter in H;
            rewrite ?Hage, ?Hadr, ?Hname in H; try done]
      | H : context [if ?b then _ else _] |- _ =>
          match type of b with bool => destruct b end
      end.
    all: try (apply Hfilter in Hkids; rewrite ?Hage, ?Hadr, ?Hname in Hkids;
              apply andb_true_iff in Hkids as [Hkids _]; apply Qle_bool_iff in Hkids; exact Hkids).
Qed.

Lemma kids_pool_from_the_age_of_four_witness :
  standard_parameters teens_after_six_rides
  ∧ (Simulation.choose_facility (group_of 1 4) false teens_after_six_rides).1 = Some Kids_Pool
  ∧ (4 <= Visitor.get_min_age (group_of 1 4))%Q.
Proof.
  assert (H1 : standard_parameters teens_after_six_rides)
    by (intros c; destruct c; repeat split; reflexivity).
  assert (H2 : (Simulation.choose_facility (group_of 1 4) false teens_after_six_rides).1
               = Some Kids_Pool) by (vm_compute; reflexivity).
  split; [exact H1|]. split; [exact H2|].
  exact (kids_pool_from_the_age_of_four (group_of 1 4) false teens_after_six_rides H1 H2).
Defined.

(** ** [Event.py]: the order of events *)

(** X13. [Event.__lt__] is a strict order on events, first by time and
    then by the address of the object: it is irreflexive, asymmetric and
    transitive, an earlier event is below a later one whatever the
    addresses, and two events neither of which is below the other have the
    same time and the same address. *)
Theorem event_order_is_strict_and_total :
  (∀ a, Event.__lt__ a a = false)
  ∧ (∀ a b, Event.__lt__ a b = true → Event.__lt__ b a = false)
  ∧ (∀ a b c, Event.__lt__ a b = true → Event.__lt__ b c = true → Event.__lt__ a c = true)
  ∧ (∀ a b, time a < time b → Event.__lt__ a b = true)
  ∧ (∀ a b, Event.__lt__ a b = false → Event.__lt__ b a = false →
            time a = time b ∧ id a = id b).
Proof.
  unfold Event.__lt__. repeat split.
  - intros a. rewrite Z.eqb_refl. apply Z.ltb_irrefl.
  - intros a b. destruct (time a =? time b) eqn:E1, (time b =? time a) eqn:E2; lia.
  - intros a b c.
    destruct (time a =? time b) eqn:E1, (time b =? time c) eqn:E2, (time a =? time c) eqn:E3; lia.
  - intros a b H. destruct (time a =? time b) eqn:E1; lia.
  - destruct (time a =? time b) eqn:E1, (time b =? time a) eqn:E2; lia.
  - destruct (time a =? time b) eqn:E1, (time b =? time a) eqn:E2; lia.
Qed.

(** ** [sampling_algorithms.py]: the samplers *)

Lemma fdiv_eq a b : (fdiv a b == a / b)%Q.
Proof. apply Qred_correct. Qed.

Lemma fsub_eq a b : (fsub a b == a - b)%Q.
Proof. apply Qred_correct. Qed.

Lemma Qlt_bool_iff a b : Qlt_bool a b = true ↔ (a < b)%Q.
Proof.
  unfold Qlt_bool. rewrite negb_true_iff. split.
  - intros H. apply Qnot_le_lt. intros Hle. apply Qle_bool_iff in Hle. congruence.
  - intros H. destruct (Qle_bool b a) eqn:E; [|done].
    apply Qle_bool_iff in E. by apply Qlt_not_le in H.
Qed.

Lemma Qle_bool_false a b : Qle_bool a b = false → (b < a)%Q.
Proof.
  intros H. apply Qnot_le_lt. intros Hle. apply Qle_bool_iff in Hle. congruence.
Qed.

Lemma Qlt_bool_false a b : Qlt_bool a b = false → (b <= a)%Q.
Proof. unfold Qlt_bool. rewrite negb_false_iff. apply Qle_bool_iff. Qed.

Ltac q_cases :=
  repeat match goal with
         | H : _ && _ = true |- _ => apply andb_true_iff in H as [? ?]
         | H : _ && _ = false |- _ => apply andb_false_iff in H as [H|H]
         | H : Qle_bool _ _ = true |- _ => apply Qle_bool_iff in H
         | H : Qle_bool _ _ = false |- _ => apply Qle_bool_false in H
         | H : Qlt_bool _ _ = true |- _ => apply Qlt_bool_iff in H
         | H : Qlt_bool _ _ = false |- _ => apply Qlt_bool_false in H
         end.

Lemma wave_pool_pdf_value x :
  (Sampling_Algorithms.wave_pool_pdf x
   == if Qle_bool 0 x && Qle_bool x 10 then x * (1 # 2700)
      else if Qlt_bool 10 x && Qlt_bool x 30 then 0
      else if Qle_bool 30 x && Qle_bool x 50 then (60 - x) * (1 # 2700) + (1 # 30)
      else if Qlt_bool 50 x && Qle_bool x 60 then (60 - x) * (1 # 2700)
      else 0)%Q.
Proof.
  unfold Sampling_Algorithms.wave_pool_pdf.
  repeat case_match; unfold fadd, fdiv, fsub; rewrite ?Qred_correct; try reflexivity;
    unfold Qdiv; change (/ 2700)%Q with (1 # 2700)%Q; change (/ 30)%Q with (1 # 30)%Q; ring.
Qed.

(** X15. The constant [M = 2/45] of the acceptance-rejection sampler of
    the wave pool bounds the density it evaluates: at every candidate the
    density lies between 0 and [M], so the ratio the draw is compared with
    lies between 0 and 1; the bound is reached at 30 minutes.  Outside
    [0, 60] and between 10 and 30 the density is 0. *)
Theorem wave_pool_density_bounded :
  (∀ x, (0 <= Sampling_Algorithms.wave_pool_pdf x <= fdiv 2 45)%Q)
  ∧ (∀ x, (0 <= fdiv (Sampling_Algorithms.wave_pool_pdf x) (fdiv 2 45) <= 1)%Q)
  ∧ (Sampling_Algorithms.wave_pool_pdf 30 == fdiv 2 45)%Q
  ∧ (∀ x, (x < 0 ∨ 60 < x ∨ (10 < x ∧ x < 30))%Q →
          (Sampling_Algorithms.wave_pool_pdf x == 0)%Q).
Proof.
  assert (Hb : ∀ x, (0 <= Sampling_Algorithms.wave_pool_pdf x <= 2 # 45)%Q).
  { intros x. rewrite wave_pool_pdf_value.
    repeat case_match; q_cases; split; Lqa.lra. }
  split; [|split; [|split]].
  - intros x. rewrite fdiv_eq. apply Hb.
  - intros x. rewrite !fdiv_eq. destruct (Hb x) as [H0 H1].
    unfold Qdiv. change (/ (2 * / 45))%Q with (45 # 2)%Q. split; Lqa.lra.
  - reflexivity.
  - intros x Hx. rewrite wave_pool_pdf_value.
    repeat case_match; q_cases; try reflexivity; exfalso; Lqa.lra.
Qed.

Lemma number_kids_range s :
  (1 ≤ (Sampling_Algorithms.get_number_kids s).1 ≤ 5)%nat.
Proof.
  unfold Sampling_Algorithms.get_number_kids. rewrite fst_bind. cbn [ret fst].
  repeat case_match; lia.
Qed.

Lemma teen_group_size_range s :
  (2 ≤ (Sampling_Algorithms.get_teen_group_size s).1 ≤ 6)%nat.
Proof.
  unfold Sampling_Algorithms.get_teen_group_size. rewrite fst_bind. cbn [ret fst].
  repeat case_match; lia.
Qed.

Lemma sample_list_length {A} n (m : St A) s : length (sample_list n m s).1 = n.
Proof.
  revert s. induction n as [|n IH]; intros s; [done|].
  cbn [sample_list]. rewrite !fst_bind. cbn [ret fst length]. by rewrite IH.
Qed.

(** X16. The three constructors make well-formed visitors: a family has
    between 1 and 5 kids, one age for each kid, and two more members than
    kids; a teen group has between 2 and 6 members of minimal age 14; a
    single visitor is a group of one.  The new object gets the next free
    identity, arrives at the given time, and starts with the rating 10, no
    visited facility and one active subgroup. *)
Theorem new_visitors_are_well_formed (t : datetime) (s : Simulation) :
  let family := (create_family t s).1 in
  let teens := (create_teen_group t s).1 in
  let single := (create_single_visitor t s).1 in
  (kind family = Family
   ∧ (1 ≤ num_kids family ≤ 5)%nat
   ∧ length (kids_ages family) = num_kids family
   ∧ group_size family = (num_kids family + 2)%nat)
  ∧ (kind teens = TeenGroup ∧ (2 ≤ group_size teens ≤ 6)%nat ∧ min_age teens = 14%Q)
  ∧ (kind single = SingleVisitor ∧ group_size single = 1%nat)
  ∧ (∀ create, create = create_family ∨ create = create_teen_group
               ∨ create = create_single_visitor →
       let v : Visitor := (create t s).1 in
       let s' : Simulation := (create t s).2 in
       vid v = next_vid s
       ∧ next_vid s' = Pos.succ (next_vid s)
       ∧ arrival_time v = t
       ∧ rating (get (store s') v) = 10%Q
       ∧ visited_facilities (get (store s') v) = []
       ∧ active_subgroups_count (get (store s') v) = 1).
Proof.
  cbv zeta. split; [|split; [|split]].
  - unfold create_family. rewrite !fst_bind. unfold Visitor.allocate. cbn [fst kind num_kids
      kids_ages group_size].
    split; [done|]. split; [apply number_kids_range|]. split; [apply sample_list_length|done].
  - unfold create_teen_group. rewrite !fst_bind. unfold Visitor.allocate.
    cbn [fst kind group_size min_age]. split; [done|]. split; [apply teen_group_size_range|done].
  - done.
  - intros create [-> | [-> | ->]].
    + unfold create_family. rewrite !fst_bind, !snd_bind. unfold Visitor.allocate.
      cbn [fst snd vid arrival_time next_vid set_store set_next_vid store].
      unfold get. cbn [vid]. rewrite lookup_insert_eq.
      assert (Hk : ∀ n x, next_vid (sample_list n Sampling_Algorithms.get_kid_age x).2
                          = next_vid x).
      { intros n. apply (keeps_sample_list next_vid). by intros x. }
      change (next_vid (Sampling_Algorithms.should_buy_express_on_entry ?x).2)
        with (next_vid x).
      change (next_vid (Sampling_Algorithms.get_family_departure_time ?x).2)
        with (next_vid x).
      rewrite Hk. by repeat split.
    + unfold create_teen_group. rewrite !fst_bind, !snd_bind. unfold Visitor.allocate.
      cbn [fst snd vid arrival_time next_vid set_store set_next_vid store].
      unfold get. cbn [vid]. rewrite lookup_insert_eq. by repeat split.
    + unfold create_single_visitor. rewrite !fst_bind, !snd_bind. unfold Visitor.allocate.
      cbn [fst snd vid arrival_time next_vid set_store set_next_vid store].
      unfold get. cbn [vid]. rewrite lookup_insert_eq. by repeat split.
Qed.

Lemma sample_uniform_value a b s :
  ((Sampling_Algorithms.sample_uniform a b s).1
   == a + (b - a) * random_stream (env s) (n_random s))%Q.
Proof.
  unfold Sampling_Algorithms.sample_uniform. rewrite fst_bind. cbn [ret fst].
  unfold Sampling_Algorithms.random at 1. cbn [fst].
  unfold fadd, fmul, fsub. by rewrite !Qred_correct.
Qed.

(** X17. With a draw of [random.random()] in [0, 1), [sample_uniform(a, b)]
    returns a value in [a, b], and uses one draw; so a kid is between 2 and
    18 years old, a single visitor between 18 and 70, a ride on the Pipes
    River takes 20 to 30 minutes, the ticket purchase half a minute to two
    minutes and a meal 15 to 35 minutes. *)
Theorem uniform_samplers_in_range (s : Simulation) (t : datetime)
    (Hu : (0 <= random_stream (env s) (n_random s) < 1)%Q) :
  (∀ a b, (a <= b)%Q →
     (a <= (Sampling_Algorithms.sample_uniform a b s).1 <= b)%Q
     ∧ n_random (Sampling_Algorithms.sample_uniform a b s).2 = S (n_random s))
  ∧ (2 <= (Sampling_Algorithms.get_kid_age s).1 <= 18)%Q
  ∧ (18 <= min_age (create_single_visitor t s).1 <= 70)%Q
  ∧ (20 <= (Sampling_Algorithms.pipes_river_duration s).1 <= 30)%Q
  ∧ ((1 # 2) <= (Sampling_Algorithms.sample_ticket_purchase_time s).1 <= 2)%Q
  ∧ (15 <= (Sampling_Algorithms.sample_meal_duration s).1 <= 35)%Q.
Proof.
  assert (H : ∀ a b, (a <= b)%Q →
     (a <= (Sampling_Algorithms.sample_uniform a b s).1 <= b)%Q
     ∧ n_random (Sampling_Algorithms.sample_uniform a b s).2 = S (n_random s)).
  { intros a b Hab. rewrite !sample_uniform_value.
    set (u := random_stream (env s) (n_random s)) in *. destruct Hu as [H0 H1].
    split; [split; Lqa.nra|done]. }
  split; [exact H|].
  assert (Hr : ∀ a b, (a <= b)%Q →
                 (a <= (Sampling_Algorithms.sample_uniform a b s).1 <= b)%Q).
  { intros a b Hab. by destruct (H a b Hab) as [? _]. }
  split; [by apply Hr|]. split; [|split; [by apply Hr|split; by apply Hr]].
  unfold create_single_visitor. rewrite !fst_bind. unfold Visitor.allocate. cbn [fst min_age].
  by apply Hr.
Qed.

Lemma uniform_samplers_in_range_witness :
  (0 <= random_stream (env example_park) (n_random example_park) < 1)%Q
  ∧ (2 <= (Sampling_Algorithms.get_kid_age example_park).1 <= 18)%Q.
Proof.
  assert (H : (0 <= random_stream (env example_park) (n_random example_park) < 1)%Q)
    by (split; by vm_compute).
  split; [exact H|].
  destruct (uniform_samplers_in_range example_park 0 H) as (_ & H2 & _). exact H2.
Defined.

(** ** [entities.py]: the rating *)

(** X18. A rating never becomes negative, and it is not held at 10 from
    above: [update_rating_negative] leaves a rating that is not negative,
    and not above the rating before when that one and the amount are not
    negative; [update_rating_positive], for a group of [GS >= 1] people at a
    facility of adrenalin level [A >= 1], leaves a rating that is not below
    the rating before, and a rating of 10 or more becomes a rating above 10
    when the group has two people or the level is 2 at least.  Both leave
    the other visitors as they are. *)
Theorem rating_non_negative_and_not_capped (v : Visitor) (s : Simulation) :
  let r := rating (get (store s) v) in
  (∀ amount,
     let s' := exec (Visitor.update_rating_negative v amount) s in
     let r' := rating (get (store s') v) in
     (0 <= r')%Q
     ∧ ((0 <= amount)%Q → (0 <= r)%Q → (r' <= r)%Q)
     ∧ (∀ w, vid w ≠ vid v → get (store s') w = get (store s) w))
  ∧ (∀ group_size adrenaline_level,
       let s' := exec (Visitor.update_rating_positive v group_size adrenaline_level) s in
       let r' := rating (get (store s') v) in
       ((1 ≤ group_size)%nat → 1 ≤ adrenaline_level → (r <= r')%Q)
       ∧ ((1 ≤ group_size)%nat → 1 ≤ adrenaline_level →
          (2 ≤ group_size)%nat ∨ 2 ≤ adrenaline_level →
          (10 <= r)%Q → (10 < r')%Q)
       ∧ (∀ w, vid w ≠ vid v → get (store s') w = get (store s) w)).
Proof.
  cbv zeta. split.
  - intros amount. unfold Visitor.update_rating_negative, modify_visitor, modify, exec.
    cbn [snd store set_store]. rewrite get_upd_same. cbn [rating set_rating].
    assert (Hother : ∀ w, vid w ≠ vid v →
              get (upd v (fun st => set_rating (fmax 0 (fsub (rating st) amount)) st) (store s)) w
              = get (store s) w).
    { intros w Hw. unfold get, upd. by rewrite lookup_insert_ne. }
    unfold fmax. destruct (Qle_bool 0 _) eqn:E.
    + apply Qle_bool_iff in E. rewrite fsub_eq in *.
      repeat split; try done; intros; Lqa.lra.
    + apply Qle_bool_false in E. rewrite fsub_eq in *.
      repeat split; try done; intros; Lqa.lra.
  - intros gs A. unfold Visitor.update_rating_positive, modify_visitor, modify, exec.
    cbn [snd store set_store]. rewrite get_upd_same. cbn [rating set_rating].
    assert (Hv : (fadd (rating (get (store s) v))
                    (Sampling_Algorithms.calculate_positive_rating gs A)
                  == rating (get (store s) v) + ((Z.of_nat gs - 1) # 1) * (3 # 50)
                     + ((A - 1) # 1) * (7 # 40))%Q).
    { unfold Sampling_Algorithms.calculate_positive_rating, fadd, fmul, fdiv, of_int.
      rewrite !Qred_correct. unfold Qdiv, inject_Z.
      change (/ 5)%Q with (1 # 5)%Q. change (/ 4)%Q with (1 # 4)%Q. ring. }
    split; [|split].
    + intros Hgs HA. rewrite Hv.
      assert (0 <= (Z.of_nat gs - 1) # 1)%Q by (unfold Qle; simpl; lia).
      assert (0 <= (A - 1) # 1)%Q by (unfold Qle; simpl; lia).
      Lqa.nra.
    + intros Hgs HA Hmore Hr. rewrite Hv.
      assert (H1 : (0 <= (Z.of_nat gs - 1) # 1)%Q) by (unfold Qle; simpl; lia).
      assert (H2 : (0 <= (A - 1) # 1)%Q) by (unfold Qle; simpl; lia).
      destruct Hmore as [Hm|Hm].
      * assert (1 <= (Z.of_nat gs - 1) # 1)%Q by (unfold Qle; simpl; lia). Lqa.nra.
      * assert (1 <= (A - 1) # 1)%Q by (unfold Qle; simpl; lia). Lqa.nra.
    + intros w Hw. unfold get, upd. by rewrite lookup_insert_ne.
Qed.

(** ** [Event.py]: the restaurants *)

(** [heappush] keeps the events that are in the heap and adds the new one. *)
Lemma insert_cons_perm {A} (l : list A) j x y :
  (j < length l)%nat → x :: <[j := y]> l ≡ₚ y :: <[j := x]> l.
Proof.
  revert j. induction l as [|z l IH]; intros j Hj; simpl in Hj; [lia|].
  destruct j as [|j]; simpl; [apply Permutation_swap|].
  etrans; [apply Permutation_swap|]. etrans; [|apply Permutation_swap].
  f_equiv. apply IH. lia.
Qed.

Lemma insert_swap_perm {A} (l : list A) i j a x :
  i ≠ j → (j < length l)%nat → l !! i = Some a →
  <[i := x]> (<[j := a]> l) ≡ₚ <[j := x]> l.
Proof.
  revert i j. induction l as [|z l IH]; intros i j Hij Hj Hi; [done|].
  destruct i as [|i], j as [|j]; simpl in *; try done.
  - injection Hi as ->. apply insert_cons_perm. lia.
  - rewrite insert_take_drop by (by eapply lookup_lt_Some).
    rewrite <- Permutation_middle. etrans; [apply Permutation_swap|]. f_equiv.
    rewrite <- delete_take_drop. symmetry. by apply delete_Permutation.
  - f_equiv. apply IH; [congruence|lia|done].
Qed.

Lemma siftdown_perm fuel heap startpos pos newitem :
  (pos < length heap)%nat →
  heapq._siftdown fuel heap startpos pos newitem ≡ₚ <[pos := newitem]> heap.
Proof.
  revert heap pos. induction fuel as [|fuel IH]; intros heap pos Hpos; [done|].
  cbn [heapq._siftdown]. destruct (startpos <? pos)%nat eqn:Hs; [|done].
  apply Nat.ltb_lt in Hs.
  destruct (heap !! ((pos - 1) `div` 2)%nat) as [parent|] eqn:Hp; [|done].
  destruct (Event.__lt__ newitem parent); [|done].
  assert (Hlt : ((pos - 1) `div` 2 < pos)%nat).
  { apply Nat.Div0.div_lt_upper_bound. lia. }
  rewrite IH by (rewrite length_insert; lia).
  apply insert_swap_perm; [lia|lia|done].
Qed.

Lemma heappush_perm heap item : heapq.heappush heap item ≡ₚ item :: heap.
Proof.
  unfold heapq.heappush. cbv zeta. rewrite siftdown_perm by (rewrite length_app; simpl; lia).
  rewrite list_insert_id.
  - by rewrite <- Permutation_cons_append.
  - rewrite length_app. simpl. replace (length heap + 1 - 1)%nat with (length heap + 0)%nat by lia.
    by rewrite lookup_app_r, Nat.add_0_r, Nat.sub_diag by lia.
Qed.

Lemma event_queue_schedule t c s :
  event_queue (exec (Simulation.schedule t c) s)
  = heapq.heappush (event_queue s)
      {| time := t; id := address (env s) (n_events s); event_class := c |}.
Proof. reflexivity. Qed.

Lemma adds_events_schedule t c s : adds_events [c] s (exec (Simulation.schedule t c) s).
Proof.
  exists [{| time := t; id := address (env s) (n_events s); event_class := c |}].
  split; [|done]. by rewrite event_queue_schedule, heappush_perm.
Qed.

Lemma adds_events_nil s s' : event_queue s' = event_queue s → adds_events [] s s'.
Proof. intros H. exists []. by rewrite H. Qed.

Lemma adds_events_trans cs1 cs2 s s1 s2 :
  adds_events cs1 s s1 → adds_events cs2 s1 s2 → adds_events (cs2 ++ cs1) s s2.
Proof.
  intros (es1 & H1 & <-) (es2 & H2 & <-). exists (es2 ++ es1).
  split; [|by rewrite map_app]. by rewrite H2, H1, app_assoc.
Qed.

Lemma restaurants_modify_restaurant r g s :
  restaurants (exec (modify_restaurant r g) s) r = g (restaurants s r).
Proof. by destruct r. Qed.

Lemma get_total_time_state r s :
  (Handlers.get_total_time r s).2 = set_n_random (3 + n_random s) s.
Proof.
  destruct r;
    unfold Handlers.get_total_time, Handlers.get_preparation_time, returned,
      Sampling_Algorithms.sample_restaurant_service_time, Sampling_Algorithms.sample_normal,
      Sampling_Algorithms.sample_uniform, Sampling_Algorithms.random, bind, ret, gets;
    cbn [env n_random set_n_random fst snd];
    (destruct (Qlt_bool 0 _); [cbv zeta; destruct (Qle_bool 0 _)|]); reflexivity.
Qed.

Lemma arrive_at_restaurant_effect t v r s :
  let s1 := exec (Handlers.ArriveAtRestaurantEvent_handle t v r) s in
  queue (restaurants s1 r) = QueueServer.add v t (queue (restaurants s r))
  ∧ rcls (restaurants s1 r) = rcls (restaurants s r)
  ∧ total_revenue s1 = total_revenue s
  ∧ adds_events
      match Restaurant.get_available_station (restaurants s r) with
      | Some k => [EndRestaurantServiceEvent v r k]
      | None => []
      end s s1.
Proof.
  cbv zeta. unfold Handlers.ArriveAtRestaurantEvent_handle.
  rewrite !exec_bind. cbn [gets fst snd].
  set (s0 := snd (modify_restaurant r (Restaurant.enter_queue v t)
                    (snd (Handlers.set_clock_to t s)))).
  assert (Hr : restaurants s0 r = Restaurant.enter_queue v t (restaurants s r)).
  { unfold s0. change (snd (modify_restaurant ?r ?g ?s)) with (exec (modify_restaurant r g) s).
    by rewrite restaurants_modify_restaurant. }
  assert (Hrev : total_revenue s0 = total_revenue s) by reflexivity.
  assert (Hst : Restaurant.get_available_station (restaurants s0 r)
                = Restaurant.get_available_station (restaurants s r)) by (by rewrite Hr).
  rewrite Hst.
  destruct (Restaurant.get_available_station (restaurants s r)) as [k|].
  - rewrite !exec_bind, get_total_time_state.
    set (s2 := set_n_random _ _).
    assert (Hr2 : restaurants s2 r = Restaurant.set_station k true (restaurants s0 r)).
    { unfold s2. change (snd (modify_restaurant ?r ?g ?s)) with (exec (modify_restaurant r g) s).
      apply restaurants_modify_restaurant. }
    split; [|split; [|split]].
    + change (restaurants (exec (Simulation.schedule ?t ?c) ?x)) with (restaurants x).
      by rewrite Hr2, Hr.
    + change (restaurants (exec (Simulation.schedule ?t ?c) ?x)) with (restaurants x).
      by rewrite Hr2, Hr.
    + done.
    + apply (adds_events_trans [] [EndRestaurantServiceEvent v r k] s s2);
        [by apply adds_events_nil|].
      apply adds_events_schedule.
  - change (exec (ret tt) s0) with s0.
    split; [by rewrite Hr|]. split; [by rewrite Hr|]. split; [done|]. by apply adds_events_nil.
Qed.

Lemma exec_bind_update_restaurant {A B} r (g : Restaurant → A * Restaurant) (k : A → St B) s :
  exec (bind (update_restaurant r g) k) s
  = exec (k (fst (g (restaurants s r))))
      (exec (modify_restaurant r (fun _ => snd (g (restaurants s r)))) s).
Proof. unfold exec, bind, update_restaurant. by destruct (g _). Qed.

Lemma restaurant_pop_cons t R w a rest :
  server_queue (queue R) = (w, a) :: rest →
  fst (Restaurant.pop t R) = Some w
  ∧ server_queue (queue (snd (Restaurant.pop t R))) = rest
  ∧ rcls (snd (Restaurant.pop t R)) = rcls R.
Proof.
  intros H. unfold Restaurant.pop, QueueServer.pop. rewrite H. done.
Qed.

Lemma end_restaurant_service_effect t v r k s :
  let s2 := exec (Handlers.EndRestaurantServiceEvent_handle t v r k) s in
  total_revenue s2 = total_revenue s + Restaurant.get_price v (restaurants s r)
  ∧ server_queue (queue (restaurants s2 r)) = tail (server_queue (queue (restaurants s r)))
  ∧ rcls (restaurants s2 r) = rcls (restaurants s r)
  ∧ service_stations (restaurants s2 r) = service_stations (restaurants s r)
  ∧ adds_events
      match server_queue (queue (restaurants s r)) with
      | (w, _) :: _ => [EndRestaurantServiceEvent w r k; EndMealEvent v]
      | [] => [EndMealEvent v]
      end s s2.
Proof.
  cbv zeta. unfold Handlers.EndRestaurantServiceEvent_handle.
  rewrite exec_bind. set (s0 := snd (Handlers.set_clock_to t s)).
  rewrite exec_bind. set (s1 := snd (modify_restaurant r (Restaurant.set_station k false) s0)).
  rewrite exec_bind. cbn [gets fst snd].
  rewrite exec_bind. set (s2 := snd (modify _ s1)).
  rewrite exec_bind.
  set (bad := fst (Sampling_Algorithms.is_meal_unsatisfactory s2)).
  set (s3 := snd (Sampling_Algorithms.is_meal_unsatisfactory s2)).
  rewrite exec_bind. set (s4 := snd (when bad _ s3)).
  rewrite exec_bind.
  set (d := fst (Sampling_Algorithms.sample_meal_duration s4)).
  set (s5 := snd (Sampling_Algorithms.sample_meal_duration s4)).
  rewrite exec_bind. set (s6 := snd (Simulation.schedule _ (EndMealEvent v) s5)).
  rewrite exec_bind. cbn [gets fst snd].
  assert (Hr1 : restaurants s1 r = Restaurant.set_station k false (restaurants s r)).
  { unfold s1. change (snd (modify_restaurant ?r ?g ?s)) with (exec (modify_restaurant r g) s).
    by rewrite restaurants_modify_restaurant. }
  assert (Hr4 : restaurants s4 = restaurants s1) by (unfold s4; by destruct bad).
  assert (Hr6 : restaurants s6 = restaurants s1) by (rewrite <- Hr4; reflexivity).
  assert (Hv4 : total_revenue s4 = total_revenue s2) by (unfold s4; by destruct bad).
  assert (Hv6 : total_revenue s6
                = total_revenue s + Restaurant.get_price v (restaurants s r)).
  { change (total_revenue s6) with (total_revenue s4). rewrite Hv4. unfold s2.
    cbn [modify snd total_revenue set_total_revenue]. by rewrite Hr1. }
  assert (Hmeal : adds_events [EndMealEvent v] s s6).
  { apply (adds_events_trans [] [EndMealEvent v] s s5); [|apply adds_events_schedule].
    apply adds_events_nil. change (event_queue s5) with (event_queue s4).
    unfold s4. by destruct bad. }
  rewrite Hr6, Hr1. unfold QueueServer.size. cbn [queue Restaurant.set_station].
  destruct (server_queue (queue (restaurants s r))) as [|[w a] rest] eqn:Hq.
  { cbn [length]. change (0 <? Z.of_nat 0) with false. cbv iota.
    change (exec (ret tt) s6) with s6. rewrite Hr6, Hr1. cbn [queue rcls service_stations Restaurant.set_station]. by rewrite Hq. }
  cbn [length].
  assert ((0 <? Z.of_nat (S (length rest))) = true) as -> by (apply Z.ltb_lt; lia).
  rewrite exec_bind_update_restaurant.
  assert (Hq6 : server_queue (queue (restaurants s6 r)) = (w, a) :: rest)
    by (by rewrite Hr6, Hr1).
  destruct (restaurant_pop_cons t (restaurants s6 r) w a rest Hq6) as (Hw & Hrest & Hcls).
  rewrite Hw. rewrite !exec_bind, get_total_time_state.
  set (s7 := exec (modify_restaurant r (fun _ => snd (Restaurant.pop t (restaurants s6 r)))) s6).
  set (s8 := set_n_random _ _).
  assert (Hr8 : restaurants s8 r
                = Restaurant.set_station k true (snd (Restaurant.pop t (restaurants s6 r)))).
  { unfold s8. change (restaurants (set_n_random ?n ?x)) with (restaurants x).
    change (snd (modify_restaurant ?r ?g ?s)) with (exec (modify_restaurant r g) s).
    rewrite restaurants_modify_restaurant. unfold s7.
    by rewrite restaurants_modify_restaurant. }
  change (restaurants (exec (Simulation.schedule ?t ?c) ?x)) with (restaurants x).
  change (total_revenue (exec (Simulation.schedule ?t ?c) ?x)) with (total_revenue x).
  rewrite Hr8. cbn [queue rcls service_stations Restaurant.set_station].
  split; [exact Hv6|]. split; [exact Hrest|]. split; [by rewrite Hcls, Hr6, Hr1|].
  split.
  { assert (Hss : ∀ R, service_stations (snd (Restaurant.pop t R)) = service_stations R)
      by (intros R; unfold Restaurant.pop; by destruct (QueueServer.pop _ _)).
    by rewrite Hss, Hr6, Hr1. }
  apply (adds_events_trans [EndMealEvent v] [EndRestaurantServiceEvent w r k] s s8).
  - apply (adds_events_trans [EndMealEvent v] [] s s6); [exact Hmeal|].
    by apply adds_events_nil.
  - apply adds_events_schedule.
Qed.

(** X14. A visitor who comes to a restaurant with an empty queue and a free
    station is served at once, but stays in the queue.  When the service
    ends, the visitor is charged and starts the meal, and since the queue is
    not empty its head, the same visitor, is taken and served again: a second
    end of service is put on the event queue, and when it is handled the
    visitor is charged a second time and starts a second meal. *)
Theorem restaurant_serves_first_visitor_twice (t t' t'' : datetime) (v : Visitor)
    (r : RestaurantClass) (k : nat) (s : Simulation)
    (Hempty : server_queue (queue (restaurants s r)) = [])
    (Hfree : Restaurant.get_available_station (restaurants s r) = Some k) :
  let price := Restaurant.get_price v (restaurants s r) in
  let s1 := exec (Handlers.ArriveAtRestaurantEvent_handle t v r) s in
  let s2 := exec (Handlers.EndRestaurantServiceEvent_handle t' v r k) s1 in
  let s3 := exec (Handlers.EndRestaurantServiceEvent_handle t'' v r k) s2 in
  adds_events [EndRestaurantServiceEvent v r k] s s1
  ∧ QueueServer.visitors (queue (restaurants s1 r)) = [v]
  ∧ adds_events [EndRestaurantServiceEvent v r k; EndMealEvent v] s1 s2
  ∧ server_queue (queue (restaurants s2 r)) = []
  ∧ adds_events [EndMealEvent v] s2 s3
  ∧ total_revenue s3 = total_revenue s + 2 * price.
Proof.
  cbv zeta.
  destruct (arrive_at_restaurant_effect t v r s) as (Hq1 & Hc1 & Hv1 & He1).
  cbv zeta in *. rewrite Hfree in He1.
  set (s1 := exec (Handlers.ArriveAtRestaurantEvent_handle t v r) s) in *.
  assert (Hs1 : server_queue (queue (restaurants s1 r)) = [(v, t)]).
  { rewrite Hq1. unfold QueueServer.add. cbn. by rewrite Hempty. }
  destruct (end_restaurant_service_effect t' v r k s1) as (Hv2 & Hq2 & Hc2 & _ & He2).
  cbv zeta in *. rewrite Hs1 in He2, Hq2.
  set (s2 := exec (Handlers.EndRestaurantServiceEvent_handle t' v r k) s1) in *.
  destruct (end_restaurant_service_effect t'' v r k s2) as (Hv3 & _ & _ & _ & He3).
  cbv zeta in *. rewrite Hq2 in He3. cbn [tail] in *.
  split; [exact He1|]. split; [unfold QueueServer.visitors; by rewrite Hs1|].
  split; [exact He2|]. split; [exact Hq2|]. split; [exact He3|].
  rewrite Hv3, Hv2, Hv1. unfold Restaurant.get_price. rewrite Hc2, Hc1. lia.
Qed.

Lemma restaurant_serves_first_visitor_twice_witness :
  server_queue (queue (restaurants example_park Pizza_Restaurant)) = []
  ∧ Restaurant.get_available_station (restaurants example_park Pizza_Restaurant) = Some 0%nat
  ∧ total_revenue
      (exec (Handlers.EndRestaurantServiceEvent_handle (mk_datetime 0 13 30 0) (group_of 1 2)
               Pizza_Restaurant 0)
         (exec (Handlers.EndRestaurantServiceEvent_handle (mk_datetime 0 13 20 0) (group_of 1 2)
                  Pizza_Restaurant 0)
            (exec (Handlers.ArriveAtRestaurantEvent_handle (mk_datetime 0 13 10 0)
                     (group_of 1 2) Pizza_Restaurant) example_park)))
    = total_revenue example_park + 2 * 100.
Proof.
  split; [reflexivity|]. split; [reflexivity|].
  destruct (restaurant_serves_first_visitor_twice
              (mk_datetime 0 13 10 0) (mk_datetime 0 13 20 0) (mk_datetime 0 13 30 0)
              (group_of 1 2) Pizza_Restaurant 0 example_park eq_refl eq_refl)
    as (_ & _ & _ & _ & _ & H).
  exact H.
Defined.

(** ** [Event.py]: the abandonment timer *)

Lemma services_added_refl s : services_added s s.
Proof. by exists []. Qed.

Lemma services_same_queue {A} s0 (m : St A) :
  (∀ s, event_queue (snd (m s)) = event_queue s) → preserves (services_added s0) m.
Proof. intros H s (es & Hes & Hall). exists es. by rewrite H. Qed.

Lemma services_schedule_end s0 c t d v i :
  preserves (services_added s0) (Simulation.schedule_end c t d v i).
Proof.
  intros s (es & Hes & Hall). unfold Simulation.schedule_end.
  change (snd (Simulation.schedule ?t ?c ?s)) with (exec (Simulation.schedule t c) s).
  exists ({| time := t + timedelta_minutes d; id := address (env s) (n_events s);
             event_class := EndFacilityEvent v c i |} :: es).
  rewrite event_queue_schedule, heappush_perm, Hes.
  split; [done|]. by constructor.
Qed.

Lemma event_queue_sample_normal mu sigma s :
  event_queue (snd (returned (Sampling_Algorithms.sample_normal mu sigma) s)) = event_queue s.
Proof.
  unfold returned, Sampling_Algorithms.sample_normal, Sampling_Algorithms.sample_uniform,
    Sampling_Algorithms.random, bind, ret, gets.
  cbn [env n_random set_n_random fst snd].
  destruct (Qlt_bool 0 _); [cbv zeta; destruct (Qle_bool 0 _)|]; reflexivity.
Qed.

Lemma event_queue_get_service_duration c s :
  event_queue (snd (Simulation.get_service_duration c s)) = event_queue s.
Proof.
  destruct c; try reflexivity; try apply event_queue_sample_normal.
  unfold Simulation.get_service_duration, Sampling_Algorithms.get_wave_pool_duration.
  rewrite snd_bind. cbn [gets fst snd].
  generalize (S (rejection_fuel (env s))) 0%Q. intros fuel. revert s.
  induction fuel as [|fuel IH]; intros s last; [done|].
  cbn [Sampling_Algorithms.wave_pool_loop]. rewrite !snd_bind.
  destruct (Qle_bool _ _); [done|]. by rewrite IH.
Qed.

Lemma event_queue_update_facility {A} c (g : Facility → A * Facility) s :
  event_queue (snd (update_facility c g s)) = event_queue s.
Proof. unfold update_facility. by destruct (g (facilities s c)). Qed.

Ltac services_step :=
  lazymatch goal with
  | |- preserves _ (ret _) => apply preserves_ret
  | |- preserves _ (gets _) => apply preserves_gets
  | |- preserves _ (bind _ _) => apply preserves_bind; [|intros ?]
  | |- preserves _ (for_each _ _) => apply preserves_for_each; intros ?
  | |- preserves _ (while _ _) => apply preserves_while
  | |- preserves _ (Simulation.schedule_end _ _ _ _ _) => apply services_schedule_end
  | |- preserves _ (Simulation.get_service_duration _) =>
      apply services_same_queue, event_queue_get_service_duration
  | |- preserves _ (update_facility _ _) =>
      apply services_same_queue, event_queue_update_facility
  | |- preserves _ (TryStart.process_entry _ _) =>
      apply services_same_queue; intros ?; unfold TryStart.process_entry;
      by destruct (Pipes_River.process_entry _ _ _) as [[? ?] ?]
  | |- preserves _ (if ?b then _ else _) => destruct b
  | |- preserves _ (match ?x with _ => _ end) => destruct x
  | |- preserves _ _ => apply services_same_queue; intros ?; reflexivity
  end.

Lemma try_start_adds_services s0 c t :
  preserves (services_added s0) (try_start_facility c t).
Proof.
  destruct c; unfold try_start_facility, TryStart.pipes_river, TryStart.single_slide,
    TryStart.single_slide_pass, TryStart.pipes_slide, TryStart.pool, TryStart.pool_pass,
    TryStart.pool_scan, TryStart.snorkel_tour, Simulation.append_in_service;
    repeat services_step.
Qed.

Lemma rating_ignores_bookkeeping v : ignores_bookkeeping (fun s => rating (get (store s) v)).
Proof. by split. Qed.

Ltac rating_side :=
  first [ intros ?; cbn [store set_store]; rewrite get_upd; by case_decide
        | intros ?; reflexivity ].

(** X21. A visitor without an express pass who joins the queue of a
    facility gets one abandonment timer, 15 minutes (families and subgroups),
    20 minutes (teen groups) or 30 minutes (single visitors) later, also when
    the service starts at once; a visitor with an express pass gets none.
    Apart from the timer the arrival puts only ends of service on the event
    queue.  When the timer fires and the visitor is in neither queue of the
    facility, nothing happens; else the visitor is taken out of the queue
    (the regular one if the visitor is there) and the rating drops by 0.8,
    but not below 0. *)
Theorem abandonment_timer (t t' : datetime) (v : Visitor) (c : FacilityClass) (s : Simulation) :
  let express := has_express_pass (get (store s) v) in
  let in_regular := is_in v (QueueServer.visitors (queue_regular (facilities s c))) in
  let in_express := is_in v (QueueServer.visitors (queue_express (facilities s c))) in
  let s1 := exec (Handlers.ArriveAtFacilityEvent_handle t v c) s in
  let s2 := exec (Handlers.AbandonmentEvent_handle t' v c) s in
  (∃ timer services,
     event_queue s1 ≡ₚ services ++ timer ++ event_queue s
     ∧ Forall is_end_of_service services
     ∧ map (fun e => (event_class e, time e)) timer
       = if express then []
         else [(AbandonmentEvent v c, t + minutes (Visitor.get_abandonment_threshold v))])
  ∧ (in_regular = false → in_express = false → s2 = set_clock t' s)
  ∧ (in_regular || in_express = true →
     facilities s2 c = Facility.remove (negb in_regular) v t' (facilities s c)
     ∧ rating (get (store s2) v) = fmax 0 (fsub (rating (get (store s) v)) (8 # 10))).
Proof.
  cbv zeta. split; [|split].
  - unfold Handlers.ArriveAtFacilityEvent_handle.
    rewrite !exec_bind. cbn [visitor_state gets fst snd].
    change (store (Handlers.set_clock_to t s).2) with (store s).
    set (sa := snd (modify_visitor v _ _)).
    set (sb := snd (when _ _ sa)).
    destruct (try_start_adds_services sb c t sb (services_added_refl sb)) as (es & Hes & Hall).
    change (exec (try_start_facility c t) sb) with (snd (try_start_facility c t sb)).
    assert (Hsa : event_queue sa = event_queue s) by reflexivity.
    destruct (has_express_pass (get (store s) v)) eqn:Hx.
    + exists [], es. split; [|done]. rewrite Hes. by rewrite <- Hsa.
    + exists [{| time := t + minutes (Visitor.get_abandonment_threshold v);
                 id := address (env sa) (n_events sa);
                 event_class := AbandonmentEvent v c |}], es.
      split; [|done]. rewrite Hes. unfold sb. cbn [negb when].
      change (snd (Simulation.schedule ?t ?c ?s)) with (exec (Simulation.schedule t c) s).
      by rewrite event_queue_schedule, heappush_perm, Hsa.
  - intros Hr He. unfold Handlers.AbandonmentEvent_handle.
    rewrite !exec_bind. cbn [gets fst snd].
    change (facilities (Handlers.set_clock_to t' s).2) with (facilities s).
    by rewrite Hr, He.
  - intros Hin. unfold Handlers.AbandonmentEvent_handle.
    rewrite !exec_bind. cbn [gets fst snd].
    change (facilities (Handlers.set_clock_to t' s).2) with (facilities s).
    assert (negb (is_in v (QueueServer.visitors (queue_regular (facilities s c))))
            && negb (is_in v (QueueServer.visitors (queue_express (facilities s c)))) = false)
      as -> by (rewrite <- negb_orb; by rewrite Hin).
    rewrite !exec_bind.
    set (sa := snd (modify_facility c _ _)).
    set (sb := snd (Visitor.update_rating_negative v (8 # 10) sa)).
    set (rest := match kind v with TeenGroup => _ | _ => _ end).
    assert (Hf : keeps facilities rest).
    { unfold rest, Handlers.move_on_after_abandonment, Handlers.leave_after_abandonment.
      repeat first [ apply frame_handle_abandonment | frame ]. }
    assert (Hr : keeps (fun s => rating (get (store s) v)) rest).
    { unfold rest, Handlers.move_on_after_abandonment, Handlers.leave_after_abandonment,
        TeenGroup.handle_abandonment.
      unfold_draws.
      repeat keeps_step (rating_ignores_bookkeeping v) rating_side. }
    split.
    + rewrite (keeps_exec facilities) by exact Hf.
      change (facilities sb) with (facilities sa). unfold sa.
      change (snd (modify_facility ?c ?g ?s)) with (exec (modify_facility c g) s).
      rewrite facilities_modify_facility. by destruct c.
    + rewrite (keeps_exec (fun s => rating (get (store s) v)) rest sb Hr).
      unfold sb, Visitor.update_rating_negative, modify_visitor, modify.
      cbn [snd store set_store]. by rewrite get_upd_same.
Qed.

(** ** [Event.py]: the end of the day *)

(** X22. [EndOfDayEvent.handle] closes the statistics of every queue: of
    the reception, of the regular and the express queue of the seven
    facilities and of the three restaurants.  Closing a queue takes nobody out
    of it and ends nobody's stay; it appends one daily average to each of the
    two lists and starts the next day with no waiting time, the area 0, the
    single length sample 0 and no change time.  For a queue that nobody
    joined or left during the day the average length is its length times the
    hours since 09:00, over the active hours.  The handler then puts the
    three arrivals of the next day (families and single visitors at 09:00,
    teen groups at 10:00) and the next end of the day on the event queue. *)
Theorem end_of_day_closes_statistics (t : datetime) (h m : Z) (s : Simulation) :
  let s' := exec (Handlers.EndOfDayEvent_handle t h m) s in
  let close := Handlers.close_day (replace_hm t 9 0) t in
  let next_start := replace_hm (t + usec_per_day) 9 0 in
  queue_reception s' = close (queue_reception s)
  ∧ (∀ c, queue_regular (facilities s' c) = close (queue_regular (facilities s c))
          ∧ queue_express (facilities s' c) = close (queue_express (facilities s c))
          ∧ users_in_service (facilities s' c) = users_in_service (facilities s c))
  ∧ (∀ r, queue (restaurants s' r) = close (queue (restaurants s r)))
  ∧ (∀ q, server_queue (close q) = server_queue q
          ∧ waiting_times (close q) = []
          ∧ total_queue_length_time (close q) = 0%Q
          ∧ queue_lengths (close q) = [0]
          ∧ queue_change_times (close q) = []
          ∧ length (daily_avg_queue_lengths (close q)) = S (length (daily_avg_queue_lengths q))
          ∧ length (daily_avg_waiting_times (close q)) = S (length (daily_avg_waiting_times q))
          ∧ (queue_change_times q = [] → (0 < active_hours q)%Q →
             ∃ avg, last (daily_avg_queue_lengths (close q)) = Some avg
                    ∧ (avg == total_queue_length_time q / active_hours q
                              + inject_Z (QueueServer.size q)
                                * hours_between t (replace_hm t 9 0) / active_hours q)%Q))
  ∧ ∃ es, event_queue s' ≡ₚ es ++ event_queue s
          ∧ map (fun e => (event_class e, time e)) es
            = [(EndOfDayEvent h m, replace_hm (t + usec_per_day) h m);
               (TeensGroupArrivalEvent, next_start + minutes 60);
               (SingleGroupArrivalEvent, next_start);
               (FamilyArrivalEvent, next_start)].
Proof.
  cbv zeta. split; [reflexivity|]. split; [by intros []|]. split; [by intros []|]. split.
  - intros q. unfold Handlers.close_day.
    repeat split; try (destruct (queue_change_times q); reflexivity);
      try (destruct (queue_change_times q); cbn; rewrite length_app; simpl; lia).
    intros Hnil Hact. rewrite Hnil.
    set (q1 := {| server_queue := server_queue q; active_hours := active_hours q;
                  waiting_times := waiting_times q;
                  total_queue_length_time := total_queue_length_time q;
                  queue_lengths := [QueueServer.size q];
                  queue_change_times := [replace_hm t 9 0];
                  daily_avg_queue_lengths := daily_avg_queue_lengths q;
                  daily_avg_waiting_times := daily_avg_waiting_times q |}).
    unfold QueueServer.calc_daily_statistics. cbn [daily_avg_queue_lengths].
    rewrite last_snoc. eexists. split; [reflexivity|].
    cbn [active_hours QueueServer.record_queue_length total_queue_length_time q1 queue_lengths
         queue_change_times last].
    pose proof Hact as Hpos. apply Qlt_bool_iff in Hact. rewrite Hact.
    unfold fdiv, fadd, fmul, of_int. rewrite !Qred_correct.
    field. intros H0. rewrite H0 in Hpos. by apply Qlt_irrefl in Hpos.
  - unfold Handlers.EndOfDayEvent_handle. rewrite !exec_bind.
    set (s0 := snd (for_each all_restaurants _ _)).
    assert (H0 : event_queue s0 = event_queue s) by reflexivity.
    assert (Hsched : ∀ t c x, event_queue (snd (Simulation.schedule t c x))
              = heapq.heappush (event_queue x)
                  {| time := t; id := address (env x) (n_events x); event_class := c |})
      by reflexivity.
    eexists [_; _; _; _]. split.
    + unfold exec. rewrite !Hsched, !heappush_perm. rewrite H0. cbn [app]. reflexivity.
    + reflexivity.
Qed.
